(** * SciFiReaders: a shallow embedding of the microscopy decoders

    The development follows the three reader modules of the repository:

    - [mrc_reader.py]   (class [MRCReader]),
    - [igor_ibw.py]     (classes [IgorIBWReader], [IgorMatrixReader]),
    - [wsxm.py]         (classes [WSxM2DReader], [WSxM1DReader],
                         [WSxM3DReader] and the helper class [WSxMFuncs]).

    Python values are modelled as follows.  Integers are [Z] (or [nat] where
    the code only ever holds a count), floats are rationals [Q]: [float(s)]
    gives the IEEE binary64 number nearest to the literal ([PyNum.binary64]:
    ties to the even significand, zero on underflow, an infinity on overflow),
    the arithmetic on floats is the exact one of [Q] (the rounding of the
    results of [+], [-], [*] and [/] is not part of the model), and a run
    that would compute with an infinity or a NaN ends in the outcome
    [OutsideModel]; [str] and [bytes]
    are [string] (the code only decodes with latin-1, which is the identity
    on characters 0..255), a [dict] is an association list in insertion
    order, exceptions are the constructors of [exn].  Mutable dictionaries
    that the 1-D WSxM reader shares between several owners live in an
    explicit store. *)

From Stdlib Require Import ZArith QArith Qround Qabs String Ascii List Lia Bool Arith.
From Stdlib Require Import Permutation.
From stdpp Require Import base tactics option list strings pretty.
Import ListNotations.

Local Open Scope string_scope.
Local Open Scope list_scope.
Local Open Scope nat_scope.

(** ** Outcomes of Python code *)

Inductive exn : Type :=
| KeyError (key : string)
| IndexError
| ValueError
| TypeError
| UnboundLocalError (name : string)
| ZeroDivisionError
| AttributeError
| StructError
| OSError
| OutsideModel (why : string).

Inductive res (A : Type) : Type :=
| Ok (a : A)
| Raise (e : exn).
Arguments Ok {A} a.
Arguments Raise {A} e.

Definition rbind {A B} (m : res A) (k : A -> res B) : res B :=
  match m with
  | Ok a => k a
  | Raise e => Raise e
  end.

Declare Scope res_scope.
Delimit Scope res_scope with res.
Notation "x <- m ;; k" := (rbind m (fun x => k))
  (at level 100, m at next level, right associativity) : res_scope.

Definition is_ok {A} (r : res A) : bool :=
  match r with Ok _ => true | Raise _ => false end.

Definition or_raise {A} (e : exn) (o : option A) : res A :=
  match o with Some a => Ok a | None => Raise e end.

(** [for x in l: acc = f acc x], stopping at the first exception. *)
Fixpoint rfold {A B} (f : A -> B -> res A) (l : list B) (a : A) : res A :=
  match l with
  | [] => Ok a
  | b :: l' => rbind (f a b) (rfold f l')
  end.

Fixpoint rmap {A B} (f : A -> res B) (l : list A) : res (list B) :=
  match l with
  | [] => Ok []
  | a :: l' => rbind (f a) (fun b => rbind (rmap f l') (fun bs => Ok (b :: bs)))
  end.

(** ** Python strings *)

Module PyStr.

Definition ch (n : nat) : ascii := ascii_of_nat n.
Definition LF : ascii := ch 10.
Definition CR : ascii := ch 13.

Definition eqc (a b : ascii) : bool := Ascii.eqb a b.

(** [c.isspace()] for a character of the latin-1 range. *)
Definition is_space (c : ascii) : bool :=
  let n := nat_of_ascii c in
  ((9 <=? n) && (n <=? 13)) || ((28 <=? n) && (n <=? 32))
  || (n =? 133) || (n =? 160).

Definition is_digit (c : ascii) : bool :=
  let n := nat_of_ascii c in (48 <=? n) && (n <=? 57).

Definition digit_val (c : ascii) : nat := nat_of_ascii c - 48.

(** [s.split(sep)] for a separator of one character. *)
Fixpoint split (sep : ascii) (s : string) : list string :=
  match s with
  | EmptyString => [EmptyString]
  | String c s' =>
      if eqc c sep then EmptyString :: split sep s'
      else match split sep s' with
           | h :: t => String c h :: t
           | [] => [String c EmptyString]
           end
  end.

(** [data.splitlines()] on bytes: breaks at LF, CR and CR LF, and yields no
    empty last line. *)
Fixpoint splitlines (s : string) : list string :=
  match s with
  | EmptyString => []
  | String c s' =>
      if eqc c LF then EmptyString :: splitlines s'
      else if eqc c CR then
        match s' with
        | String c' s'' =>
            if eqc c' LF then EmptyString :: splitlines s''
            else EmptyString :: splitlines s'
        | EmptyString => [EmptyString]
        end
      else match splitlines s' with
           | h :: t => String c h :: t
           | [] => [String c EmptyString]
           end
  end.

Fixpoint lstrip_by (p : ascii -> bool) (s : string) : string :=
  match s with
  | EmptyString => EmptyString
  | String c s' => if p c then lstrip_by p s' else s
  end.

Fixpoint rstrip_by (p : ascii -> bool) (s : string) : string :=
  match s with
  | EmptyString => EmptyString
  | String c s' =>
      match rstrip_by p s' with
      | EmptyString => if p c then EmptyString else String c EmptyString
      | r => String c r
      end
  end.

(** [s.strip()] *)
Definition strip (s : string) : string := rstrip_by is_space (lstrip_by is_space s).

(** [s.rstrip('\r')] *)
Definition rstrip_cr (s : string) : string := rstrip_by (eqc CR) s.

Fixpoint startswith (p s : string) : bool :=
  match p, s with
  | EmptyString, _ => true
  | String a p', String b s' => eqc a b && startswith p' s'
  | String _ _, EmptyString => false
  end.

Definition lower_char (c : ascii) : ascii :=
  let n := nat_of_ascii c in
  if (65 <=? n) && (n <=? 90) then ascii_of_nat (n + 32) else c.

Fixpoint lower (s : string) : string :=
  match s with
  | EmptyString => EmptyString
  | String c s' => String (lower_char c) (lower s')
  end.

(** [s[:n]] for [0 <= n] and [s[n:]] *)
Fixpoint take (n : nat) (s : string) : string :=
  match n, s with
  | S n', String c s' => String c (take n' s')
  | _, _ => EmptyString
  end.

Fixpoint drop (n : nat) (s : string) : string :=
  match n, s with
  | S n', String _ s' => drop n' s'
  | _, _ => s
  end.

(** [s.rfind(p)]: the highest index where [p] starts, [None] for -1. *)
Fixpoint rfind (p s : string) : option nat :=
  match s with
  | EmptyString => if startswith p EmptyString then Some 0 else None
  | String _ s' =>
      match rfind p s' with
      | Some i => Some (S i)
      | None => if startswith p s then Some 0 else None
      end
  end.

(** [s.find(p)]: the lowest index where [p] starts. *)
Fixpoint find (p s : string) : option nat :=
  if startswith p s then Some 0
  else match s with
       | EmptyString => None
       | String _ s' => option_map S (find p s')
       end.

(** [p in s] for strings *)
Definition contains (p s : string) : bool :=
  match find p s with Some _ => true | None => false end.

(** [s.replace(p, '')] for a non-empty [p]. *)
Fixpoint remove_all_fuel (fuel : nat) (p s : string) : string :=
  match fuel with
  | 0 => s
  | S f =>
      match s with
      | EmptyString => EmptyString
      | String c s' =>
          if startswith p s then remove_all_fuel f p (drop (String.length p) s)
          else String c (remove_all_fuel f p s')
      end
  end.
Definition remove_all (p s : string) : string :=
  match p with
  | EmptyString => s
  | _ => remove_all_fuel (S (String.length s)) p s
  end.

Fixpoint last_or {A} (d : A) (l : list A) : A :=
  match l with
  | [] => d
  | [x] => x
  | _ :: l' => last_or d l'
  end.

Fixpoint join (sep : string) (l : list string) : string :=
  match l with
  | [] => EmptyString
  | [x] => x
  | x :: l' => x ++ sep ++ join sep l'
  end.

(** *** [int(s)] *)

(** digits with single underscores allowed between them *)
Fixpoint digits_acc (s : string) (acc : N) (prev_digit : bool) : option N :=
  match s with
  | EmptyString => if prev_digit then Some acc else None
  | String c s' =>
      if is_digit c then
        digits_acc s' (acc * 10 + N.of_nat (digit_val c))%N true
      else if eqc c "_" then
        if prev_digit then
          match s' with
          | EmptyString => None
          | _ => digits_acc s' acc false
          end
        else None
      else None
  end.

Definition parse_digits (s : string) : option N := digits_acc s 0%N false.

Definition parse_signed (s : string) : option (bool * string) :=
  match s with
  | String c s' =>
      if eqc c "-" then Some (true, s')
      else if eqc c "+" then Some (false, s')
      else Some (false, s)
  | EmptyString => None
  end.

Definition parse_int (s : string) : option Z :=
  match parse_signed (strip s) with
  | Some (neg, body) =>
      match parse_digits body with
      | Some n => Some (if neg then (- Z.of_N n)%Z else Z.of_N n)
      | None => None
      end
  | None => None
  end.

Definition int (s : string) : res Z := or_raise ValueError (parse_int s).

(** *** [str(n)] and [f"{n:03d}"] *)

Definition of_nat (n : nat) : string := pretty n.
Definition of_Z (z : Z) : string := pretty z.

Fixpoint zeros (n : nat) : string :=
  match n with 0 => EmptyString | S n' => String "0" (zeros n') end.

Definition zfill (width : nat) (s : string) : string :=
  zeros (width - String.length s) ++ s.

Definition format_03d (n : nat) : string := zfill 3 (of_nat n).

End PyStr.

(** ** Python floats and the numpy helpers the readers call *)

Module PyNum.

Local Open Scope Q_scope.

Definition of_nat (n : nat) : Q := inject_Z (Z.of_nat n).

(** [q == 0] *)
Definition is_zero (q : Q) : bool := Qeq_bool q 0.

(** [a / b] on Python floats *)
Definition div (a b : Q) : res Q :=
  if is_zero b then Raise ZeroDivisionError else Ok (a / b).

(** [int(q)]: truncation towards zero *)
Definition trunc (q : Q) : Z :=
  if Qle_bool 0 q then Qfloor q else Qceiling q.

(** [q == int(q)] *)
Definition is_integral (q : Q) : bool := Qeq_bool q (inject_Z (trunc q)).

Definition scale10 (n : N) (e : Z) : Q :=
  match e with
  | Z0 => inject_Z (Z.of_N n)
  | Zpos p => inject_Z (Z.of_N n * Z.pow 10 (Zpos p))
  | Zneg p => Qmake (Z.of_N n) (Pos.pow 10 p)
  end.

Fixpoint count_digits (s : string) : nat :=
  match s with
  | EmptyString => 0%nat
  | String c s' => ((if PyStr.is_digit c then 1 else 0) + count_digits s')%nat
  end.

(** mantissa: value of all digits and number of digits after the point *)
Definition parse_mantissa (m : string) : option (N * nat) :=
  match PyStr.split "." m with
  | [i] => match PyStr.parse_digits i with
           | Some n => Some (n, 0%nat)
           | None => None
           end
  | [i; f] =>
      match i, f with
      | EmptyString, EmptyString => None
      | EmptyString, _ =>
          match PyStr.parse_digits f with
          | Some nf => Some (nf, count_digits f)
          | None => None
          end
      | _, EmptyString =>
          match PyStr.parse_digits i with
          | Some ni => Some (ni, 0%nat)
          | None => None
          end
      | _, _ =>
          match PyStr.parse_digits i, PyStr.parse_digits f with
          | Some ni, Some nf =>
              Some ((ni * N.pow 10 (N.of_nat (count_digits f)) + nf)%N, count_digits f)
          | _, _ => None
          end
      end
  | _ => None
  end.

Definition is_exp_char (c : ascii) : bool := PyStr.eqc c "e" || PyStr.eqc c "E".

Fixpoint split_exp (s : string) : string * option string :=
  match s with
  | EmptyString => (EmptyString, None)
  | String c s' =>
      if is_exp_char c then (EmptyString, Some s')
      else let '(m, e) := split_exp s' in (String c m, e)
  end.

Definition parse_exponent (e : option string) : option Z :=
  match e with
  | None => Some 0%Z
  | Some s =>
      match PyStr.parse_signed s with
      | Some (neg, body) =>
          match PyStr.parse_digits body with
          | Some n => Some (if neg then (- Z.of_N n)%Z else Z.of_N n)
          | None => None
          end
      | None => None
      end
  end.

(** What a float literal denotes. *)
Inductive float_lit : Type :=
| Finite (q : Q)
| Infinite (negative : bool)
| NaN.

(** The integer nearest to [a / b] for [b > 0], the even one of two that are
    equally near. *)
Definition round_half_even (a b : Z) : Z :=
  let q := (a / b)%Z in
  let r := (a mod b)%Z in
  if (2 * r <? b)%Z then q
  else if (b <? 2 * r)%Z then (q + 1)%Z
  else if Z.even q then q else (q + 1)%Z.

(** [n / d / 2 ^ e] as a fraction *)
Definition scaled_by (n d : positive) (e : Z) : Z * Z :=
  match e with
  | Zneg p => (Zpos n * 2 ^ Zpos p, Zpos d)%Z
  | _ => (Zpos n, Zpos d * 2 ^ e)%Z
  end.

(** The binary64 number nearest to [n / d]: a significand below [2 ^ 53]
    times a power of two that is not below [2 ^ -1074]; [None] when the
    rounded value is beyond the largest finite number. *)
Definition binary64_pos (n d : positive) : option Q :=
  let e0 := (Z.log2 (Zpos n) - Z.log2 (Zpos d) - 52)%Z in
  let '(a, b) := scaled_by n d e0 in
  let e1 := if (a <? 2 ^ 52 * b)%Z then (e0 - 1)%Z else e0 in
  let e := Z.max e1 (-1074) in
  let '(a, b) := scaled_by n d e in
  let m := round_half_even a b in
  if (971 <? e)%Z || ((e =? 971)%Z && (m =? 2 ^ 53)%Z) then None
  else Some (match e with
             | Zneg p => Qmake m (2 ^ p)
             | _ => inject_Z (m * 2 ^ e)
             end).

(** The float that Python makes of the exact value [q] of a literal.  A
    value that is a binary64 number is kept as the fraction it is written
    as, any other one gives the nearest number in lowest terms. *)
Definition binary64 (q : Q) : float_lit :=
  match Qnum q with
  | Z0 => Finite q
  | Zpos n =>
      match binary64_pos n (Qden q) with
      | Some v => Finite (if Qeq_bool v q then q else Qred v)
      | None => Infinite false
      end
  | Zneg n =>
      match binary64_pos n (Qden q) with
      | Some v => Finite (if Qeq_bool (- v) q then q else Qred (- v))
      | None => Infinite true
      end
  end.

(** The text accepted by [float(s)]: a decimal literal with optional sign,
    point and exponent, or one of [inf], [infinity], [nan]. *)
Definition parse_float (s : string) : option float_lit :=
  match PyStr.parse_signed (PyStr.strip s) with
  | None => None
  | Some (neg, body) =>
      let l := PyStr.lower body in
      if String.eqb l "inf" || String.eqb l "infinity" then Some (Infinite neg)
      else if String.eqb l "nan" then Some NaN
      else
        let '(m, e) := split_exp body in
        match parse_mantissa m, parse_exponent e with
        | Some (n, fd), Some ex =>
            let q := scale10 n (ex - Z.of_nat fd) in
            Some (binary64 (if neg then - q else q))
        | _, _ => None
        end
  end.

(** [float(s)] where the value is used in arithmetic: infinities and NaN
    have no rational value and end the run with [OutsideModel]. *)
Definition float (s : string) : res Q :=
  match parse_float s with
  | None => Raise ValueError
  | Some (Finite q) => Ok q
  | Some _ => Raise (OutsideModel "non-finite float")
  end.

(** [np.arange(n)] *)
Definition arange (n : nat) : list Q := map of_nat (seq 0 n).

(** [np.linspace(start, stop, num, endpoint=True)] *)
Definition linspace (start stop : Q) (num : Z) : res (list Q) :=
  if (num <? 0)%Z then Raise ValueError
  else
    let n := Z.to_nat num in
    match n with
    | 0%nat => Ok []
    | 1%nat => Ok [start]
    | _ =>
        let step := (stop - start) / of_nat (n - 1) in
        Ok (map (fun i => start + of_nat i * step) (seq 0 n))
    end.

(** [np.unique(col)]: sorted, without repetitions *)
Fixpoint insert_sorted (x : Q) (l : list Q) : list Q :=
  match l with
  | [] => [x]
  | y :: l' =>
      if Qeq_bool x y then l
      else if Qle_bool x y then x :: l
      else y :: insert_sorted x l'
  end.

Definition unique (l : list Q) : list Q := fold_right insert_sorted [] l.

Definition prod (l : list nat) : nat := fold_right Nat.mul 1%nat l.

(** [a * b] on one-dimensional arrays, with numpy's broadcasting *)
Definition mul_broadcast (a b : list Q) : res (list Q) :=
  match b with
  | [y] => Ok (map (fun x => x * y) a)
  | _ =>
      match a with
      | [x] => Ok (map (fun y => x * y) b)
      | _ =>
          if (length a =? length b)%nat
          then Ok (map (fun p => fst p * snd p) (combine a b))
          else Raise ValueError
      end
  end.

Definition Qmin_list (l : list Q) : option Q :=
  match l with
  | [] => None
  | x :: l' => Some (fold_left (fun m y => if Qle_bool y m then y else m) l' x)
  end.

Definition Qmax_list (l : list Q) : option Q :=
  match l with
  | [] => None
  | x :: l' => Some (fold_left (fun m y => if Qle_bool m y then y else m) l' x)
  end.

End PyNum.

(** ** numpy arrays: a shape and the elements in row-major order *)

Record ndarray : Type := mk_ndarray { shape : list nat; flat : list Q }.

Definition ndim (a : ndarray) : nat := length (shape a).

(** [a.shape[-k]] for [k >= 1] *)
Definition shape_from_end (k : nat) (a : ndarray) : res nat :=
  or_raise IndexError (rev (shape a) !! (k - 1)).

(** [a.shape[i]] for [0 <= i] *)
Definition shape_at (i : nat) (a : ndarray) : res nat :=
  or_raise IndexError (shape a !! i).

(** [np.reshape(a, target)] for a target without the placeholder -1 *)
Definition np_reshape (a : ndarray) (target : list nat) : res ndarray :=
  if (PyNum.prod target =? length (flat a))%nat
  then Ok (mk_ndarray target (flat a))
  else Raise ValueError.

(** ** Python dictionaries: association lists in insertion order *)

Section PyDict.
Context {K V : Type} `{EqDecision K}.

Fixpoint dict_get (k : K) (d : list (K * V)) : option V :=
  match d with
  | [] => None
  | (k', v) :: d' => if decide (k = k') then Some v else dict_get k d'
  end.

(** [d[k] = v]: an existing key keeps its place *)
Fixpoint dict_set (k : K) (v : V) (d : list (K * V)) : list (K * V) :=
  match d with
  | [] => [(k, v)]
  | (k', v') :: d' =>
      if decide (k = k') then (k', v) :: d' else (k', v') :: dict_set k v d'
  end.

Definition dict_mem (k : K) (d : list (K * V)) : bool :=
  match dict_get k d with Some _ => true | None => false end.

Definition dict_keys (d : list (K * V)) : list K := map fst d.
End PyDict.

(** [d[k]] on a dictionary with string keys *)
Definition lookup_key {V} (k : string) (d : list (string * V)) : res V :=
  or_raise (KeyError k) (dict_get k d).

(** ** Code that updates an object and may raise *)

Definition SE (S A : Type) : Type := S -> res A * S.

Definition se_ret {S A} (a : A) : SE S A := fun s => (Ok a, s).
Definition se_raise {S A} (e : exn) : SE S A := fun s => (Raise e, s).
Definition se_bind {S A B} (m : SE S A) (k : A -> SE S B) : SE S B :=
  fun s => match m s with
           | (Ok a, s') => k a s'
           | (Raise e, s') => (Raise e, s')
           end.
Definition se_lift {S A} (r : res A) : SE S A := fun s => (r, s).
Definition se_get {S} : SE S S := fun s => (Ok s, s).
Definition se_modify {S} (f : S -> S) : SE S unit := fun s => (Ok tt, f s).

Declare Scope se_scope.
Delimit Scope se_scope with se.
Notation "x <~ m ;; k" := (se_bind m (fun x => k))
  (at level 100, m at next level, right associativity) : se_scope.
Notation "m ;;; k" := (se_bind m (fun _ => k))
  (at level 100, right associativity) : se_scope.

Fixpoint se_fold {S A B} (f : A -> B -> SE S A) (l : list B) (a : A) : SE S A :=
  match l with
  | [] => se_ret a
  | b :: l' => se_bind (f a b) (se_fold f l')
  end.

(** ** The dataset sink

    The readers hand their arrays to [sidpy.Dataset], which is not part of the
    repository.  The model keeps what the readers use: [from_array] gives every
    array dimension a default axis [arange(shape[i])], [set_dimension] replaces
    the axis of one dimension, the other attributes are plain fields.
    Whether [set_dimension] refuses an axis whose length differs from the
    array's is left open: the flag [strict] decides it, and the statements
    below say which setting they hold for. *)

Record Dimension : Type := mk_Dimension {
  dim_values : list Q;
  dim_name : string;
  dim_units : string;
  dim_quantity : string;
  dimension_type : string
}.

Inductive direction_tag : Type :=
| DirUnset
| DirNone
| DirStr (s : string)
| DirList (l : list string).

Record Dataset (M : Type) : Type := mk_Dataset {
  ds_array : ndarray;
  ds_title : string;
  ds_axes : list Dimension;
  ds_units : string;
  ds_quantity : string;
  ds_data_type : string;
  ds_direction : direction_tag;
  ds_metadata : option M;
  ds_original_metadata : option M
}.
Arguments mk_Dataset {M}.
Arguments ds_array {M}.
Arguments ds_title {M}.
Arguments ds_axes {M}.
Arguments ds_units {M}.
Arguments ds_quantity {M}.
Arguments ds_data_type {M}.
Arguments ds_direction {M}.
Arguments ds_metadata {M}.
Arguments ds_original_metadata {M}.

Module Sidpy.
Section Sink.
Variable strict : bool.
Context {M : Type}.

(** [string.ascii_lowercase[i]] *)
Definition ascii_lowercase (i : nat) : res string :=
  if i <? 26 then Ok (String (ascii_of_nat (97 + i)) EmptyString)
  else Raise IndexError.

Definition default_axis (i n : nat) : res Dimension :=
  rbind (ascii_lowercase i) (fun nm =>
  Ok (mk_Dimension (PyNum.arange n) nm "generic" "generic" "UNKNOWN")).

Fixpoint default_axes (i : nat) (shp : list nat) : res (list Dimension) :=
  match shp with
  | [] => Ok []
  | n :: shp' =>
      rbind (default_axis i n) (fun ax =>
      rbind (default_axes (S i) shp') (fun axs => Ok (ax :: axs)))
  end.

(** [sidpy.Dataset.from_array(x, title=..., chunks=...)].  An absent array
    ([None]) is a value without dimensions; explicit chunk sizes must be
    as many as the array has dimensions. *)
Definition from_array (x : option ndarray) (title : string)
           (chunks : option (list nat)) : res (Dataset M) :=
  let dims := match x with Some a => ndim a | None => 0 end in
  let chunks_ok := match chunks with
                   | Some c => length c =? dims
                   | None => true
                   end in
  if negb chunks_ok then Raise ValueError
  else match x with
       | None => Raise (OutsideModel "dataset of None")
       | Some a =>
           rbind (default_axes 0 (shape a)) (fun axs =>
           Ok (mk_Dataset a title axs "generic" "generic" "UNKNOWN"
                          DirUnset None None))
       end.

(** [sidpy.Dimension(values, ...)]: the values form a one-dimensional array *)
Definition new_Dimension (values : ndarray) (name units quantity dtype : string)
  : res Dimension :=
  match shape values with
  | [_] => Ok (mk_Dimension (flat values) name units quantity dtype)
  | _ => Raise ValueError
  end.

(** [dataset.set_dimension(ind, dimension)] *)
Definition set_dimension (ds : Dataset M) (ind : nat) (dim : Dimension)
  : res (Dataset M) :=
  match shape (ds_array ds) !! ind with
  | None => Raise IndexError
  | Some n =>
      if strict && negb (length (dim_values dim) =? n) then Raise ValueError
      else Ok (mk_Dataset (ds_array ds) (ds_title ds)
                          (<[ind := dim]> (ds_axes ds))
                          (ds_units ds) (ds_quantity ds) (ds_data_type ds)
                          (ds_direction ds) (ds_metadata ds)
                          (ds_original_metadata ds))
  end.

Definition set_units (u : string) (ds : Dataset M) : Dataset M :=
  mk_Dataset (ds_array ds) (ds_title ds) (ds_axes ds) u (ds_quantity ds)
             (ds_data_type ds) (ds_direction ds) (ds_metadata ds)
             (ds_original_metadata ds).

Definition set_quantity (q : string) (ds : Dataset M) : Dataset M :=
  mk_Dataset (ds_array ds) (ds_title ds) (ds_axes ds) (ds_units ds) q
             (ds_data_type ds) (ds_direction ds) (ds_metadata ds)
             (ds_original_metadata ds).

Definition set_data_type (t : string) (ds : Dataset M) : Dataset M :=
  mk_Dataset (ds_array ds) (ds_title ds) (ds_axes ds) (ds_units ds)
             (ds_quantity ds) t (ds_direction ds) (ds_metadata ds)
             (ds_original_metadata ds).

Definition set_direction (d : direction_tag) (ds : Dataset M) : Dataset M :=
  mk_Dataset (ds_array ds) (ds_title ds) (ds_axes ds) (ds_units ds)
             (ds_quantity ds) (ds_data_type ds) d (ds_metadata ds)
             (ds_original_metadata ds).

Definition set_metadata (m : M) (ds : Dataset M) : Dataset M :=
  mk_Dataset (ds_array ds) (ds_title ds) (ds_axes ds) (ds_units ds)
             (ds_quantity ds) (ds_data_type ds) (ds_direction ds) (Some m)
             (ds_original_metadata ds).

Definition set_original_metadata (m : M) (ds : Dataset M) : Dataset M :=
  mk_Dataset (ds_array ds) (ds_title ds) (ds_axes ds) (ds_units ds)
             (ds_quantity ds) (ds_data_type ds) (ds_direction ds)
             (ds_metadata ds) (Some m).
End Sink.
End Sidpy.

(** The shape invariant of a channel record: one axis per array dimension,
    each as long as the dimension. *)
Definition axes_count_ok {M} (ds : Dataset M) : Prop :=
  length (ds_axes ds) = ndim (ds_array ds).

Definition axes_match {M} (ds : Dataset M) : Prop :=
  map (fun ax => length (dim_values ax)) (ds_axes ds) = shape (ds_array ds).

Definition axes_matchb {M} (ds : Dataset M) : bool :=
  bool_decide (map (fun ax => length (dim_values ax)) (ds_axes ds)
               = shape (ds_array ds)).

(** The identifier under which the readers file the [n]-th record:
    [f"Channel_{int(n):03d}"]. *)
Definition channel_key (n : nat) : string := "Channel_" ++ PyStr.format_03d n.

(** ** [mrc_reader.py] *)

Module MRC.

(** What [mrcfile.mmap(path, permissive=True)] hands to the reader: the data
    block and the indexed extended header, one column of values per field. *)
Record mrcfile : Type := mk_mrcfile {
  mrc_data : ndarray;
  indexed_extended_header : list (string * list Q)
}.

Definition metadata_dict : Type := list (string * list Q).

(** The attributes of an [MRCReader] object that [read] assigns. *)
Record MRCReader : Type := mk_MRCReader {
  data : option ndarray;
  metadata : option metadata_dict;
  scan_pixel_size : option Q;
  scan_size_units : option string
}.

(** [MRCReader.__init__] *)
Definition init : MRCReader := mk_MRCReader None None None None.

Definition set_data (a : ndarray) (self : MRCReader) : MRCReader :=
  mk_MRCReader (Some a) (metadata self) (scan_pixel_size self) (scan_size_units self).

Definition set_metadata (m : metadata_dict) (self : MRCReader) : MRCReader :=
  mk_MRCReader (data self) (Some m) (scan_pixel_size self) (scan_size_units self).

Definition set_scan (size : Q) (units : string) (self : MRCReader) : MRCReader :=
  mk_MRCReader (data self) (metadata self) (Some size) (Some units).

(** [extended_header[label]]: numpy raises [ValueError] for an unknown field *)
Definition field (label : string) (hdr : list (string * list Q)) : res (list Q) :=
  or_raise ValueError (dict_get label hdr).

Definition scan_shape_params : list string :=
  ["Scan size right"; "Scan size left"; "Scan size top"; "Scan size bottom"].

(** [np.array(sizes).flatten()]: the rows must have one length *)
Definition flatten (rows : list (list Q)) : res (list Q) :=
  match rows with
  | [] => Ok []
  | r :: _ =>
      if forallb (fun r' => length r' =? length r) rows then Ok (concat rows)
      else Raise ValueError
  end.

Definition item (i : nat) (l : list Q) : res Q := or_raise IndexError (l !! i).

(** [int(np.abs(a - b))] as a dimension *)
Definition abs_diff (a b : Q) : nat := Z.to_nat (PyNum.trunc (Qabs (a - b))).

Definition angstrom_per_metre : Q := inject_Z (10 ^ 10).
Definition per_angstrom : Q := 1 / inject_Z (10 ^ 10).

Section Read.
Variable strict : bool.

Local Open Scope se_scope.

(** [MRCReader.read(self, handedness='right', scan_pixel_size=None)] *)
Definition read (mrc : mrcfile) (handedness : string) (pixel_size : option Q)
  : SE MRCReader (list (string * Dataset metadata_dict)) :=
  let mrc_data := mrc_data mrc in
  let extended_header := indexed_extended_header mrc in
  let metadata_labels := map fst extended_header in
  (* Reshape the data *)
  sizes <~ se_lift (rmap (fun label => rbind (field label extended_header)
                                         (fun col => Ok (PyNum.unique col)))
                         scan_shape_params) ;;
  sizes <~ se_lift (flatten sizes) ;;
  s0 <~ se_lift (item 0 sizes) ;;
  s1 <~ se_lift (item 1 sizes) ;;
  let y_shape := abs_diff s0 s1 in
  s2 <~ se_lift (item 2 sizes) ;;
  s3 <~ se_lift (item 3 sizes) ;;
  let x_shape := abs_diff s2 s3 in
  reshape_target <~
    (if String.eqb handedness "right" then
       u <~ se_lift (shape_from_end 2 mrc_data) ;;
       v <~ se_lift (shape_from_end 1 mrc_data) ;;
       se_ret (Some [x_shape; y_shape; u; v])
     else if String.eqb handedness "left" then
       u <~ se_lift (shape_from_end 2 mrc_data) ;;
       v <~ se_lift (shape_from_end 1 mrc_data) ;;
       se_ret (Some [y_shape; x_shape; u; v])
     else (* print('Handedness must = "right" or "left"') *)
       se_ret None) ;;
  (* try: self.data = np.reshape(...)  except ValueError: print(...) *)
  target <~ se_lift (or_raise (UnboundLocalError "reshape_target") reshape_target) ;;
  match np_reshape mrc_data target with
  | Ok a => se_modify (set_data a)
  | Raise ValueError => se_ret tt
  | Raise e => se_raise e
  end ;;;
  camera_pixel_sizes <~
    se_lift (rmap (fun label => rbind (field label extended_header)
                    (fun col => Ok (map (fun x => (x * per_angstrom)%Q)
                                        (PyNum.unique col))))
                  ["Pixel size X"; "Pixel size Y"]) ;;
  (* scan pixel size *)
  match pixel_size with
  | Some sz =>
      if PyNum.is_zero sz then se_modify (set_scan 1 "pixels")
      else se_modify (set_scan (sz * angstrom_per_metre)%Q "Å")
  | None => se_modify (set_scan 1 "pixels")
  end ;;;
  (* make metadata dictionary *)
  md <~ se_lift (rfold (fun md label =>
                   rbind (field label extended_header)
                         (fun col => Ok (dict_set label (PyNum.unique col) md)))
                 metadata_labels []) ;;
  se_modify (set_metadata md) ;;;
  (* create sidpy Dataset *)
  self <~ se_get ;;
  c2 <~ se_lift (or_raise IndexError (rev target !! 1)) ;;
  c3 <~ se_lift (or_raise IndexError (rev target !! 0)) ;;
  dataset <~ se_lift (Sidpy.from_array (data self) "MRC_000" (Some [1; 1; c2; c3])) ;;
  let dataset := Sidpy.set_original_metadata md dataset in
  let dataset := Sidpy.set_data_type "image_4d" dataset in
  let scan := match scan_pixel_size self with Some q => q | None => 1%Q end in
  let units := match scan_size_units self with Some u => u | None => "pixels" end in
  n0 <~ se_lift (shape_at 0 (ds_array dataset)) ;;
  dataset <~ se_lift (Sidpy.set_dimension strict dataset 0
     (mk_Dimension (map (fun x => (x * scan)%Q) (PyNum.arange n0))
                   "x" units "length" "spatial")) ;;
  n1 <~ se_lift (shape_at 1 (ds_array dataset)) ;;
  dataset <~ se_lift (Sidpy.set_dimension strict dataset 1
     (mk_Dimension (map (fun x => (x * scan)%Q) (PyNum.arange n1))
                   "y" units "length" "spatial")) ;;
  n2 <~ se_lift (shape_at 2 (ds_array dataset)) ;;
  cam0 <~ se_lift (or_raise IndexError (camera_pixel_sizes !! 0)) ;;
  uvals <~ se_lift (PyNum.mul_broadcast (PyNum.arange n2) cam0) ;;
  dataset <~ se_lift (Sidpy.set_dimension strict dataset 2
     (mk_Dimension uvals "u" "1/Å" "angle" "reciprocal")) ;;
  n3 <~ se_lift (shape_at 3 (ds_array dataset)) ;;
  cam1 <~ se_lift (or_raise IndexError (camera_pixel_sizes !! 1)) ;;
  vvals <~ se_lift (PyNum.mul_broadcast (PyNum.arange n3) cam1) ;;
  dataset <~ se_lift (Sidpy.set_dimension strict dataset 3
     (mk_Dimension vvals "v" "1/Å" "angle" "reciprocal")) ;;
  se_ret [("Channel_000", dataset)].

End Read.
End MRC.

(** ** Slices of numpy arrays used by the Igor reader *)

Module NdSlice.

Definition at_flat (a : ndarray) (i : nat) : Q :=
  match flat a !! i with Some q => q | None => 0%Q end.

(** [np.atleast_3d(a)] *)
Definition atleast_3d (a : ndarray) : ndarray :=
  match shape a with
  | [] => mk_ndarray [1; 1; 1] (flat a)
  | [n] => mk_ndarray [1; n; 1] (flat a)
  | [m; n] => mk_ndarray [m; n; 1] (flat a)
  | _ => a
  end.

(** [a.squeeze()] *)
Definition squeeze (a : ndarray) : ndarray :=
  mk_ndarray (filter (fun n => n <> 1) (shape a)) (flat a).

Definition block (a : ndarray) (start len : nat) : list Q :=
  map (at_flat a) (seq start len).

(** [a[:, c]] *)
Definition index_1 (a : ndarray) (c : nat) : res ndarray :=
  match shape a with
  | s0 :: s1 :: rest =>
      if c <? s1 then
        let r := PyNum.prod rest in
        Ok (mk_ndarray (s0 :: rest)
              (concat (map (fun i => block a (i * (s1 * r) + c * r) r) (seq 0 s0))))
      else Raise IndexError
  | _ => Raise IndexError
  end.

(** [a[:, c, 0]] *)
Definition index_1_0 (a : ndarray) (c : nat) : res ndarray :=
  match shape a with
  | s0 :: s1 :: s2 :: rest =>
      if (c <? s1) && (0 <? s2) then
        let r := PyNum.prod rest in
        Ok (mk_ndarray (s0 :: rest)
              (concat (map (fun i => block a (i * (s1 * s2 * r) + c * (s2 * r)) r)
                           (seq 0 s0))))
      else Raise IndexError
  | _ => Raise IndexError
  end.

(** [a[:, :, c]] *)
Definition index_2 (a : ndarray) (c : nat) : res ndarray :=
  match shape a with
  | s0 :: s1 :: s2 :: rest =>
      if c <? s2 then
        let r := PyNum.prod rest in
        Ok (mk_ndarray (s0 :: s1 :: rest)
              (concat (map (fun ij => block a (ij * (s2 * r) + c * r) r)
                           (seq 0 (s0 * s1)))))
      else Raise IndexError
  | _ => Raise IndexError
  end.

End NdSlice.

(** ** [igor_ibw.py]: the generic reader [IgorIBWReader] *)

Module Igor.

(** Items of the label table are [bytes] in files read by [igor.binarywave];
    the code also provides for [str]. *)
Inductive label : Type :=
| LBytes (s : string)
| LStr (s : string).

#[export] Instance label_eq_dec : EqDecision label.
Proof. solve_decision. Defined.

(** Values of the parameter dictionary. *)
Inductive pval : Type :=
| PInt (z : Z)
| PFloat (q : Q)
| PInf (negative : bool)
| PStr (s : string)
| PBytes (s : string).

Definition parm_dict : Type := list (string * pval).

(** The entry ['wave'] of what [bw.load(file_path)] returns.  [note] is the
    note after decoding. *)
Record ibw_wave : Type := mk_ibw_wave {
  note : string;
  labels : list (list label);
  wData : ndarray;
  wave_header : list (string * pval)
}.

(** the [try: num = float(temp[1]) ...] block of [_read_parms] *)
Definition parm_value (text : string) : pval :=
  match PyNum.parse_float text with
  | Some (PyNum.Finite q) =>
      if PyNum.is_integral q then PInt (PyNum.trunc q) else PFloat q
  | Some (PyNum.Infinite neg) => PInf neg      (* OverflowError: pass *)
  | Some PyNum.NaN => PStr text                 (* int(nan): ValueError *)
  | None => PStr text
  end.

Definition read_pair (sep : ascii) (pair_string : string) (d : parm_dict) : parm_dict :=
  match PyStr.split sep pair_string with
  | [k; v] => dict_set (PyStr.strip k) (parm_value (PyStr.strip v)) d
  | _ => d
  end.

(** [IgorIBWReader._read_parms(ibw_wave, codec)] *)
Definition _read_parms (ibw_wave : ibw_wave) : parm_dict :=
  let parm_string := PyStr.rstrip_cr (note ibw_wave) in
  let parm_list := PyStr.split PyStr.CR parm_string in
  let parm_dict :=
    fold_left (fun d pair_string =>
                 read_pair "=" pair_string (read_pair ":" pair_string d))
              parm_list [] in
  let other_parms := wave_header ibw_wave in
  fold_left (fun d key =>
               match dict_get key other_parms with
               | Some v => dict_set key v d
               | None => d     (* except KeyError: pass *)
               end)
            ["creationDate"; "modDate"; "bname"] parm_dict.

Fixpoint remove_first (x : label) (l : list label) : list label :=
  match l with
  | [] => []
  | y :: l' => if decide (x = y) then l' else y :: remove_first x l'
  end.

(** [for item in labels: if item == '': labels.remove(item)]: the list
    iterator advances by index while the list shrinks. *)
Fixpoint remove_empty (fuel i : nat) (l : list label) : list label :=
  match fuel with
  | 0 => l
  | S fuel' =>
      match l !! i with
      | None => l
      | Some item =>
          if decide (item = LStr EmptyString)
          then remove_empty fuel' (S i) (remove_first item l)
          else remove_empty fuel' (S i) l
      end
  end.

Definition label_text (c : label) : string :=
  match c with LBytes s => s | LStr s => s end.

Definition clean_label (chan : string) : string :=
  match PyStr.rfind "trace" (PyStr.lower chan) with
  | Some (S i) => PyStr.take (S i + 5) chan
  | _ => chan
  end.

Definition default_unit (chan : string) : string :=
  if PyStr.startswith "Phase" chan then "deg"
  else if PyStr.startswith "Current" chan then "A"
  else "m".

(** [IgorIBWReader._get_chan_labels(ibw_wave, codec)] *)
Definition _get_chan_labels (ibw_wave : ibw_wave) : list string * list string :=
  let temp := labels ibw_wave in
  let labels := concat (filter (fun item => 0 <? length item) temp) in
  let labels := remove_empty (length labels) 0 labels in
  let chans := map label_text labels in
  (map clean_label chans, map default_unit chans).

Definition item {A} (i : nat) (l : list A) : res A := or_raise IndexError (l !! i).

(** the arguments [stop] and [num] of [np.linspace(0, stop, num)] *)
Definition linspace_parm (stop num : pval) : res (list Q) :=
  match num with
  | PInt n =>
      if (n <? 0)%Z then Raise ValueError
      else match stop with
           | PInt z => PyNum.linspace 0 (inject_Z z) n
           | PFloat q => PyNum.linspace 0 q n
           | PInf _ => Raise (OutsideModel "non-finite float")
           | PStr _ | PBytes _ => Raise TypeError
           end
  | _ => Raise TypeError
  end.

(** [chan_labels.index(name)] *)
Fixpoint index_of (name : string) (l : list string) : option nat :=
  match l with
  | [] => None
  | x :: l' => if String.eqb x name then Some 0 else option_map S (index_of name l')
  end.

Section Read.
Variable strict : bool.

Local Open Scope res_scope.

Definition image_channel (parm_dict : parm_dict) (num_rows num_cols : pval)
           (chan_labels chan_units : list string) (images : ndarray)
           (channel : nat) : res (Dataset Igor.parm_dict) :=
  plane <- NdSlice.index_2 images channel ;;
  name <- item channel chan_labels ;;
  data_set <- Sidpy.from_array (Some plane) name None ;;
  let data_set := Sidpy.set_data_type "Image" data_set in
  units <- item channel chan_units ;;
  let data_set := Sidpy.set_units units data_set in
  let data_set := Sidpy.set_quantity name data_set in
  fast <- lookup_key "FastScanSize" parm_dict ;;
  xs <- linspace_parm fast num_cols ;;
  data_set <- Sidpy.set_dimension strict data_set 0
                (mk_Dimension xs "x" units "x" "spatial") ;;
  slow <- lookup_key "SlowScanSize" parm_dict ;;
  ys <- linspace_parm slow num_rows ;;
  data_set <- Sidpy.set_dimension strict data_set 1
                (mk_Dimension ys "y" units "y" "spatial") ;;
  let data_set := Sidpy.set_original_metadata parm_dict data_set in
  Ok (Sidpy.set_data_type "image" data_set).

(** the choice of the spectroscopic values of a force curve *)
Definition spec_values (chan_labels : list string) (images : ndarray) : res ndarray :=
  match index_of "ZSnsr" chan_labels with
  | Some chan_ind =>
      col <- NdSlice.index_1 images chan_ind ;; Ok (NdSlice.squeeze col)
  | None =>
      match index_of "Raw" chan_labels with
      | Some chan_ind =>
          col <- NdSlice.index_1_0 images chan_ind ;; Ok (NdSlice.squeeze col)
      | None =>
          (* We don't expect to come here. *)
          n <- shape_at 2 images ;;
          Ok (mk_ndarray [n] (PyNum.arange n))
      end
  end.

Definition curve_channel (parm_dict : parm_dict) (spec_data : ndarray)
           (chan_labels chan_units : list string) (images : ndarray)
           (channel : nat) : res (Dataset Igor.parm_dict) :=
  curve <- NdSlice.index_1_0 images channel ;;
  name <- item channel chan_labels ;;
  data_set <- Sidpy.from_array (Some curve) name None ;;
  units <- item channel chan_units ;;
  let data_set := Sidpy.set_units units data_set in
  let data_set := Sidpy.set_quantity name data_set in
  dim <- Sidpy.new_Dimension spec_data name units name "spectral" ;;
  data_set <- Sidpy.set_dimension strict data_set 0 dim ;;
  let data_set := Sidpy.set_data_type "SPECTRUM" data_set in
  Ok (Sidpy.set_original_metadata parm_dict data_set).

(** [IgorIBWReader.read(self, verbose=False, parm_encoding='utf-8')]; the
    result is the Python list [datasets]. *)
Definition read (ibw_wave : ibw_wave) : res (list (Dataset parm_dict)) :=
  let parm_dict := _read_parms ibw_wave in
  let '(chan_labels, chan_units) := _get_chan_labels ibw_wave in
  let images := wData ibw_wave in
  last <- shape_from_end 1 images ;;
  let '(chan_labels, chan_units) :=
    if negb (last =? length chan_labels)
    then (tail chan_labels, tail chan_units)
    else (chan_labels, chan_units) in
  if ndim images =? 3 then
    (* Image stack *)
    num_rows <- lookup_key "ScanLines" parm_dict ;;
    num_cols <- lookup_key "ScanPoints" parm_dict ;;
    rmap (image_channel parm_dict num_rows num_cols chan_labels chan_units images)
         (seq 0 last)
  else
    (* single force curve *)
    let images := NdSlice.atleast_3d images in
    spec_data <- spec_values chan_labels images ;;
    n_chan <- shape_from_end 2 images ;;
    rmap (curve_channel parm_dict spec_data chan_labels chan_units images)
         (seq 0 n_chan).

End Read.
End Igor.

(** ** [igor_ibw.py]: the reader of Matrix exports [IgorMatrixReader] *)

Module IgorMatrix.

(** Values of the parameter dictionary: those of the note and of the wave
    header, the list of the note lines (under [parm_list]) and the wave
    header itself (under [other_parms]). *)
Inductive mval : Type :=
| MVal (v : Igor.pval)
| MList (l : list string)
| MHeader (h : list (string * Igor.pval)).

Definition parm_dict : Type := list (string * mval).

Definition read_pair (sep : ascii) (pair_string : string) (d : parm_dict) : parm_dict :=
  match PyStr.split sep pair_string with
  | [k; v] => dict_set (PyStr.strip k) (MVal (Igor.parm_value (PyStr.strip v))) d
  | _ => d
  end.

(** [parm_string.rstrip('\r').split('\r')] *)
Definition note_lines (ibw_wave : Igor.ibw_wave) : list string :=
  PyStr.split PyStr.CR (PyStr.rstrip_cr (Igor.note ibw_wave)).

(** The two loops that open [_read_parms]: the pairs of the note, then the
    three entries of the wave header. *)
Definition note_parms (ibw_wave : Igor.ibw_wave) : parm_dict :=
  let parm_list := note_lines ibw_wave in
  let parm_dict :=
    fold_left (fun d pair_string =>
                 read_pair "=" pair_string (read_pair ":" pair_string d))
              parm_list [] in
  let other_parms := Igor.wave_header ibw_wave in
  fold_left (fun d key =>
               match dict_get key other_parms with
               | Some v => dict_set key (MVal v) d
               | None => d     (* except KeyError: pass *)
               end)
            ["creationDate"; "modDate"; "bname"] parm_dict.

(** [[ind for ind in range(len(parm_list)) if needle in parm_list[ind]][0]] *)
Definition first_index (needle : string) (parm_list : list string) : res nat :=
  or_raise IndexError
    (head (List.filter (fun ind => match parm_list !! ind with
                                   | Some line => PyStr.contains needle line
                                   | None => false
                                   end)
                       (seq 0 (length parm_list)))).

(** [s[:-3]], [s[-3:]] and [s[i]] *)
Definition but_last3 (s : string) : string := PyStr.take (String.length s - 3) s.
Definition last3 (s : string) : string := PyStr.drop (String.length s - 3) s.
Definition char_at (i : nat) (s : string) : res string :=
  match PyStr.drop i s with
  | String c _ => Ok (String c EmptyString)
  | EmptyString => Raise IndexError
  end.

(** [re.findall(r'\d+', s)[0]]: the first run of digits *)
Fixpoint digit_run (s : string) : string :=
  match s with
  | String c s' => if PyStr.is_digit c then String c (digit_run s') else EmptyString
  | EmptyString => EmptyString
  end.

Fixpoint first_digits (s : string) : res string :=
  match s with
  | String c s' => if PyStr.is_digit c then Ok (digit_run s) else first_digits s'
  | EmptyString => Raise IndexError
  end.

(** [s.split(sep)] for a separator of several characters: [skip] counts the
    characters of a separator found that are still to be passed over. *)
Fixpoint split_on_from (sep : string) (skip : nat) (s : string) : list string :=
  match s with
  | EmptyString => [EmptyString]
  | String c s' =>
      match skip with
      | S k => split_on_from sep k s'
      | 0 =>
          if PyStr.startswith sep s
          then EmptyString :: split_on_from sep (String.length sep - 1) s'
          else match split_on_from sep 0 s' with
               | h :: t => String c h :: t
               | [] => [String c EmptyString]
               end
      end
  end.
Definition split_on (sep s : string) : list string := split_on_from sep 0 s.

Local Open Scope res_scope.

(** [int(re.findall(r'\d+', text)[0])] *)
Definition first_int (text : string) : res Z :=
  digits <- first_digits text ;; PyStr.int digits.

Definition int_val (z : Z) : mval := MVal (Igor.PInt z).
Definition str_val (s : string) : mval := MVal (Igor.PStr s).

(** the branch [if 'Volume CITS' in parm_dict] of [_read_parms] *)
Definition cits_parms (parm_list : list string) (lines_img_idx spec_lines_idx : nat)
           (parm_dict : parm_dict) : res IgorMatrix.parm_dict :=
  sub_grid_idx <- first_index "Scan Sub-Grid" parm_list ;;
  spec_curve_idx <- first_index "axis start" parm_list ;;
  let parm_dict := dict_set "spec_curve_idx" (int_val (Z.of_nat spec_curve_idx)) parm_dict in
  line <- Igor.item sub_grid_idx parm_list ;;
  text <- Igor.item 1 (PyStr.split "=" line) ;;
  x <- first_int text ;;
  let parm_dict := dict_set "scan_subgrid_x" (int_val x) parm_dict in
  line <- Igor.item sub_grid_idx parm_list ;;
  text <- Igor.item 2 (PyStr.split "=" line) ;;
  y <- first_int text ;;
  let parm_dict := dict_set "scan_subgrid_y" (int_val y) parm_dict in
  line <- Igor.item spec_lines_idx parm_list ;;
  text <- Igor.item 1 (PyStr.split "=" line) ;;
  points <- first_int text ;;
  let parm_dict := dict_set "spec_points_per_line" (int_val points) parm_dict in
  line <- Igor.item spec_lines_idx parm_list ;;
  lines <- first_int (PyStr.last_or EmptyString (PyStr.split "=" line)) ;;
  let parm_dict := dict_set "spec_lines_per_plane" (int_val lines) parm_dict in
  line <- Igor.item spec_curve_idx parm_list ;;
  text <- Igor.item 1 (split_on "curve =" line) ;;
  text <- Igor.item 0 (PyStr.split "," text) ;;
  per_curve <- PyStr.int text ;;
  let parm_dict := dict_set "spec_points_per_curve" (int_val per_curve) parm_dict in
  line <- Igor.item lines_img_idx parm_list ;;
  let parm_dict := dict_set "lines_img_idx" (str_val line) parm_dict in
  Ok (dict_set "datatype" (str_val "Volume CITS") parm_dict).

(** [IgorMatrixReader._read_parms(ibw_wave, codec)] *)
Definition _read_parms (ibw_wave : Igor.ibw_wave) : res parm_dict :=
  let parm_list := note_lines ibw_wave in
  let parm_dict := note_parms ibw_wave in
  let other_parms := Igor.wave_header ibw_wave in
  wh_idx <- first_index "Width" parm_list ;;
  lines_img_idx <- first_index "lines per image" parm_list ;;
  channel_idx <- first_index "Channel name" parm_list ;;
  spec_lines_idx <- first_index "Spectroscopy points" parm_list ;;
  line <- Igor.item wh_idx parm_list ;;
  text <- Igor.item 2 (PyStr.split "=" line) ;;
  image_width <- PyNum.float (but_last3 text) ;;
  let parm_dict := dict_set "image_width" (MVal (Igor.PFloat image_width)) parm_dict in
  line <- Igor.item wh_idx parm_list ;;
  let text := PyStr.last_or EmptyString (PyStr.split "=" line) in
  image_height <- PyNum.float (but_last3 text) ;;
  let parm_dict := dict_set "image_height" (MVal (Igor.PFloat image_height)) parm_dict in
  image_units <- char_at 1 (last3 text) ;;
  let parm_dict := dict_set "image_units" (str_val image_units) parm_dict in
  line <- Igor.item channel_idx parm_list ;;
  text <- Igor.item 1 (PyStr.split ":" line) ;;
  let parm_dict := dict_set "channel_name" (str_val (but_last3 text)) parm_dict in
  channel_unit <- char_at 1 (last3 text) ;;
  let parm_dict := dict_set "channel_unit" (str_val channel_unit) parm_dict in
  parm_dict <-
    (if dict_mem "Volume CITS" parm_dict then
       (* print('this is CITS') *)
       cits_parms parm_list lines_img_idx spec_lines_idx parm_dict
     else if dict_mem "Image data" parm_dict then
       (* print('this is an image') *)
       line <- Igor.item lines_img_idx parm_list ;;
       let parm_dict := dict_set "lines_img_idx" (str_val line) parm_dict in
       Ok (dict_set "datatype" (str_val "image") parm_dict)
     else Ok parm_dict) ;;
  let parm_dict := dict_set "parm_list" (MList parm_list) parm_dict in
  Ok (dict_set "other_parms" (MHeader other_parms) parm_dict).

(** [np.rot90(m, 3)]: numpy swaps the first two axes and then flips the
    second; an array of fewer than two dimensions is refused. *)
Definition rot90_3 (m : ndarray) : res ndarray :=
  match shape m with
  | r :: c :: rest =>
      let size := PyNum.prod rest in
      Ok (mk_ndarray (c :: r :: rest)
            (concat (map (fun i =>
                       concat (map (fun j =>
                                 NdSlice.block m (((r - 1 - j) * c + i) * size) size)
                               (seq 0 r)))
                     (seq 0 c))))
  | _ => Raise ValueError
  end.

(** [value == text] for a value of the dictionary *)
Definition is_str (text : string) (value : mval) : bool :=
  match value with
  | MVal (Igor.PStr s) => String.eqb s text
  | _ => false
  end.

(** The entries that [_read_parms] assigns last have the types it gives
    them; a value of another type is outside the model. *)
Definition as_str (value : mval) : res string :=
  match value with
  | MVal (Igor.PStr s) => Ok s
  | _ => Raise (OutsideModel "a text entry holds another type")
  end.

Definition as_list (value : mval) : res (list string) :=
  match value with
  | MList l => Ok l
  | _ => Raise (OutsideModel "parm_list holds another type")
  end.

(** [np.linspace(0, stop, num)] for an entry [stop] and a dimension [num] *)
Definition linspace_to (stop : mval) (num : nat) : res (list Q) :=
  match stop with
  | MVal p => Igor.linspace_parm p (Igor.PInt (Z.of_nat num))
  | _ => Raise (OutsideModel "a number entry holds another type")
  end.

(** [np.linspace(start, stop, num)] for an entry [num] *)
Definition linspace_num (start stop : Q) (num : mval) : res (list Q) :=
  match num with
  | MVal (Igor.PInt n) => PyNum.linspace start stop n
  | _ => Raise TypeError
  end.

(** [parm_list[idx]] for an entry [idx]; a negative index counts from the end *)
Definition py_item (idx : mval) (l : list string) : res string :=
  match idx with
  | MVal (Igor.PInt z) =>
      if (0 <=? z)%Z then Igor.item (Z.to_nat z) l
      else if (- Z.of_nat (length l) <=? z)%Z
           then Igor.item (Z.to_nat (Z.of_nat (length l) + z)) l
           else Raise IndexError
  | _ => Raise TypeError
  end.

Section Read.
Variable strict : bool.

(** the branch [datatype == 'image'] of [read] *)
Definition image_record (parm_dict : parm_dict) (data_mat : ndarray)
  : res (Dataset IgorMatrix.parm_dict) :=
  data_mat <- rot90_3 data_mat ;;
  width <- lookup_key "image_width" parm_dict ;;
  n1 <- shape_at 1 data_mat ;;
  xvec <- linspace_to width n1 ;;
  height <- lookup_key "image_height" parm_dict ;;
  n0 <- shape_at 0 data_mat ;;
  yvec <- linspace_to height n0 ;;
  (* make the sidpy dataset *)
  name <- rbind (lookup_key "channel_name" parm_dict) as_str ;;
  data_set <- Sidpy.from_array (Some data_mat) name None ;;
  let data_set := Sidpy.set_data_type "Image" data_set in
  (* Add quantity and units *)
  units <- rbind (lookup_key "channel_unit" parm_dict) as_str ;;
  let data_set := Sidpy.set_units units data_set in
  parm_list <- rbind (lookup_key "parm_list" parm_dict) as_list ;;
  quantity <- Igor.item 0 parm_list ;;
  let data_set := Sidpy.set_quantity quantity data_set in
  (* Add dimension info *)
  image_units <- rbind (lookup_key "image_units" parm_dict) as_str ;;
  data_set <- Sidpy.set_dimension strict data_set 0
                (mk_Dimension yvec "x" image_units "x" "spatial") ;;
  image_units <- rbind (lookup_key "image_units" parm_dict) as_str ;;
  data_set <- Sidpy.set_dimension strict data_set 1
                (mk_Dimension xvec "y" image_units "y" "spatial") ;;
  (* append metadata *)
  Ok (Sidpy.set_original_metadata parm_dict data_set).

(** [float(parm_list[spec_curve_idx].split(mark)[1].split(',')[0])] *)
Definition bias_bound (parm_dict : parm_dict) (mark : string) : res Q :=
  parm_list <- rbind (lookup_key "parm_list" parm_dict) as_list ;;
  idx <- lookup_key "spec_curve_idx" parm_dict ;;
  line <- py_item idx parm_list ;;
  text <- Igor.item 1 (split_on mark line) ;;
  text <- Igor.item 0 (PyStr.split "," text) ;;
  PyNum.float text.

(** the branch [datatype == 'Volume CITS'] of [read] *)
Definition cits_record (parm_dict : parm_dict) (data_mat : ndarray)
  : res (Dataset IgorMatrix.parm_dict) :=
  (* build spectroscopy wave *)
  bias_start <- bias_bound parm_dict "start =" ;;
  bias_end <- bias_bound parm_dict "end =" ;;
  num <- lookup_key "spec_points_per_curve" parm_dict ;;
  bias_wave <- linspace_num bias_start bias_end num ;;
  width <- lookup_key "image_width" parm_dict ;;
  n0 <- shape_at 0 data_mat ;;
  xvec <- linspace_to width n0 ;;
  height <- lookup_key "image_height" parm_dict ;;
  n1 <- shape_at 1 data_mat ;;
  yvec <- linspace_to height n1 ;;
  (* make it sidpy *)
  name <- rbind (lookup_key "channel_name" parm_dict) as_str ;;
  data_set <- Sidpy.from_array (Some data_mat) name None ;;
  let data_set := Sidpy.set_data_type "SPECTRAL_IMAGE" data_set in
  (* Add quantity and units *)
  units <- rbind (lookup_key "channel_unit" parm_dict) as_str ;;
  let data_set := Sidpy.set_units units data_set in
  parm_list <- rbind (lookup_key "parm_list" parm_dict) as_list ;;
  quantity <- Igor.item 0 parm_list ;;
  let data_set := Sidpy.set_quantity quantity data_set in
  (* Add dimension info *)
  image_units <- rbind (lookup_key "image_units" parm_dict) as_str ;;
  data_set <- Sidpy.set_dimension strict data_set 0
                (mk_Dimension xvec "x" image_units "x" "spatial") ;;
  image_units <- rbind (lookup_key "image_units" parm_dict) as_str ;;
  data_set <- Sidpy.set_dimension strict data_set 1
                (mk_Dimension yvec "y" image_units "y" "spatial") ;;
  data_set <- Sidpy.set_dimension strict data_set 2
                (mk_Dimension bias_wave "Bias" "V" "V" "spectral") ;;
  (* append metadata *)
  Ok (Sidpy.set_original_metadata parm_dict data_set).

Local Open Scope se_scope.

(** [IgorMatrixReader.read(self, verbose, parm_encoding)]; the state is the
    attribute [parm_dict] of the reader, absent before the first call. *)
Definition read (ibw_wave : Igor.ibw_wave)
  : SE (option parm_dict) (Dataset parm_dict) :=
  parm_dict <~ se_lift (_read_parms ibw_wave) ;;
  se_modify (fun _ => Some parm_dict) ;;;
  let data_mat := Igor.wData ibw_wave in
  datatype <~ se_lift (lookup_key "datatype" parm_dict) ;;
  if is_str "image" datatype then se_lift (image_record parm_dict data_mat)
  else
    datatype <~ se_lift (lookup_key "datatype" parm_dict) ;;
    if is_str "Volume CITS" datatype then se_lift (cits_record parm_dict data_mat)
    else se_raise (UnboundLocalError "data_set").

End Read.
End IgorMatrix.

(** ** [struct.iter_unpack] for the five codes of [DATA_TYPES]

    The formats carry no byte-order mark, so they are read in native order;
    the model takes a little-endian machine. *)

Module Struct.

Definition byte_val (c : ascii) : N := N_of_ascii c.

(** little-endian value of a group of bytes *)
Fixpoint le_value (bytes : list ascii) : N :=
  match bytes with
  | [] => 0
  | b :: rest => (byte_val b + 256 * le_value rest)%N
  end.

Definition signed (bits : N) (v : N) : Z :=
  if (v <? 2 ^ (bits - 1))%N then Z.of_N v else (Z.of_N v - Z.of_N (2 ^ bits))%Z.

(** [m * 2^e] *)
Definition scale2 (m : Z) (e : Z) : Q :=
  match e with
  | Z0 => inject_Z m
  | Zpos p => inject_Z (m * 2 ^ Zpos p)
  | Zneg p => Qmake m (2 ^ p)
  end.

(** an IEEE-754 binary value with [ebits] exponent bits and [fbits] fraction
    bits; infinities and NaN have no rational value *)
Definition ieee (ebits fbits : N) (v : N) : res Q :=
  let frac := (v mod 2 ^ fbits)%N in
  let ex := ((v / 2 ^ fbits) mod 2 ^ ebits)%N in
  let neg := N.testbit v (ebits + fbits) in
  let bias := (Z.of_N (2 ^ (ebits - 1)) - 1)%Z in
  if (ex =? 2 ^ ebits - 1)%N then Raise (OutsideModel "non-finite float")
  else
    let q :=
      if (ex =? 0)%N then scale2 (Z.of_N frac) (1 - bias - Z.of_N fbits)
      else scale2 (Z.of_N (2 ^ fbits + frac)) (Z.of_N ex - bias - Z.of_N fbits) in
    Ok (if neg then (- q)%Q else q).

Definition decode (type_code : ascii) (bytes : list ascii) : res Q :=
  let v := le_value bytes in
  if PyStr.eqc type_code "h" then Ok (inject_Z (signed 16 v))
  else if PyStr.eqc type_code "H" then Ok (inject_Z (Z.of_N v))
  else if PyStr.eqc type_code "i" then Ok (inject_Z (signed 32 v))
  else if PyStr.eqc type_code "f" then ieee 8 23 v
  else if PyStr.eqc type_code "d" then ieee 11 52 v
  else Raise StructError.

Fixpoint chunks (fuel size : nat) (l : list ascii) : list (list ascii) :=
  match fuel with
  | 0 => []
  | S fuel' =>
      match l with
      | [] => []
      | _ => firstn size l :: chunks fuel' size (skipn size l)
      end
  end.

(** [np.array(list(struct.iter_unpack(type_code, data))).flatten()] where
    [size] is the length of one item *)
Definition iter_unpack (size : nat) (type_code : ascii) (data : string) : res (list Q) :=
  let bytes := list_ascii_of_string data in
  if (size =? 0) then Raise StructError
  else if negb (length bytes mod size =? 0) then Raise StructError
  else rmap (decode type_code) (chunks (length bytes) size bytes).

End Struct.

(** ** [wsxm.py] *)

Module WSxM.

(** *** Files

    A directory is the list of its entries in the order [iterdir()] yields
    them; a path is the name of an entry of that directory. *)

Record dir_entry : Type := mk_dir_entry {
  entry_name : string;
  is_file : bool;
  content : string
}.

Definition directory : Type := list dir_entry.

Record file_obj : Type := mk_file_obj {
  f_name : string;
  f_bytes : string;
  f_pos : Z
}.

(** *** Dictionaries of the 1-D reader

    The dictionaries that [_wsxm_readstp] and [WSxM1DReader.read] reach
    through more than one reference are cells of a store, one region per
    kind: the dictionaries from channel label to channel entry, the
    ['curves'] dictionaries, the ['data'] dictionaries of a curve, the
    ['header'] dictionaries of a curve and the ['File path'] lists.  The
    dictionaries with a fixed set of keys that are never assigned to after
    they are built ([{'curves','image'}], [{'data','header','units'}],
    [{'x','y'}] units) are records holding references. *)

Inductive hval : Type :=
| HStr (s : string)
| HPath (p : string)
| HPaths (loc : nat).

Definition header : Type := list (string * hval).

Inductive curve_key : Type :=
| KInt (z : Z)
| KStr (s : string).

#[global] Instance curve_key_eq_dec : EqDecision curve_key.
Proof. solve_decision. Defined.

(** [{'x': ..., 'y': ...}]; a key that was not assigned yet is [None] *)
Record xy : Type := mk_xy { xy_x : option (list Q); xy_y : option (list Q) }.

Record units_xy : Type := mk_units_xy { u_x : string; u_y : string }.

(** the dictionary [_wsxm_readimg] returns *)
Record image : Type := mk_image {
  img_Z : ndarray;
  img_X : list Q;
  img_Y : list Q;
  img_header : header;
  img_unit_Z : string;
  img_unit_X : string;
  img_unit_Y : string
}.

(** [{'data': ..., 'header': ..., 'units': ...}] *)
Record entry : Type := mk_entry { e_data : nat; e_header : nat; e_units : units_xy }.

(** [{'curves': ..., 'image': ...}] *)
Record outer : Type := mk_outer { o_curves : nat; o_image : option image }.

Definition top_dict : Type := list (string * outer).
Definition curves_dict : Type := list (curve_key * entry).
Definition data_dict : Type := list (string * xy).

Record world : Type := mk_world {
  open_files : list (nat * file_obj);
  next_fd : nat;
  tops : list top_dict;
  curves_h : list curves_dict;
  data_h : list data_dict;
  header_h : list header;
  paths_h : list (list string)
}.

Definition with_files (f : list (nat * file_obj)) (n : nat) (w : world) : world :=
  mk_world f n (tops w) (curves_h w) (data_h w) (header_h w) (paths_h w).
Definition with_tops (t : list top_dict) (w : world) : world :=
  mk_world (open_files w) (next_fd w) t (curves_h w) (data_h w) (header_h w) (paths_h w).
Definition with_curves (c : list curves_dict) (w : world) : world :=
  mk_world (open_files w) (next_fd w) (tops w) c (data_h w) (header_h w) (paths_h w).
Definition with_data (d : list data_dict) (w : world) : world :=
  mk_world (open_files w) (next_fd w) (tops w) (curves_h w) d (header_h w) (paths_h w).
Definition with_headers (h : list header) (w : world) : world :=
  mk_world (open_files w) (next_fd w) (tops w) (curves_h w) (data_h w) h (paths_h w).
Definition with_paths (p : list (list string)) (w : world) : world :=
  mk_world (open_files w) (next_fd w) (tops w) (curves_h w) (data_h w) (header_h w) p.

(** The world when the module has been imported: no file is open, and the
    store holds one dictionary, the default value of the parameter
    [data_dict] of [_wsxm_readstp], created once with the function. *)
Definition readstp_default : nat := 0.
Definition initial_world : world := mk_world [] 0 [[]] [] [] [] [].

Definition M (A : Type) : Type := SE world A.

Local Open Scope se_scope.

(** [open(path, 'rb')] *)
Definition open_ (dir : directory) (name : string) : M nat :=
  fun w =>
    match List.find (fun e => String.eqb (entry_name e) name) dir with
    | Some e =>
        if is_file e then
          let fd := next_fd w in
          (Ok fd, with_files (open_files w ++ [(fd, mk_file_obj name (content e) 0)])
                             (S fd) w)
        else (Raise OSError, w)
    | None => (Raise OSError, w)
    end.

(** [file.seek(pos, 0)] *)
Definition seek (fd : nat) (pos : Z) : M unit :=
  fun w =>
    match dict_get fd (open_files w) with
    | None => (Raise ValueError, w)
    | Some f =>
        if (pos <? 0)%Z then (Raise OSError, w)
        else (Ok tt, with_files (dict_set fd (mk_file_obj (f_name f) (f_bytes f) pos)
                                          (open_files w)) (next_fd w) w)
    end.

(** [file.read(n)]: [-1] reads to the end, a length below [-1] is refused *)
Definition read_bytes (fd : nat) (n : Z) : M string :=
  fun w =>
    match dict_get fd (open_files w) with
    | None => (Raise ValueError, w)
    | Some f =>
        if (n <? -1)%Z then (Raise ValueError, w) else
        let rest := PyStr.drop (Z.to_nat (f_pos f)) (f_bytes f) in
        let got := if (n =? -1)%Z then rest else PyStr.take (Z.to_nat n) rest in
        (Ok got,
         with_files (dict_set fd (mk_file_obj (f_name f) (f_bytes f)
                                    (f_pos f + Z.of_nat (String.length got)))
                              (open_files w)) (next_fd w) w)
    end.

(** [file.close()] *)
Definition close (fd : nat) : M unit :=
  fun w =>
    (Ok tt, with_files (filter (fun p => fst p <> fd) (open_files w)) (next_fd w) w).

(** *** Constants of [WSxMFuncs] *)

Definition DATA_TYPES : list (string * (nat * ascii)) :=
  [("short", (2, "h"%char)); ("short-data", (2, "h"%char));
   ("unsignedshort", (2, "H"%char));
   ("integer-data", (4, "i"%char)); ("signedinteger", (4, "i"%char));
   ("float-data", (4, "f"%char)); ("double", (8, "d"%char))].

Definition SPECT_DICT : list (string * string) :=
  [("Forward", "approach"); ("Backward", "retract");
   ("b", "retract"); ("f", "approach")].

(** *** Paths *)

Definition four_digits (s : string) : bool :=
  match s with
  | String a (String b (String c (String d _))) =>
      PyStr.is_digit a && PyStr.is_digit b && PyStr.is_digit c && PyStr.is_digit d
  | _ => false
  end.

(** [re.search(r'\_\d{4}', filename)]: where the first match starts *)
Fixpoint search_run_index (s : string) : option nat :=
  match s with
  | EmptyString => None
  | String c s' =>
      if PyStr.eqc c "_" && four_digits s' then Some 0
      else option_map S (search_run_index s')
  end.

(** [path.suffix] *)
Definition suffix (name : string) : string :=
  match PyStr.rfind "." name with
  | Some (S i) => if S i <? String.length name - 1 then PyStr.drop (S i) name
                  else EmptyString
  | _ => EmptyString
  end.

Fixpoint remove_path (x : string) (l : list string) : res (list string) :=
  match l with
  | [] => Raise ValueError
  | y :: l' => if String.eqb y x then Ok l'
               else rbind (remove_path x l') (fun r => Ok (y :: r))
  end.

(** [WSxMFuncs._wsxm_get_common_files(filepath, ext=None)] *)
Definition _wsxm_get_common_files (dir : directory) (filepath : string)
           (ext : option string) : res (list string) :=
  let filename := filepath in
  match search_run_index filename with
  | None => Ok [filepath]
  | Some start =>
      let filename_com := PyStr.take (start + 5) filename in
      let files :=
        map entry_name
            (List.filter
               (fun e =>
                  let path_ext_i := suffix (entry_name e) in
                  match ext with
                  | Some x => String.eqb path_ext_i x
                  | None => true
                  end
                  && is_file e && PyStr.startswith filename_com (entry_name e))
               dir) in
      rbind (remove_path filepath files) (fun files => Ok (filepath :: files))
  end.

(** *** Headers *)

(** [header_dict[key]] used as a string *)
Definition hget (key : string) (h : header) : res string :=
  match dict_get key h with
  | None => Raise (KeyError key)
  | Some (HStr s) => Ok s
  | Some _ => Raise AttributeError
  end.

Definition words (s : string) : list string := PyStr.split " " s.
Definition word0 (s : string) : string := hd EmptyString (words s).
Definition word_last (s : string) : string := PyStr.last_or EmptyString (words s).

(** [float(header_dict[key].split(' ')[0])] *)
Definition hfloat0 (key : string) (h : header) : res Q :=
  rbind (hget key h) (fun s => PyNum.float (word0 s)).

(** [float(header_dict[key].split(' ')[0])] for a value the code never uses:
    only the syntax matters *)
Definition hfloat0_unused (key : string) (h : header) : res unit :=
  rbind (hget key h) (fun s =>
  match PyNum.parse_float (word0 s) with
  | Some _ => Ok tt
  | None => Raise ValueError
  end).

(** [int(header_dict[key])] *)
Definition hint (key : string) (h : header) : res Z :=
  rbind (hget key h) PyStr.int.

Fixpoint find_header_size (lines : list string) : res (option Z) :=
  match lines with
  | [] => Ok None
  | ln :: rest =>
      match PyStr.split ":" ln with
      | [k; v] =>
          if String.eqb k "Image header size"
          then rbind (PyStr.int v) (fun n => Ok (Some n))
          else find_header_size rest
      | _ => find_header_size rest
      end
  end.

Definition header_line (st : header * list string) (ln : string)
  : res (header * list string) :=
  let '(header_dict, title_list) := st in
  match PyStr.split ":" ln with
  | [k; v] =>
      rbind (or_raise IndexError (last title_list)) (fun title =>
      let header_name := PyStr.strip (PyStr.strip k ++ " " ++ title) in
      Ok (dict_set header_name (HStr (PyStr.strip v)) header_dict, title_list))
  | [t] =>
      if negb (String.eqb t EmptyString) then Ok (header_dict, title_list ++ [t])
      else Ok st
  | _ => Ok st
  end.

(** [WSxMFuncs._wsxm_readheader(file, pos=0, inibyte=100)] *)
Definition _wsxm_readheader (file : nat) (pos : Z) : M (header * Z) :=
  seek file pos ;;;
  data <~ read_bytes file 100 ;;
  found <~ se_lift (find_header_size (PyStr.splitlines data)) ;;
  seek file pos ;;;
  header_size <~ se_lift (or_raise (UnboundLocalError "header_size") found) ;;
  data <~ read_bytes file header_size ;;
  st <~ se_lift (rfold header_line (PyStr.splitlines data) ([], [])) ;;
  se_ret (fst st, (pos + header_size)%Z).

(** *** Images *)

(** [z_len/(z_max-z_min)], or 1 for zero data *)
Definition base_calib (z_len z_max z_min : Q) : res Q :=
  if PyNum.is_zero z_len then Ok 1%Q else PyNum.div z_len (z_max - z_min)%Q.

(** the unit of the channel and the correction of the amplitude channel *)
Definition amplitude_fix (header_dict : header) (chan_label : string) (z_calib : Q)
  : res (Q * string) :=
  rbind (hget "Z Amplitude [General Info]" header_dict) (fun zamp =>
  let z_unit := word_last zamp in
  if String.eqb chan_label "Amplitude" then
    rbind (or_raise IndexError (words zamp !! 1)) (fun declared =>
    if negb (String.eqb declared "V") then
      rbind (hfloat0 "Conversion Factor 00 [General Info]" header_dict) (fun chan_factor =>
      rbind (PyNum.div z_calib chan_factor) (fun z_calib => Ok (z_calib, "V")))
    else Ok (z_calib, z_unit))
  else Ok (z_calib, z_unit)).

Definition lookup_type (data_format : string) : res (nat * ascii) :=
  or_raise (KeyError data_format) (dict_get data_format DATA_TYPES).

(** [a.reshape(x_num, y_num)] for counts that are not negative *)
Definition reshape2 (a : list Q) (x_num y_num : Z) : res ndarray :=
  np_reshape (mk_ndarray [length a] a) [Z.to_nat x_num; Z.to_nat y_num].

Definition x_y_offset (header_dict : header) : res (Q * Q) :=
  if dict_mem "X starting offset [General Info]" header_dict then
    rbind (hfloat0 "X starting offset [General Info]" header_dict) (fun x_offset =>
    rbind (hfloat0 "Y starting offset [General Info]" header_dict) (fun y_offset =>
    Ok (x_offset, y_offset)))
  else Ok (0%Q, 0%Q).

(** [WSxMFuncs._wsxm_readimg(file, header_dict, pos)] *)
Definition _wsxm_readimg (file : nat) (header_dict : header) (pos : Z)
  : M (image * Z) :=
  data_format <~ se_lift (hget "Image Data Type [General Info]" header_dict) ;;
  chan_label <~ se_lift (hget "Acquisition channel [General Info]" header_dict) ;;
  line_rate <~ se_lift (hfloat0_unused "X-Frequency [Control]" header_dict) ;;
  x_num <~ se_lift (hint "Number of rows [General Info]" header_dict) ;;
  y_num <~ se_lift (hint "Number of columns [General Info]" header_dict) ;;
  x_len <~ se_lift (hfloat0 "X Amplitude [Control]" header_dict) ;;
  y_len <~ se_lift (hfloat0 "Y Amplitude [Control]" header_dict) ;;
  z_len <~ se_lift (hfloat0 "Z Amplitude [General Info]" header_dict) ;;
  z_min <~ se_lift (rbind (hget "Minimum [Miscellaneous]" header_dict) PyNum.float) ;;
  z_max <~ se_lift (rbind (hget "Maximum [Miscellaneous]" header_dict) PyNum.float) ;;
  offs <~ se_lift (x_y_offset header_dict) ;;
  let '(x_offset, y_offset) := offs in
  x_data <~ se_lift (PyNum.linspace x_offset (x_len + x_offset)%Q x_num) ;;
  y_data <~ se_lift (PyNum.linspace (y_len + y_offset)%Q y_offset y_num) ;;
  (* read binary image data *)
  ty <~ se_lift (lookup_type data_format) ;;
  let '(point_length, type_code) := ty in
  seek file pos ;;;
  let data_len := (x_num * y_num * Z.of_nat point_length)%Z in
  bin_data <~ read_bytes file data_len ;;
  ch_array <~ se_lift (Struct.iter_unpack point_length type_code bin_data) ;;
  z_calib <~ se_lift (base_calib z_len z_max z_min) ;;
  cal <~ se_lift (amplitude_fix header_dict chan_label z_calib) ;;
  let '(z_calib, z_unit) := cal in
  Zmat <~ se_lift (reshape2 (map (fun v => (z_calib * v)%Q) ch_array) x_num y_num) ;;
  xamp <~ se_lift (hget "X Amplitude [Control]" header_dict) ;;
  yamp <~ se_lift (hget "Y Amplitude [Control]" header_dict) ;;
  se_ret (mk_image Zmat x_data y_data header_dict z_unit
                   (word_last xamp) (word_last yamp),
          (pos + data_len)%Z).

(** [np.flip(a.T)] for a two-dimensional array *)
Definition flip_transpose (a : ndarray) : ndarray :=
  match shape a with
  | [r; c] =>
      mk_ndarray [c; r]
        (concat (map (fun i =>
                   map (fun j => NdSlice.at_flat a ((r - 1 - j) * c + (c - 1 - i)))
                       (seq 0 r))
                 (seq 0 c)))
  | _ => a
  end.

Section Readers.
Variable strict : bool.
Variable dir : directory.

(** the body of the loop of [WSxM2DReader.read] *)
Definition read2d_file (st : list (string * Dataset header) * nat) (path_i : string)
  : M (list (string * Dataset header) * nat) :=
  let '(datasets, channel_number) := st in
  let path_ext := suffix path_i in
  if negb (String.eqb path_ext ".gsi") then
    file <~ open_ dir path_i ;;
    hp <~ _wsxm_readheader file 0 ;;
    let '(header_dict, pos) := hp in
    let header_dict := dict_set "File path" (HPath path_i) header_dict in
    chan_label <~ se_lift (hget "Acquisition channel [General Info]" header_dict) ;;
    ip <~ _wsxm_readimg file header_dict pos ;;
    let '(data_dict_chan, pos) := ip in
    close file ;;;
    x_dir <~ se_lift
      (if dict_mem "X scanning direction [General Info]" header_dict
       then rbind (hget "X scanning direction [General Info]" header_dict)
                  (fun s => Ok (DirStr s))
       else Ok DirNone) ;;
    data_set <~ se_lift (Sidpy.from_array (Some (flip_transpose (img_Z data_dict_chan)))
                                          chan_label None) ;;
    let data_set := Sidpy.set_units (img_unit_Z data_dict_chan) data_set in
    let data_set := Sidpy.set_quantity chan_label data_set in
    let data_set := Sidpy.set_direction x_dir data_set in
    let data_set := Sidpy.set_data_type "image" data_set in
    data_set <~ se_lift (Sidpy.set_dimension strict data_set 0
       (mk_Dimension (img_X data_dict_chan) "x" (img_unit_X data_dict_chan)
                     "x" "spatial")) ;;
    data_set <~ se_lift (Sidpy.set_dimension strict data_set 1
       (mk_Dimension (img_Y data_dict_chan) "y" (img_unit_Y data_dict_chan)
                     "y" "spatial")) ;;
    let data_set := Sidpy.set_metadata (img_header data_dict_chan) data_set in
    let key_channel := channel_key channel_number in
    se_ret (dict_set key_channel data_set datasets, S channel_number)
  else se_ret st.

(** [WSxM2DReader.read(self)] *)
Definition WSxM2DReader_read (filepath : string) : M (list (string * Dataset header)) :=
  filepath_all <~ se_lift (_wsxm_get_common_files dir filepath None) ;;
  st <~ se_fold read2d_file filepath_all ([], 0) ;;
  se_ret (fst st).

(** *** The store of the 1-D reader *)

Definition cell {A} (l : list A) (loc : nat) : res A :=
  or_raise (OutsideModel "dangling reference") (l !! loc).

Definition alloc_top (t : top_dict) : M nat :=
  fun w => (Ok (length (tops w)), with_tops (tops w ++ [t]) w).
Definition get_top (loc : nat) : M top_dict := fun w => (cell (tops w) loc, w).
Definition set_top (loc : nat) (t : top_dict) : M unit :=
  fun w => (Ok tt, with_tops (<[loc := t]> (tops w)) w).

Definition alloc_curves (c : curves_dict) : M nat :=
  fun w => (Ok (length (curves_h w)), with_curves (curves_h w ++ [c]) w).
Definition get_curves (loc : nat) : M curves_dict := fun w => (cell (curves_h w) loc, w).
Definition set_curves (loc : nat) (c : curves_dict) : M unit :=
  fun w => (Ok tt, with_curves (<[loc := c]> (curves_h w)) w).

Definition alloc_data (d : data_dict) : M nat :=
  fun w => (Ok (length (data_h w)), with_data (data_h w ++ [d]) w).
Definition get_data (loc : nat) : M data_dict := fun w => (cell (data_h w) loc, w).
Definition set_data (loc : nat) (d : data_dict) : M unit :=
  fun w => (Ok tt, with_data (<[loc := d]> (data_h w)) w).

Definition alloc_header (h : header) : M nat :=
  fun w => (Ok (length (header_h w)), with_headers (header_h w ++ [h]) w).
Definition get_header (loc : nat) : M header := fun w => (cell (header_h w) loc, w).
Definition set_header (loc : nat) (h : header) : M unit :=
  fun w => (Ok tt, with_headers (<[loc := h]> (header_h w)) w).

Definition alloc_paths (p : list string) : M nat :=
  fun w => (Ok (length (paths_h w)), with_paths (paths_h w ++ [p]) w).
Definition get_paths (loc : nat) : M (list string) := fun w => (cell (paths_h w) loc, w).
Definition set_paths (loc : nat) (p : list string) : M unit :=
  fun w => (Ok tt, with_paths (<[loc := p]> (paths_h w)) w).

Definition key_lookup {V} (k : curve_key) (d : list (curve_key * V)) : res V :=
  or_raise (KeyError (match k with KInt z => PyStr.of_Z z | KStr s => s end))
              (dict_get k d).

Definition when (b : bool) (m : M unit) : M unit := if b then m else se_ret tt.

(** *** [.stp] files *)

(** [re.search(r'line\_\d{1}', s)]: where the first match starts *)
Fixpoint search_line_tag (s : string) : option nat :=
  match s with
  | EmptyString => None
  | String _ s' =>
      if PyStr.startswith "line_" s
         && match PyStr.drop 5 s with
            | String d _ => PyStr.is_digit d
            | EmptyString => false
            end
      then Some 0
      else option_map S (search_line_tag s')
  end.

(** [a[-2]] of a list *)
Definition second_last {A} (l : list A) : res A :=
  or_raise IndexError (rev l !! 1).

(** channel label and direction of the ramp, from the file name *)
Definition stp_label_dir (filename x_dir : string) : res (string * string) :=
  rbind (second_last (PyStr.split "." filename)) (fun file_dirkey =>
  if String.length file_dirkey =? 1 then
    let chan_label :=
      hd EmptyString
         (PyStr.split "." (PyStr.last_or EmptyString (PyStr.split "_" filename))) in
    rbind (lookup_key file_dirkey SPECT_DICT) (fun z_dir => Ok (chan_label, z_dir))
  else
    rbind (or_raise AttributeError (search_line_tag file_dirkey)) (fun start =>
    let chan_label :=
      PyStr.last_or EmptyString (PyStr.split "_" (PyStr.take start file_dirkey)) in
    (* TODO: FIX THIS! NOT CORRECT! ALSO INVERT CONDITION ADD *)
    rbind (lookup_key x_dir SPECT_DICT) (fun z_dir => Ok (chan_label, z_dir)))).

(** [ch_array.reshape(x_num, y_num)] where [x_num] may be the placeholder
    -1; [y_num] is not negative *)
Definition reshape_rows (a : list Q) (x_num y_num : Z) : res ndarray :=
  if (0 <=? x_num)%Z then reshape2 a x_num y_num
  else if (x_num =? -1)%Z then
    let c := Z.to_nat y_num in
    if (0 <? c) && (length a mod c =? 0)
    then Ok (mk_ndarray [length a / c; c] a)
    else Raise ValueError
  else Raise ValueError.

(** [z_len/(ch_array.max()-ch_array.min())] with numpy numbers: a zero
    range gives an infinity *)
Definition range_calib (z_len : Q) (ch_array : list Q) : res Q :=
  if PyNum.is_zero z_len then Ok 1%Q
  else match PyNum.Qmax_list ch_array, PyNum.Qmin_list ch_array with
       | Some mx, Some mn =>
           if PyNum.is_zero (mx - mn)%Q then Raise (OutsideModel "non-finite float")
           else Ok (z_len / (mx - mn))%Q
       | _, _ => Raise ValueError
       end.

(** [ch_mat[:][i]] *)
Definition row (m : ndarray) (i : nat) : list Q :=
  match shape m with
  | [_; c] => NdSlice.block m (i * c) c
  | _ => []
  end.

Record stp_file : Type := mk_stp_file {
  stp_path : string;
  stp_chan_label : string;
  stp_z_dir : string;
  stp_x_dir : string;
  stp_header : header;
  stp_x_num : Z;
  stp_z_data : list Q;
  stp_z_calib : Q;
  stp_ch_mat : ndarray
}.

(** [if chan_label not in data_dict.keys(): data_dict[chan_label] = {'curves': {}, 'image': {}}];
    the result is [data_dict[chan_label]] *)
Definition stp_channel (data_dict : nat) (chan_label : string) : M outer :=
  top <~ get_top data_dict ;;
  (if negb (dict_mem chan_label top) then
     c <~ alloc_curves [] ;;
     set_top data_dict (dict_set chan_label (mk_outer c None) top)
   else se_ret tt) ;;;
  top <~ get_top data_dict ;;
  se_lift (lookup_key chan_label top).

(** [if curv_ind not in data_dict[chan_label]['curves'].keys(): ...] with the
    two insertions into the copy of the header; the result is
    [data_dict[chan_label]['curves'][curv_ind]] *)
Definition stp_entry (f : stp_file) (o : outer) (i : nat) : M entry :=
  let header_dict := stp_header f in
  let curv_ind := KInt (Z.of_nat i + 1) in
  curves <~ get_curves (o_curves o) ;;
  (if negb (dict_mem curv_ind curves) then
     d <~ alloc_data [] ;;
     h <~ alloc_header header_dict ;;
     xamp <~ se_lift (hget "X Amplitude [Control]" header_dict) ;;
     zamp <~ se_lift (hget "Z Amplitude [General Info]" header_dict) ;;
     set_curves (o_curves o)
       (dict_set curv_ind (mk_entry d h (mk_units_xy (word_last xamp) (word_last zamp)))
                 curves) ;;;
     (* insert curve number info into header *)
     hd1 <~ get_header h ;;
     set_header h (dict_set "Index of this Curve [Control]"
                            (HStr (PyStr.of_Z (Z.of_nat i + 1))) hd1) ;;;
     hd2 <~ get_header h ;;
     set_header h (dict_set "Number of Curves in this serie [Control]"
                            (HStr (PyStr.of_Z (stp_x_num f))) hd2)
   else se_ret tt) ;;;
  curves <~ get_curves (o_curves o) ;;
  se_lift (key_lookup curv_ind curves).

(** [if z_dir not in ...['data'].keys(): ...['data'][z_dir] = {}] *)
Definition stp_direction (e : entry) (z_dir : string) : M unit :=
  data <~ get_data (e_data e) ;;
  when (negb (dict_mem z_dir data))
       (set_data (e_data e) (dict_set z_dir (mk_xy None None) data)).

(** [if filepath not in ...['header']['File path']: ...append(filepath)] *)
Definition stp_file_path (e : entry) (filepath : string) : M unit :=
  hdr <~ get_header (e_header e) ;;
  fpv <~ se_lift (lookup_key "File path" hdr) ;;
  match fpv with
  | HPaths l =>
      paths <~ get_paths l ;;
      when (negb (existsb (String.eqb filepath) paths))
           (set_paths l (paths ++ [filepath]))
  | HPath _ | HStr _ => se_raise TypeError
  end.

(** [...['data'][z_dir][key] = value]: the dictionary of the direction
    [z_dir] becomes [g] of what it was *)
Definition assign_xy (e : entry) (z_dir : string) (g : xy -> xy) : M unit :=
  data <~ get_data (e_data e) ;;
  c <~ se_lift (lookup_key z_dir data) ;;
  set_data (e_data e) (dict_set z_dir (g c) data).

(** the assignments of ['x'] and ['y'] of one direction of a curve *)
Definition stp_xy (f : stp_file) (e : entry) (i : nat) : M unit :=
  let z_dir := stp_z_dir f in
  assign_xy e z_dir (fun c => mk_xy (Some (stp_z_data f)) (xy_y c)) ;;;
  let y := map (fun v => (stp_z_calib f * v)%Q) (row (stp_ch_mat f) i) in
  assign_xy e z_dir (fun c => mk_xy (xy_x c) (Some y)) ;;;
  if String.eqb (stp_x_dir f) "Forward" then
    assign_xy e z_dir (fun c => mk_xy (xy_x c) (Some (rev y)))
  else se_ret tt.

(** the body of the loop [for i in range(x_num)] of [_wsxm_readstp] *)
Definition stp_curve (f : stp_file) (data_dict : nat) (i : nat) : M unit :=
  o <~ stp_channel data_dict (stp_chan_label f) ;;
  e <~ stp_entry f o i ;;
  stp_direction e (stp_z_dir f) ;;;
  stp_file_path e (stp_path f) ;;;
  stp_xy f e i.

Definition range (n : Z) : list nat := seq 0 (Z.to_nat n).

(** the part of [_wsxm_readstp] before its loop: header and binary data *)
Definition stp_parse (filepath : string) (file : nat) : M stp_file :=
  let filename := filepath in
  hp <~ _wsxm_readheader file 0 ;;
  let '(header_dict, pos) := hp in
  fp <~ alloc_paths [filepath] ;;
  let header_dict := dict_set "File path" (HPaths fp) header_dict in
  data_format <~ se_lift (hget "Image Data Type [General Info]" header_dict) ;;
  x_num <~ se_lift (hint "Number of rows [General Info]" header_dict) ;;
  y_num <~ se_lift (hint "Number of columns [General Info]" header_dict) ;;
  x_len <~ se_lift (hfloat0 "X Amplitude [Control]" header_dict) ;;
  y_len <~ se_lift (hfloat0_unused "Y Amplitude [Control]" header_dict) ;;
  z_len <~ se_lift (hfloat0 "Z Amplitude [General Info]" header_dict) ;;
  x_dir <~ se_lift (hget "X scanning direction [General Info]" header_dict) ;;
  y_dir <~ se_lift (hget "Y scanning direction [General Info]" header_dict) ;;
  ld <~ se_lift (stp_label_dir filename x_dir) ;;
  let '(chan_label, z_dir) := ld in
  dsp_voltrange <~ se_lift (hfloat0_unused "DSP voltage range [Miscellaneous]" header_dict) ;;
  offs <~ se_lift (x_y_offset header_dict) ;;
  let '(x_offset, y_offset) := offs in
  let header_dict := dict_set "Spectroscopy channel" (HStr chan_label) header_dict in
  z_data <~ se_lift (PyNum.linspace x_offset (x_offset + x_len)%Q y_num) ;;
  ty <~ se_lift (lookup_type data_format) ;;
  let '(point_length, type_code) := ty in
  seek file pos ;;;
  let data_len := (x_num * y_num * Z.of_nat point_length)%Z in
  bin_data <~ read_bytes file data_len ;;
  ch_array <~ se_lift (Struct.iter_unpack point_length type_code bin_data) ;;
  ch_mat <~ se_lift (reshape_rows ch_array x_num y_num) ;;
  z_calib <~ se_lift (range_calib z_len ch_array) ;;
  se_ret (mk_stp_file filepath chan_label z_dir x_dir header_dict x_num z_data
                      z_calib ch_mat).

(** [WSxMFuncs._wsxm_readstp(filepath, data_dict)]; [data_dict] is the
    reference the caller passes, or [readstp_default] when it passes none *)
Definition stp_store (f : stp_file) (data_dict : nat) : M unit :=
  se_fold (fun _ i => stp_curve f data_dict i) (range (stp_x_num f)) tt.

Definition _wsxm_readstp (filepath : string) (data_dict : nat) : M (nat * string) :=
  file <~ open_ dir filepath ;;
  f <~ stp_parse filepath file ;;
  stp_store f data_dict ;;;
  close file ;;;
  se_ret (data_dict, stp_chan_label f).

(** *** [.curves] and [.cur] files *)

(** [header_dict[key].split('[')[0].strip()] *)
Definition axis_label (key : string) (h : header) : res string :=
  rbind (hget key h) (fun s => Ok (PyStr.strip (hd EmptyString (PyStr.split "[" s)))).

(** [tuple(map(float, s.replace('nm','').replace('(','').replace(')','').split(',')))]
    unpacked into two names that are not used afterwards *)
Definition acquisition_point (h : header) : res unit :=
  rbind (hget "Acquisition point [Control]" h) (fun s =>
  let parts := PyStr.split ","
                 (PyStr.remove_all ")" (PyStr.remove_all "(" (PyStr.remove_all "nm" s))) in
  if forallb (fun p => match PyNum.parse_float p with Some _ => true | None => false end)
             parts && (length parts =? 2)
  then Ok tt else Raise ValueError).

Definition line_order_of (h : header) : res (list string) :=
  rbind (hget "First Forward [Miscellaneous]" h) (fun ff =>
  Ok (if String.eqb ff "No" then ["retract"; "approach"] else ["approach"; "retract"])).

(** [chan_fact], negated for an inverted channel *)
Definition channel_factor (h : header) : res Q :=
  rbind (hfloat0 "Conversion Factor 00 [General Info]" h) (fun chan_fact =>
  rbind (hget "Channel is inverted [General Info]" h) (fun chan_inv =>
  Ok (if String.eqb chan_inv "Yes" then (- chan_fact)%Q else chan_fact))).

(** [a[::2]] and [a[1::2]] *)
Fixpoint evens {A} (l : list A) : list A :=
  match l with
  | x :: _ :: l' => x :: evens l'
  | [x] => [x]
  | [] => []
  end.
Definition odds {A} (l : list A) : list A := evens (tail l).

(** [np.split(a, n)]: [len(a) % n] comes first *)
Definition np_split (a : list Q) (n : Z) : res (list (list Q)) :=
  if (n =? 0)%Z then Raise ZeroDivisionError
  else if (n <? 0)%Z then Raise ValueError
  else
    let k := Z.to_nat n in
    if negb (length a mod k =? 0) then Raise ValueError
    else let w := length a / k in
         Ok (map (fun i => firstn w (skipn (i * w) a)) (seq 0 k)).

(** [f'{curv_ind}{chr(ord("a")+j)}' if line_num > 2 else curv_ind] *)
Definition sub_index (curv_ind : curve_key) (line_num : Z) (j : nat) : curve_key :=
  if (2 <? line_num)%Z then
    KStr (match curv_ind with KInt z => PyStr.of_Z z | KStr s => s end
          ++ String (ascii_of_nat (97 + j)) EmptyString)
  else curv_ind.

(** [a | b] on dictionaries *)
Definition dict_union (a b : header) : header :=
  fold_left (fun d kv => dict_set (fst kv) (snd kv) d) b a.

(** [int(line_num/len(line_order))] *)
Definition sections (line_num : Z) (line_order : list string) : res Z :=
  if length line_order =? 0 then Raise ZeroDivisionError
  else Ok (Z.quot line_num (Z.of_nat (length line_order))).

Definition file_size (file : nat) : M nat :=
  fun w => match dict_get file (open_files w) with
           | Some f => (Ok (String.length (f_bytes f)), w)
           | None => (Raise ValueError, w)
           end.

(** one turn of the loop [while True] of [_wsxm_readcurves]: [inl pos] to go
    on at [pos], [inr y_label] after [break] *)
Definition curves_turn (filepath : string) (file : nat) (header_dict_top : header)
           (point_length : nat) (type_code : ascii) (data_dict_curv : nat) (pos : Z)
  : M (Z + string) :=
  hp <~ _wsxm_readheader file pos ;;
  let '(header_dict, pos) := hp in
  let header_dict := dict_set "File path" (HPath filepath) header_dict in
  line_pts <~ se_lift (hint "Number of points [General Info]" header_dict) ;;
  line_num <~ se_lift (hint "Number of lines [General Info]" header_dict) ;;
  y_label <~ se_lift (axis_label "Y axis text [General Info]" header_dict) ;;
  x_label <~ se_lift (axis_label "X axis text [General Info]" header_dict) ;;
  curv_ind <~ se_lift (hint "Index of this Curve [Control]" header_dict) ;;
  curv_num <~ se_lift (hint "Number of Curves in this serie [Control]" header_dict) ;;
  chan_fact <~ se_lift (channel_factor header_dict) ;;
  chan_offs <~ se_lift (hfloat0 "Conversion Offset 00 [General Info]" header_dict) ;;
  se_lift (acquisition_point header_dict) ;;;
  se_lift (hfloat0_unused "Forward plot total time [Control]" header_dict) ;;;
  se_lift (hfloat0_unused "Backward plot total time [Control]" header_dict) ;;;
  let header_dict := dict_set "Spectroscopy channel" (HStr y_label) header_dict in
  line_order <~ se_lift (line_order_of header_dict) ;;
  let data_len := (line_pts * line_num * 2 * Z.of_nat point_length)%Z in
  seek file pos ;;;
  if (line_pts =? 0)%Z then se_ret (inl pos)   (* continue *)
  else
    bin_data <~ read_bytes file data_len ;;
    ch_array <~ se_lift (Struct.iter_unpack point_length type_code bin_data) ;;
    x_data <~ se_lift (np_split (evens ch_array) line_num) ;;
    y_data <~ se_lift (np_split (odds ch_array) line_num) ;;
    se_fold (fun _ j =>
      let k := length line_order * j in
      let curv_ind_j := sub_index (KInt curv_ind) line_num j in
      h <~ alloc_header (dict_union header_dict_top header_dict) ;;
      d <~ alloc_data [] ;;
      ux <~ se_lift (hget "X axis unit [General Info]" header_dict) ;;
      uy <~ se_lift (hget "Conversion Factor 00 [General Info]" header_dict) ;;
      curves <~ get_curves data_dict_curv ;;
      set_curves data_dict_curv
        (dict_set curv_ind_j (mk_entry d h (mk_units_xy ux (word_last uy))) curves) ;;;
      se_fold (fun _ ic =>
        let '(i, curv_dir) := ic in
        curves <~ get_curves data_dict_curv ;;
        e <~ se_lift (key_lookup curv_ind_j curves) ;;
        xs <~ se_lift (or_raise IndexError (x_data !! (k + i))) ;;
        ys <~ se_lift (or_raise IndexError (y_data !! (k + i))) ;;
        data <~ get_data (e_data e) ;;
        set_data (e_data e)
          (dict_set curv_dir
             (mk_xy (Some xs) (Some (map (fun v => (chan_offs + v * chan_fact)%Q) ys)))
             data))
        (combine (seq 0 (length line_order)) line_order) tt)
      (range (Z.quot line_num (Z.of_nat (length line_order)))) tt ;;;
    if (curv_ind =? curv_num)%Z then se_ret (inr y_label)
    else
      let pos := (pos + data_len)%Z in
      seek file pos ;;;
      se_ret (inl pos).

Fixpoint curves_loop (fuel : nat) (filepath : string) (file : nat)
         (header_dict_top : header) (point_length : nat) (type_code : ascii)
         (data_dict_curv : nat) (pos : Z) : M string :=
  match fuel with
  | 0 => se_raise (OutsideModel "the loop does not end")
  | S fuel' =>
      r <~ curves_turn filepath file header_dict_top point_length type_code
                       data_dict_curv pos ;;
      match r with
      | inl pos' => curves_loop fuel' filepath file header_dict_top point_length
                                type_code data_dict_curv pos'
      | inr y_label => se_ret y_label
      end
  end.

(** [WSxMFuncs._wsxm_readcurves(filepath)] *)
Definition _wsxm_readcurves (filepath : string) : M (nat * string) :=
  data_dict <~ alloc_top [] ;;
  file <~ open_ dir filepath ;;
  hp <~ _wsxm_readheader file 0 ;;
  let '(header_dict_top, pos) := hp in
  ip <~ _wsxm_readimg file header_dict_top pos ;;
  let '(data_dict_chan, pos) := ip in
  data_format <~ se_lift (hget "Image Data Type [General Info]" header_dict_top) ;;
  ty <~ se_lift (lookup_type data_format) ;;
  let '(point_length, type_code) := ty in
  data_dict_curv <~ alloc_curves [] ;;
  fuel <~ file_size file ;;
  y_label <~ curves_loop (S fuel) filepath file header_dict_top point_length
                         type_code data_dict_curv pos ;;
  top <~ get_top data_dict ;;
  set_top data_dict
          (dict_set y_label (mk_outer data_dict_curv (Some data_dict_chan)) top) ;;;
  close file ;;;
  se_ret (data_dict, y_label).

(** [np.array(data_list)]: the rows of a text table *)
Definition table (rows : list (list Q)) : res ndarray :=
  match rows with
  | [] => Ok (mk_ndarray [0] [])
  | r :: _ =>
      if forallb (fun r' => length r' =? length r) rows
      then Ok (mk_ndarray [length rows; length r] (concat rows))
      else Raise ValueError
  end.

(** [data_mat[:, c]] *)
Definition column (m : ndarray) (c : nat) : res (list Q) :=
  match shape m with
  | [n; w] => if c <? w then Ok (map (fun i => NdSlice.at_flat m (i * w + c)) (seq 0 n))
              else Raise IndexError
  | _ => Raise IndexError
  end.

Record cur_params : Type := mk_cur_params {
  cur_line_num : Z;
  cur_y_label : string;
  cur_ind : curve_key;
  cur_fact : Q;
  cur_offs : Q;
  cur_y_unit : string;
  cur_line_order : list string
}.

(** the two branches of [_wsxm_readcur] that read the header *)
Definition cur_header (header_dict : header) : res cur_params :=
  if dict_mem "Index of this Curve [Control]" header_dict then
    (* for spectroscopy curves *)
    rbind (hint "Number of points [General Info]" header_dict) (fun line_pts =>
    rbind (hint "Number of lines [General Info]" header_dict) (fun line_num =>
    rbind (axis_label "Y axis text [General Info]" header_dict) (fun y_label =>
    rbind (axis_label "X axis text [General Info]" header_dict) (fun x_label =>
    rbind (hget "Index of this Curve [Control]" header_dict) (fun ind =>
    rbind (if String.eqb ind "Average" then Ok (KStr ind)
           else rbind (PyStr.int ind) (fun z => Ok (KInt z))) (fun curv_ind =>
    rbind (hint "Number of Curves in this serie [Control]" header_dict) (fun curv_num =>
    rbind (hfloat0 "Conversion Factor 00 [General Info]" header_dict) (fun chan_fact =>
    rbind (hget "Conversion Factor 00 [General Info]" header_dict) (fun cf =>
    let y_unit := word_last cf in
    rbind (hget "Channel is inverted [General Info]" header_dict) (fun chan_inv =>
    let chan_fact := if String.eqb chan_inv "Yes" then (- chan_fact)%Q else chan_fact in
    rbind (hfloat0 "Conversion Offset 00 [General Info]" header_dict) (fun chan_offs =>
    rbind (acquisition_point header_dict) (fun _ =>
    rbind (hfloat0_unused "Forward plot total time [Control]" header_dict) (fun _ =>
    rbind (hfloat0_unused "Backward plot total time [Control]" header_dict) (fun _ =>
    rbind (line_order_of header_dict) (fun line_order =>
    Ok (mk_cur_params line_num y_label curv_ind chan_fact chan_offs y_unit
                      line_order))))))))))))))))
  else
    (* for other kinds of *.cur (e.g. tune data) *)
    rbind (hint "Number of points [General Info]" header_dict) (fun line_pts =>
    rbind (hint "Number of lines [General Info]" header_dict) (fun line_num =>
    rbind (axis_label "Y axis text [General Info]" header_dict) (fun y_label =>
    rbind (axis_label "X axis text [General Info]" header_dict) (fun x_label =>
    rbind (hget "Y axis unit [General Info]" header_dict) (fun y_unit =>
    let line_order :=
      map (fun ln_i => (y_label ++ "_" ++ PyStr.of_nat (ln_i + 1))%string)
          (range line_num) in
    Ok (mk_cur_params line_num y_label (KInt 1) 1%Q 0%Q y_unit line_order)))))).

(** one line of the text table of a [.cur] file *)
Definition cur_row (ln : string) : res (list Q) :=
  rmap PyNum.float (PyStr.split " " (PyStr.remove_all "#QNAN" (PyStr.strip ln))).

(** [WSxMFuncs._wsxm_readcur(filepath)] *)
Definition _wsxm_readcur (filepath : string) : M (nat * string) :=
  data_dict <~ alloc_top [] ;;
  file <~ open_ dir filepath ;;
  hp <~ _wsxm_readheader file 0 ;;
  let '(header_dict, pos) := hp in
  let header_dict := dict_set "File path" (HPath filepath) header_dict in
  p <~ se_lift (cur_header header_dict) ;;
  let y_label := cur_y_label p in
  let line_order := cur_line_order p in
  let header_dict := dict_set "Spectroscopy channel" (HStr y_label) header_dict in
  seek file pos ;;;
  data <~ read_bytes file (-1) ;;
  data_list <~ se_lift (rmap cur_row (PyStr.splitlines data)) ;;
  data_mat <~ se_lift (table data_list) ;;
  top <~ get_top data_dict ;;
  (if negb (dict_mem y_label top) then
     c <~ alloc_curves [] ;;
     set_top data_dict (dict_set y_label (mk_outer c None) top)
   else se_ret tt) ;;;
  n <~ se_lift (sections (cur_line_num p) line_order) ;;
  se_fold (fun _ j =>
    let k := 2 * length line_order * j in
    let curv_ind_j := sub_index (cur_ind p) (cur_line_num p) j in
    h <~ alloc_header header_dict ;;
    d <~ alloc_data [] ;;
    ux <~ se_lift (hget "X axis unit [General Info]" header_dict) ;;
    top <~ get_top data_dict ;;
    o <~ se_lift (lookup_key y_label top) ;;
    curves <~ get_curves (o_curves o) ;;
    set_curves (o_curves o)
      (dict_set curv_ind_j (mk_entry d h (mk_units_xy ux (cur_y_unit p))) curves) ;;;
    se_fold (fun _ ic =>
      let '(i, curv_dir) := ic in
      top <~ get_top data_dict ;;
      o <~ se_lift (lookup_key y_label top) ;;
      curves <~ get_curves (o_curves o) ;;
      e <~ se_lift (key_lookup curv_ind_j curves) ;;
      xs <~ se_lift (column data_mat (k + 2 * i)) ;;
      ys <~ se_lift (column data_mat (k + (2 * i + 1))) ;;
      data <~ get_data (e_data e) ;;
      set_data (e_data e)
        (dict_set curv_dir
           (mk_xy (Some xs)
                  (Some (map (fun v => (cur_offs p + v * cur_fact p)%Q) ys)))
           data))
      (combine (seq 0 (length line_order)) line_order) tt)
    (range n) tt ;;;
  close file ;;;
  se_ret (data_dict, y_label).

(** *** [WSxM1DReader] *)

(** the merge of one file's dictionary into [data_dict_chan]; [overwrite] is
    true for [.curves] files and false for [.stp] and [.cur] files *)
Definition merge_curve (overwrite : bool) (chan_label : string)
           (temp_dict data_dict_chan : nat) (curv_ind_i : curve_key) : M unit :=
  top <~ get_top data_dict_chan ;;
  oc <~ se_lift (lookup_key chan_label top) ;;
  cc <~ get_curves (o_curves oc) ;;
  if overwrite || negb (dict_mem curv_ind_i cc) then
    t <~ get_top temp_dict ;;
    ot <~ se_lift (lookup_key chan_label t) ;;
    ct <~ get_curves (o_curves ot) ;;
    e <~ se_lift (key_lookup curv_ind_i ct) ;;
    top <~ get_top data_dict_chan ;;
    oc <~ se_lift (lookup_key chan_label top) ;;
    cc <~ get_curves (o_curves oc) ;;
    set_curves (o_curves oc) (dict_set curv_ind_i e cc)
  else se_ret tt.

Definition merge_file (overwrite : bool) (chan_label : string)
           (temp_dict data_dict_chan : nat) : M unit :=
  top <~ get_top data_dict_chan ;;
  if negb (dict_mem chan_label top) then
    t <~ get_top temp_dict ;;
    o <~ se_lift (lookup_key chan_label t) ;;
    top <~ get_top data_dict_chan ;;
    set_top data_dict_chan (dict_set chan_label o top)
  else
    t <~ get_top temp_dict ;;
    ot <~ se_lift (lookup_key chan_label t) ;;
    ct <~ get_curves (o_curves ot) ;;
    se_fold (fun _ curv_ind_i =>
               merge_curve overwrite chan_label temp_dict data_dict_chan curv_ind_i)
            (dict_keys ct) tt.

(** the body of the first loop of [WSxM1DReader.read] *)
Definition read1d_file (data_dict_chan data_dict_stp : nat) (path_i : string) : M unit :=
  let path_ext := suffix path_i in
  if String.eqb path_ext ".curves" then
    r <~ _wsxm_readcurves path_i ;;
    merge_file true (snd r) (fst r) data_dict_chan
  else if String.eqb path_ext ".stp" then
    r <~ _wsxm_readstp path_i data_dict_stp ;;
    merge_file false (snd r) (fst r) data_dict_chan
  else if String.eqb path_ext ".cur" then
    r <~ _wsxm_readcur path_i ;;
    merge_file false (snd r) (fst r) data_dict_chan
  else se_ret tt.

(** [np.vstack(curve_list).T] *)
Definition vstack_T (curve_list : list (list Q)) : res ndarray :=
  match curve_list with
  | [] => Raise ValueError
  | c :: _ =>
      if forallb (fun c' => length c' =? length c) curve_list then
        Ok (mk_ndarray [length c; length curve_list]
              (concat (map (fun p =>
                         map (fun cv => match cv !! p with Some q => q | None => 0%Q end)
                             curve_list)
                       (seq 0 (length c)))))
      else Raise ValueError
  end.

Definition key_text (k : curve_key) : string :=
  match k with KInt z => PyStr.of_Z z | KStr s => s end.

(** the body of the inner loop that turns curves into datasets *)
Definition emit_curve (chan_i : string) (st : list (string * Dataset header) * nat)
           (kv : curve_key * entry) : M (list (string * Dataset header) * nat) :=
  let '(datasets, channel_number) := st in
  let '(curv_i, curvdata_i) := kv in
  data <~ get_data (e_data curvdata_i) ;;
  acc <~ se_lift
    (rfold (fun (acc : list (list Q) * list string * option (list Q)) dxy =>
              let '(curve_list, curve_dir_list, _) := acc in
              rbind (or_raise (KeyError "y") (xy_y (snd dxy))) (fun y =>
              rbind (or_raise (KeyError "x") (xy_x (snd dxy))) (fun x =>
              Ok (curve_list ++ [y], curve_dir_list ++ [fst dxy], Some x))))
           data ([], [], None)) ;;
  let '(curve_list, curve_dir_list, x_data_i) := acc in
  curve_matrix <~ se_lift (vstack_T curve_list) ;;
  data_set <~ se_lift (Sidpy.from_array (Some curve_matrix)
                         (chan_i ++ " (" ++ key_text curv_i ++ ")")%string None) ;;
  let data_set := Sidpy.set_units (u_y (e_units curvdata_i)) data_set in
  let data_set := Sidpy.set_quantity chan_i data_set in
  let data_set := Sidpy.set_direction (DirList curve_dir_list) data_set in
  let data_set := Sidpy.set_data_type "spectrum" data_set in
  x_data_i <~ se_lift (or_raise (UnboundLocalError "x_data_i") x_data_i) ;;
  data_set <~ se_lift (Sidpy.set_dimension strict data_set 0
     (mk_Dimension x_data_i "x" (u_x (e_units curvdata_i)) "x" "spatial")) ;;
  hdr <~ get_header (e_header curvdata_i) ;;
  let data_set := Sidpy.set_metadata hdr data_set in
  let key_channel := channel_key channel_number in
  se_ret (dict_set key_channel data_set datasets, S channel_number).

Definition emit_channel (st : list (string * Dataset header) * nat)
           (item : string * outer) : M (list (string * Dataset header) * nat) :=
  curves <~ get_curves (o_curves (snd item)) ;;
  se_fold (emit_curve (fst item)) curves st.

(** [WSxM1DReader.read(self)] *)
Definition WSxM1DReader_read (filepath : string) : M (list (string * Dataset header)) :=
  filepath_all <~ se_lift (_wsxm_get_common_files dir filepath None) ;;
  data_dict_chan <~ alloc_top [] ;;
  data_dict_stp <~ alloc_top [] ;;
  se_fold (fun _ path_i => read1d_file data_dict_chan data_dict_stp path_i)
          filepath_all tt ;;;
  top <~ get_top data_dict_chan ;;
  st <~ se_fold emit_channel top ([], 0) ;;
  se_ret (fst st).

(** *** [WSxM3DReader] *)

(** the dictionary [_wsxm_readforcevol] and [_wsxm_readmovie] return *)
Record volume : Type := mk_volume {
  vol_ZZ : ndarray;
  vol_X : list Q;
  vol_Y : list Q;
  vol_Z : list Q;
  vol_header : header;
  vol_unit_ZZ : string;
  vol_unit_X : string;
  vol_unit_Y : string;
  vol_unit_Z : string
}.

(** [a.reshape(chan_num, y_num, x_num)], [chan_num] may be the placeholder -1 *)
Definition reshape3 (a : list Q) (chan_num y_num x_num : Z) : res ndarray :=
  if (0 <=? chan_num)%Z then
    np_reshape (mk_ndarray [length a] a) [Z.to_nat chan_num; Z.to_nat y_num; Z.to_nat x_num]
  else if (chan_num =? -1)%Z then
    let c := (Z.to_nat y_num * Z.to_nat x_num) in
    if (0 <? c) && (length a mod c =? 0)
    then Ok (mk_ndarray [length a / c; Z.to_nat y_num; Z.to_nat x_num] a)
    else Raise ValueError
  else Raise ValueError.

(** the frames [1 .. chan_num] of a file, each scaled by [scale] *)
Definition read_frames (file : nat) (point_length : nat) (type_code : ascii)
           (data_len : Z) (scale : Q -> Q) (chan_num : Z) (pos : Z) : M (list Q) :=
  r <~ se_fold (fun (acc : list Q * Z) (_ : nat) =>
                  let '(ch_array, pos) := acc in
                  seek file pos ;;;
                  bin_data <~ read_bytes file data_len ;;
                  ch_array_temp <~ se_lift (Struct.iter_unpack point_length type_code
                                                               bin_data) ;;
                  se_ret (ch_array ++ map scale ch_array_temp, (pos + data_len)%Z))
               (range chan_num) ([], pos) ;;
  se_ret (fst r).

(** [WSxMFuncs._wsxm_readforcevol(filepath)] *)
Definition _wsxm_readforcevol (filepath : string) : M (volume * string * ndarray) :=
  file <~ open_ dir filepath ;;
  hp <~ _wsxm_readheader file 0 ;;
  let '(header_dict, pos) := hp in
  let header_dict := dict_set "File path" (HPath filepath) header_dict in
  data_format <~ se_lift (hget "Image Data Type [General Info]" header_dict) ;;
  chan_label <~ se_lift (hget "Acquisition channel [General Info]" header_dict) ;;
  spec_dir <~ se_lift (hget "Spectroscopy type [General Info]" header_dict) ;;
  x_num <~ se_lift (hint "Number of rows [General Info]" header_dict) ;;
  y_num <~ se_lift (hint "Number of columns [General Info]" header_dict) ;;
  chan_num <~ se_lift (hint "Number of points per ramp [General Info]" header_dict) ;;
  x_len <~ se_lift (hfloat0 "X Amplitude [Control]" header_dict) ;;
  y_len <~ se_lift (hfloat0 "Y Amplitude [Control]" header_dict) ;;
  z_len <~ se_lift (hfloat0 "Z Amplitude [General Info]" header_dict) ;;
  chan_adc2v <~ se_lift (hfloat0 "ADC to V conversion factor [General Info]" header_dict) ;;
  chan_fact <~ se_lift (hfloat0 "Conversion factor 0 for input channel [General Info]"
                                header_dict) ;;
  chan_offs <~ se_lift (hfloat0 "Conversion offset 0 for input channel [General Info]"
                                header_dict) ;;
  chan_inv <~ se_lift (hget "Channel is inverted [General Info]" header_dict) ;;
  let chan_fact := if String.eqb chan_inv "Yes" then (- chan_fact)%Q else chan_fact in
  x_data <~ se_lift (PyNum.linspace 0 x_len x_num) ;;
  y_data <~ se_lift (PyNum.linspace y_len 0 y_num) ;;
  z_data <~ se_lift
    (rmap (fun i => hfloat0 ("Image " ++ PyStr.format_03d i
                             ++ " [Spectroscopy images ramp value list]")%string
                            header_dict)
          (range chan_num)) ;;
  let z_data := rev z_data in
  (* read binary image data *)
  ty <~ se_lift (lookup_type data_format) ;;
  let '(point_length, type_code) := ty in
  seek file pos ;;;
  let data_len := (x_num * y_num * Z.of_nat point_length)%Z in
  bin_data <~ read_bytes file data_len ;;
  topo_array <~ se_lift (Struct.iter_unpack point_length type_code bin_data) ;;
  topo_calib <~ se_lift (range_calib z_len topo_array) ;;
  topo_data <~ se_lift (reshape2 (map (fun v => (topo_calib * v)%Q) topo_array)
                                 x_num y_num) ;;
  let pos := (pos + data_len)%Z in
  ch_array <~ read_frames file point_length type_code data_len
                          (fun v => (chan_offs + v * chan_adc2v * chan_fact)%Q)
                          chan_num pos ;;
  ZZ <~ se_lift (reshape3 ch_array chan_num y_num x_num) ;;
  uzz <~ se_lift (hget "Conversion factor 0 for input channel [General Info]"
                       header_dict) ;;
  ux <~ se_lift (hget "X Amplitude [Control]" header_dict) ;;
  uy <~ se_lift (hget "Y Amplitude [Control]" header_dict) ;;
  uz <~ se_lift (hget "Z Amplitude [General Info]" header_dict) ;;
  close file ;;;
  se_ret (mk_volume ZZ x_data y_data z_data header_dict (word_last uzz)
                    (word_last ux) (word_last uy) (word_last uz),
          chan_label, topo_data).

(** [WSxMFuncs._wsxm_readmovie(filepath)] *)
Definition _wsxm_readmovie (filepath : string) : M (volume * string) :=
  file <~ open_ dir filepath ;;
  hp <~ _wsxm_readheader file 0 ;;
  let '(header_dict, pos) := hp in
  let header_dict := dict_set "File path" (HPath filepath) header_dict in
  data_format <~ se_lift (hget "Image Data Type [General Info]" header_dict) ;;
  chan_label <~ se_lift (hget "Acquisition channel [General Info]" header_dict) ;;
  x_num <~ se_lift (hint "Number of rows [General Info]" header_dict) ;;
  y_num <~ se_lift (hint "Number of columns [General Info]" header_dict) ;;
  chan_num <~ se_lift (hint "Number of Frames [General Info]" header_dict) ;;
  x_len <~ se_lift (hfloat0 "X Amplitude [Control]" header_dict) ;;
  y_len <~ se_lift (hfloat0 "Y Amplitude [Control]" header_dict) ;;
  z_len <~ se_lift (hfloat0 "Z Amplitude [General Info]" header_dict) ;;
  z_min <~ se_lift (rbind (hget "Minimum [Miscellaneous]" header_dict) PyNum.float) ;;
  z_max <~ se_lift (rbind (hget "Maximum [Miscellaneous]" header_dict) PyNum.float) ;;
  x_data <~ se_lift (PyNum.linspace 0 x_len x_num) ;;
  y_data <~ se_lift (PyNum.linspace y_len 0 y_num) ;;
  z_data <~ se_lift (PyNum.linspace 0 (inject_Z chan_num) chan_num) ;;
  (* read binary image data *)
  ty <~ se_lift (lookup_type data_format) ;;
  let '(point_length, type_code) := ty in
  let data_len := (x_num * y_num * Z.of_nat point_length)%Z in
  z_calib <~ se_lift (base_calib z_len z_max z_min) ;;
  cal <~ se_lift (amplitude_fix header_dict chan_label z_calib) ;;
  let '(z_calib, z_unit) := cal in
  ch_array <~ read_frames file point_length type_code data_len
                          (fun v => (z_calib * v)%Q) chan_num pos ;;
  ZZ <~ se_lift (reshape3 ch_array chan_num y_num x_num) ;;
  ux <~ se_lift (hget "X Amplitude [Control]" header_dict) ;;
  uy <~ se_lift (hget "Y Amplitude [Control]" header_dict) ;;
  close file ;;;
  se_ret (mk_volume ZZ x_data y_data z_data header_dict z_unit
                    (word_last ux) (word_last uy) "frame",
          chan_label).

(** the metadata the 3-D reader attaches to a record *)
Record metadata3d : Type := mk_metadata3d {
  general : header;
  spectroscopy_metadata : header;
  topography : option (Dataset unit)
}.

Definition at3 (a : ndarray) (c i j : nat) : Q :=
  match shape a with
  | [_; n1; n2] => NdSlice.at_flat a ((c * n1 + i) * n2 + j)
  | _ => 0%Q
  end.

Definition build3 (n0 n1 n2 : nat) (f : nat -> nat -> nat -> Q) : ndarray :=
  mk_ndarray [n0; n1; n2]
    (concat (map (fun c => concat (map (fun i => map (f c i) (seq 0 n2)) (seq 0 n1)))
                 (seq 0 n0))).

(** [np.flip(a, axis=1)] for a three-dimensional array *)
Definition flip_axis1 (a : ndarray) : ndarray :=
  match shape a with
  | [n0; n1; n2] => build3 n0 n1 n2 (fun c i j => at3 a c (n1 - 1 - i) j)
  | _ => a
  end.

(** [np.transpose(a, (0, 2, 1))] *)
Definition swap_axes12 (a : ndarray) : ndarray :=
  match shape a with
  | [n0; n1; n2] => build3 n0 n2 n1 (fun c i j => at3 a c j i)
  | _ => a
  end.

(** [np.rot90(a, k=1, axes=(2,1))]: numpy flips the second of the two axes
    and then swaps them *)
Definition rot90_axes21 (a : ndarray) : ndarray := swap_axes12 (flip_axis1 a).

(** the state the loop of [WSxM3DReader.read] carries from one file to the
    next: the names assigned in a branch keep their value *)
Record locals3d : Type := mk_locals3d {
  l_data : volume;
  l_chan_label : string;
  l_topo : option ndarray;
  l_spectral : bool     (* zz_data_type is SPECTRAL_IMAGE, else IMAGE_STACK *)
}.

Definition in_key (p : string) (kv : string * hval) : bool := PyStr.contains p (fst kv).

Definition topo_dataset (v : volume) (topo_data : ndarray) : res (Dataset unit) :=
  rbind (Sidpy.from_array (Some (flip_transpose topo_data)) "Topography" None)
        (fun data_set_topo =>
  rbind (Sidpy.set_dimension strict data_set_topo 0
           (mk_Dimension (vol_X v) "x" (vol_unit_X v) "x" "spatial")) (fun data_set_topo =>
  rbind (Sidpy.set_dimension strict data_set_topo 1
           (mk_Dimension (vol_Y v) "y" (vol_unit_Y v) "y" "spatial")) (fun data_set_topo =>
  let data_set_topo := Sidpy.set_units (vol_unit_Z v) data_set_topo in
  let data_set_topo := Sidpy.set_quantity "Topography" data_set_topo in
  rbind (hget "Spectroscopy type [General Info]" (vol_header v)) (fun st =>
  rbind (or_raise IndexError (words st !! 1)) (fun d =>
  let data_set_topo := Sidpy.set_direction (DirStr d) data_set_topo in
  Ok (Sidpy.set_data_type "image" data_set_topo)))))).

(** the body of the loop of [WSxM3DReader.read] *)
Definition read3d_file
           (st : list (string * Dataset metadata3d) * nat * option locals3d)
           (path_i : string)
  : M (list (string * Dataset metadata3d) * nat * option locals3d) :=
  let '(datasets, channel_number, locals) := st in
  let path_ext := suffix path_i in
  locals <~
    (if String.eqb path_ext ".gsi" then
       r <~ _wsxm_readforcevol path_i ;;
       let '(data_dict_chan, chan_label, topo_data) := r in
       se_ret (Some (mk_locals3d data_dict_chan chan_label (Some topo_data) true))
     else if String.eqb path_ext ".MOV" || String.eqb path_ext ".mpp" then
       r <~ _wsxm_readmovie path_i ;;
       let '(data_dict_chan, chan_label) := r in
       se_ret (Some (mk_locals3d data_dict_chan chan_label
                       (match locals with Some l => l_topo l | None => None end)
                       false))
     else (* assert("Invalid file type. ..."): a non-empty string holds *)
       se_ret locals) ;;
  l <~ se_lift (or_raise (UnboundLocalError "data_dict_chan") locals) ;;
  let v := l_data l in
  let chan_label := l_chan_label l in
  data_set <~ se_lift (Sidpy.from_array
                         (Some (flip_axis1 (rot90_axes21 (vol_ZZ v)))) chan_label None) ;;
  let data_set := Sidpy.set_units (vol_unit_ZZ v) data_set in
  let data_set := Sidpy.set_quantity chan_label data_set in
  let data_set := Sidpy.set_data_type
                    (if l_spectral l then "SPECTRAL_IMAGE" else "IMAGE_STACK") data_set in
  data_set <~ se_lift (Sidpy.set_dimension strict data_set 0
     (mk_Dimension (vol_Z v) "z" (vol_unit_Z v) "z"
                   (if l_spectral l then "spectral" else "frame"))) ;;
  data_set <~ se_lift (Sidpy.set_dimension strict data_set 1
     (mk_Dimension (vol_X v) "x" (vol_unit_X v) "x" "spatial")) ;;
  data_set <~ se_lift (Sidpy.set_dimension strict data_set 2
     (mk_Dimension (vol_Y v) "y" (vol_unit_Y v) "y" "spatial")) ;;
  let is_spec kv := in_key "[Spectroscopy images ramp value list]" kv
                    || in_key "[maxmins list]" kv in
  let header_spectroscopy := List.filter is_spec (vol_header v) in
  let header_general :=
    List.filter (fun kv => negb (dict_mem (fst kv) header_spectroscopy)) (vol_header v) in
  data_set <~
    (if l_spectral l then
       d <~ se_lift (hget "Spectroscopy type [General Info]" (vol_header v)) ;;
       topo_data <~ se_lift (or_raise (UnboundLocalError "topo_data") (l_topo l)) ;;
       data_set_topo <~ se_lift (topo_dataset v topo_data) ;;
       se_ret (Sidpy.set_metadata
                 (mk_metadata3d header_general header_spectroscopy (Some data_set_topo))
                 (Sidpy.set_direction (DirStr d) data_set))
     else
       se_ret (Sidpy.set_direction (DirStr "None")
                 (Sidpy.set_metadata
                    (mk_metadata3d header_general header_spectroscopy None) data_set))) ;;
  let key_channel := channel_key channel_number in
  se_ret (dict_set key_channel data_set datasets, S channel_number, locals).

(** [WSxM3DReader.read(self)] *)
Definition WSxM3DReader_read (filepath : string)
  : M (list (string * Dataset metadata3d)) :=
  filepath_all <~ se_lift (_wsxm_get_common_files dir filepath None) ;;
  st <~ se_fold read3d_file filepath_all ([], 0, None) ;;
  se_ret (fst (fst st)).

End Readers.
End WSxM.

(** * Vocabulary of the statements *)

(** A field of the extended header that has one value over all records. *)
Definition constant_field (label : string) (v : Q) (mrc : MRC.mrcfile) : Prop :=
  exists col, MRC.field label (MRC.indexed_extended_header mrc) = Ok col
              /\ PyNum.unique col = [v].

(** The header declares a scan with [|right - left| = rl] and
    [|top - bottom| = tb]. *)
Definition declares_scan (mrc : MRC.mrcfile) (rl tb : nat) : Prop :=
  exists r l t b,
    constant_field "Scan size right" r mrc /\ constant_field "Scan size left" l mrc
    /\ constant_field "Scan size top" t mrc /\ constant_field "Scan size bottom" b mrc
    /\ MRC.abs_diff r l = rl /\ MRC.abs_diff t b = tb.

Definition constant_pixel_size (mrc : MRC.mrcfile) : Prop :=
  exists px py, constant_field "Pixel size X" px mrc
                /\ constant_field "Pixel size Y" py mrc.

(** The detector frames have shape [(u, v)]. *)
Definition detector_shape (mrc : MRC.mrcfile) (u v : nat) : Prop :=
  exists pre, shape (MRC.mrc_data mrc) = (pre ++ [u; v])%list.

(** The shape of the array of the single record a call returned. *)
Definition returned_shape {M} (r : res (list (string * Dataset M))) : res (list nat) :=
  match r with
  | Ok [(_, ds)] => Ok (shape (ds_array ds))
  | Ok _ => Raise (OutsideModel "not a single record")
  | Raise e => Raise e
  end.

(** The labels [read] works with: those of [_get_chan_labels], without the
    first one when their number differs from the last dimension of the data. *)
Definition igor_labels (w : Igor.ibw_wave) : list string :=
  let labels := fst (Igor._get_chan_labels w) in
  match rev (shape (Igor.wData w)) with
  | last :: _ => if negb (last =? length labels) then tail labels else labels
  | [] => labels
  end.

(** What a WSxM header declares about the Z scale of its channel. *)
Definition z_scale_declared (h : WSxM.header) (label zamp : string)
           (z_len z_min z_max : Q) : Prop :=
  WSxM.hget "Acquisition channel [General Info]" h = Ok label
  /\ WSxM.hget "Z Amplitude [General Info]" h = Ok zamp
  /\ PyNum.float (WSxM.word0 zamp) = Ok z_len
  /\ rbind (WSxM.hget "Minimum [Miscellaneous]" h) PyNum.float = Ok z_min
  /\ rbind (WSxM.hget "Maximum [Miscellaneous]" h) PyNum.float = Ok z_max.

(** The calibration of a channel before any correction: the declared
    amplitude over the declared range of the raw data, and 1 for a zero
    amplitude. *)
Definition unmodified_calibration (z_len z_min z_max : Q) : Q :=
  if PyNum.is_zero z_len then 1%Q else (z_len / (z_max - z_min))%Q.

(** The channel is labelled [Amplitude] and the unit that follows the value
    of its Z amplitude is not [V]. *)
Definition fake_amplitude_unit (label zamp : string) : Prop :=
  label = "Amplitude" /\ exists u, WSxM.words zamp !! 1 = Some u /\ u <> "V".

(** [scaled] with unit [unit] is the raw data [raw] under the calibration the
    header [h] calls for. *)
Definition calibrated_by (h : WSxM.header) (unit : string) (raw scaled : list Q) : Prop :=
  exists label zamp z_len z_min z_max,
    z_scale_declared h label zamp z_len z_min z_max
    /\ (fake_amplitude_unit label zamp ->
        exists f, WSxM.hfloat0 "Conversion Factor 00 [General Info]" h = Ok f
                  /\ unit = "V"
                  /\ scaled = map (Qmult (unmodified_calibration z_len z_min z_max / f))
                                  raw)
    /\ (~ fake_amplitude_unit label zamp ->
        unit = WSxM.word_last zamp
        /\ scaled = map (Qmult (unmodified_calibration z_len z_min z_max)) raw).

(** [raw] is the image the header [h] describes, as stored in the open file
    [file] at [pos]. *)
Definition raw_image (file : nat) (h : WSxM.header) (pos : Z) (w : WSxM.world)
           (raw : list Q) : Prop :=
  exists data_format x_num y_num n code w0 bytes w1,
    WSxM.hget "Image Data Type [General Info]" h = Ok data_format
    /\ WSxM.hint "Number of rows [General Info]" h = Ok x_num
    /\ WSxM.hint "Number of columns [General Info]" h = Ok y_num
    /\ WSxM.lookup_type data_format = Ok (n, code)
    /\ WSxM.seek file pos w = (Ok tt, w0)
    /\ WSxM.read_bytes file (x_num * y_num * Z.of_nat n) w0 = (Ok bytes, w1)
    /\ Struct.iter_unpack n code bytes = Ok raw.

(** [raw] is the sequence of frames the header [h] describes, as stored in
    the open file [file] from [pos] on. *)
Definition raw_frames (file : nat) (h : WSxM.header) (pos : Z) (w : WSxM.world)
           (raw : list Q) : Prop :=
  exists data_format x_num y_num chan_num n code w1,
    WSxM.hget "Image Data Type [General Info]" h = Ok data_format
    /\ WSxM.hint "Number of rows [General Info]" h = Ok x_num
    /\ WSxM.hint "Number of columns [General Info]" h = Ok y_num
    /\ WSxM.hint "Number of Frames [General Info]" h = Ok chan_num
    /\ WSxM.lookup_type data_format = Ok (n, code)
    /\ WSxM.read_frames file n code (x_num * y_num * Z.of_nat n) (fun v => v)
                        chan_num pos w = (Ok raw, w1).

(** The keys of a dictionary of records are [Channel_000], [Channel_001],
    ... in the order in which the records were inserted. *)
Definition keyed_upto {M} (d : list (string * Dataset M)) (n : nat) : Prop :=
  map fst d = map channel_key (seq 0 n).

Definition keyed_in_order {M} (d : list (string * Dataset M)) : Prop :=
  keyed_upto d (length d).

(** What a [read] method hands back: a dictionary of records or a list of
    records. *)
Inductive returned (M : Type) : Type :=
| Mapping (d : list (string * Dataset M))
| Listing (l : list (Dataset M)).
Arguments Mapping {M}.
Arguments Listing {M}.

Definition channel_mapping {M} (r : returned M) : Prop :=
  match r with
  | Mapping d => keyed_in_order d
  | Listing _ => False
  end.

(** The titles of the records that the 1-D reader makes of the dictionary
    [top]: one for each curve of each channel, in the order of the channels
    and, within a channel, of its ['curves'] dictionary. *)
Definition curve_titles (w : WSxM.world) (top : WSxM.top_dict) : list string :=
  concat (map (fun item =>
                 match WSxM.curves_h w !! WSxM.o_curves (snd item) with
                 | Some curves =>
                     map (fun kv => (fst item ++ " (" ++ WSxM.key_text (fst kv) ++ ")")%string)
                         curves
                 | None => []
                 end) top).

(** The titles of the records of a dictionary, in its order. *)
Definition titles {M} (d : list (string * Dataset M)) : list string :=
  map (fun kv => ds_title (snd kv)) d.

(** The file a record of the 2-D reader was read from, as its metadata
    tell. *)
Definition source_file (ds : Dataset WSxM.header) : option string :=
  match ds_metadata ds with
  | Some h => match dict_get "File path" h with
              | Some (WSxM.HPath p) => Some p
              | _ => None
              end
  | None => None
  end.

Definition not_gsi (p : string) : bool := negb (String.eqb (WSxM.suffix p) ".gsi").

(** The handles that are open in a world. *)
Definition handles (w : WSxM.world) : list nat := map fst (WSxM.open_files w).

(** Every open handle was handed out by [open]. *)
Definition handles_wf (w : WSxM.world) : Prop :=
  Forall (fun fd => fd < WSxM.next_fd w) (handles w).

(** A computation that neither opens nor closes a file, whatever its
    outcome. *)
Definition keeps_handles {A} (m : WSxM.M A) : Prop :=
  forall w r w',
    m w = (r, w') ->
    handles w' = handles w /\ WSxM.next_fd w' = WSxM.next_fd w.

(** A computation that opens no file and closes [fd], unless it raises
    before it comes to that. *)
Definition closes_handle {A} (fd : nat) (m : WSxM.M A) : Prop :=
  forall w r w',
    m w = (r, w') ->
    WSxM.next_fd w' = WSxM.next_fd w
    /\ ((handles w' = handles w /\ is_ok r = false)
        \/ handles w' = filter (fun x => x <> fd) (handles w)).

(** The open handles after a decode call: those of before when it returns;
    when it raises, those of before and at most one that the call opened. *)
Definition handles_after {A} (w : WSxM.world) (r : res A) (w' : WSxM.world) : Prop :=
  match r with
  | Ok _ => handles w' = handles w
  | Raise _ =>
      handles w' = handles w
      \/ exists fd, WSxM.next_fd w <= fd /\ handles w' = (handles w ++ [fd])%list
  end.

Definition scoped_handles {A} (m : WSxM.M A) : Prop :=
  forall w r w',
    handles_wf w ->
    m w = (r, w') ->
    handles_wf w' /\ WSxM.next_fd w <= WSxM.next_fd w' /\ handles_after w r w'.

(** [open(path, 'rb')] finds a file at [p]. *)
Definition readable (dir : WSxM.directory) (p : string) : bool :=
  match List.find (fun e => String.eqb (WSxM.entry_name e) p) dir with
  | Some e => WSxM.is_file e
  | None => false
  end.

(** A computation whose last step closes [fd]: when it raises, [fd] is as
    it was. *)
Definition closes_last {A} (fd : nat) (m : WSxM.M A) : Prop :=
  forall w r w',
    m w = (r, w') ->
    WSxM.next_fd w' = WSxM.next_fd w
    /\ match r with
       | Ok _ => handles w' = filter (fun x => x <> fd) (handles w)
       | Raise _ => handles w' = handles w
       end.

(** A decode of the file at [p] that leaves the handle it opened among the
    open ones whenever it raises. *)
Definition leaves_open_on_error {A} (dir : WSxM.directory) (p : string)
           (m : WSxM.M A) : Prop :=
  forall w e w',
    readable dir p = true ->
    m w = (Raise e, w') ->
    handles w' = (handles w ++ [WSxM.next_fd w])%list.

(** The shape invariant of a record as the readers establish it: one axis
    per dimension of the array, and axes as long as the dimensions when the
    sink refuses the others. *)
Definition record_ok {M} (strict : bool) (ds : Dataset M) : Prop :=
  axes_count_ok ds /\ (strict = true -> axes_match ds).

(** *** The dictionaries of the 1-D reader *)

(** The dictionary [dd] has the channel [lab], bound to [o]. *)
Definition top_has (w : WSxM.world) (dd : nat) (lab : string) (o : WSxM.outer) : Prop :=
  exists t, WSxM.tops w !! dd = Some t /\ dict_get lab t = Some o.

(** The ['curves'] dictionary at [c] has the curve index [k], bound to [e]. *)
Definition curve_has (w : WSxM.world) (c : nat) (k : WSxM.curve_key)
           (e : WSxM.entry) : Prop :=
  exists cs, WSxM.curves_h w !! c = Some cs /\ dict_get k cs = Some e.

(** The ['data'] dictionary at [d] has the direction [z] with both ['x'] and
    ['y'] assigned. *)
Definition dir_populated (w : WSxM.world) (d : nat) (z : string) : Prop :=
  exists dt x y, WSxM.data_h w !! d = Some dt
                 /\ dict_get z dt = Some (WSxM.mk_xy (Some x) (Some y)).

(** [dd[lab]['curves'][k]] is the entry [e]. *)
Definition curve_at (w : WSxM.world) (dd : nat) (lab : string) (k : WSxM.curve_key)
           (e : WSxM.entry) : Prop :=
  exists o, top_has w dd lab o /\ curve_has w (WSxM.o_curves o) k e.


(** [dd[lab]['curves'][k]['data'][z]] has its ['x'] and ['y']. *)
Definition populated (w : WSxM.world) (dd : nat) (lab : string) (k : WSxM.curve_key)
           (z : string) : Prop :=
  exists e, curve_at w dd lab k e /\ dir_populated w (WSxM.e_data e) z.

(** A computation that leaves what [proj] shows of the world as it is,
    whatever its outcome. *)
Definition preserves {X A} (proj : WSxM.world -> X) (m : WSxM.M A) : Prop :=
  forall w r w', m w = (r, w') -> proj w' = proj w.

(** the three kinds of dictionaries of the 1-D reader *)
Definition dicts (w : WSxM.world)
  : list WSxM.top_dict * list WSxM.curves_dict * list WSxM.data_dict :=
  (WSxM.tops w, WSxM.curves_h w, WSxM.data_h w).

(** The channel labels of the dictionary [dd]. *)
Definition channels (w : WSxM.world) (dd : nat) : list string :=
  match WSxM.tops w !! dd with
  | Some t => dict_keys t
  | None => []
  end.

(** The dictionaries of [w'] have what those of [w] have: every channel of a
    dictionary and every curve index of a ['curves'] dictionary is bound as
    before, and a direction that had its ['x'] and ['y'] has them. *)
Definition store_grows (w w' : WSxM.world) : Prop :=
  (forall dd lab o, top_has w dd lab o -> top_has w' dd lab o)
  /\ (forall c k e, curve_has w c k e -> curve_has w' c k e)
  /\ (forall d z, dir_populated w d z -> dir_populated w' d z).

(** The file at [p], opened in [w], parses as the [.stp] file [f]. *)
Definition parsed_in (dir : WSxM.directory) (p : string) (w : WSxM.world)
           (f : WSxM.stp_file) : Prop :=
  exists fd wa wb,
    WSxM.open_ dir p w = (Ok fd, wa) /\ WSxM.stp_parse p fd wa = (Ok f, wb).

(** *** The group of a reference file *)

(** The files that [_wsxm_get_common_files] keeps: the files of the directory
    whose name starts with [com] and, when a filter is given, has the
    extension [ext]. *)
Definition group_member (dir : WSxM.directory) (com : string) (ext : option string)
           (p : string) : Prop :=
  exists e, In e dir /\ WSxM.entry_name e = p /\ WSxM.is_file e = true
            /\ PyStr.startswith com p = true
            /\ (forall x, ext = Some x -> WSxM.suffix p = x).

(** *** Headers *)

(** [c in s] for a character *)
Fixpoint has_char (c : ascii) (s : string) : bool :=
  match s with
  | EmptyString => false
  | String a s' => PyStr.eqc a c || has_char c s'
  end.

(** An entry of a header as [_wsxm_readheader] leaves it: name and value are
    strings without a colon and without white space around them. *)
Definition plain_entry (kv : string * WSxM.hval) : Prop :=
  has_char ":" (fst kv) = false
  /\ PyStr.strip (fst kv) = fst kv
  /\ exists s, snd kv = WSxM.HStr s /\ has_char ":" s = false /\ PyStr.strip s = s.

(** *** The axes of a record *)

Definition axis_lengths {M} (ds : Dataset M) : list nat :=
  map (fun ax => length (dim_values ax)) (ds_axes ds).

(** A record of the 2-D reader: with [rows] and [cols] the counts its header
    declares, the array has [cols] times [rows] entries while the first axis
    has [rows] values and the second [cols]. *)
Definition transposed_image (strict : bool) (ds : Dataset WSxM.header) : Prop :=
  exists (h : WSxM.header) (rows cols : Z),
    ds_metadata ds = Some h
    /\ WSxM.hint "Number of rows [General Info]" h = Ok rows
    /\ WSxM.hint "Number of columns [General Info]" h = Ok cols
    /\ shape (ds_array ds) = [Z.to_nat cols; Z.to_nat rows]
    /\ axis_lengths ds = [Z.to_nat rows; Z.to_nat cols]
    /\ (strict = true -> Z.to_nat rows = Z.to_nat cols).

(** The file of a record of the 2-D reader declares [rows] rows and [cols]
    columns, as the header kept in the metadata of the record tells. *)
Definition declared_image (ds : Dataset WSxM.header) (rows cols : nat) : Prop :=
  exists (h : WSxM.header) (r c : Z),
    ds_metadata ds = Some h
    /\ WSxM.hint "Number of rows [General Info]" h = Ok r
    /\ WSxM.hint "Number of columns [General Info]" h = Ok c
    /\ rows = Z.to_nat r /\ cols = Z.to_nat c.

(** A record of an image whose axes are those of the other dimension: the
    array has one line for each column of the image and its first axis one
    value for each row, so that the axes fit the array of a square image
    only. *)
Definition swapped_axes (ds : Dataset WSxM.header) : Prop :=
  exists rows cols : nat,
    declared_image ds rows cols
    /\ shape (ds_array ds) = [cols; rows]
    /\ axis_lengths ds = [rows; cols]
    /\ (axes_match ds <-> rows = cols).

(** A volume whose array has one plane for each value of [Z], one line for
    each value of [Y] and one point for each value of [X]. *)
Definition volume_ok (v : WSxM.volume) : Prop :=
  shape (WSxM.vol_ZZ v)
  = [length (WSxM.vol_Z v); length (WSxM.vol_Y v); length (WSxM.vol_X v)].

(** The suffixes of the files that [WSxM3DReader.read] decodes. *)
Definition volume_suffix (p : string) : bool :=
  String.eqb (WSxM.suffix p) ".gsi" || String.eqb (WSxM.suffix p) ".MOV"
  || String.eqb (WSxM.suffix p) ".mpp".

(** *** The parameters of an Igor wave *)

(** The keys that [_read_parms] copies from the wave header. *)
Definition header_keys : list string := ["creationDate"; "modDate"; "bname"].

(** A parameter as [_read_parms] reads it from a line of the note: the name
    has no white space around it; a text that [float] accepts is kept as
    a number, as an [int] when its value is integral, and any other text is
    kept as the stripped string. *)
Definition note_parameter (kv : string * Igor.pval) : Prop :=
  PyStr.strip (fst kv) = fst kv
  /\ match snd kv with
     | Igor.PInt _ => True
     | Igor.PFloat q => PyNum.is_integral q = false
     | Igor.PInf _ => True
     | Igor.PStr s =>
         PyStr.strip s = s
         /\ (PyNum.parse_float s = None \/ PyNum.parse_float s = Some PyNum.NaN)
     | Igor.PBytes _ => False
     end.

(** A record of an image stack of [IgorIBWReader.read] whose planes have
    the shape [[s0; s1]]: the array has that shape, the first axis has as
    many values as the note gives for [ScanPoints] and the second as many as
    it gives for [ScanLines], whatever [s0] and [s1] are; where sidpy checks
    the length of an axis, these counts are [s0] and [s1]. *)
Definition note_sized_image (strict : bool) (pd : Igor.parm_dict) (s0 s1 : nat)
           (ds : Dataset Igor.parm_dict) : Prop :=
  exists (points lines : Z),
    lookup_key "ScanPoints" pd = Ok (Igor.PInt points)
    /\ lookup_key "ScanLines" pd = Ok (Igor.PInt lines)
    /\ shape (ds_array ds) = [s0; s1]
    /\ axis_lengths ds = [Z.to_nat points; Z.to_nat lines]
    /\ (strict = true -> s0 = Z.to_nat points /\ s1 = Z.to_nat lines).

(** *** The scan axes of an MRC record *)

(** The step and the unit of the two scan axes, as the argument
    [scan_pixel_size] of [MRCReader.read] decides them. *)
Definition scan_scale (pixel_size : option Q) : Q * string :=
  match pixel_size with
  | Some sz =>
      if PyNum.is_zero sz then (1%Q, "pixels")
      else ((sz * MRC.angstrom_per_metre)%Q, "Å")
  | None => (1%Q, "pixels")
  end.

Definition scan_axis (name : string) (pixel_size : option Q) (n : nat) : Dimension :=
  mk_Dimension (map (fun x => (x * fst (scan_scale pixel_size))%Q) (PyNum.arange n))
               name (snd (scan_scale pixel_size)) "length" "spatial".

(** *** The records of the 1-D reader *)

(** The record [ds] made of the directions [data] of one curve: one column
    for each direction in the order of the dictionary, [points] values in
    each, the directions listed in that order, and the [x] values of the
    last direction on the first axis. *)
Definition curve_record (strict : bool) (data : WSxM.data_dict) (units : WSxM.units_xy)
           (ds : Dataset WSxM.header) : Prop :=
  exists (points : nat) (last_dir : string) (x_last : list Q) (y_last : option (list Q)),
    last data = Some (last_dir, WSxM.mk_xy (Some x_last) y_last)
    /\ Forall (fun dxy => exists y, WSxM.xy_y (snd dxy) = Some y /\ length y = points) data
    /\ shape (ds_array ds) = [points; length data]
    /\ ds_direction ds = DirList (map fst data)
    /\ ds_axes ds !! 0 = Some (mk_Dimension x_last "x" (WSxM.u_x units) "x" "spatial")
    /\ (strict = true -> length x_last = points).

(** *** The parameters of a Matrix export *)

(** The texts that [IgorMatrixReader._read_parms] looks up in the lines of
    the note before it reads anything else. *)
Definition required_lines : list string :=
  ["Width"; "lines per image"; "Channel name"; "Spectroscopy points"].

(** No line of the note of [w] contains [needle]. *)
Definition note_lacks (needle : string) (w : Igor.ibw_wave) : Prop :=
  Forall (fun line => PyStr.contains needle line = false) (IgorMatrix.note_lines w).

(** The record of an image of [r] lines of [c] points: the array is turned,
    with [c] lines of [r] points; the first axis, called [x], spans the
    height of the image in [c] values and the second, called [y], spans its
    width in [r] values. *)
Definition turned_image (pd : IgorMatrix.parm_dict) (r c : nat)
           (ds : Dataset IgorMatrix.parm_dict) : Prop :=
  exists (width height : Q) (units : string) (xvec yvec : list Q),
    dict_get "image_width" pd = Some (IgorMatrix.MVal (Igor.PFloat width))
    /\ dict_get "image_height" pd = Some (IgorMatrix.MVal (Igor.PFloat height))
    /\ dict_get "image_units" pd = Some (IgorMatrix.str_val units)
    /\ PyNum.linspace 0 width (Z.of_nat r) = Ok xvec
    /\ PyNum.linspace 0 height (Z.of_nat c) = Ok yvec
    /\ shape (ds_array ds) = [c; r]
    /\ ds_axes ds = [mk_Dimension yvec "x" units "x" "spatial";
                     mk_Dimension xvec "y" units "y" "spatial"]
    /\ axes_match ds.

(** The record of a spectroscopy volume of shape [(a, b, c)]: the array of
    the wave as it is, the axes [x], [y] and [Bias]; [x] spans the width in
    [a] values, [y] the height in [b] values, and [Bias] runs between the
    two bounds of the note in as many values as the note gives for a curve. *)
Definition cits_volume (strict : bool) (pd : IgorMatrix.parm_dict) (a b c : nat)
           (ds : Dataset IgorMatrix.parm_dict) : Prop :=
  exists (width height bias_start bias_end : Q) (points : Z) (units : string)
         (xvec yvec bias_wave : list Q),
    dict_get "image_width" pd = Some (IgorMatrix.MVal (Igor.PFloat width))
    /\ dict_get "image_height" pd = Some (IgorMatrix.MVal (Igor.PFloat height))
    /\ dict_get "image_units" pd = Some (IgorMatrix.str_val units)
    /\ dict_get "spec_points_per_curve" pd = Some (IgorMatrix.int_val points)
    /\ IgorMatrix.bias_bound pd "start =" = Ok bias_start
    /\ IgorMatrix.bias_bound pd "end =" = Ok bias_end
    /\ PyNum.linspace 0 width (Z.of_nat a) = Ok xvec
    /\ PyNum.linspace 0 height (Z.of_nat b) = Ok yvec
    /\ PyNum.linspace bias_start bias_end points = Ok bias_wave
    /\ ds_axes ds = [mk_Dimension xvec "x" units "x" "spatial";
                     mk_Dimension yvec "y" units "y" "spatial";
                     mk_Dimension bias_wave "Bias" "V" "V" "spectral"]
    /\ (strict = true -> Z.to_nat points = c).

(** *** Lines of a WSxM header *)

(** Two header dictionaries that give the same value, or none, for every
    name. *)
Definition same_lookups (h1 h2 : WSxM.header) : Prop :=
  forall name, dict_get name h1 = dict_get name h2.

(** A line that the header loop does not take for a section title: it has a
    colon or it is empty. *)
Definition no_title (ln : string) : Prop :=
  forall t, PyStr.split ":" ln = [t] -> t = EmptyString.


(** The bytes that [_wsxm_readheader] looks at to find the size of the
    header: at most 100 from the position [pos]. *)
Definition size_window (f : WSxM.file_obj) (pos : Z) : list string :=
  PyStr.splitlines (PyStr.take 100 (PyStr.drop (Z.to_nat pos) (WSxM.f_bytes f))).

(** The line [ln] gives the size of the header. *)
Definition size_line (ln : string) : Prop :=
  exists v, PyStr.split ":" ln = ["Image header size"; v].

(** * Sample inputs *)

Module Samples.

(** An extended header of [n] records declaring scan sizes right = 4,
    left = 0, top = 3, bottom = 0 and one camera pixel size. *)
Definition scan_header (n : nat) : list (string * list Q) :=
  [("Scan size right", repeat 4%Q n); ("Scan size left", repeat 0%Q n);
   ("Scan size top", repeat 3%Q n); ("Scan size bottom", repeat 0%Q n);
   ("Pixel size X", repeat (inject_Z (10 ^ 8)) n);
   ("Pixel size Y", repeat (inject_Z (10 ^ 8)) n)].

(** 12 detector frames of shape (2,2) *)
Definition mrc_full : MRC.mrcfile :=
  MRC.mk_mrcfile (mk_ndarray [12; 2; 2] (repeat 1%Q 48)) (scan_header 12).

(** the scan was stopped after 11 of the 12 declared frames *)
Definition mrc_truncated : MRC.mrcfile :=
  MRC.mk_mrcfile (mk_ndarray [11; 2; 2] (repeat 1%Q 44)) (scan_header 11).

(** A force curve of three points and two channels, none of them labelled
    [ZSnsr] or [Raw]. *)
Definition ibw_no_sensor : Igor.ibw_wave :=
  Igor.mk_ibw_wave "SpringConstant: 2"
                   [[]; [Igor.LBytes "Defl"; Igor.LBytes "Amp"]]
                   (mk_ndarray [3; 2] [1; 2; 3; 4; 5; 6]%Q)
                   [("bname", Igor.PBytes "curve0")].

(** the same curve with a [ZSnsr] channel *)
Definition ibw_sensor : Igor.ibw_wave :=
  Igor.mk_ibw_wave "SpringConstant: 2"
                   [[]; [Igor.LBytes "Defl"; Igor.LBytes "ZSnsr"]]
                   (mk_ndarray [3; 2] [1; 2; 3; 4; 5; 6]%Q)
                   [("bname", Igor.PBytes "curve0")].

Definition group_dir (c1 c2 c3 : string) : WSxM.directory :=
  [WSxM.mk_dir_entry "sample_0001.top" true c1;
   WSxM.mk_dir_entry "sample_0001.ch1" true c2;
   WSxM.mk_dir_entry "other_0002.top" true c3].

Definition crlf : string := String PyStr.CR (String PyStr.LF EmptyString).

Definition header_with_size (n : nat) (lines : list string) : string :=
  PyStr.join crlf (["WSxM file copyright UAM"; "SxM Image file";
                    "Image header size: " ++ PyStr.of_nat n]%string ++ lines)%list
  ++ crlf.

(** the header text whose size field is its own length *)
Definition wsxm_header (lines : list string) : string :=
  let base := String.length (header_with_size 0 lines) in
  match List.find (fun n => String.length (header_with_size n lines) =? n)
                  (seq base 6) with
  | Some n => header_with_size n lines
  | None => EmptyString
  end.

Definition image_lines (chan zamp : string) (rows cols : nat) : list string :=
  [""; "[Control]"; "";
   "    X Amplitude: 10 nm"; "    X-Frequency: 1 Hz"; "    Y Amplitude: 10 nm"; "";
   "[General Info]"; "";
   "    Acquisition channel: " ++ chan;
   "    Conversion Factor 00: 2 V";
   "    Image Data Type: short";
   "    Number of Frames: 2";
   "    Number of columns: " ++ PyStr.of_nat cols;
   "    Number of rows: " ++ PyStr.of_nat rows;
   "    Z Amplitude: " ++ zamp; "";
   "[Miscellaneous]"; "";
   "    Maximum: 4"; "    Minimum: 0"; "";
   "[Header end]"]%string.

(** 16-bit little-endian integers *)
Definition le16 (l : list nat) : string :=
  String.concat EmptyString
    (map (fun n => String (ascii_of_nat (n mod 256))
                          (String (ascii_of_nat (n / 256)) EmptyString)) l).

(** a topography image of one row and two columns *)
Definition topo_1x2 : string :=
  wsxm_header (image_lines "Topography" "8 nm" 1 2) ++ le16 [1; 3].

(** a topography image that declares a zero Z amplitude *)
Definition topo_zero : string :=
  wsxm_header (image_lines "Topography" "0 nm" 1 2) ++ le16 [1; 3].

(** an amplitude image whose Z amplitude is declared in nm *)
Definition amplitude_nm : string :=
  wsxm_header (image_lines "Amplitude" "8 nm" 1 2) ++ le16 [1; 3].

(** an amplitude movie of two frames *)
Definition amplitude_movie : string :=
  wsxm_header (image_lines "Amplitude" "8 nm" 1 2) ++ le16 [1; 3; 2; 4].

(** a file whose header lacks the line frequency that [_wsxm_readimg]
    reads *)
Definition no_frequency : string :=
  wsxm_header [""; "[General Info]"; ""; "    Acquisition channel: Topography";
               "    Image Data Type: short"; ""; "[Header end]"].

(** a movie whose header lacks the number of frames *)
Definition no_frames : string :=
  wsxm_header [""; "[General Info]"; ""; "    Acquisition channel: Topography";
               "    Image Data Type: short";
               "    Number of columns: 2";
               "    Number of rows: 1"; ""; "[Header end]"].

Definition image_dir : WSxM.directory :=
  [WSxM.mk_dir_entry "img_0001.top" true topo_1x2;
   WSxM.mk_dir_entry "zero_0002.top" true topo_zero;
   WSxM.mk_dir_entry "amp_0003.ch15" true amplitude_nm;
   WSxM.mk_dir_entry "amp_0004.mpp" true amplitude_movie;
   WSxM.mk_dir_entry "bad_0005.top" true no_frequency;
   WSxM.mk_dir_entry "bad_0006.mpp" true no_frames].

(** the state of a decode of [name] when its header has been read *)
Definition after_header (name : string) : res (nat * WSxM.header * Z) * WSxM.world :=
  match WSxM.open_ image_dir name WSxM.initial_world with
  | (Ok file, w) =>
      match WSxM._wsxm_readheader file 0 w with
      | (Ok (h, pos), w') => (Ok (file, dict_set "File path" (WSxM.HPath name) h, pos), w')
      | (Raise e, w') => (Raise e, w')
      end
  | (Raise e, w) => (Raise e, w)
  end.

(** the header of a [.stp] file of one curve with two points *)
Definition stp_lines (x_dir : string) : list string :=
  [""; "[Control]"; "";
   "    X Amplitude: 10 nm"; "    Y Amplitude: 10 nm"; "";
   "[General Info]"; "";
   "    Image Data Type: short";
   "    Number of columns: 2";
   "    Number of rows: 1";
   "    X scanning direction: " ++ x_dir;
   "    Y scanning direction: Up";
   "    Z Amplitude: 8 nm"; "";
   "[Miscellaneous]"; "";
   "    DSP voltage range: 10 V"; "";
   "[Header end]"]%string.

Definition stp_approach : string := wsxm_header (stp_lines "Backward") ++ le16 [1; 3].
Definition stp_retract : string := wsxm_header (stp_lines "Backward") ++ le16 [2; 6].

(** the approach and the retract ramp of one force curve, and a ramp of
    another measurement *)
Definition curve_dir : WSxM.directory :=
  [WSxM.mk_dir_entry "fd_0001_Normal force.f.stp" true stp_approach;
   WSxM.mk_dir_entry "fd_0001_Normal force.b.stp" true stp_retract;
   WSxM.mk_dir_entry "tune_0002_Phase.f.stp" true stp_approach].

(** the top header of a [.curves] file without an embedded image *)
Definition curves_top_lines : list string :=
  [""; "[Control]"; "";
   "    X Amplitude: 10 nm"; "    X-Frequency: 1 Hz"; "    Y Amplitude: 10 nm"; "";
   "[General Info]"; "";
   "    Acquisition channel: Topography";
   "    Image Data Type: short";
   "    Number of columns: 0";
   "    Number of rows: 0";
   "    Z Amplitude: 0 nm"; "";
   "[Miscellaneous]"; "";
   "    Maximum: 0"; "    Minimum: 0"; "";
   "[Header end]"]%string.

(** the header of the one curve of the file: two lines of two points *)
Definition curve_lines : list string :=
  [""; "[Control]"; "";
   "    Acquisition point: (1 nm, 2 nm)";
   "    Backward plot total time: 1 s";
   "    Forward plot total time: 1 s";
   "    Index of this Curve: 1";
   "    Number of Curves in this serie: 1"; "";
   "[General Info]"; "";
   "    Channel is inverted: No";
   "    Conversion Factor 00: 2 nN";
   "    Conversion Offset 00: 0 nN";
   "    Number of lines: 2";
   "    Number of points: 2";
   "    X axis text: Z [nm]";
   "    X axis unit: nm";
   "    Y axis text: Normal force [nN]"; "";
   "[Miscellaneous]"; "";
   "    First Forward: Yes"; "";
   "[Header end]"]%string.

Definition curves_file : string :=
  wsxm_header curves_top_lines ++ wsxm_header curve_lines
  ++ le16 [0; 5; 0; 7; 9; 6; 9; 8].

(** a ramp of a force curve and the [.curves] file of the same measurement *)
Definition mixed_dir : WSxM.directory :=
  [WSxM.mk_dir_entry "fc_0003_Normal force.f.stp" true stp_approach;
   WSxM.mk_dir_entry "fc_0003.curves" true curves_file].

(** the world in which the loop of [WSxM1DReader.read] starts: the
    accumulators [data_dict_chan] and [data_dict_stp] are at 1 and 2 *)
Definition reader_world : WSxM.world :=
  snd (se_bind (WSxM.alloc_top []) (fun _ => WSxM.alloc_top []) WSxM.initial_world).


(** the world after the ramp of [mixed_dir] went through the loop, after the
    [.curves] file was read, and after it was merged *)
Definition after_ramp : WSxM.world :=
  snd (WSxM.read1d_file mixed_dir 1 2 "fc_0003_Normal force.f.stp" reader_world).
Definition after_curves : WSxM.world :=
  snd (WSxM.read1d_file mixed_dir 1 2 "fc_0003.curves" after_ramp).

(** the entries of curve 1 made by the ramp and by the [.curves] file *)
Definition ramp_entry : WSxM.entry :=
  WSxM.mk_entry 0 0 (WSxM.mk_units_xy "nm" "nm").
Definition curves_entry : WSxM.entry :=
  WSxM.mk_entry 1 1 (WSxM.mk_units_xy "nm" "nN").

(** two calls of [_wsxm_readstp] that pass no [data_dict], one after the
    other, and the second of them as the first call of a session *)
Definition first_default_call : res (nat * string) * WSxM.world :=
  WSxM._wsxm_readstp curve_dir "fd_0001_Normal force.f.stp" WSxM.readstp_default
                     WSxM.initial_world.
Definition second_default_call : res (nat * string) * WSxM.world :=
  WSxM._wsxm_readstp curve_dir "tune_0002_Phase.f.stp" WSxM.readstp_default
                     (snd first_default_call).
Definition lone_default_call : res (nat * string) * WSxM.world :=
  WSxM._wsxm_readstp curve_dir "tune_0002_Phase.f.stp" WSxM.readstp_default
                     WSxM.initial_world.

(** a [.cur] file of tune data: one line of two points, as a text table *)
Definition tune_lines : list string :=
  [""; "[General Info]"; "";
   "    Number of lines: 1";
   "    Number of points: 2";
   "    X axis text: Frequency [#x]";
   "    X axis unit: Hz";
   "    Y axis text: Amplitude [#y]";
   "    Y axis unit: V"; "";
   "[Header end]"]%string.

Definition tune_file : string :=
  wsxm_header tune_lines ++ "1 2" ++ crlf ++ "3 4" ++ crlf.

Definition tune_dir : WSxM.directory :=
  [WSxM.mk_dir_entry "tune_0007.cur" true tune_file;
   WSxM.mk_dir_entry "fc_0003.curves" true curves_file].


(** an image stack of two channels, three points on each of two lines *)
Definition ibw_image : Igor.ibw_wave :=
  Igor.mk_ibw_wave
    ("ScanLines: 2" ++ String PyStr.CR ("ScanPoints: 3" ++ String PyStr.CR
       ("FastScanSize: 1" ++ String PyStr.CR "SlowScanSize: 1")))
    [[]; []; [Igor.LBytes "HeightTrace"; Igor.LBytes "PhaseTrace"]]
    (mk_ndarray [3; 2; 2] [1; 2; 3; 4; 5; 6; 7; 8; 9; 10; 11; 12]%Q)
    [("bname", Igor.PBytes "image0")].


Definition note_of (lines : list string) : string :=
  PyStr.join (String PyStr.CR EmptyString) lines.

(** an image exported from a Matrix file: two lines of three points *)
Definition matrix_image : Igor.ibw_wave :=
  Igor.mk_ibw_wave
    (note_of ["Image data: topography";
              "Width=Height= 4 m = 2 m ";
              "Channel name: Z m ";
              "Points per line, lines per image: 3, 2";
              "Spectroscopy points per line, lines per plane = 0, 0"])
    []
    (mk_ndarray [2; 3] [1; 2; 3; 4; 5; 6]%Q)
    [("bname", Igor.PBytes "image0")].

(** the same export without the line on spectroscopy *)
Definition matrix_image_short : Igor.ibw_wave :=
  Igor.mk_ibw_wave
    (note_of ["Image data: topography";
              "Width=Height= 4 m = 2 m ";
              "Channel name: Z m ";
              "Points per line, lines per image: 3, 2"])
    []
    (mk_ndarray [2; 3] [1; 2; 3; 4; 5; 6]%Q)
    [("bname", Igor.PBytes "image0")].

(** a spectroscopy volume: a grid of two by two curves of three points *)
Definition matrix_cits : Igor.ibw_wave :=
  Igor.mk_ibw_wave
    (note_of ["Volume CITS: I(V)";
              "Width=Height= 4 m = 2 m ";
              "Channel name: I A ";
              "Points per line, lines per image: 2, 2";
              "Scan Sub-Grid: X = 1, Y = 1";
              "Spectroscopy points per line = 2, lines per plane = 2";
              "V axis start = -1, end = 1, points per curve = 3, unit V"])
    []
    (mk_ndarray [2; 2; 3] [1; 2; 3; 4; 5; 6; 7; 8; 9; 10; 11; 12]%Q)
    [("bname", Igor.PBytes "cits0")].


(** an export whose note names neither an image nor a volume *)
Definition matrix_untyped : Igor.ibw_wave :=
  Igor.mk_ibw_wave
    (note_of ["Width=Height= 4 m = 2 m ";
              "Channel name: Z m ";
              "Points per line, lines per image: 3, 2";
              "Spectroscopy points per line, lines per plane = 0, 0"])
    []
    (mk_ndarray [2; 3] [1; 2; 3; 4; 5; 6]%Q)
    [("bname", Igor.PBytes "image0")].

End Samples.

(** * Properties *)

(** ** Discovery of a file group *)

Lemma filter_permutation {A} (f : A -> bool) (l l' : list A) :
  Permutation l l' -> Permutation (List.filter f l) (List.filter f l').
Proof.
  induction 1 as [|x l l' _ IH|x y l|l l' l'' _ IH1 _ IH2]; simpl.
  - constructor.
  - destruct (f x); [constructor|]; exact IH.
  - destruct (f x), (f y); try apply Permutation_refl. apply perm_swap.
  - eapply perm_trans; eassumption.
Qed.

(** C9.  In a directory that holds exactly [sample_0001.top],
    [sample_0001.ch1] and [other_0002.top], whatever order the directory
    scan yields them in and whatever they contain, the group of
    [sample_0001.top] is the two files of run [sample_0001], the requested
    one first. *)
Theorem group_of_sample_0001 :
  forall (c1 c2 c3 : string) (listing : WSxM.directory),
    Permutation listing (Samples.group_dir c1 c2 c3) ->
    WSxM._wsxm_get_common_files listing "sample_0001.top" None
    = Ok ["sample_0001.top"; "sample_0001.ch1"].
Proof.
  intros c1 c2 c3 listing Hperm.
  unfold WSxM._wsxm_get_common_files.
  change (WSxM.search_run_index "sample_0001.top") with (Some 6).
  cbv beta iota.
  change (PyStr.take (6 + 5) "sample_0001.top") with "sample_0001".
  set (keep := fun e : WSxM.dir_entry =>
                 true && WSxM.is_file e && PyStr.startswith "sample_0001" (WSxM.entry_name e)).
  apply (filter_permutation keep) in Hperm.
  change (List.filter keep (Samples.group_dir c1 c2 c3))
    with [WSxM.mk_dir_entry "sample_0001.top" true c1;
          WSxM.mk_dir_entry "sample_0001.ch1" true c2] in Hperm.
  apply Permutation_sym, Permutation_length_2_inv in Hperm.
  destruct Hperm as [-> | ->]; reflexivity.
Qed.

Lemma group_of_sample_0001_witness :
  Permutation (rev (Samples.group_dir "" "" "")) (Samples.group_dir "" "" "")
  /\ WSxM._wsxm_get_common_files (rev (Samples.group_dir "" "" ""))
                                 "sample_0001.top" None
     = Ok ["sample_0001.top"; "sample_0001.ch1"].
Proof.
  assert (H : Permutation (rev (Samples.group_dir "" "" ""))
                          (Samples.group_dir "" "" ""))
    by apply Permutation_sym, Permutation_rev.
  split; [exact H | exact (group_of_sample_0001 "" "" "" _ H)].
Defined.

(** ** The dataset sink and the state monad: equations used below *)

Lemma dict_get_fst {V} (d : list (string * V)) (k : string) :
  In k (map fst d) -> exists v, dict_get k d = Some v.
Proof.
  induction d as [|[k' v'] d IH]; simpl; [tauto|].
  intros [->|Hin].
  - destruct (decide (k = k)); [eauto|congruence].
  - destruct (decide (k = k')); eauto.
Qed.

Lemma dict_get_set_eq {K V} `{EqDecision K} (k : K) (v : V) (d : list (K * V)) :
  dict_get k (dict_set k v d) = Some v.
Proof.
  induction d as [|[k' v'] d IH]; simpl.
  - destruct (decide (k = k)); congruence.
  - destruct (decide (k = k')) as [->|Hne]; simpl.
    + destruct (decide (k' = k')); congruence.
    + destruct (decide (k = k')); [congruence|exact IH].
Qed.

Lemma dict_get_set_ne {K V} `{EqDecision K} (k k' : K) (v : V) (d : list (K * V)) :
  k <> k' -> dict_get k' (dict_set k v d) = dict_get k' d.
Proof.
  intros Hne. induction d as [|[k0 v0] d IH]; simpl.
  - destruct (decide (k' = k)); congruence.
  - destruct (decide (k = k0)) as [->|Hne0]; simpl.
    + destruct (decide (k' = k0)); congruence.
    + destruct (decide (k' = k0)); [reflexivity|exact IH].
Qed.

(** ** [MRCReader.read] *)

(** The metadata dictionary is built from the header's own field names, so
    no lookup fails. *)
Lemma metadata_fold_ok (hdr : list (string * list Q)) (labels : list string) md0 :
  (forall l, In l labels -> In l (map fst hdr)) ->
  exists md, rfold (fun md label =>
                      rbind (MRC.field label hdr)
                            (fun col => Ok (dict_set label (PyNum.unique col) md)))
                   labels md0 = Ok md.
Proof.
  revert md0. induction labels as [|l labels IH]; simpl; intros md0 Hin; [eauto|].
  destruct (dict_get_fst hdr l) as [v Hv]; [apply Hin; auto|].
  unfold MRC.field at 1. rewrite Hv. simpl. apply IH. auto.
Qed.

Lemma length_arange (n : nat) : length (PyNum.arange n) = n.
Proof. unfold PyNum.arange. rewrite length_map, length_seq. reflexivity. Qed.

Ltac mrc_prepare mrc :=
  let md := fresh "md" in
  let Hmd := fresh "Hmd" in
  destruct (metadata_fold_ok (MRC.indexed_extended_header mrc)
              (map fst (MRC.indexed_extended_header mrc)) []) as [md Hmd];
  [auto|];
  unfold MRC.read, MRC.scan_shape_params;
  cbn [rmap];
  repeat match goal with
         | H : MRC.field _ _ = Ok _ |- _ => rewrite H; clear H
         end;
  rewrite Hmd; cbn [rbind];
  repeat match goal with
         | H : PyNum.unique _ = [_] |- _ => rewrite H; clear H
         end;
  unfold se_bind, se_lift, se_ret, se_modify, se_get;
  match goal with
  | |- context [MRC.flatten [[?r]; [?l]; [?t]; [?b]]] =>
      change (MRC.flatten [[r]; [l]; [t]; [b]]) with (Ok [r; l; t; b]);
      cbv beta iota zeta;
      change (MRC.item 0 [r; l; t; b]) with (Ok r);
      change (MRC.item 1 [r; l; t; b]) with (Ok l);
      change (MRC.item 2 [r; l; t; b]) with (Ok t);
      change (MRC.item 3 [r; l; t; b]) with (Ok b)
  end;
  cbv beta iota zeta.

Lemma shape_from_end_2 (a : ndarray) pre u v :
  shape a = (pre ++ [u; v])%list -> shape_from_end 2 a = Ok u.
Proof. intros H. unfold shape_from_end. rewrite H, rev_app_distr. reflexivity. Qed.

Lemma shape_from_end_1 (a : ndarray) pre u v :
  shape a = (pre ++ [u; v])%list -> shape_from_end 1 a = Ok v.
Proof. intros H. unfold shape_from_end. rewrite H, rev_app_distr. reflexivity. Qed.

Lemma mrc_read_valid (strict : bool) (mrc : MRC.mrcfile) (first second u v : nat)
      (handedness : string) (sz : option Q) (self : MRC.MRCReader) :
  declares_scan mrc first second -> constant_pixel_size mrc ->
  detector_shape mrc u v ->
  length (flat (MRC.mrc_data mrc)) = second * first * u * v ->
  (handedness = "right" ->
   returned_shape (fst (MRC.read strict mrc handedness sz self))
   = Ok [second; first; u; v])
  /\ (handedness = "left" ->
      returned_shape (fst (MRC.read strict mrc handedness sz self))
      = Ok [first; second; u; v]).
Proof.
  intros (r & l & t & b & [cr [Hr Ur]] & [cl [Hl Ul]] & [ct [Ht Ut]] & [cb [Hb Ub]]
          & Hrl & Htb)
         (px & py & [cx [Hx Ux]] & [cy [Hy Uy]]) [pre Hshape] Hlen.
  pose proof (shape_from_end_2 _ _ _ _ Hshape) as E2.
  pose proof (shape_from_end_1 _ _ _ _ Hshape) as E1.
  assert (ER : forall tg, PyNum.prod tg = second * first * u * v ->
                          np_reshape (MRC.mrc_data mrc) tg
                          = Ok (mk_ndarray tg (flat (MRC.mrc_data mrc)))).
  { intros tg Htg. unfold np_reshape. rewrite Hlen, Htg, Nat.eqb_refl. reflexivity. }
  split; intros ->; mrc_prepare mrc.
  - change ("right" =? "right")%string with true. cbv iota.
    rewrite E2, E1, Hrl, Htb. cbv beta iota zeta. cbn [or_raise].
    rewrite ER by (simpl; lia).
    destruct sz as [sz0|]; [destruct (PyNum.is_zero sz0)|];
      cbv beta iota zeta;
      repeat (cbn; rewrite ?length_map, ?length_arange, ?Nat.eqb_refl, ?andb_false_r);
      reflexivity.
  - change ("left" =? "right")%string with false.
    change ("left" =? "left")%string with true. cbv iota.
    rewrite E2, E1, Hrl, Htb. cbv beta iota zeta. cbn [or_raise].
    rewrite ER by (simpl; lia).
    destruct sz as [sz0|]; [destruct (PyNum.is_zero sz0)|];
      cbv beta iota zeta;
      repeat (cbn; rewrite ?length_map, ?length_arange, ?Nat.eqb_refl, ?andb_false_r);
      reflexivity.
Qed.

(** A handedness other than ['right'] and ['left'] leaves [reshape_target]
    unassigned, and the call ends with an exception whatever the file. *)
Lemma mrc_read_other_handedness (strict : bool) (mrc : MRC.mrcfile)
      (handedness : string) (sz : option Q) (self : MRC.MRCReader) :
  handedness <> "right" -> handedness <> "left" ->
  exists e, fst (MRC.read strict mrc handedness sz self) = Raise e.
Proof.
  intros Hr Hl.
  apply String.eqb_neq in Hr. apply String.eqb_neq in Hl.
  unfold MRC.read. rewrite Hr, Hl.
  unfold se_bind, se_lift, se_ret.
  cbv beta iota zeta. cbn [or_raise].
  repeat lazymatch goal with
         | |- exists e, fst (match ?x with Ok _ => _ | Raise _ => _ end) = _ =>
             destruct x; [cbv beta iota zeta; cbn [or_raise] | cbn; eauto]
         end.
  cbn. eauto.
Qed.

(** C2 (as the code has it).  For a file whose header declares
    right-left = 4 and top-bottom = 3, with one camera pixel size, detector
    frames of shape (2,2) and 48 elements: ['right'] gives the array shape
    (3,4,2,2), ['left'] gives (4,3,2,2), and every other handedness makes
    the call raise. *)
Theorem mrc_handedness_shapes :
  forall (strict : bool) (mrc : MRC.mrcfile) (sz : option Q) (self : MRC.MRCReader),
    declares_scan mrc 4 3 -> constant_pixel_size mrc -> detector_shape mrc 2 2 ->
    length (flat (MRC.mrc_data mrc)) = 48 ->
    returned_shape (fst (MRC.read strict mrc "right" sz self)) = Ok [3; 4; 2; 2]
    /\ returned_shape (fst (MRC.read strict mrc "left" sz self)) = Ok [4; 3; 2; 2]
    /\ (forall handedness, handedness <> "right" -> handedness <> "left" ->
        exists e, fst (MRC.read strict mrc handedness sz self) = Raise e).
Proof.
  intros strict mrc sz self Hscan Hpix Hdet Hlen.
  split; [|split].
  - apply (mrc_read_valid strict mrc 4 3 2 2 "right" sz self); auto.
  - apply (mrc_read_valid strict mrc 4 3 2 2 "left" sz self); auto.
  - intros h Hr Hl. apply mrc_read_other_handedness; assumption.
Qed.

Lemma mrc_full_declares : declares_scan Samples.mrc_full 4 3.
Proof.
  exists 4%Q, 0%Q, 3%Q, 0%Q.
  repeat split; try (eexists; split; reflexivity); reflexivity.
Qed.

Lemma mrc_full_pixel_size : constant_pixel_size Samples.mrc_full.
Proof.
  exists (inject_Z (10 ^ 8)), (inject_Z (10 ^ 8)).
  split; eexists; split; reflexivity.
Qed.

Lemma mrc_handedness_shapes_witness :
  returned_shape (fst (MRC.read false Samples.mrc_full "right" None MRC.init))
  = Ok [3; 4; 2; 2]
  /\ returned_shape (fst (MRC.read false Samples.mrc_full "left" None MRC.init))
     = Ok [4; 3; 2; 2]
  /\ (forall handedness, handedness <> "right" -> handedness <> "left" ->
      exists e, fst (MRC.read false Samples.mrc_full handedness None MRC.init)
                = Raise e).
Proof.
  apply (mrc_handedness_shapes false Samples.mrc_full None MRC.init).
  - exact mrc_full_declares.
  - exact mrc_full_pixel_size.
  - exists [12]. reflexivity.
  - reflexivity.
Defined.

(** C2 as stated fails: on the sample file, whose header declares
    right-left = 4 and top-bottom = 3 with detector frames (2,2), the
    handedness ['right'] does not give the shape (4,3,2,2). *)
Lemma mrc_right_handed_shape_counterexample :
  declares_scan Samples.mrc_full 4 3
  /\ detector_shape Samples.mrc_full 2 2
  /\ returned_shape (fst (MRC.read false Samples.mrc_full "right" None MRC.init))
     <> Ok [4; 3; 2; 2].
Proof.
  split; [exact mrc_full_declares|].
  split; [exists [12]; reflexivity|].
  vm_compute. discriminate.
Qed.

(** The metadata dictionary holds the unique values of every field. *)
Lemma metadata_fold_get (hdr : list (string * list Q)) (labels : list string) md0 md :
  rfold (fun md label =>
           rbind (MRC.field label hdr)
                 (fun col => Ok (dict_set label (PyNum.unique col) md)))
        labels md0 = Ok md ->
  forall label col, In label labels -> MRC.field label hdr = Ok col ->
                    dict_get label md = Some (PyNum.unique col).
Proof.
  revert md0. induction labels as [|l labels IH]; simpl; intros md0 Hfold label col Hin Hf.
  - contradiction.
  - destruct (MRC.field l hdr) as [c|e] eqn:El; simpl in Hfold; [|discriminate].
    destruct (in_dec string_dec label labels) as [Hin'|Hnin].
    + eapply IH; eassumption.
    + destruct Hin as [->|Hin]; [|contradiction].
      assert (Hc : c = col) by congruence. subst c.
      clear IH El Hf. revert md0 Hfold.
      assert (Hgen : forall ls m0 m,
                 ~ In label ls ->
                 rfold (fun md label =>
                          rbind (MRC.field label hdr)
                                (fun col => Ok (dict_set label (PyNum.unique col) md)))
                       ls m0 = Ok m ->
                 dict_get label m = dict_get label m0).
      { induction ls as [|x ls IHls]; simpl; intros m0 m Hn Hr.
        - congruence.
        - destruct (MRC.field x hdr) as [cx|ex]; simpl in Hr; [|discriminate].
          rewrite (IHls _ _ (fun H => Hn (or_intror H)) Hr).
          apply dict_get_set_ne. intros ->. apply Hn. left. reflexivity. }
      intros md0 Hfold. rewrite (Hgen _ _ _ Hnin Hfold).
      apply dict_get_set_eq.
Qed.

(** C3 (what the code does).  When the buffer does not hold the declared
    [scan_x*scan_y*det_u*det_v] elements, [read] on a fresh reader catches the
    reshape error, fills [self.metadata] from the extended header, and then
    raises while it builds the dataset from the array it never assigned: no
    record is returned. *)
Theorem mrc_truncated_scan_raises :
  forall (strict : bool) (mrc : MRC.mrcfile) (first second u v : nat)
         (handedness : string) (sz : option Q),
    declares_scan mrc first second -> constant_pixel_size mrc ->
    detector_shape mrc u v ->
    length (flat (MRC.mrc_data mrc)) <> second * first * u * v ->
    handedness = "right" \/ handedness = "left" ->
    let r := MRC.read strict mrc handedness sz MRC.init in
    fst r = Raise ValueError
    /\ MRC.data (snd r) = None
    /\ exists md, MRC.metadata (snd r) = Some md
                  /\ forall label col,
                       MRC.field label (MRC.indexed_extended_header mrc) = Ok col ->
                       dict_get label md = Some (PyNum.unique col).
Proof.
  intros strict mrc first second u v handedness sz
         (r & l & t & b & [cr [Hr Ur]] & [cl [Hl Ul]] & [ct [Ht Ut]] & [cb [Hb Ub]]
          & Hrl & Htb)
         (px & py & [cx [Hx Ux]] & [cy [Hy Uy]]) [pre Hshape] Hlen Hhand.
  pose proof (shape_from_end_2 _ _ _ _ Hshape) as E2.
  pose proof (shape_from_end_1 _ _ _ _ Hshape) as E1.
  assert (ER : forall tg, PyNum.prod tg = second * first * u * v ->
                          np_reshape (MRC.mrc_data mrc) tg = Raise ValueError).
  { intros tg Htg. unfold np_reshape. rewrite Htg.
    destruct (Nat.eqb_spec (second * first * u * v) (length (flat (MRC.mrc_data mrc))));
      [congruence|reflexivity]. }
  assert (Hget : forall md,
             rfold (fun md label =>
                      rbind (MRC.field label (MRC.indexed_extended_header mrc))
                            (fun col => Ok (dict_set label (PyNum.unique col) md)))
                   (map fst (MRC.indexed_extended_header mrc)) [] = Ok md ->
             forall label col,
               MRC.field label (MRC.indexed_extended_header mrc) = Ok col ->
               dict_get label md = Some (PyNum.unique col)).
  { intros md Hmd label col Hf. eapply metadata_fold_get; [exact Hmd| |exact Hf].
    unfold MRC.field in Hf.
    destruct (dict_get label (MRC.indexed_extended_header mrc)) as [c|] eqn:Eg;
      [|discriminate].
    clear -Eg. induction (MRC.indexed_extended_header mrc) as [|[k w] d IH];
      simpl in *; [discriminate|].
    destruct (decide (label = k)); [left; congruence|right; auto]. }
  intros res0. subst res0.
  destruct Hhand as [-> | ->]; mrc_prepare mrc.
  - change ("right" =? "right")%string with true. cbv iota.
    rewrite E2, E1, Hrl, Htb. cbv beta iota zeta. cbn [or_raise].
    rewrite ER by (simpl; lia).
    destruct sz as [sz0|]; [destruct (PyNum.is_zero sz0)|];
      cbv beta iota zeta; cbn; (split; [reflexivity|split; [reflexivity|]]);
      exists md; (split; [reflexivity|apply Hget; assumption]).
  - change ("left" =? "right")%string with false.
    change ("left" =? "left")%string with true. cbv iota.
    rewrite E2, E1, Hrl, Htb. cbv beta iota zeta. cbn [or_raise].
    rewrite ER by (simpl; lia).
    destruct sz as [sz0|]; [destruct (PyNum.is_zero sz0)|];
      cbv beta iota zeta; cbn; (split; [reflexivity|split; [reflexivity|]]);
      exists md; (split; [reflexivity|apply Hget; assumption]).
Qed.

Lemma mrc_truncated_declares : declares_scan Samples.mrc_truncated 4 3.
Proof.
  exists 4%Q, 0%Q, 3%Q, 0%Q.
  repeat split; try (eexists; split; reflexivity); reflexivity.
Qed.

Lemma mrc_truncated_scan_raises_witness :
  let r := MRC.read false Samples.mrc_truncated "right" None MRC.init in
  fst r = Raise ValueError
  /\ MRC.data (snd r) = None
  /\ exists md, MRC.metadata (snd r) = Some md
                /\ forall label col,
                     MRC.field label (MRC.indexed_extended_header Samples.mrc_truncated)
                     = Ok col ->
                     dict_get label md = Some (PyNum.unique col).
Proof.
  apply (mrc_truncated_scan_raises false Samples.mrc_truncated 4 3 2 2 "right" None).
  - exact mrc_truncated_declares.
  - exists (inject_Z (10 ^ 8)), (inject_Z (10 ^ 8)).
    split; eexists; split; reflexivity.
  - exists [11]. reflexivity.
  - simpl. lia.
  - left. reflexivity.
Defined.

(** ** Inversion of successful runs *)

Lemma rbind_ok_inv {A B} (m : res A) (k : A -> res B) (b : B) :
  rbind m k = Ok b -> exists a, m = Ok a /\ k a = Ok b.
Proof. destruct m as [a|e]; simpl; [eauto|discriminate]. Qed.

Lemma or_raise_ok_inv {A} (e : exn) (o : option A) (a : A) :
  or_raise e o = Ok a -> o = Some a.
Proof. destruct o; simpl; congruence. Qed.

Lemma rmap_ok_Forall {A B} (f : A -> res B) (P : B -> Prop) (l : list A) (r : list B) :
  (forall x y, In x l -> f x = Ok y -> P y) ->
  rmap f l = Ok r -> Forall P r.
Proof.
  revert r. induction l as [|x l IH]; simpl; intros r HP Hr.
  - injection Hr as <-. constructor.
  - apply rbind_ok_inv in Hr. destruct Hr as (y & Hy & Hr).
    apply rbind_ok_inv in Hr. destruct Hr as (ys & Hys & Hr).
    injection Hr as <-. constructor.
    + eapply HP; [left; reflexivity|exact Hy].
    + apply IH; [|exact Hys]. intros x' y' Hin Hf. eapply HP; [right; exact Hin|exact Hf].
Qed.

Lemma rmap_ok_length {A B} (f : A -> res B) (l : list A) (r : list B) :
  rmap f l = Ok r -> length r = length l.
Proof.
  revert r. induction l as [|x l IH]; simpl; intros r Hr.
  - injection Hr as <-. reflexivity.
  - apply rbind_ok_inv in Hr. destruct Hr as (y & Hy & Hr).
    apply rbind_ok_inv in Hr. destruct Hr as (ys & Hys & Hr).
    injection Hr as <-. simpl. f_equal. apply IH. assumption.
Qed.

(** splits a hypothesis [x <- m ;; k = Ok b] into its steps *)
Ltac rinv H :=
  repeat (let a := fresh "v" in
          let E := fresh "E" in
          apply rbind_ok_inv in H; destruct H as (a & E & H); cbv beta in H).

(** ** [IgorIBWReader.read]: the spectroscopic axis without [ZSnsr] and [Raw] *)

Lemma curve_channel_fallback strict pd labels units flat0 z c ch ds :
  Igor.curve_channel strict pd (mk_ndarray [1] (PyNum.arange 1)) labels units
                     (mk_ndarray [z; c; 1] flat0) ch = Ok ds ->
  shape (ds_array ds) = [z]
  /\ map dim_values (ds_axes ds) = [PyNum.arange 1]
  /\ (strict = true -> z = 1).
Proof.
  intros H. unfold Igor.curve_channel in H. rinv H.
  unfold NdSlice.index_1_0 in E. cbn [shape] in E.
  destruct ((ch <? c) && (0 <? 1)); [|discriminate].
  injection E as E; subst v.
  unfold Sidpy.from_array in E1. cbn in E1.
  injection E1 as E1; subst v1.
  cbn in E3. injection E3 as E3; subst v3.
  unfold Sidpy.set_dimension in E4.
  destruct strict; cbn in E4.
  - destruct z as [|[|z']]; cbn in E4; try discriminate.
    injection E4 as E4; subst v4. injection H as H; subst ds. cbn. auto.
  - injection E4 as E4; subst v4. injection H as H; subst ds. cbn.
    repeat split. discriminate.
Qed.

(** C4 (what the code does).  For a force curve stored as a two-dimensional
    wave of [z] points and [c] channels whose labels contain neither [ZSnsr]
    nor [Raw], the fallback takes [np.arange(images.shape[2])], and the third
    dimension of the data has length 1: every channel that [read] returns
    has [z] data points but the one-element axis [0].  When the dataset
    container checks axis lengths the call cannot succeed unless [z = 1]. *)
Theorem igor_fallback_axis :
  forall (strict : bool) (w : Igor.ibw_wave) (z c : nat)
         (l : list (Dataset Igor.parm_dict)),
    shape (Igor.wData w) = [z; c] ->
    Igor.index_of "ZSnsr" (igor_labels w) = None ->
    Igor.index_of "Raw" (igor_labels w) = None ->
    Igor.read strict w = Ok l ->
    length l = c
    /\ Forall (fun ds => shape (ds_array ds) = [z]
                         /\ map dim_values (ds_axes ds) = [PyNum.arange 1]
                         /\ (strict = true -> z = 1)) l.
Proof.
  intros strict w z c l Hshape Hz Hr H.
  unfold igor_labels in Hz, Hr. rewrite Hshape in Hz, Hr. cbn [rev app] in Hz, Hr.
  unfold Igor.read in H.
  destruct (Igor._get_chan_labels w) as [labels units].
  cbn [fst] in Hz, Hr.
  unfold shape_from_end in H. rewrite Hshape in H.
  cbn [rev app lookup list_lookup or_raise Nat.sub rbind] in H.
  assert (H3 : NdSlice.atleast_3d (Igor.wData w)
               = mk_ndarray [z; c; 1] (flat (Igor.wData w))).
  { unfold NdSlice.atleast_3d. rewrite Hshape. reflexivity. }
  unfold ndim in H. rewrite H3, Hshape in H.
  cbn [length Nat.eqb shape rev app lookup list_lookup or_raise] in H.
  destruct (negb (c =? length labels));
    (unfold Igor.spec_values in H; rewrite Hz, Hr in H;
     cbn [shape_at shape lookup list_lookup or_raise rbind] in H;
     split;
     [ apply rmap_ok_length in H; rewrite length_seq in H; exact H
     | eapply rmap_ok_Forall; [|exact H];
       intros ch ds _ Hch; eapply curve_channel_fallback; exact Hch ]).
Qed.

Lemma igor_fallback_axis_witness :
  exists l, Igor.read false Samples.ibw_no_sensor = Ok l
            /\ length l = 2
            /\ Forall (fun ds => shape (ds_array ds) = [3]
                                 /\ map dim_values (ds_axes ds) = [PyNum.arange 1]
                                 /\ (false = true -> 3 = 1)) l.
Proof.
  assert (H : {l | Igor.read false Samples.ibw_no_sensor = Ok l}).
  { vm_compute. eexists. reflexivity. }
  destruct H as [l Hl]. exists l. split; [exact Hl|].
  apply (igor_fallback_axis false Samples.ibw_no_sensor 3 2 l);
    [reflexivity | reflexivity | reflexivity | exact Hl].
Defined.

(** On the sample curve of three points: with a container that checks axis
    lengths the decode fails, with one that does not the axis is [0] instead
    of [0, 1, 2]. *)
Example igor_no_sensor_strict :
  Igor.read true Samples.ibw_no_sensor = Raise ValueError.
Proof. vm_compute. reflexivity. Qed.

Example igor_no_sensor_lax :
  match Igor.read false Samples.ibw_no_sensor with
  | Ok l => map (fun ds => (shape (ds_array ds), map dim_values (ds_axes ds))) l
  | Raise _ => []
  end = [([3], [[0%Q]]); ([3], [[0%Q]])]
  /\ PyNum.arange 3 <> [0%Q].
Proof. split; [vm_compute; reflexivity | discriminate]. Qed.

(** ** Inversion of successful runs of stateful code *)

Lemma se_bind_ok_inv {S A B} (m : SE S A) (k : A -> SE S B) (s s' : S) (b : B) :
  se_bind m k s = (Ok b, s') ->
  exists a s1, m s = (Ok a, s1) /\ k a s1 = (Ok b, s').
Proof.
  unfold se_bind. destruct (m s) as [[a|e] s1]; [eauto|discriminate].
Qed.

Lemma se_lift_ok_inv {S A} (r : res A) (s s' : S) (a : A) :
  se_lift r s = (Ok a, s') -> r = Ok a /\ s' = s.
Proof. unfold se_lift. intros H. injection H as -> ->. auto. Qed.

Lemma se_ret_ok_inv {S A} (x a : A) (s s' : S) :
  se_ret x s = (Ok a, s') -> x = a /\ s' = s.
Proof. unfold se_ret. intros H. injection H as -> ->. auto. Qed.

(** splits a hypothesis [(x <~ m ;; k) w = (Ok b, w')] into its steps *)
Ltac sinv H :=
  repeat first
    [ let a := fresh "v" in
      let s := fresh "w" in
      let E := fresh "E" in
      apply se_bind_ok_inv in H; destruct H as (a & s & E & H); cbv beta in H;
      try (apply se_lift_ok_inv in E; destruct E as [E ->])
    | match type of H with
      | (let '(_, _) := ?v in _) _ = _ => destruct v
      end ].

(** ** The calibration of WSxM images and movies *)

Lemma base_calib_unmodified (z_len z_max z_min base : Q) :
  WSxM.base_calib z_len z_max z_min = Ok base ->
  base = unmodified_calibration z_len z_min z_max.
Proof.
  unfold WSxM.base_calib, unmodified_calibration, PyNum.div.
  destruct (PyNum.is_zero z_len); [congruence|].
  destruct (PyNum.is_zero (z_max - z_min)); [discriminate|congruence].
Qed.

Lemma amplitude_fix_cases (h : WSxM.header) (label : string) (base cal : Q)
      (unit : string) :
  WSxM.amplitude_fix h label base = Ok (cal, unit) ->
  exists zamp,
    WSxM.hget "Z Amplitude [General Info]" h = Ok zamp
    /\ (fake_amplitude_unit label zamp ->
        exists f, WSxM.hfloat0 "Conversion Factor 00 [General Info]" h = Ok f
                  /\ unit = "V" /\ cal = (base / f)%Q)
    /\ (~ fake_amplitude_unit label zamp ->
        unit = WSxM.word_last zamp /\ cal = base).
Proof.
  intros H. unfold WSxM.amplitude_fix in H.
  apply rbind_ok_inv in H. destruct H as (zamp & Hz & H). cbv beta zeta in H.
  exists zamp. split; [exact Hz|].
  destruct (String.eqb_spec label "Amplitude") as [->|Hlab].
  - apply rbind_ok_inv in H. destruct H as (declared & Hd & H). cbv beta in H.
    apply or_raise_ok_inv in Hd.
    destruct (String.eqb_spec declared "V") as [->|Hv]; simpl in H.
    + injection H as <- <-. split.
      * intros (_ & u & Hu & Hne). congruence.
      * auto.
    + rinv H. unfold PyNum.div in E0.
      destruct (PyNum.is_zero v); [discriminate|].
      injection E0 as <-. injection H as <- <-. split.
      * intros _. exists v. auto.
      * intros Hn. exfalso. apply Hn. split; [reflexivity|]. exists declared. auto.
  - injection H as <- <-. split.
    + intros [Hl _]. contradiction.
    + auto.
Qed.

Lemma calibrated_by_intro (h : WSxM.header) (label : string)
      (z_len z_min z_max base cal : Q) (unit : string) (raw : list Q) :
  WSxM.hget "Acquisition channel [General Info]" h = Ok label ->
  WSxM.hfloat0 "Z Amplitude [General Info]" h = Ok z_len ->
  rbind (WSxM.hget "Minimum [Miscellaneous]" h) PyNum.float = Ok z_min ->
  rbind (WSxM.hget "Maximum [Miscellaneous]" h) PyNum.float = Ok z_max ->
  WSxM.base_calib z_len z_max z_min = Ok base ->
  WSxM.amplitude_fix h label base = Ok (cal, unit) ->
  calibrated_by h unit raw (map (fun v => (cal * v)%Q) raw).
Proof.
  intros Hlab Hlen Hmin Hmax Hbase Hfix.
  apply base_calib_unmodified in Hbase. subst base.
  destruct (amplitude_fix_cases _ _ _ _ _ Hfix) as (zamp & Hz & Hfake & Hplain).
  unfold WSxM.hfloat0 in Hlen. rewrite Hz in Hlen. simpl in Hlen.
  exists label, zamp, z_len, z_min, z_max.
  split; [repeat split; assumption|]. split.
  - intros Hf. destruct (Hfake Hf) as (f & Hcf & -> & ->). exists f. auto.
  - intros Hn. destruct (Hplain Hn) as (-> & ->). auto.
Qed.

(** The frames read with a scaling are the scaled raw frames. *)
Lemma read_frames_scaled (file n : nat) (code : ascii) (len : Z) (scale : Q -> Q)
      (count : Z) (pos : Z) (w w' : WSxM.world) (l : list Q) :
  WSxM.read_frames file n code len scale count pos w = (Ok l, w') ->
  exists raw, WSxM.read_frames file n code len (fun v => v) count pos w = (Ok raw, w')
              /\ l = map scale raw.
Proof.
  unfold WSxM.read_frames. intros H.
  apply se_bind_ok_inv in H. destruct H as ([acc p] & w1 & Hfold & Hret).
  apply se_ret_ok_inv in Hret. destruct Hret as [Hl ->]. simpl in Hl. subst acc.
  set (step := fun (sc : Q -> Q) (acc : list Q * Z) (_ : nat) =>
                 let '(ch_array, pos) := acc in
                 se_bind (WSxM.seek file pos) (fun _ =>
                 se_bind (WSxM.read_bytes file len) (fun bin_data =>
                 se_bind (se_lift (Struct.iter_unpack n code bin_data))
                         (fun ch_array_temp =>
                 se_ret (ch_array ++ map sc ch_array_temp, (pos + len)%Z))))) in *.
  change (se_fold (step scale) (WSxM.range count) ([], pos) w = (Ok (l, p), w1))
    in Hfold.
  change (exists raw,
             se_bind (se_fold (step (fun v => v)) (WSxM.range count) ([], pos))
                     (fun r => se_ret (fst r)) w = (Ok raw, w1)
             /\ l = map scale raw).
  assert (Hgen : forall (idx : list nat) (acc0 raw0 : list Q) (p0 : Z) (w0 : WSxM.world)
                        (l1 : list Q) (p1 : Z) (w2 : WSxM.world),
             acc0 = map scale raw0 ->
             se_fold (step scale) idx (acc0, p0) w0 = (Ok (l1, p1), w2) ->
             exists raw1,
               se_fold (step (fun v => v)) idx (raw0, p0) w0 = (Ok (raw1, p1), w2)
               /\ l1 = map scale raw1).
  { induction idx as [|i idx IH]; intros acc0 raw0 p0 w0 l1 p1 w2 Hacc Hf; simpl in Hf.
    - unfold se_ret in Hf. injection Hf as <- <- <-. exists raw0. split; [reflexivity|auto].
    - apply se_bind_ok_inv in Hf. destruct Hf as ([a2 p2] & w3 & Hstep & Hrest).
      unfold step in Hstep. sinv Hstep.
      apply se_ret_ok_inv in Hstep. destruct Hstep as [Hpair ->].
      injection Hpair as <- <-.
      edestruct (IH (acc0 ++ map scale v1) (raw0 ++ v1)) as (raw1 & Hr1 & Hl1).
      + rewrite map_app, Hacc. reflexivity.
      + exact Hrest.
      + exists raw1. split; [|exact Hl1].
        simpl. unfold se_bind at 1.
        change (step (fun v => v) (raw0, p0) i w0)
          with (se_bind (WSxM.seek file p0) (fun _ =>
                se_bind (WSxM.read_bytes file len) (fun bin_data =>
                se_bind (se_lift (Struct.iter_unpack n code bin_data))
                        (fun ch_array_temp =>
                se_ret (raw0 ++ map (fun v => v) ch_array_temp, (p0 + len)%Z)))) w0).
        unfold se_bind at 1. rewrite E.
        unfold se_bind at 1. rewrite E0.
        unfold se_bind at 1. unfold se_lift at 1. rewrite E1.
        unfold se_ret at 1. rewrite map_id. exact Hr1. }
  destruct (Hgen (WSxM.range count) [] [] pos w l p w1 eq_refl Hfold) as (raw & Hr & Hl).
  exists raw. split; [|exact Hl].
  unfold se_bind. rewrite Hr. reflexivity.
Qed.

Lemma reshape2_flat (a : list Q) (x_num y_num : Z) (m : ndarray) :
  WSxM.reshape2 a x_num y_num = Ok m -> flat m = a.
Proof.
  unfold WSxM.reshape2, np_reshape. simpl.
  destruct (_ =? _); [|discriminate]. intros H. injection H as <-. reflexivity.
Qed.

Lemma reshape3_flat (a : list Q) (c y x : Z) (m : ndarray) :
  WSxM.reshape3 a c y x = Ok m -> flat m = a.
Proof.
  unfold WSxM.reshape3, np_reshape. simpl.
  destruct (0 <=? c)%Z.
  - destruct (_ =? _); [|discriminate]. intros H. injection H as <-. reflexivity.
  - destruct (c =? -1)%Z; [|discriminate].
    destruct (_ && _); [|discriminate]. intros H. injection H as <-. reflexivity.
Qed.

(** C10 (as the code has it).  In [_wsxm_readimg] and [_wsxm_readmovie] the
    data returned are the raw integers of the file times a calibration, with
    a unit.  For a channel labelled [Amplitude] whose Z amplitude is declared
    in a unit other than [V], the calibration is the unmodified one divided
    by [Conversion Factor 00] and the unit is [V]; for every other channel
    the calibration is the unmodified one and the unit is the last word of
    the Z amplitude.  The unmodified calibration is [z_len/(z_max-z_min)],
    and 1 when [z_len] is zero. *)
Theorem amplitude_unit_correction :
  (forall (file : nat) (header : WSxM.header) (pos : Z) (w : WSxM.world)
          (img : WSxM.image) (pos' : Z) (w' : WSxM.world),
      WSxM._wsxm_readimg file header pos w = (Ok (img, pos'), w') ->
      exists raw,
        raw_image file header pos w raw
        /\ calibrated_by header (WSxM.img_unit_Z img) raw (flat (WSxM.img_Z img)))
  /\ (forall (dir : WSxM.directory) (path : string) (w : WSxM.world)
             (vol : WSxM.volume) (label : string) (w' : WSxM.world),
         WSxM._wsxm_readmovie dir path w = (Ok (vol, label), w') ->
         exists file w0 h pos w1 raw,
           WSxM.open_ dir path w = (Ok file, w0)
           /\ WSxM._wsxm_readheader file 0 w0 = (Ok (h, pos), w1)
           /\ WSxM.vol_header vol = dict_set "File path" (WSxM.HPath path) h
           /\ raw_frames file (WSxM.vol_header vol) pos w1 raw
           /\ calibrated_by (WSxM.vol_header vol) (WSxM.vol_unit_ZZ vol) raw
                            (flat (WSxM.vol_ZZ vol))).
Proof.
  split.
  - intros file header pos w img pos' w' H.
    unfold WSxM._wsxm_readimg in H. sinv H.
    apply se_ret_ok_inv in H. destruct H as [Hpair ->].
    injection Hpair as <- <-. cbn [WSxM.img_unit_Z WSxM.img_Z].
    destruct v11.
    exists v13. split.
    + exists v, v2, v3, n, a, w0, v12, w1. repeat split; assumption.
    + rewrite (reshape2_flat _ _ _ _ E18).
      eapply calibrated_by_intro; eassumption.
  - intros dir path w vol label w' H.
    unfold WSxM._wsxm_readmovie in H. sinv H.
    apply se_ret_ok_inv in H. destruct H as [Hpair ->].
    injection Hpair as <- <-. cbn [WSxM.vol_header WSxM.vol_unit_ZZ WSxM.vol_ZZ].
    match goal with
    | Hf : WSxM.read_frames _ _ _ _ _ _ _ _ = _ |- _ =>
        destruct (read_frames_scaled _ _ _ _ _ _ _ _ _ _ Hf) as (raw & Hraw & Hl)
    end.
    match goal with
    | Hr : WSxM.reshape3 _ _ _ _ = Ok _ |- _ => rewrite (reshape3_flat _ _ _ _ _ Hr)
    end.
    subst.
    match goal with
    | Ho : WSxM.open_ _ _ _ = (Ok ?f, ?w0),
      Hh : WSxM._wsxm_readheader ?f 0 ?w0 = (Ok (?h, ?p), ?w1) |- _ =>
        exists f, w0, h, p, w1, raw
    end.
    split; [assumption|]. split; [assumption|]. split; [reflexivity|]. split.
    + do 7 eexists. repeat split; try eassumption.
    + eapply calibrated_by_intro; eassumption.
Qed.

Lemma amplitude_unit_correction_witness :
  (exists file header pos w img pos' w',
      Samples.after_header "amp_0003.ch15" = (Ok (file, header, pos), w)
      /\ WSxM._wsxm_readimg file header pos w = (Ok (img, pos'), w')
      /\ exists raw,
          raw_image file header pos w raw
          /\ calibrated_by header (WSxM.img_unit_Z img) raw (flat (WSxM.img_Z img)))
  /\ (exists vol label w',
         WSxM._wsxm_readmovie Samples.image_dir "amp_0004.mpp" WSxM.initial_world
         = (Ok (vol, label), w')
         /\ exists file w0 h pos w1 raw,
             WSxM.open_ Samples.image_dir "amp_0004.mpp" WSxM.initial_world = (Ok file, w0)
             /\ WSxM._wsxm_readheader file 0 w0 = (Ok (h, pos), w1)
             /\ WSxM.vol_header vol = dict_set "File path" (WSxM.HPath "amp_0004.mpp") h
             /\ raw_frames file (WSxM.vol_header vol) pos w1 raw
             /\ calibrated_by (WSxM.vol_header vol) (WSxM.vol_unit_ZZ vol) raw
                              (flat (WSxM.vol_ZZ vol))).
Proof.
  split.
  - lazymatch eval vm_compute in (Samples.after_header "amp_0003.ch15") with
    | (Ok (?f, ?h, ?p), ?w) =>
        lazymatch eval vm_compute in (WSxM._wsxm_readimg f h p w) with
        | (Ok (?img, ?p'), ?w') =>
            exists f, h, p, w, img, p', w';
            split; [vm_compute; reflexivity|];
            assert (Hrun : WSxM._wsxm_readimg f h p w = (Ok (img, p'), w'))
              by (vm_compute; reflexivity);
            split;
            [exact Hrun
            |exact (proj1 amplitude_unit_correction f h p w img p' w' Hrun)]
        end
    end.
  - lazymatch eval vm_compute in
          (WSxM._wsxm_readmovie Samples.image_dir "amp_0004.mpp" WSxM.initial_world) with
    | (Ok (?vol, ?label), ?w') =>
        exists vol, label, w';
        assert (Hrun : WSxM._wsxm_readmovie Samples.image_dir "amp_0004.mpp"
                                            WSxM.initial_world
                       = (Ok (vol, label), w'))
          by (vm_compute; reflexivity);
        split;
        [exact Hrun
        |exact (proj2 amplitude_unit_correction Samples.image_dir "amp_0004.mpp"
                      WSxM.initial_world vol label w' Hrun)]
    end.
Defined.

(** C10 as stated fails for a channel that declares a zero Z amplitude: its
    data keep the calibration 1, not [z_len/(z_max-z_min)], which is 0. *)
Lemma zero_amplitude_calibration_counterexample :
  exists file header pos w img pos' w',
    Samples.after_header "zero_0002.top" = (Ok (file, header, pos), w)
    /\ WSxM._wsxm_readimg file header pos w = (Ok (img, pos'), w')
    /\ z_scale_declared header "Topography" "0 nm" 0 0 4
    /\ raw_image file header pos w [1; 3]%Q
    /\ ~ Forall2 Qeq (flat (WSxM.img_Z img))
                     (map (Qmult (0 / (4 - 0))) [1; 3]%Q).
Proof.
  lazymatch eval vm_compute in (Samples.after_header "zero_0002.top") with
  | (Ok (?f, ?h, ?p), ?w) =>
      lazymatch eval vm_compute in (WSxM._wsxm_readimg f h p w) with
      | (Ok (?img, ?p'), ?w') =>
          exists f, h, p, w, img, p', w';
          split; [vm_compute; reflexivity|];
          split; [vm_compute; reflexivity|]
      end
  end.
  split; [repeat split; vm_compute; reflexivity|].
  split.
  - do 8 eexists. repeat split; try (vm_compute; reflexivity).
  - intros HF. inversion HF as [|? ? ? ? Hq _]. vm_compute in Hq. discriminate.
Qed.

(** ** The keys of the dictionaries of records *)

Lemma digits_acc_zeros (j : nat) (s : string) (p : bool) :
  PyStr.digits_acc (PyStr.zeros j ++ s) 0%N p
  = PyStr.digits_acc s 0%N (p || (0 <? j)).
Proof.
  revert p. induction j as [|j IH]; intros p; simpl.
  - rewrite orb_false_r. reflexivity.
  - change (PyStr.is_digit "0") with true. cbv iota.
    change (0 * 10 + N.of_nat (PyStr.digit_val "0"))%N with 0%N.
    rewrite IH. rewrite orb_true_r. reflexivity.
Qed.

Lemma digit_of_pretty_char (k : N) :
  (k < 10)%N ->
  PyStr.is_digit (pretty_N_char k) = true
  /\ N.of_nat (PyStr.digit_val (pretty_N_char k)) = k.
Proof.
  intros Hk.
  assert (Hc : (k = 0 \/ k = 1 \/ k = 2 \/ k = 3 \/ k = 4 \/ k = 5 \/ k = 6
                \/ k = 7 \/ k = 8 \/ k = 9)%N) by lia.
  repeat (destruct Hc as [->|Hc]; [split; reflexivity|]). subst. split; reflexivity.
Qed.

Lemma digits_acc_pretty_go (x : N) :
  exists k : N, forall (s : string) (acc : N) (p : bool),
    PyStr.digits_acc (pretty_N_go x s) acc p
    = PyStr.digits_acc s (acc * 10 ^ k + x)%N (p || (0 <? x)%N).
Proof.
  induction (N.lt_wf_0 x) as [x _ IH].
  destruct (N.eq_dec x 0%N) as [->|Hx].
  - exists 0%N. intros s acc p. rewrite pretty_N_go_0.
    rewrite orb_false_r. f_equal. lia.
  - assert (Hpos : (0 < x)%N) by lia.
    destruct (IH (x / 10)%N) as (k & Hk).
    { apply N.div_lt; lia. }
    exists (k + 1)%N. intros s acc p.
    rewrite pretty_N_go_step by exact Hpos.
    rewrite Hk. simpl.
    destruct (digit_of_pretty_char (x mod 10)%N) as [Hd Hv].
    { apply N.mod_lt. lia. }
    rewrite Hd, Hv.
    replace (0 <? x)%N with true by (symmetry; apply N.ltb_lt; exact Hpos).
    rewrite orb_true_r. f_equal.
    rewrite N.pow_add_r, N.pow_1_r.
    pose proof (N.div_mod x 10). lia.
Qed.

(** [int(f"{n:03d}") == n] *)
Lemma parse_format_03d (n : nat) :
  PyStr.parse_digits (PyStr.format_03d n) = Some (N.of_nat n).
Proof.
  unfold PyStr.parse_digits, PyStr.format_03d, PyStr.zfill.
  rewrite digits_acc_zeros.
  unfold PyStr.of_nat, pretty, pretty_nat, pretty, pretty_N.
  destruct (decide (N.of_nat n = 0%N)) as [E|E].
  - rewrite E. reflexivity.
  - destruct (digits_acc_pretty_go (N.of_nat n)) as (k & Hk).
    rewrite Hk. simpl.
    replace (0 <? N.of_nat n)%N with true by (symmetry; apply N.ltb_lt; lia).
    rewrite orb_true_r. reflexivity.
Qed.

Lemma string_app_inv_head (s a b : string) :
  (s ++ a)%string = (s ++ b)%string -> a = b.
Proof.
  induction s as [|c s IH]; intros H.
  - exact H.
  - apply IH. change (String c (s ++ a) = String c (s ++ b)) in H. congruence.
Qed.

Lemma channel_key_inj (n m : nat) : channel_key n = channel_key m -> n = m.
Proof.
  unfold channel_key. intros H.
  assert (Hf : PyStr.format_03d n = PyStr.format_03d m).
  { eapply string_app_inv_head. exact H. }
  assert (E : Some (N.of_nat n) = Some (N.of_nat m)).
  { rewrite <- !parse_format_03d. rewrite Hf. reflexivity. }
  injection E as E. lia.
Qed.

Lemma dict_set_fresh {V} (k : string) (v : V) (d : list (string * V)) :
  ~ In k (map fst d) -> dict_set k v d = (d ++ [(k, v)])%list.
Proof.
  induction d as [|[k' v'] d IH]; simpl; intros Hn.
  - reflexivity.
  - destruct (decide (k = k')) as [->|Hne].
    + exfalso. apply Hn. left. reflexivity.
    + rewrite IH; [reflexivity|]. intros Hin. apply Hn. right. exact Hin.
Qed.

Lemma keyed_upto_fresh {M} (d : list (string * Dataset M)) (n : nat) :
  keyed_upto d n -> ~ In (channel_key n) (map fst d).
Proof.
  unfold keyed_upto. intros -> Hin.
  apply in_map_iff in Hin. destruct Hin as (i & Hi & Hin).
  apply channel_key_inj in Hi. subst i.
  apply in_seq in Hin. lia.
Qed.

Lemma keyed_upto_set {M} (d : list (string * Dataset M)) (n : nat) (ds : Dataset M) :
  keyed_upto d n ->
  dict_set (channel_key n) ds d = (d ++ [(channel_key n, ds)])%list
  /\ keyed_upto (dict_set (channel_key n) ds d) (S n).
Proof.
  intros H. pose proof (keyed_upto_fresh d n H) as Hf.
  rewrite (dict_set_fresh _ _ _ Hf). split; [reflexivity|].
  unfold keyed_upto in *. rewrite map_app, H, seq_S, map_app. reflexivity.
Qed.

Lemma keyed_upto_length {M} (d : list (string * Dataset M)) (n : nat) :
  keyed_upto d n -> keyed_in_order d.
Proof.
  unfold keyed_in_order, keyed_upto. intros H.
  assert (E : length d = n).
  { rewrite <- (length_map fst d), H, length_map, length_seq. reflexivity. }
  rewrite E. exact H.
Qed.

Lemma se_fold_inv {S A B} (P : A -> Prop) (f : A -> B -> SE S A) (l : list B) :
  (forall a b s a' s', P a -> f a b s = (Ok a', s') -> P a') ->
  forall a s a' s', P a -> se_fold f l a s = (Ok a', s') -> P a'.
Proof.
  intros Hstep. induction l as [|b l IH]; intros a s a' s' Ha H; simpl in H.
  - apply se_ret_ok_inv in H. destruct H as [<- _]. exact Ha.
  - apply se_bind_ok_inv in H. destruct H as (a1 & s1 & H1 & H2).
    eapply IH; [|exact H2]. eapply Hstep; eassumption.
Qed.

Lemma readimg_header (file : nat) (h : WSxM.header) (pos : Z) (w : WSxM.world)
      (img : WSxM.image) (pos' : Z) (w' : WSxM.world) :
  WSxM._wsxm_readimg file h pos w = (Ok (img, pos'), w') -> WSxM.img_header img = h.
Proof.
  intros H. unfold WSxM._wsxm_readimg in H. sinv H.
  apply se_ret_ok_inv in H. destruct H as [Hpair _].
  injection Hpair as <- _. reflexivity.
Qed.

(** One file of the 2-D reader: a [.gsi] file is skipped, any other file adds
    one record under the next key. *)
Lemma read2d_file_step (strict : bool) (dir : WSxM.directory)
      (d : list (string * Dataset WSxM.header)) (n : nat) (p : string)
      (w : WSxM.world) (st' : list (string * Dataset WSxM.header) * nat)
      (w' : WSxM.world) :
  WSxM.read2d_file strict dir (d, n) p w = (Ok st', w') ->
  (not_gsi p = false /\ st' = (d, n))
  \/ (not_gsi p = true
      /\ exists ds, st' = (dict_set (channel_key n) ds d, S n)
                    /\ source_file ds = Some p).
Proof.
  intros H. unfold WSxM.read2d_file in H. unfold not_gsi.
  destruct (negb (String.eqb (WSxM.suffix p) ".gsi")).
  - right. split; [reflexivity|]. sinv H.
    apply se_ret_ok_inv in H. destruct H as [<- _].
    eexists. split; [reflexivity|].
    unfold source_file. cbn [ds_metadata Sidpy.set_metadata].
    match goal with
    | Hi : WSxM._wsxm_readimg _ _ _ _ = _ |- _ => rewrite (readimg_header _ _ _ _ _ _ _ Hi)
    end.
    rewrite dict_get_set_eq. reflexivity.
  - left. apply se_ret_ok_inv in H. destruct H as [<- _]. auto.
Qed.

Lemma read2d_fold (strict : bool) (dir : WSxM.directory) (files : list string) :
  forall (done : list string) (d : list (string * Dataset WSxM.header)) (n : nat)
         (w : WSxM.world) (d' : list (string * Dataset WSxM.header)) (n' : nat)
         (w' : WSxM.world),
    keyed_upto d n ->
    map (fun kv => source_file (snd kv)) d = map Some (List.filter not_gsi done) ->
    se_fold (WSxM.read2d_file strict dir) files (d, n) w = (Ok (d', n'), w') ->
    keyed_upto d' n'
    /\ map (fun kv => source_file (snd kv)) d'
       = map Some (List.filter not_gsi (done ++ files)%list).
Proof.
  induction files as [|p files IH]; intros done d n w d' n' w' Hk Hs H; simpl in H.
  - apply se_ret_ok_inv in H. destruct H as [Hp _]. injection Hp as <- <-.
    rewrite app_nil_r. auto.
  - apply se_bind_ok_inv in H. destruct H as ([d1 n1] & w1 & H1 & H2).
    replace (done ++ p :: files)%list with ((done ++ [p]) ++ files)%list
      by (rewrite <- app_assoc; reflexivity).
    apply (IH (done ++ [p])%list d1 n1 w1 d' n' w'); [| |exact H2].
    + apply read2d_file_step in H1.
      destruct H1 as [[_ Hst]|[_ (ds & Hst & _)]]; injection Hst as -> ->.
      * exact Hk.
      * apply keyed_upto_set. exact Hk.
    + apply read2d_file_step in H1.
      rewrite List.filter_app. cbn [List.filter].
      destruct H1 as [[Hg Hst]|[Hg (ds & Hst & Hsrc)]]; injection Hst as -> ->;
        rewrite Hg.
      * rewrite app_nil_r. exact Hs.
      * destruct (keyed_upto_set d n ds Hk) as [-> _].
        rewrite !map_app, Hs. simpl. rewrite Hsrc. reflexivity.
Qed.

(** One curve of the 1-D reader adds one record under the next key. *)
Lemma emit_curve_step (strict : bool) (chan_i : string)
      (d : list (string * Dataset WSxM.header)) (n : nat)
      (kv : WSxM.curve_key * WSxM.entry) (w : WSxM.world)
      (st' : list (string * Dataset WSxM.header) * nat) (w' : WSxM.world) :
  WSxM.emit_curve strict chan_i (d, n) kv w = (Ok st', w') ->
  exists ds, st' = (dict_set (channel_key n) ds d, S n).
Proof.
  intros H. unfold WSxM.emit_curve in H. destruct kv as [curv_i curvdata_i].
  sinv H.
  apply se_ret_ok_inv in H. destruct H as [<- _]. eexists. reflexivity.
Qed.

Lemma emit_fold_keys (strict : bool) (top : WSxM.top_dict)
      (w : WSxM.world) (st' : list (string * Dataset WSxM.header) * nat)
      (w' : WSxM.world) :
  se_fold (WSxM.emit_channel strict) top ([], 0) w = (Ok st', w') ->
  keyed_upto (fst st') (snd st').
Proof.
  apply (se_fold_inv (fun st => keyed_upto (fst st) (snd st))); [|reflexivity].
  intros [d n] item s a' s' Hk H. unfold WSxM.emit_channel in H.
  apply se_bind_ok_inv in H. destruct H as (curves & s1 & _ & H).
  revert H. apply (se_fold_inv (fun st => keyed_upto (fst st) (snd st))); [|exact Hk].
  clear. intros [d n] kv s a' s' Hk H.
  apply emit_curve_step in H. destruct H as (ds & ->).
  apply keyed_upto_set. exact Hk.
Qed.

(** One file of the 3-D reader adds one record under the next key. *)
Lemma read3d_file_step (strict : bool) (dir : WSxM.directory)
      (d : list (string * Dataset WSxM.metadata3d)) (n : nat)
      (locals : option WSxM.locals3d) (p : string) (w : WSxM.world)
      (st' : list (string * Dataset WSxM.metadata3d) * nat * option WSxM.locals3d)
      (w' : WSxM.world) :
  WSxM.read3d_file strict dir (d, n, locals) p w = (Ok st', w') ->
  exists ds locals', st' = (dict_set (channel_key n) ds d, S n, locals').
Proof.
  intros H. unfold WSxM.read3d_file in H. sinv H.
  apply se_ret_ok_inv in H. destruct H as [<- _]. eexists _, _. reflexivity.
Qed.

(** ** The dataset sink *)

Lemma default_axes_lengths (shp : list nat) :
  forall (i : nat) (axs : list Dimension),
    Sidpy.default_axes i shp = Ok axs ->
    map (fun ax => length (dim_values ax)) axs = shp.
Proof.
  induction shp as [|n shp IH]; intros i axs H; simpl in H.
  - injection H as <-. reflexivity.
  - rinv H. injection H as <-. simpl. f_equal.
    + unfold Sidpy.default_axis in E. rinv E. injection E as <-. simpl.
      apply length_arange.
    + eapply IH. exact E0.
Qed.

Lemma from_array_ok {M} (x : option ndarray) (title : string)
      (chunks : option (list nat)) (ds : Dataset M) :
  Sidpy.from_array x title chunks = Ok ds ->
  x = Some (ds_array ds) /\ ds_title ds = title /\ axes_match ds.
Proof.
  unfold Sidpy.from_array. intros H.
  destruct (negb _); [discriminate|].
  destruct x as [a|]; [|discriminate].
  rinv H. injection H as <-. cbn. repeat split.
  unfold axes_match. cbn. eapply default_axes_lengths. exact E.
Qed.

Lemma set_dimension_ok {M} (strict : bool) (ds ds' : Dataset M) (ind : nat)
      (dim : Dimension) :
  Sidpy.set_dimension strict ds ind dim = Ok ds' ->
  ds_array ds' = ds_array ds
  /\ ds_title ds' = ds_title ds
  /\ ds_metadata ds' = ds_metadata ds
  /\ ds_axes ds' = <[ind := dim]> (ds_axes ds)
  /\ exists n, shape (ds_array ds) !! ind = Some n
               /\ (strict = true -> length (dim_values dim) = n).
Proof.
  unfold Sidpy.set_dimension. intros H.
  destruct (shape (ds_array ds) !! ind) as [n|]; [|discriminate].
  destruct (strict && negb (length (dim_values dim) =? n)) eqn:Hc; [discriminate|].
  injection H as <-. cbn. repeat split. exists n. split; [reflexivity|].
  intros ->. simpl in Hc. apply negb_false_iff, Nat.eqb_eq in Hc. exact Hc.
Qed.

Lemma rmap_ok_Forall2 {A B} (f : A -> res B) (l : list A) (r : list B) :
  rmap f l = Ok r -> Forall2 (fun x y => f x = Ok y) l r.
Proof.
  revert r. induction l as [|x l IH]; simpl; intros r Hr.
  - injection Hr as <-. constructor.
  - rinv Hr. injection Hr as <-. constructor; [exact E|apply IH; exact E0].
Qed.

Lemma titles_of_indices {B} (g : B -> string) (labels : list string) (r : list B) :
  forall (a : nat),
    Forall2 (fun i y => labels !! i = Some (g y)) (seq a (length r)) r ->
    map g r = take (length r) (drop a labels).
Proof.
  induction r as [|y r IH]; intros a H; simpl in *.
  - reflexivity.
  - inversion H as [|? ? ? ? Hy Hr]; subst.
    rewrite (drop_S _ _ _ Hy). simpl. f_equal. apply IH. exact Hr.
Qed.

(** turns the successful calls of the sink among the hypotheses into what
    they say about the dataset *)
Ltac sink_facts :=
  repeat match goal with
         | H : Sidpy.from_array _ _ _ = Ok _ |- _ =>
             apply from_array_ok in H;
             let Ha := fresh "Harr" in
             let Ht := fresh "Htitle" in
             let Hm := fresh "Haxes" in
             destruct H as (Ha & Ht & Hm)
         | H : Sidpy.set_dimension _ _ _ _ = Ok _ |- _ =>
             apply set_dimension_ok in H;
             let Ha := fresh "Harr" in
             let Ht := fresh "Htitle" in
             let Hd := fresh "Hmeta" in
             let Hx := fresh "Hset" in
             let n := fresh "n" in
             let Hn := fresh "Hdim" in
             let Hl := fresh "Hlen" in
             destruct H as (Ha & Ht & Hd & Hx & n & Hn & Hl)
         end.

Lemma image_channel_title strict pd num_rows num_cols labels units images ch ds :
  Igor.image_channel strict pd num_rows num_cols labels units images ch = Ok ds ->
  labels !! ch = Some (ds_title ds).
Proof.
  intros H. unfold Igor.image_channel in H. rinv H.
  apply or_raise_ok_inv in E0. injection H as <-. sink_facts.
  cbn in *. congruence.
Qed.

Lemma curve_channel_title strict pd spec labels units images ch ds :
  Igor.curve_channel strict pd spec labels units images ch = Ok ds ->
  labels !! ch = Some (ds_title ds).
Proof.
  intros H. unfold Igor.curve_channel in H. rinv H.
  apply or_raise_ok_inv in E0. injection H as <-. sink_facts.
  cbn in *. congruence.
Qed.

(** [IgorIBWReader.read] returns one record per channel, in the order of
    the channel labels and titled with them. *)
Lemma igor_read_titles (strict : bool) (w : Igor.ibw_wave)
      (l : list (Dataset Igor.parm_dict)) :
  Igor.read strict w = Ok l ->
  map ds_title l = take (length l) (igor_labels w).
Proof.
  intros H. unfold Igor.read in H. unfold igor_labels.
  destruct (Igor._get_chan_labels w) as [labels units]. cbn [fst].
  apply rbind_ok_inv in H. destruct H as (last & Hlast & H). cbv beta in H.
  unfold shape_from_end in Hlast. apply or_raise_ok_inv in Hlast.
  destruct (rev (shape (Igor.wData w))) as [|last' rest]; [discriminate|].
  injection Hlast as ->.
  assert (Hgen : forall (labels0 : list string)
                        (f : nat -> res (Dataset Igor.parm_dict)),
             (forall ch ds, f ch = Ok ds -> labels0 !! ch = Some (ds_title ds)) ->
             forall n, rmap f (seq 0 n) = Ok l ->
                       map ds_title l = take (length l) labels0).
  { intros labels0 f Hf n Hr.
    rewrite (titles_of_indices ds_title labels0 l 0); [reflexivity|].
    pose proof (rmap_ok_length _ _ _ Hr) as Hlen. rewrite length_seq in Hlen.
    rewrite Hlen. apply rmap_ok_Forall2 in Hr.
    eapply Forall2_impl; [exact Hr|]. intros ch ds Hch. apply Hf. exact Hch. }
  destruct (negb (last =? length labels));
    (destruct (ndim (Igor.wData w) =? 3);
     [ rinv H; eapply Hgen; [|exact H];
       intros ch ds Hch; eapply image_channel_title; exact Hch
     | rinv H; eapply Hgen; [|exact H];
       intros ch ds Hch; eapply curve_channel_title; exact Hch ]).
Qed.

Lemma mrc_read_single (strict : bool) (mrc : MRC.mrcfile) (handedness : string)
      (pixel_size : option Q) (self self' : MRC.MRCReader)
      (d : list (string * Dataset MRC.metadata_dict)) :
  MRC.read strict mrc handedness pixel_size self = (Ok d, self') ->
  exists ds, d = [(channel_key 0, ds)].
Proof.
  intros H. unfold MRC.read in H. sinv H.
  apply se_ret_ok_inv in H. destruct H as [<- _]. eexists. reflexivity.
Qed.

Lemma read3d_fold (strict : bool) (dir : WSxM.directory) (files : list string) :
  forall (d : list (string * Dataset WSxM.metadata3d)) (n : nat)
         (locals : option WSxM.locals3d) (w : WSxM.world)
         (d' : list (string * Dataset WSxM.metadata3d)) (n' : nat)
         (locals' : option WSxM.locals3d) (w' : WSxM.world),
    keyed_upto d n ->
    se_fold (WSxM.read3d_file strict dir) files (d, n, locals) w
    = (Ok (d', n', locals'), w') ->
    keyed_upto d' n' /\ n' = n + length files.
Proof.
  induction files as [|p files IH]; intros d n locals w d' n' locals' w' Hk H;
    simpl in H.
  - apply se_ret_ok_inv in H. destruct H as [Hp _]. injection Hp as <- <- <-.
    split; [exact Hk|simpl; lia].
  - apply se_bind_ok_inv in H. destruct H as ([[d1 n1] l1] & w1 & H1 & H2).
    apply read3d_file_step in H1. destruct H1 as (ds & l2 & Hst).
    injection Hst as -> -> ->.
    destruct (IH _ _ _ _ _ _ _ _ (proj2 (keyed_upto_set d n ds Hk)) H2) as [Hk' ->].
    split; [exact Hk'|simpl; lia].
Qed.

Lemma emit_curve_title (strict : bool) (chan_i : string)
      (d : list (string * Dataset WSxM.header)) (n : nat)
      (kv : WSxM.curve_key * WSxM.entry) (w : WSxM.world)
      (st' : list (string * Dataset WSxM.header) * nat) (w' : WSxM.world) :
  WSxM.emit_curve strict chan_i (d, n) kv w = (Ok st', w') ->
  w' = w
  /\ exists ds, st' = (dict_set (channel_key n) ds d, S n)
                /\ ds_title ds = (chan_i ++ " (" ++ WSxM.key_text (fst kv) ++ ")")%string.
Proof.
  intros H. unfold WSxM.emit_curve in H. destruct kv as [curv_i curvdata_i].
  sinv H. apply se_ret_ok_inv in H. destruct H as [<- ->].
  repeat match goal with
         | E : WSxM.get_data _ _ = (Ok _, _) |- _ => injection E as _ <-
         | E : WSxM.get_header _ _ = (Ok _, _) |- _ => injection E as _ <-
         end.
  split; [reflexivity|]. eexists. split; [reflexivity|].
  sink_facts. cbn in *. congruence.
Qed.

Lemma emit_curves_titles (strict : bool) (chan_i : string)
      (curves : list (WSxM.curve_key * WSxM.entry)) :
  forall (d : list (string * Dataset WSxM.header)) (n : nat) (w : WSxM.world)
         (st' : list (string * Dataset WSxM.header) * nat) (w' : WSxM.world),
    keyed_upto d n ->
    se_fold (WSxM.emit_curve strict chan_i) curves (d, n) w = (Ok st', w') ->
    w' = w /\ keyed_upto (fst st') (snd st')
    /\ titles (fst st')
       = (titles d
          ++ map (fun kv => (chan_i ++ " (" ++ WSxM.key_text (fst kv) ++ ")")%string)
                 curves)%list.
Proof.
  induction curves as [|kv curves IH]; intros d n w st' w' Hk H; cbn [se_fold] in H.
  - apply se_ret_ok_inv in H. destruct H as [<- ->]. cbn. rewrite app_nil_r. auto.
  - apply se_bind_ok_inv in H. destruct H as (st1 & w1 & H1 & H2).
    apply emit_curve_title in H1. destruct H1 as (-> & ds & -> & Ht).
    destruct (keyed_upto_set d n ds Hk) as [Hset Hk'].
    destruct (IH _ _ _ _ _ Hk' H2) as (-> & Hk2 & Ht2).
    split; [reflexivity|]. split; [exact Hk2|].
    rewrite Ht2, Hset. unfold titles. rewrite map_app. cbn [map snd].
    rewrite Ht, <- app_assoc. reflexivity.
Qed.

Lemma emit_channels_titles (strict : bool) (top : WSxM.top_dict) :
  forall (d : list (string * Dataset WSxM.header)) (n : nat) (w : WSxM.world)
         (st' : list (string * Dataset WSxM.header) * nat) (w' : WSxM.world),
    keyed_upto d n ->
    se_fold (WSxM.emit_channel strict) top (d, n) w = (Ok st', w') ->
    w' = w /\ keyed_upto (fst st') (snd st')
    /\ titles (fst st') = (titles d ++ curve_titles w top)%list.
Proof.
  induction top as [|item top IH]; intros d n w st' w' Hk H; cbn [se_fold] in H.
  - apply se_ret_ok_inv in H. destruct H as [<- ->]. cbn. rewrite app_nil_r. auto.
  - apply se_bind_ok_inv in H. destruct H as ([d1 n1] & w1 & H1 & H2).
    unfold WSxM.emit_channel in H1.
    apply se_bind_ok_inv in H1. destruct H1 as (curves & w0 & Hc & H1).
    unfold WSxM.get_curves, WSxM.cell in Hc. injection Hc as Hc <-.
    apply or_raise_ok_inv in Hc.
    destruct (emit_curves_titles _ _ _ _ _ _ _ _ Hk H1) as (-> & Hk1 & Ht1).
    cbn [fst snd] in Hk1, Ht1.
    destruct (IH _ _ _ _ _ Hk1 H2) as (-> & Hk2 & Ht2).
    split; [reflexivity|]. split; [exact Hk2|].
    rewrite Ht2, Ht1. unfold curve_titles. cbn [map concat].
    match goal with
    | |- context [match ?x with Some _ => _ | None => _ end ++ _] =>
        change x with (WSxM.curves_h w !! WSxM.o_curves (snd item)); rewrite Hc
    end.
    rewrite <- app_assoc. reflexivity.
Qed.

(** [IgorIBWReader.read] returns one record for each channel of the wave. *)
Lemma igor_read_count (strict : bool) (w : Igor.ibw_wave)
      (l : list (Dataset Igor.parm_dict)) :
  Igor.read strict w = Ok l ->
  (forall s0 s1 n, shape (Igor.wData w) = [s0; s1; n] -> length l = n)
  /\ (forall z c, shape (Igor.wData w) = [z; c] -> length l = c).
Proof.
  intros H. unfold Igor.read in H.
  destruct (Igor._get_chan_labels w) as [labels units].
  split.
  - intros s0 s1 n Hs. unfold shape_from_end, ndim in H. rewrite Hs in H. cbn in H.
    destruct (negb _); rinv H; apply rmap_ok_length in H; rewrite length_seq in H;
      exact H.
  - intros z c Hs.
    assert (H3 : NdSlice.atleast_3d (Igor.wData w)
                 = mk_ndarray [z; c; 1] (flat (Igor.wData w))).
    { unfold NdSlice.atleast_3d. rewrite Hs. reflexivity. }
    unfold shape_from_end, ndim in H. rewrite H3, Hs in H. cbn in H.
    destruct (negb _); rinv H; apply rmap_ok_length in H; rewrite length_seq in H;
      exact H.
Qed.

Lemma matrix_read_single (strict : bool) (w : Igor.ibw_wave)
      (s s' : option IgorMatrix.parm_dict) (ds : Dataset IgorMatrix.parm_dict) :
  IgorMatrix.read strict w s = (Ok ds, s') ->
  exists pd name,
    IgorMatrix._read_parms w = Ok pd /\ s' = Some pd
    /\ rbind (lookup_key "channel_name" pd) IgorMatrix.as_str = Ok name
    /\ ds_title ds = name
    /\ ds_original_metadata ds = Some pd.
Proof.
  intros H. unfold IgorMatrix.read in H. sinv H.
  assert (Himg : forall ds0, IgorMatrix.image_record strict v (Igor.wData w) = Ok ds0 ->
            exists name, rbind (lookup_key "channel_name" v) IgorMatrix.as_str = Ok name
                         /\ ds_title ds0 = name /\ ds_original_metadata ds0 = Some v).
  { intros ds0 Hr. unfold IgorMatrix.image_record in Hr. rinv Hr. injection Hr as <-.
    match goal with
    | Hn : rbind (lookup_key "channel_name" v) IgorMatrix.as_str = Ok ?nm |- _ =>
        exists nm; split; [exact Hn|]
    end.
    sink_facts. cbn in *. split; congruence. }
  assert (Hcits : forall ds0, IgorMatrix.cits_record strict v (Igor.wData w) = Ok ds0 ->
            exists name, rbind (lookup_key "channel_name" v) IgorMatrix.as_str = Ok name
                         /\ ds_title ds0 = name /\ ds_original_metadata ds0 = Some v).
  { intros ds0 Hr. unfold IgorMatrix.cits_record in Hr. rinv Hr. injection Hr as <-.
    match goal with
    | Hn : rbind (lookup_key "channel_name" v) IgorMatrix.as_str = Ok ?nm |- _ =>
        exists nm; split; [exact Hn|]
    end.
    sink_facts. cbn in *. split; congruence. }
  destruct (IgorMatrix.is_str "image" v1).
  - apply se_lift_ok_inv in H. destruct H as [H ->].
    destruct (Himg _ H) as (name & ? & ? & ?). exists v, name. auto.
  - sinv H. destruct (IgorMatrix.is_str "Volume CITS" _); [|discriminate].
    apply se_lift_ok_inv in H. destruct H as [H ->].
    destruct (Hcits _ H) as (name & ? & ? & ?). exists v, name. auto.
Qed.

(** C7 (as the code has it).  [MRCReader.read] and the three WSxM readers
    return a dictionary whose keys are [Channel_000], [Channel_001], ... in
    the order of insertion: the MRC reader one record; the 2-D reader one
    record per file of the group that is not a [.gsi] file, in the order of
    the group; the 3-D reader one record per file of the group; the 1-D
    reader one record per curve of the dictionary [data_dict_chan] (the
    first dictionary the call allocates), in the order of its channels and
    of their curves, titled with the channel and the curve index.
    [IgorIBWReader.read] returns the list of its records: as many as the
    wave has channels (the last dimension of an image stack, the second of
    a force curve), in the order of the channel labels and titled with
    them.  [IgorMatrixReader.read] returns the one record it builds, titled
    with the channel name of the note, and keeps the parameters in the
    reader. *)
Theorem channel_keys_in_order :
  (forall strict mrc handedness pixel_size self d self',
      MRC.read strict mrc handedness pixel_size self = (Ok d, self') ->
      channel_mapping (Mapping d) /\ length d = 1)
  /\ (forall strict dir path w d w',
         WSxM.WSxM2DReader_read strict dir path w = (Ok d, w') ->
         channel_mapping (Mapping d)
         /\ exists files,
             WSxM._wsxm_get_common_files dir path None = Ok files
             /\ map (fun kv => source_file (snd kv)) d
                = map Some (List.filter not_gsi files))
  /\ (forall strict dir path w d w',
         WSxM.WSxM1DReader_read strict dir path w = (Ok d, w') ->
         channel_mapping (Mapping d)
         /\ exists top,
             WSxM.tops w' !! length (WSxM.tops w) = Some top
             /\ titles d = curve_titles w' top)
  /\ (forall strict dir path w d w',
         WSxM.WSxM3DReader_read strict dir path w = (Ok d, w') ->
         channel_mapping (Mapping d)
         /\ exists files,
             WSxM._wsxm_get_common_files dir path None = Ok files
             /\ length d = length files)
  /\ (forall strict wave l,
         Igor.read strict wave = Ok l ->
         map ds_title l = take (length l) (igor_labels wave)
         /\ (forall s0 s1 n, shape (Igor.wData wave) = [s0; s1; n] -> length l = n)
         /\ (forall z c, shape (Igor.wData wave) = [z; c] -> length l = c))
  /\ (forall strict wave s ds s',
         IgorMatrix.read strict wave s = (Ok ds, s') ->
         exists pd name,
           IgorMatrix._read_parms wave = Ok pd /\ s' = Some pd
           /\ rbind (lookup_key "channel_name" pd) IgorMatrix.as_str = Ok name
           /\ ds_title ds = name
           /\ ds_original_metadata ds = Some pd).
Proof.
  split; [|split; [|split; [|split; [|split]]]].
  - intros strict mrc handedness pixel_size self d self' H.
    apply mrc_read_single in H. destruct H as (ds & ->). split; reflexivity.
  - intros strict dir path w d w' H.
    unfold WSxM.WSxM2DReader_read in H. sinv H.
    apply se_ret_ok_inv in H. destruct H as [<- _]. destruct v0 as [d0 n0].
    destruct (read2d_fold strict dir v [] [] 0 _ _ _ _ eq_refl eq_refl E0)
      as [Hk Hs].
    split; [eapply keyed_upto_length; exact Hk|].
    exists v. split; [exact E|exact Hs].
  - intros strict dir path w d w' H.
    unfold WSxM.WSxM1DReader_read in H. sinv H.
    apply se_ret_ok_inv in H. destruct H as [<- ->].
    injection E0 as <-.
    destruct (emit_channels_titles strict v3 [] 0 _ _ _ eq_refl E4) as (-> & Hk & Ht).
    split; [eapply keyed_upto_length; exact Hk|].
    exists v3. split; [apply or_raise_ok_inv in E3; exact E3|exact Ht].
  - intros strict dir path w d w' H.
    unfold WSxM.WSxM3DReader_read in H. sinv H.
    apply se_ret_ok_inv in H. destruct H as [<- _]. destruct v0 as [[d0 n0] l0].
    destruct (read3d_fold strict dir v [] 0 None _ _ _ _ _ eq_refl E0) as [Hk Hn].
    split; [eapply keyed_upto_length; exact Hk|].
    exists v. split; [exact E|].
    cbn [fst]. unfold keyed_upto in Hk.
    rewrite <- (length_map fst d0), Hk, length_map, length_seq. exact Hn.
  - intros strict wave l H. split.
    + apply igor_read_titles in H. exact H.
    + apply igor_read_count in H. exact H.
  - intros strict wave s ds s' H. eapply matrix_read_single. exact H.
Qed.

Lemma channel_keys_in_order_witness :
  (exists d self',
      MRC.read true Samples.mrc_full "right" None MRC.init = (Ok d, self')
      /\ channel_mapping (Mapping d) /\ length d = 1)
  /\ (exists d w',
         WSxM.WSxM2DReader_read false Samples.image_dir "img_0001.top"
                                WSxM.initial_world = (Ok d, w')
         /\ channel_mapping (Mapping d)
         /\ exists files,
             WSxM._wsxm_get_common_files Samples.image_dir "img_0001.top" None
             = Ok files
             /\ map (fun kv => source_file (snd kv)) d
                = map Some (List.filter not_gsi files))
  /\ (exists d w',
         WSxM.WSxM1DReader_read true Samples.curve_dir "fd_0001_Normal force.f.stp"
                                WSxM.initial_world = (Ok d, w')
         /\ channel_mapping (Mapping d)
         /\ exists top,
             WSxM.tops w' !! length (WSxM.tops WSxM.initial_world) = Some top
             /\ titles d = curve_titles w' top)
  /\ (exists d w',
         WSxM.WSxM3DReader_read true Samples.image_dir "amp_0004.mpp"
                                WSxM.initial_world = (Ok d, w')
         /\ channel_mapping (Mapping d)
         /\ exists files,
             WSxM._wsxm_get_common_files Samples.image_dir "amp_0004.mpp" None
             = Ok files
             /\ length d = length files)
  /\ (exists l,
         Igor.read true Samples.ibw_sensor = Ok l
         /\ map ds_title l = take (length l) (igor_labels Samples.ibw_sensor)
         /\ length l = 2)
  /\ (exists ds s',
         IgorMatrix.read true Samples.matrix_image None = (Ok ds, s')
         /\ exists pd name,
             IgorMatrix._read_parms Samples.matrix_image = Ok pd /\ s' = Some pd
             /\ rbind (lookup_key "channel_name" pd) IgorMatrix.as_str = Ok name
             /\ ds_title ds = name
             /\ ds_original_metadata ds = Some pd).
Proof.
  split; [|split; [|split; [|split; [|split]]]].
  - lazymatch eval vm_compute in
          (MRC.read true Samples.mrc_full "right" None MRC.init) with
    | (Ok ?d, ?s) =>
        exists d, s;
        assert (Hrun : MRC.read true Samples.mrc_full "right" None MRC.init = (Ok d, s))
          by (vm_compute; reflexivity);
        split;
        [exact Hrun
        |exact (proj1 channel_keys_in_order true Samples.mrc_full "right" None
                      MRC.init d s Hrun)]
    end.
  - lazymatch eval vm_compute in
          (WSxM.WSxM2DReader_read false Samples.image_dir "img_0001.top"
                                  WSxM.initial_world) with
    | (Ok ?d, ?s) =>
        exists d, s;
        assert (Hrun : WSxM.WSxM2DReader_read false Samples.image_dir "img_0001.top"
                                              WSxM.initial_world = (Ok d, s))
          by (vm_compute; reflexivity);
        split;
        [exact Hrun
        |exact (proj1 (proj2 channel_keys_in_order) false Samples.image_dir
                      "img_0001.top" WSxM.initial_world d s Hrun)]
    end.
  - lazymatch eval vm_compute in
          (WSxM.WSxM1DReader_read true Samples.curve_dir "fd_0001_Normal force.f.stp"
                                  WSxM.initial_world) with
    | (Ok ?d, ?s) =>
        exists d, s;
        assert (Hrun : WSxM.WSxM1DReader_read true Samples.curve_dir
                                              "fd_0001_Normal force.f.stp"
                                              WSxM.initial_world = (Ok d, s))
          by (vm_compute; reflexivity);
        split;
        [exact Hrun
        |exact (proj1 (proj2 (proj2 channel_keys_in_order)) true Samples.curve_dir
                      "fd_0001_Normal force.f.stp" WSxM.initial_world d s Hrun)]
    end.
  - lazymatch eval vm_compute in
          (WSxM.WSxM3DReader_read true Samples.image_dir "amp_0004.mpp"
                                  WSxM.initial_world) with
    | (Ok ?d, ?s) =>
        exists d, s;
        assert (Hrun : WSxM.WSxM3DReader_read true Samples.image_dir "amp_0004.mpp"
                                              WSxM.initial_world = (Ok d, s))
          by (vm_compute; reflexivity);
        split;
        [exact Hrun
        |exact (proj1 (proj2 (proj2 (proj2 channel_keys_in_order))) true
                      Samples.image_dir "amp_0004.mpp" WSxM.initial_world d s Hrun)]
    end.
  - lazymatch eval vm_compute in (Igor.read true Samples.ibw_sensor) with
    | Ok ?l =>
        exists l;
        assert (Hrun : Igor.read true Samples.ibw_sensor = Ok l)
          by (vm_compute; reflexivity);
        split; [exact Hrun|];
        destruct (proj1 (proj2 (proj2 (proj2 (proj2 channel_keys_in_order)))) true
                        Samples.ibw_sensor l Hrun) as (Ht & _ & Hc);
        split; [exact Ht|exact (Hc 3 2 eq_refl)]
    end.
  - lazymatch eval vm_compute in (IgorMatrix.read true Samples.matrix_image None) with
    | (Ok ?ds, ?s) =>
        exists ds, s;
        assert (Hrun : IgorMatrix.read true Samples.matrix_image None = (Ok ds, s))
          by (vm_compute; reflexivity);
        split;
        [exact Hrun
        |exact (proj2 (proj2 (proj2 (proj2 (proj2 channel_keys_in_order)))) true
                      Samples.matrix_image None ds s Hrun)]
    end.
Defined.

(** C7 as stated fails for [IgorIBWReader.read]: on the sample force curve it
    returns a list of two records, not a dictionary keyed by channel
    identifiers. *)
Lemma igor_returns_list_counterexample :
  exists l,
    Igor.read true Samples.ibw_sensor = Ok l
    /\ length l = 2
    /\ ~ channel_mapping (Listing l).
Proof.
  assert (H : {l | Igor.read true Samples.ibw_sensor = Ok l /\ length l = 2}).
  { vm_compute. eexists. split; reflexivity. }
  destruct H as (l & Hl & Hn). exists l. repeat split; auto.
Qed.

(** ** File handles *)

Lemma keeps_ret {A} (a : A) : keeps_handles (se_ret a).
Proof. intros w r w' H. injection H as _ <-. auto. Qed.

Lemma keeps_raise {A} (e : exn) : keeps_handles (@se_raise WSxM.world A e).
Proof. intros w r w' H. injection H as _ <-. auto. Qed.

Lemma keeps_lift {A} (x : res A) : keeps_handles (se_lift x).
Proof. intros w r w' H. injection H as _ <-. auto. Qed.

Lemma keeps_bind {A B} (m : WSxM.M A) (k : A -> WSxM.M B) :
  keeps_handles m -> (forall a, keeps_handles (k a)) -> keeps_handles (se_bind m k).
Proof.
  intros Hm Hk w r w' H. unfold se_bind in H.
  destruct (m w) as [[a|e] w1] eqn:E.
  - destruct (Hm _ _ _ E) as [H1 H2]. destruct (Hk a _ _ _ H) as [H3 H4].
    split; congruence.
  - injection H as _ <-. exact (Hm _ _ _ E).
Qed.

Lemma keeps_fold {A B} (f : A -> B -> WSxM.M A) (l : list B) :
  (forall a b, keeps_handles (f a b)) -> forall a, keeps_handles (se_fold f l a).
Proof.
  intros Hf. induction l as [|b l IH]; intros a; simpl.
  - apply keeps_ret.
  - apply keeps_bind; [apply Hf|exact IH].
Qed.

Lemma handles_dict_set (fd : nat) (f f' : WSxM.file_obj)
      (l : list (nat * WSxM.file_obj)) :
  dict_get fd l = Some f -> map fst (dict_set fd f' l) = map fst l.
Proof.
  induction l as [|[k v] l IH]; simpl; [discriminate|].
  destruct (decide (fd = k)) as [->|Hne]; intros H.
  - reflexivity.
  - simpl. f_equal. apply IH. exact H.
Qed.

Lemma keeps_seek (fd : nat) (pos : Z) : keeps_handles (WSxM.seek fd pos).
Proof.
  intros w r w' H. unfold WSxM.seek in H.
  destruct (dict_get fd (WSxM.open_files w)) as [f|] eqn:E.
  - destruct (pos <? 0)%Z; injection H as _ <-; [auto|].
    unfold handles. cbn. rewrite (handles_dict_set _ _ _ _ E). auto.
  - injection H as _ <-. auto.
Qed.

Lemma keeps_read_bytes (fd : nat) (n : Z) : keeps_handles (WSxM.read_bytes fd n).
Proof.
  intros w r w' H. unfold WSxM.read_bytes in H.
  destruct (dict_get fd (WSxM.open_files w)) as [f|] eqn:E.
  - destruct (n <? -1)%Z; injection H as _ <-; [auto|].
    unfold handles. cbn. rewrite (handles_dict_set _ _ _ _ E). auto.
  - injection H as _ <-. auto.
Qed.

Lemma keeps_file_size (fd : nat) : keeps_handles (WSxM.file_size fd).
Proof.
  intros w r w' H. unfold WSxM.file_size in H.
  destruct (dict_get fd (WSxM.open_files w)); injection H as _ <-; auto.
Qed.

Lemma keeps_store {A} (m : WSxM.M A) :
  (forall w, WSxM.open_files (snd (m w)) = WSxM.open_files w
             /\ WSxM.next_fd (snd (m w)) = WSxM.next_fd w) ->
  keeps_handles m.
Proof.
  intros Hm w r w' H. destruct (Hm w) as [Hf Hn]. rewrite H in Hf, Hn.
  unfold handles. simpl in Hf, Hn. rewrite Hf. auto.
Qed.

Lemma keeps_alloc_top t : keeps_handles (WSxM.alloc_top t).
Proof. apply keeps_store. intros w. split; reflexivity. Qed.
Lemma keeps_get_top l : keeps_handles (WSxM.get_top l).
Proof. apply keeps_store. intros w. split; reflexivity. Qed.
Lemma keeps_set_top l t : keeps_handles (WSxM.set_top l t).
Proof. apply keeps_store. intros w. split; reflexivity. Qed.
Lemma keeps_alloc_curves c : keeps_handles (WSxM.alloc_curves c).
Proof. apply keeps_store. intros w. split; reflexivity. Qed.
Lemma keeps_get_curves l : keeps_handles (WSxM.get_curves l).
Proof. apply keeps_store. intros w. split; reflexivity. Qed.
Lemma keeps_set_curves l c : keeps_handles (WSxM.set_curves l c).
Proof. apply keeps_store. intros w. split; reflexivity. Qed.
Lemma keeps_alloc_data d : keeps_handles (WSxM.alloc_data d).
Proof. apply keeps_store. intros w. split; reflexivity. Qed.
Lemma keeps_get_data l : keeps_handles (WSxM.get_data l).
Proof. apply keeps_store. intros w. split; reflexivity. Qed.
Lemma keeps_set_data l d : keeps_handles (WSxM.set_data l d).
Proof. apply keeps_store. intros w. split; reflexivity. Qed.
Lemma keeps_alloc_header h : keeps_handles (WSxM.alloc_header h).
Proof. apply keeps_store. intros w. split; reflexivity. Qed.
Lemma keeps_get_header l : keeps_handles (WSxM.get_header l).
Proof. apply keeps_store. intros w. split; reflexivity. Qed.
Lemma keeps_set_header l h : keeps_handles (WSxM.set_header l h).
Proof. apply keeps_store. intros w. split; reflexivity. Qed.
Lemma keeps_alloc_paths p : keeps_handles (WSxM.alloc_paths p).
Proof. apply keeps_store. intros w. split; reflexivity. Qed.
Lemma keeps_get_paths l : keeps_handles (WSxM.get_paths l).
Proof. apply keeps_store. intros w. split; reflexivity. Qed.
Lemma keeps_set_paths l p : keeps_handles (WSxM.set_paths l p).
Proof. apply keeps_store. intros w. split; reflexivity. Qed.

Create HintDb handles.
#[local] Hint Resolve keeps_ret keeps_raise keeps_lift keeps_seek keeps_read_bytes
  keeps_file_size keeps_alloc_top keeps_get_top keeps_set_top keeps_alloc_curves
  keeps_get_curves keeps_set_curves keeps_alloc_data keeps_get_data keeps_set_data
  keeps_alloc_header keeps_get_header keeps_set_header keeps_alloc_paths
  keeps_get_paths keeps_set_paths : handles.

(** follows the structure of a computation that uses no [open] and no
    [close] *)
Ltac keeps_step :=
  lazymatch goal with
  | |- keeps_handles (se_bind _ _) => apply keeps_bind; [|intros ?]
  | |- keeps_handles (se_fold _ _ _) => apply keeps_fold; intros ? ?
  | |- keeps_handles (WSxM.when ?b _) => unfold WSxM.when; destruct b
  | |- keeps_handles (if ?b then _ else _) => destruct b
  | |- keeps_handles (match ?x with _ => _ end) => destruct x
  | |- keeps_handles _ => solve [auto with handles]
  end.
Ltac keeps_tac := repeat keeps_step.

Lemma keeps_readheader file pos : keeps_handles (WSxM._wsxm_readheader file pos).
Proof. unfold WSxM._wsxm_readheader. keeps_tac. Qed.

Lemma keeps_readimg file h pos : keeps_handles (WSxM._wsxm_readimg file h pos).
Proof. unfold WSxM._wsxm_readimg. keeps_tac. Qed.
#[local] Hint Resolve keeps_readheader keeps_readimg : handles.

Lemma keeps_stp_parse p file : keeps_handles (WSxM.stp_parse p file).
Proof. unfold WSxM.stp_parse. keeps_tac. Qed.

Lemma keeps_stp_curve f dd i : keeps_handles (WSxM.stp_curve f dd i).
Proof.
  unfold WSxM.stp_curve, WSxM.stp_channel, WSxM.stp_entry, WSxM.stp_direction,
    WSxM.stp_file_path, WSxM.stp_xy, WSxM.assign_xy.
  keeps_tac.
Qed.
#[local] Hint Resolve keeps_stp_parse keeps_stp_curve : handles.

Lemma keeps_stp_store f dd : keeps_handles (WSxM.stp_store f dd).
Proof. unfold WSxM.stp_store. keeps_tac. Qed.

Lemma keeps_curves_turn p file top n c dd pos :
  keeps_handles (WSxM.curves_turn p file top n c dd pos).
Proof. unfold WSxM.curves_turn. keeps_tac. Qed.
#[local] Hint Resolve keeps_stp_store keeps_curves_turn : handles.

Lemma keeps_curves_loop fuel p file top n c dd :
  forall pos, keeps_handles (WSxM.curves_loop fuel p file top n c dd pos).
Proof.
  induction fuel as [|fuel IH]; intros pos; simpl.
  - apply keeps_raise.
  - apply keeps_bind; [apply keeps_curves_turn|].
    intros [pos'|y]; [apply IH|apply keeps_ret].
Qed.

Lemma keeps_read_frames file n c len scale count pos :
  keeps_handles (WSxM.read_frames file n c len scale count pos).
Proof. unfold WSxM.read_frames. keeps_tac. Qed.
#[local] Hint Resolve keeps_curves_loop keeps_read_frames : handles.

Lemma keeps_merge_curve o c t d k : keeps_handles (WSxM.merge_curve o c t d k).
Proof. unfold WSxM.merge_curve. keeps_tac. Qed.
#[local] Hint Resolve keeps_merge_curve : handles.

Lemma keeps_merge_file o c t d : keeps_handles (WSxM.merge_file o c t d).
Proof. unfold WSxM.merge_file. keeps_tac. Qed.

Lemma keeps_emit_curve strict c st kv : keeps_handles (WSxM.emit_curve strict c st kv).
Proof. unfold WSxM.emit_curve. keeps_tac. Qed.
#[local] Hint Resolve keeps_merge_file keeps_emit_curve : handles.

Lemma keeps_emit_channel strict st item :
  keeps_handles (WSxM.emit_channel strict st item).
Proof. unfold WSxM.emit_channel. keeps_tac. Qed.
#[local] Hint Resolve keeps_emit_channel : handles.

Lemma closes_bind {A B} (fd : nat) (m : WSxM.M A) (k : A -> WSxM.M B) :
  keeps_handles m -> (forall a, closes_handle fd (k a)) ->
  closes_handle fd (se_bind m k).
Proof.
  intros Hm Hk w r w' H. unfold se_bind in H.
  destruct (m w) as [[a|e] w1] eqn:E; destruct (Hm _ _ _ E) as [H1 H2].
  - destruct (Hk a _ _ _ H) as [H3 [[H4 H5]|H4]].
    + split; [congruence|]. left. split; [congruence|exact H5].
    + split; [congruence|]. right. rewrite H4, H1. reflexivity.
  - injection H as <- <-. split; [exact H2|]. left. auto.
Qed.

Lemma handles_close (fd : nat) (w : WSxM.world) :
  handles (snd (WSxM.close fd w)) = filter (fun x => x <> fd) (handles w).
Proof.
  unfold WSxM.close, handles. cbn.
  induction (WSxM.open_files w) as [|[k v] l IH]; [reflexivity|].
  rewrite map_cons, (filter_cons (fun x => x <> fd)).
  rewrite (filter_cons (fun p : nat * WSxM.file_obj => fst p <> fd)). cbn [fst].
  destruct (decide (k <> fd)); rewrite ?map_cons, IH; reflexivity.
Qed.

Lemma closes_close {B} (fd : nat) (k : unit -> WSxM.M B) :
  (forall a, keeps_handles (k a)) -> closes_handle fd (se_bind (WSxM.close fd) k).
Proof.
  intros Hk w r w' H. unfold se_bind in H.
  pose proof (handles_close fd w) as Hc.
  destruct (WSxM.close fd w) as [[[]|e] w1] eqn:E;
    [|unfold WSxM.close in E; discriminate].
  assert (Hn : WSxM.next_fd w1 = WSxM.next_fd w).
  { unfold WSxM.close in E. injection E as <-. reflexivity. }
  destruct (Hk tt _ _ _ H) as [H1 H2].
  split; [congruence|]. right. rewrite H1. exact Hc.
Qed.

Lemma filter_fresh_handle (fd : nat) (l : list nat) :
  Forall (fun x => x < fd) l -> filter (fun x => x <> fd) (l ++ [fd])%list = l.
Proof.
  intros Hl. rewrite filter_app.
  rewrite (filter_cons (fun x => x <> fd)), filter_nil.
  destruct (decide (fd <> fd)) as [Hne|_]; [congruence|].
  rewrite app_nil_r.
  induction Hl as [|x l Hx Hl IH]; [reflexivity|].
  rewrite filter_cons. destruct (decide (x <> fd)) as [_|He]; [|lia].
  rewrite IH. reflexivity.
Qed.

Lemma scoped_of_keeps {A} (m : WSxM.M A) : keeps_handles m -> scoped_handles m.
Proof.
  intros Hm w r w' Hwf H. destruct (Hm _ _ _ H) as [H1 H2].
  unfold handles_wf. rewrite H1, H2. repeat split; [exact Hwf|lia|].
  destruct r; [exact H1|left; exact H1].
Qed.

Lemma scoped_bind {A B} (m : WSxM.M A) (k : A -> WSxM.M B) :
  scoped_handles m -> (forall a, scoped_handles (k a)) ->
  scoped_handles (se_bind m k).
Proof.
  intros Hm Hk w r w' Hwf H. unfold se_bind in H.
  destruct (m w) as [[a|e] w1] eqn:E.
  - destruct (Hm _ _ _ Hwf E) as (Hwf1 & Hn1 & H1). simpl in H1.
    destruct (Hk a _ _ _ Hwf1 H) as (Hwf' & Hn' & H').
    repeat split; [exact Hwf'|lia|].
    destruct r as [b|e']; simpl in *.
    + congruence.
    + destruct H' as [H'|(fd & Hfd & H')].
      * left. congruence.
      * right. exists fd. split; [lia|congruence].
  - injection H as <- <-. exact (Hm _ _ _ Hwf E).
Qed.

Lemma scoped_fold {A B} (f : A -> B -> WSxM.M A) (l : list B) :
  (forall a b, scoped_handles (f a b)) -> forall a, scoped_handles (se_fold f l a).
Proof.
  intros Hf. induction l as [|b l IH]; intros a; simpl.
  - apply scoped_of_keeps, keeps_ret.
  - apply scoped_bind; [apply Hf|exact IH].
Qed.

(** [open] followed by a computation that closes the handle *)
Lemma scoped_open {B} (dir : WSxM.directory) (p : string) (k : nat -> WSxM.M B) :
  (forall fd, closes_handle fd (k fd)) ->
  scoped_handles (se_bind (WSxM.open_ dir p) k).
Proof.
  intros Hk w r w' Hwf H. unfold se_bind, WSxM.open_ in H.
  assert (Hfail : forall e, (r, w') = (Raise e, w) ->
                            handles_wf w' /\ WSxM.next_fd w <= WSxM.next_fd w'
                            /\ handles_after w r w').
  { intros e He. injection He as -> ->. repeat split; [exact Hwf|lia|].
    left. reflexivity. }
  destruct (List.find _ dir) as [e|]; [|eapply Hfail; symmetry; exact H].
  destruct (WSxM.is_file e); [|eapply Hfail; symmetry; exact H].
  clear Hfail.
  match type of H with
  | k _ ?w1 = _ =>
      assert (H1 : handles w1 = (handles w ++ [WSxM.next_fd w])%list)
        by (unfold handles; cbn; rewrite map_app; reflexivity);
      assert (H2 : WSxM.next_fd w1 = S (WSxM.next_fd w)) by reflexivity;
      destruct (Hk _ _ _ _ H) as [H3 [[H4 H5]|H4]]
  end.
  - rewrite H1 in H4. rewrite H2 in H3.
    split; [|split; [lia|]].
    + unfold handles_wf. rewrite H4, H3. apply Forall_app. split.
      * eapply Forall_impl; [exact Hwf|]. intros x Hx. simpl in Hx. lia.
      * constructor; [lia|constructor].
    + destruct r; [discriminate|]. right. exists (WSxM.next_fd w). split; [lia|exact H4].
  - rewrite H1, (filter_fresh_handle _ _ Hwf) in H4. rewrite H2 in H3.
    split; [|split; [lia|]].
    + unfold handles_wf. rewrite H4, H3.
      eapply Forall_impl; [exact Hwf|]. intros x Hx. simpl in Hx. lia.
    + destruct r; [exact H4|left; exact H4].
Qed.

(** follows a computation from after [open] to its [close] *)
Ltac closes_step :=
  lazymatch goal with
  | |- closes_handle ?fd (se_bind (WSxM.close ?fd) _) =>
      apply closes_close; intros ?; keeps_tac
  | |- closes_handle _ (se_bind _ _) => apply closes_bind; [keeps_tac|intros ?]
  | |- closes_handle _ (match ?x with _ => _ end) => destruct x
  end.

Ltac scoped_step :=
  lazymatch goal with
  | |- scoped_handles (se_bind (WSxM.open_ _ _) _) =>
      apply scoped_open; intros ?; repeat closes_step
  | |- scoped_handles (se_bind _ _) => apply scoped_bind; [|intros ?]
  | |- scoped_handles (se_fold _ _ _) => apply scoped_fold; intros ? ?
  | |- scoped_handles (if ?b then _ else _) => destruct b
  | |- scoped_handles (match ?x with _ => _ end) => destruct x
  | |- scoped_handles _ =>
      first [ solve [auto with handles] | apply scoped_of_keeps; keeps_tac ]
  end.
Ltac scoped_tac := repeat scoped_step.

Lemma scoped_readstp dir p dd : scoped_handles (WSxM._wsxm_readstp dir p dd).
Proof. unfold WSxM._wsxm_readstp. scoped_tac. Qed.

Lemma scoped_readcurves dir p : scoped_handles (WSxM._wsxm_readcurves dir p).
Proof. unfold WSxM._wsxm_readcurves. scoped_tac. Qed.

Lemma scoped_readcur dir p : scoped_handles (WSxM._wsxm_readcur dir p).
Proof. unfold WSxM._wsxm_readcur. scoped_tac. Qed.

Lemma scoped_readforcevol dir p : scoped_handles (WSxM._wsxm_readforcevol dir p).
Proof. unfold WSxM._wsxm_readforcevol. scoped_tac. Qed.

Lemma scoped_readmovie dir p : scoped_handles (WSxM._wsxm_readmovie dir p).
Proof. unfold WSxM._wsxm_readmovie. scoped_tac. Qed.
#[local] Hint Resolve scoped_readstp scoped_readcurves scoped_readcur
  scoped_readforcevol scoped_readmovie : handles.

Lemma scoped_read2d_file strict dir st p :
  scoped_handles (WSxM.read2d_file strict dir st p).
Proof. unfold WSxM.read2d_file. scoped_tac. Qed.

Lemma scoped_read1d_file dir c s p : scoped_handles (WSxM.read1d_file dir c s p).
Proof. unfold WSxM.read1d_file. scoped_tac. Qed.

Lemma scoped_read3d_file strict dir st p :
  scoped_handles (WSxM.read3d_file strict dir st p).
Proof. unfold WSxM.read3d_file. scoped_tac. Qed.
#[local] Hint Resolve scoped_read2d_file scoped_read1d_file scoped_read3d_file : handles.

Lemma last_bind {A B} (fd : nat) (m : WSxM.M A) (k : A -> WSxM.M B) :
  keeps_handles m -> (forall a, closes_last fd (k a)) -> closes_last fd (se_bind m k).
Proof.
  intros Hm Hk w r w' H. unfold se_bind in H.
  destruct (m w) as [[a|e] w1] eqn:E; destruct (Hm _ _ _ E) as [H1 H2].
  - destruct (Hk a _ _ _ H) as [H3 H4].
    split; [congruence|]. destruct r; rewrite H4, H1; reflexivity.
  - injection H as <- <-. split; assumption.
Qed.

Lemma last_close {B} (fd : nat) (b : B) :
  closes_last fd (se_bind (WSxM.close fd) (fun _ => se_ret b)).
Proof.
  intros w r w' H. unfold se_bind, se_ret in H.
  pose proof (handles_close fd w) as Hc.
  unfold WSxM.close in *. cbn in Hc. injection H as <- <-. split; [reflexivity|exact Hc].
Qed.

Lemma open_then_leaves {B} (dir : WSxM.directory) (p : string) (k : nat -> WSxM.M B) :
  (forall fd, closes_last fd (k fd)) ->
  leaves_open_on_error dir p (se_bind (WSxM.open_ dir p) k).
Proof.
  intros Hk w e w' Hr H. unfold se_bind, WSxM.open_ in H. unfold readable in Hr.
  destruct (List.find _ dir) as [en|]; [|discriminate]. rewrite Hr in H.
  destruct (Hk _ _ _ _ H) as [_ H1]. rewrite H1.
  unfold handles. cbn. rewrite map_app. reflexivity.
Qed.

Ltac last_step :=
  lazymatch goal with
  | |- closes_last ?fd (se_bind (WSxM.close ?fd) _) => apply last_close
  | |- closes_last _ (se_bind _ _) => apply last_bind; [keeps_tac|intros ?]
  | |- closes_last _ (match ?x with _ => _ end) => destruct x
  end.

Lemma leaves_readstp dir p dd :
  leaves_open_on_error dir p (WSxM._wsxm_readstp dir p dd).
Proof.
  unfold WSxM._wsxm_readstp. apply open_then_leaves. intros fd. repeat last_step.
Qed.

Lemma leaves_readforcevol dir p :
  leaves_open_on_error dir p (WSxM._wsxm_readforcevol dir p).
Proof.
  unfold WSxM._wsxm_readforcevol. apply open_then_leaves. intros fd. repeat last_step.
Qed.

Lemma leaves_readmovie dir p :
  leaves_open_on_error dir p (WSxM._wsxm_readmovie dir p).
Proof.
  unfold WSxM._wsxm_readmovie. apply open_then_leaves. intros fd. repeat last_step.
Qed.

Lemma leaves_readcurves dir p :
  leaves_open_on_error dir p (WSxM._wsxm_readcurves dir p).
Proof.
  intros w e w' Hr H. unfold WSxM._wsxm_readcurves in H.
  unfold se_bind at 1 in H. unfold WSxM.alloc_top at 1 in H. cbv beta iota in H.
  eapply (open_then_leaves dir p) in H; [exact H| |exact Hr].
  intros fd. repeat last_step.
Qed.

Lemma leaves_readcur dir p :
  leaves_open_on_error dir p (WSxM._wsxm_readcur dir p).
Proof.
  intros w e w' Hr H. unfold WSxM._wsxm_readcur in H.
  unfold se_bind at 1 in H. unfold WSxM.alloc_top at 1 in H. cbv beta iota in H.
  eapply (open_then_leaves dir p) in H; [exact H| |exact Hr].
  intros fd. repeat last_step.
Qed.

(** C6 (as the code has it).  The WSxM decoders open their files with
    [open] and close them with [close] at the end of the same function,
    without [with] or [try/finally].  A call of a reader that returns leaves
    open the handles that were open before, and no other; a call that raises
    leaves at most one more handle open.  In the functions that read one
    file ([_wsxm_readstp], [_wsxm_readcurves], [_wsxm_readcur],
    [_wsxm_readforcevol], [_wsxm_readmovie]) every exception raised after
    the file was opened leaves its handle open. *)
Theorem handles_released_on_return :
  (forall strict dir path w r w',
      handles_wf w ->
      WSxM.WSxM2DReader_read strict dir path w = (r, w') ->
      handles_wf w' /\ handles_after w r w')
  /\ (forall strict dir path w r w',
         handles_wf w ->
         WSxM.WSxM1DReader_read strict dir path w = (r, w') ->
         handles_wf w' /\ handles_after w r w')
  /\ (forall strict dir path w r w',
         handles_wf w ->
         WSxM.WSxM3DReader_read strict dir path w = (r, w') ->
         handles_wf w' /\ handles_after w r w')
  /\ (forall dir p,
         (forall dd, leaves_open_on_error dir p (WSxM._wsxm_readstp dir p dd))
         /\ leaves_open_on_error dir p (WSxM._wsxm_readcurves dir p)
         /\ leaves_open_on_error dir p (WSxM._wsxm_readcur dir p)
         /\ leaves_open_on_error dir p (WSxM._wsxm_readforcevol dir p)
         /\ leaves_open_on_error dir p (WSxM._wsxm_readmovie dir p)).
Proof.
  assert (Hs : forall {A} (m : WSxM.M A), scoped_handles m ->
                 forall w r w', handles_wf w -> m w = (r, w') ->
                                handles_wf w' /\ handles_after w r w').
  { intros A m Hm w r w' Hwf H. destruct (Hm w r w' Hwf H) as (H1 & _ & H2). auto. }
  split; [|split; [|split]].
  - intros strict dir path. apply Hs.
    unfold WSxM.WSxM2DReader_read. scoped_tac.
  - intros strict dir path. apply Hs.
    unfold WSxM.WSxM1DReader_read. scoped_tac.
  - intros strict dir path. apply Hs.
    unfold WSxM.WSxM3DReader_read. scoped_tac.
  - intros dir p. split; [intros dd; apply leaves_readstp|].
    split; [apply leaves_readcurves|]. split; [apply leaves_readcur|].
    split; [apply leaves_readforcevol|apply leaves_readmovie].
Qed.

Lemma initial_world_wf : handles_wf WSxM.initial_world.
Proof. constructor. Qed.

(** runs a decode of a sample from the initial world and applies [thm] to
    the run *)
Ltac on_run m thm :=
  lazymatch eval vm_compute in (m WSxM.initial_world) with
  | (?r, ?s) =>
      exists r, s;
      assert (Hrun : m WSxM.initial_world = (r, s)) by (vm_compute; reflexivity);
      split; [exact Hrun|exact (thm WSxM.initial_world r s initial_world_wf Hrun)]
  end.

Ltac on_failed_run m thm :=
  lazymatch eval vm_compute in (m WSxM.initial_world) with
  | (Raise ?e, ?s) =>
      exists e, s;
      assert (Hrun : m WSxM.initial_world = (Raise e, s)) by (vm_compute; reflexivity);
      split; [exact Hrun|exact (thm WSxM.initial_world e s eq_refl Hrun)]
  end.

Lemma handles_released_on_return_witness :
  (exists r w',
      WSxM.WSxM2DReader_read false Samples.image_dir "img_0001.top"
                             WSxM.initial_world = (r, w')
      /\ handles_wf w' /\ handles_after WSxM.initial_world r w')
  /\ (exists r w',
         WSxM.WSxM1DReader_read true Samples.curve_dir "fd_0001_Normal force.f.stp"
                                WSxM.initial_world = (r, w')
         /\ handles_wf w' /\ handles_after WSxM.initial_world r w')
  /\ (exists r w',
         WSxM.WSxM3DReader_read true Samples.image_dir "amp_0004.mpp"
                                WSxM.initial_world = (r, w')
         /\ handles_wf w' /\ handles_after WSxM.initial_world r w')
  /\ (exists e w',
         WSxM._wsxm_readstp Samples.image_dir "img_0001.top" WSxM.readstp_default
                            WSxM.initial_world = (Raise e, w')
         /\ handles w' = [0])
  /\ (exists e w',
         WSxM._wsxm_readcurves Samples.image_dir "img_0001.top" WSxM.initial_world
         = (Raise e, w')
         /\ handles w' = [0])
  /\ (exists e w',
         WSxM._wsxm_readcur Samples.image_dir "img_0001.top" WSxM.initial_world
         = (Raise e, w')
         /\ handles w' = [0])
  /\ (exists e w',
         WSxM._wsxm_readforcevol Samples.image_dir "img_0001.top" WSxM.initial_world
         = (Raise e, w')
         /\ handles w' = [0])
  /\ (exists e w',
         WSxM._wsxm_readmovie Samples.image_dir "bad_0006.mpp" WSxM.initial_world
         = (Raise e, w')
         /\ handles w' = [0]).
Proof.
  pose proof handles_released_on_return as (H2 & H1 & H3 & HL).
  split; [|split; [|split; [|split; [|split; [|split; [|split]]]]]].
  - on_run (WSxM.WSxM2DReader_read false Samples.image_dir "img_0001.top")
           (H2 false Samples.image_dir "img_0001.top").
  - on_run (WSxM.WSxM1DReader_read true Samples.curve_dir "fd_0001_Normal force.f.stp")
           (H1 true Samples.curve_dir "fd_0001_Normal force.f.stp").
  - on_run (WSxM.WSxM3DReader_read true Samples.image_dir "amp_0004.mpp")
           (H3 true Samples.image_dir "amp_0004.mpp").
  - on_failed_run
      (WSxM._wsxm_readstp Samples.image_dir "img_0001.top" WSxM.readstp_default)
      (proj1 (HL Samples.image_dir "img_0001.top") WSxM.readstp_default).
  - on_failed_run
      (WSxM._wsxm_readcurves Samples.image_dir "img_0001.top")
      (proj1 (proj2 (HL Samples.image_dir "img_0001.top"))).
  - on_failed_run
      (WSxM._wsxm_readcur Samples.image_dir "img_0001.top")
      (proj1 (proj2 (proj2 (HL Samples.image_dir "img_0001.top")))).
  - on_failed_run
      (WSxM._wsxm_readforcevol Samples.image_dir "img_0001.top")
      (proj1 (proj2 (proj2 (proj2 (HL Samples.image_dir "img_0001.top"))))).
  - on_failed_run
      (WSxM._wsxm_readmovie Samples.image_dir "bad_0006.mpp")
      (proj2 (proj2 (proj2 (proj2 (HL Samples.image_dir "bad_0006.mpp"))))).
Defined.

(** C6 as stated fails: the sample [bad_0005.top] lacks the header field
    [X-Frequency], [_wsxm_readimg] raises [KeyError], and the handle that
    [WSxM2DReader.read] opened is still open when the exception leaves the
    call. *)
Lemma handle_left_open_counterexample :
  exists w',
    WSxM.WSxM2DReader_read true Samples.image_dir "bad_0005.top" WSxM.initial_world
    = (Raise (KeyError "X-Frequency [Control]"), w')
    /\ handles WSxM.initial_world = []
    /\ handles w' = [0]
    /\ exists file header pos w0,
        Samples.after_header "bad_0005.top" = (Ok (file, header, pos), w0)
        /\ fst (WSxM._wsxm_readimg file header pos w0)
           = Raise (KeyError "X-Frequency [Control]").
Proof.
  lazymatch eval vm_compute in
        (WSxM.WSxM2DReader_read true Samples.image_dir "bad_0005.top"
                                WSxM.initial_world) with
  | (_, ?s) => exists s
  end.
  split; [vm_compute; reflexivity|].
  split; [reflexivity|]. split; [vm_compute; reflexivity|].
  lazymatch eval vm_compute in (Samples.after_header "bad_0005.top") with
  | (Ok (?f, ?h, ?p), ?w) => exists f, h, p, w
  end.
  split; vm_compute; reflexivity.
Qed.

(** ** The axes of the records *)

Lemma axes_match_count {M} (ds : Dataset M) : axes_match ds -> axes_count_ok ds.
Proof.
  unfold axes_match, axes_count_ok, ndim. intros H.
  rewrite <- H, length_map. reflexivity.
Qed.

Lemma record_ok_from_array {M} strict (x : option ndarray) (title : string)
      (chunks : option (list nat)) (ds : Dataset M) :
  Sidpy.from_array x title chunks = Ok ds -> record_ok strict ds /\ axes_match ds.
Proof.
  intros H. apply from_array_ok in H. destruct H as (_ & _ & H).
  split; [split; [apply axes_match_count; exact H|intros _; exact H]|exact H].
Qed.

Lemma axes_match_set {M} (ds ds' : Dataset M) (ind : nat) (dim : Dimension) :
  axes_match ds ->
  ds_array ds' = ds_array ds ->
  ds_axes ds' = <[ind := dim]> (ds_axes ds) ->
  shape (ds_array ds) !! ind = Some (length (dim_values dim)) ->
  axes_match ds'.
Proof.
  unfold axes_match. intros Hm Ha Hx Hn. rewrite Ha, Hx.
  rewrite list_fmap_insert. change (fmap ?f ?l) with (map f l).
  rewrite Hm. apply list_insert_id. exact Hn.
Qed.

Lemma record_ok_set_dimension {M} strict (ds ds' : Dataset M) (ind : nat)
      (dim : Dimension) :
  record_ok strict ds ->
  Sidpy.set_dimension strict ds ind dim = Ok ds' ->
  record_ok strict ds'.
Proof.
  intros [Hc Hm] H. apply set_dimension_ok in H.
  destruct H as (Ha & _ & _ & Hx & n & Hn & Hl). split.
  - unfold axes_count_ok in *. rewrite Ha, Hx, length_insert. exact Hc.
  - intros Hs. eapply axes_match_set; [exact (Hm Hs)|exact Ha|exact Hx|].
    rewrite (Hl Hs). exact Hn.
Qed.

Lemma record_ok_ext {M N} strict (ds : Dataset M) (ds' : Dataset N) :
  ds_array ds' = ds_array ds -> ds_axes ds' = ds_axes ds ->
  record_ok strict ds -> record_ok strict ds'.
Proof.
  unfold record_ok, axes_count_ok, axes_match. intros -> ->. auto.
Qed.

Lemma axes_match_ext {M N} (ds : Dataset M) (ds' : Dataset N) :
  ds_array ds' = ds_array ds -> ds_axes ds' = ds_axes ds ->
  axes_match ds -> axes_match ds'.
Proof. unfold axes_match. intros -> ->. auto. Qed.

Lemma Forall_dict_set {V} (P : string * V -> Prop) (k : string) (v : V)
      (d : list (string * V)) :
  (forall k', P (k', v)) -> Forall P d -> Forall P (dict_set k v d).
Proof.
  intros Hv. induction d as [|[k0 v0] d IH]; simpl; intros Hd.
  - constructor; [apply Hv|constructor].
  - inversion Hd as [|? ? H0 Hd']; subst.
    destruct (decide (k = k0)); constructor; auto.
Qed.

(** derives [record_ok] for a dataset built by [from_array], attribute
    assignments and [set_dimension] *)
Ltac record_tac :=
  lazymatch goal with
  | |- record_ok ?s _ =>
      repeat match goal with
             | H : Sidpy.from_array _ _ _ = Ok _ |- _ =>
                 apply (record_ok_from_array s) in H; destruct H as [H _]
             | H : Sidpy.set_dimension s _ _ _ = Ok _ |- _ =>
                 eapply record_ok_set_dimension in H;
                 [|first [eassumption
                         |eapply record_ok_ext; [| |eassumption]; reflexivity]]
             end;
      first [eassumption|eapply record_ok_ext; [| |eassumption]; reflexivity]
  end.

Lemma read2d_file_records strict dir d n p w d' n' w' :
  Forall (fun kv => record_ok strict (snd kv)) d ->
  WSxM.read2d_file strict dir (d, n) p w = (Ok (d', n'), w') ->
  Forall (fun kv => record_ok strict (snd kv)) d'.
Proof.
  intros Hd H. unfold WSxM.read2d_file in H.
  destruct (negb (String.eqb (WSxM.suffix p) ".gsi")).
  - sinv H. apply se_ret_ok_inv in H. destruct H as [Hp _]. injection Hp as <- _.
    apply Forall_dict_set; [|exact Hd]. intros k'. cbn [snd]. record_tac.
  - apply se_ret_ok_inv in H. destruct H as [Hp _]. injection Hp as <- _. exact Hd.
Qed.

Lemma emit_curve_records strict chan_i d n kv w d' n' w' :
  Forall (fun kv => record_ok strict (snd kv)) d ->
  WSxM.emit_curve strict chan_i (d, n) kv w = (Ok (d', n'), w') ->
  Forall (fun kv => record_ok strict (snd kv)) d'.
Proof.
  intros Hd H. unfold WSxM.emit_curve in H. destruct kv as [curv_i curvdata_i].
  sinv H. apply se_ret_ok_inv in H. destruct H as [Hp _]. injection Hp as <- _.
  apply Forall_dict_set; [|exact Hd]. intros k'. cbn [snd]. record_tac.
Qed.

Lemma read3d_file_records strict dir d n locals p w d' n' locals' w' :
  Forall (fun kv => record_ok strict (snd kv)) d ->
  WSxM.read3d_file strict dir (d, n, locals) p w = (Ok (d', n', locals'), w') ->
  Forall (fun kv => record_ok strict (snd kv)) d'.
Proof.
  intros Hd H. unfold WSxM.read3d_file in H. sinv H.
  apply se_ret_ok_inv in H. destruct H as [Hp _]. injection Hp as <- _ _.
  apply Forall_dict_set; [|exact Hd]. intros k'. cbn [snd].
  destruct (WSxM.l_spectral v0).
  - sinv E5. apply se_ret_ok_inv in E5. destruct E5 as [<- _]. record_tac.
  - apply se_ret_ok_inv in E5. destruct E5 as [<- _]. record_tac.
Qed.

Lemma axes_match_set_dimension {M} strict (ds ds' : Dataset M) (ind : nat)
      (dim : Dimension) :
  axes_match ds ->
  Sidpy.set_dimension strict ds ind dim = Ok ds' ->
  shape (ds_array ds) !! ind = Some (length (dim_values dim)) ->
  axes_match ds'.
Proof.
  intros Hm H Hn. apply set_dimension_ok in H.
  destruct H as (Ha & _ & _ & Hx & _). eapply axes_match_set; eassumption.
Qed.

Lemma mrc_read_records strict mrc handedness pixel_size self d self' :
  MRC.read strict mrc handedness pixel_size self = (Ok d, self') ->
  Forall (fun kv => record_ok strict (snd kv)) d.
Proof.
  intros H. unfold MRC.read in H. sinv H.
  apply se_ret_ok_inv in H. destruct H as [<- _].
  constructor; [|constructor]. cbn [snd]. record_tac.
Qed.

Lemma mrc_read_axes strict mrc handedness pixel_size self d self' :
  constant_pixel_size mrc ->
  MRC.read strict mrc handedness pixel_size self = (Ok d, self') ->
  Forall (fun kv => axes_match (snd kv)) d.
Proof.
  intros (px & py & (colx & Hx & Hux) & (coly & Hy & Huy)) H.
  unfold MRC.read in H. sinv H.
  apply se_ret_ok_inv in H. destruct H as [<- _].
  constructor; [|constructor]. cbn [snd].
  simpl in E8. rewrite Hx, Hy in E8. simpl in E8. rewrite Hux, Huy in E8.
  simpl in E8. injection E8 as <-.
  simpl in E21, E25. injection E21 as <-. injection E25 as <-.
  simpl in E22, E26. injection E22 as <-. injection E26 as <-.
  apply from_array_ok in E15. destruct E15 as (_ & _ & Hm).
  unfold shape_at in E16, E18, E20, E24.
  apply or_raise_ok_inv in E16, E18, E20, E24.
  eapply axes_match_set_dimension in E17;
    [|eapply axes_match_ext; [| |exact Hm]; reflexivity
     |cbn [dim_values]; rewrite length_map, length_arange; exact E16].
  eapply axes_match_set_dimension in E19;
    [|exact E17|cbn [dim_values]; rewrite length_map, length_arange; exact E18].
  eapply axes_match_set_dimension in E23;
    [|exact E19|cbn [dim_values]; rewrite length_map, length_arange; exact E20].
  eapply axes_match_set_dimension in E27;
    [|exact E23|cbn [dim_values]; rewrite length_map, length_arange; exact E24].
  exact E27.
Qed.

Lemma image_channel_record strict pd num_rows num_cols labels units images ch ds :
  Igor.image_channel strict pd num_rows num_cols labels units images ch = Ok ds ->
  record_ok strict ds.
Proof.
  intros H. unfold Igor.image_channel in H. rinv H. injection H as <-. record_tac.
Qed.

Lemma curve_channel_record strict pd spec labels units images ch ds :
  Igor.curve_channel strict pd spec labels units images ch = Ok ds ->
  record_ok strict ds.
Proof.
  intros H. unfold Igor.curve_channel in H. rinv H. injection H as <-. record_tac.
Qed.

Lemma igor_read_records strict w l :
  Igor.read strict w = Ok l -> Forall (record_ok strict) l.
Proof.
  intros H. unfold Igor.read in H.
  destruct (Igor._get_chan_labels w) as [labels units].
  apply rbind_ok_inv in H. destruct H as (last & _ & H). cbv beta in H.
  destruct (negb (last =? length labels));
    (destruct (ndim (Igor.wData w) =? 3);
     [ rinv H; eapply rmap_ok_Forall; [|exact H];
       intros ch ds _ Hch; eapply image_channel_record; exact Hch
     | rinv H; eapply rmap_ok_Forall; [|exact H];
       intros ch ds _ Hch; eapply curve_channel_record; exact Hch ]).
Qed.

Lemma length_blocks (a : ndarray) (f : nat -> nat) (r : nat) (idx : list nat) :
  length (concat (map (fun i => NdSlice.block a (f i) r) idx)) = length idx * r.
Proof.
  induction idx as [|i idx IH]; simpl; [reflexivity|].
  rewrite length_app, IH. unfold NdSlice.block. rewrite length_map, length_seq.
  reflexivity.
Qed.

(** The spectroscopic values taken from the [ZSnsr] or the [Raw] channel of
    a force curve of [z] points are [z] values. *)
Lemma spec_values_sensor (labels : list string) (z c : nat) (f : list Q)
      (spec : ndarray) (dim : Dimension) (name units quantity dtype : string) :
  Igor.index_of "ZSnsr" labels <> None \/ Igor.index_of "Raw" labels <> None ->
  Igor.spec_values labels (mk_ndarray [z; c; 1] f) = Ok spec ->
  Sidpy.new_Dimension spec name units quantity dtype = Ok dim ->
  length (dim_values dim) = z.
Proof.
  intros Hl H Hd. unfold Igor.spec_values in H.
  assert (Hflat : length (dim_values dim) = length (flat spec)).
  { unfold Sidpy.new_Dimension in Hd.
    destruct (shape spec) as [|? [|? ?]]; try discriminate.
    injection Hd as <-. reflexivity. }
  rewrite Hflat.
  destruct (Igor.index_of "ZSnsr" labels) as [i|].
  - rinv H. injection H as <-. unfold NdSlice.index_1 in E. cbn [shape] in E.
    destruct (i <? c); [|discriminate]. injection E as <-.
    cbn [flat NdSlice.squeeze]. rewrite length_blocks, length_seq. simpl. lia.
  - destruct (Igor.index_of "Raw" labels) as [i|].
    + rinv H. injection H as <-. unfold NdSlice.index_1_0 in E. cbn [shape] in E.
      destruct ((i <? c) && (0 <? 1)); [|discriminate]. injection E as <-.
      cbn [flat NdSlice.squeeze]. rewrite length_blocks, length_seq. simpl. lia.
    + destruct Hl as [Hl|Hl]; congruence.
Qed.

Lemma curve_channel_axes strict pd labels0 labels units (z c : nat) (f : list Q)
      (spec : ndarray) (ch : nat) (ds : Dataset Igor.parm_dict) :
  Igor.index_of "ZSnsr" labels0 <> None \/ Igor.index_of "Raw" labels0 <> None ->
  Igor.spec_values labels0 (mk_ndarray [z; c; 1] f) = Ok spec ->
  Igor.curve_channel strict pd spec labels units (mk_ndarray [z; c; 1] f) ch = Ok ds ->
  axes_match ds.
Proof.
  intros Hl Hs H. unfold Igor.curve_channel in H. rinv H. injection H as <-.
  pose proof (spec_values_sensor _ _ _ _ _ _ _ _ _ _ Hl Hs E3) as Hlen.
  unfold NdSlice.index_1_0 in E. cbn [shape] in E.
  destruct ((ch <? c) && (0 <? 1)); [|discriminate]. injection E as <-.
  apply from_array_ok in E1. destruct E1 as (Ha & _ & Hm).
  injection Ha as Ha.
  eapply axes_match_set_dimension in E4;
    [|eapply axes_match_ext; [| |exact Hm]; reflexivity
     |cbn [ds_array Sidpy.set_quantity Sidpy.set_units]; rewrite <- Ha, Hlen;
      reflexivity].
  eapply axes_match_ext; [| |exact E4]; reflexivity.
Qed.

(** A force curve stored as a wave of [z] points and [c] channels, one of
    them labelled [ZSnsr] or [Raw]: every record has its one axis as long
    as its data. *)
Lemma igor_curve_axes strict (w : Igor.ibw_wave) (z c : nat)
      (l : list (Dataset Igor.parm_dict)) :
  shape (Igor.wData w) = [z; c] ->
  Igor.index_of "ZSnsr" (igor_labels w) <> None
  \/ Igor.index_of "Raw" (igor_labels w) <> None ->
  Igor.read strict w = Ok l ->
  Forall axes_match l.
Proof.
  intros Hshape Hl H.
  unfold igor_labels in Hl. rewrite Hshape in Hl. cbn [rev app] in Hl.
  unfold Igor.read in H.
  destruct (Igor._get_chan_labels w) as [labels units]. cbn [fst] in Hl.
  unfold shape_from_end in H. rewrite Hshape in H.
  cbn [rev app lookup list_lookup or_raise Nat.sub rbind] in H.
  assert (H3 : NdSlice.atleast_3d (Igor.wData w)
               = mk_ndarray [z; c; 1] (flat (Igor.wData w))).
  { unfold NdSlice.atleast_3d. rewrite Hshape. reflexivity. }
  unfold ndim in H. rewrite H3, Hshape in H.
  cbn [length Nat.eqb shape rev app lookup list_lookup or_raise] in H.
  destruct (negb (c =? length labels));
    (apply rbind_ok_inv in H; destruct H as (spec & Hs & H); cbn [rbind] in H;
     eapply rmap_ok_Forall; [|exact H];
     intros ch ds _ Hch; eapply curve_channel_axes; [exact Hl|exact Hs|exact Hch]).
Qed.

(** [WSxM2DReader.read] on an image that is not square, when the container
    stores the axes it is given: the array of the record is the transpose of
    the image, [(columns, rows)], its first axis has one value per row and
    its second one value per column.  The sample has one row and two
    columns. *)
Example wsxm_image_axes_sample :
  exists d w' ds,
    WSxM.WSxM2DReader_read false Samples.image_dir "img_0001.top" WSxM.initial_world
    = (Ok d, w')
    /\ d = [("Channel_000", ds)]
    /\ shape (ds_array ds) = [2; 1]
    /\ map (fun ax => length (dim_values ax)) (ds_axes ds) = [1; 2]
    /\ ~ axes_match ds.
Proof.
  lazymatch eval vm_compute in
        (WSxM.WSxM2DReader_read false Samples.image_dir "img_0001.top"
                                WSxM.initial_world) with
  | (Ok [(?k, ?ds)], ?s) => exists [(k, ds)], s, ds
  end.
  split; [vm_compute; reflexivity|].
  split; [reflexivity|]. split; [reflexivity|]. split; [reflexivity|].
  unfold axes_match. cbn. discriminate.
Qed.

(** With a container that refuses axes of another length the same call
    raises. *)
Example wsxm_image_axes_strict :
  fst (WSxM.WSxM2DReader_read true Samples.image_dir "img_0001.top"
                              WSxM.initial_world)
  = Raise ValueError.
Proof. vm_compute. reflexivity. Qed.

(** ** The dictionaries of the 1-D reader *)

Lemma store_grows_refl (w : WSxM.world) : store_grows w w.
Proof. repeat split; auto. Qed.

Lemma store_grows_trans (w1 w2 w3 : WSxM.world) :
  store_grows w1 w2 -> store_grows w2 w3 -> store_grows w1 w3.
Proof.
  intros (A1 & B1 & C1) (A2 & B2 & C2). repeat split; intros; eauto.
Qed.

(** what does not touch the three kinds of dictionaries *)
Lemma store_grows_same (w w' : WSxM.world) :
  WSxM.tops w' = WSxM.tops w -> WSxM.curves_h w' = WSxM.curves_h w ->
  WSxM.data_h w' = WSxM.data_h w -> store_grows w w'.
Proof.
  intros Ht Hc Hd. unfold store_grows, top_has, curve_has, dir_populated.
  rewrite Ht, Hc, Hd. repeat split; auto.
Qed.

Lemma dict_get_mem {K V} `{EqDecision K} (k : K) (d : list (K * V)) :
  dict_mem k d = match dict_get k d with Some _ => true | None => false end.
Proof. reflexivity. Qed.

Lemma dict_get_set_fresh {K V} `{EqDecision K} (k k' : K) (v v' : V)
      (d : list (K * V)) :
  dict_mem k d = false -> dict_get k' d = Some v' ->
  dict_get k' (dict_set k v d) = Some v'.
Proof.
  intros Hm Hg. destruct (decide (k = k')) as [->|Hne].
  - rewrite dict_get_mem, Hg in Hm. discriminate.
  - rewrite dict_get_set_ne by exact Hne. exact Hg.
Qed.

Lemma grows_alloc_curves (w : WSxM.world) (c : WSxM.curves_dict) :
  store_grows w (WSxM.with_curves (WSxM.curves_h w ++ [c])%list w).
Proof.
  split; [|split]; auto.
  intros l k e (cs & Hc & Hk). exists cs. split; [|exact Hk].
  cbn. apply lookup_app_l_Some. exact Hc.
Qed.

Lemma grows_alloc_data (w : WSxM.world) (d : WSxM.data_dict) :
  store_grows w (WSxM.with_data (WSxM.data_h w ++ [d])%list w).
Proof.
  split; [|split]; auto.
  intros l z (dt & x & y & Hd & Hz). exists dt, x, y. split; [|exact Hz].
  cbn. apply lookup_app_l_Some. exact Hd.
Qed.

Lemma grows_set_top (w : WSxM.world) (dd : nat) (top : WSxM.top_dict) (k : string)
      (o : WSxM.outer) :
  WSxM.tops w !! dd = Some top -> dict_mem k top = false ->
  store_grows w (WSxM.with_tops (<[dd := dict_set k o top]> (WSxM.tops w)) w).
Proof.
  intros Ht Hm. split; [|split]; auto.
  intros l lab o' (t & Hl & Hg). unfold top_has. cbn.
  destruct (decide (dd = l)) as [->|Hne].
  - pose proof (eq_trans (eq_sym Ht) Hl) as Heq. injection Heq as <-.
    exists (dict_set k o top). split.
    + apply list_lookup_insert_eq. apply lookup_lt_is_Some. eauto.
    + apply dict_get_set_fresh; assumption.
  - exists t. split; [|exact Hg]. rewrite list_lookup_insert_ne by exact Hne. exact Hl.
Qed.

Lemma grows_set_curves (w : WSxM.world) (c : nat) (cs : WSxM.curves_dict)
      (k : WSxM.curve_key) (e : WSxM.entry) :
  WSxM.curves_h w !! c = Some cs -> dict_mem k cs = false ->
  store_grows w (WSxM.with_curves (<[c := dict_set k e cs]> (WSxM.curves_h w)) w).
Proof.
  intros Hc Hm. split; [|split]; auto.
  intros l k' e' (cs' & Hl & Hg). unfold curve_has. cbn.
  destruct (decide (c = l)) as [->|Hne].
  - pose proof (eq_trans (eq_sym Hc) Hl) as Heq. injection Heq as <-.
    exists (dict_set k e cs). split.
    + apply list_lookup_insert_eq. apply lookup_lt_is_Some. eauto.
    + apply dict_get_set_fresh; assumption.
  - exists cs'. split; [|exact Hg]. rewrite list_lookup_insert_ne by exact Hne. exact Hl.
Qed.

Lemma grows_set_data (w : WSxM.world) (d : nat) (dt dt' : WSxM.data_dict) :
  WSxM.data_h w !! d = Some dt ->
  (forall z x y, dict_get z dt = Some (WSxM.mk_xy (Some x) (Some y)) ->
                 exists x' y', dict_get z dt' = Some (WSxM.mk_xy (Some x') (Some y'))) ->
  store_grows w (WSxM.with_data (<[d := dt']> (WSxM.data_h w)) w).
Proof.
  intros Hd Hp. split; [|split]; auto.
  intros l z (dt0 & x & y & Hl & Hz). unfold dir_populated. cbn.
  destruct (decide (d = l)) as [->|Hne].
  - pose proof (eq_trans (eq_sym Hd) Hl) as Heq. injection Heq as <-.
    destruct (Hp _ _ _ Hz) as (x' & y' & Hz').
    exists dt', x', y'. split; [|exact Hz'].
    apply list_lookup_insert_eq. apply lookup_lt_is_Some. eauto.
  - exists dt0, x, y. split; [|exact Hz].
    rewrite list_lookup_insert_ne by exact Hne. exact Hl.
Qed.

Lemma cell_ok_inv {A} (l : list A) (loc : nat) (a : A) :
  WSxM.cell l loc = Ok a -> l !! loc = Some a.
Proof. unfold WSxM.cell. apply or_raise_ok_inv. Qed.

(** [stp_channel]: the dictionaries grow and the channel is there *)
Lemma stp_channel_spec (dd : nat) (lab : string) (w w' : WSxM.world) (o : WSxM.outer) :
  WSxM.stp_channel dd lab w = (Ok o, w') ->
  store_grows w w' /\ top_has w' dd lab o.
Proof.
  unfold WSxM.stp_channel. intros H.
  apply se_bind_ok_inv in H. destruct H as (top & w1 & Hget & H).
  unfold WSxM.get_top in Hget. injection Hget as Hcell <-.
  apply cell_ok_inv in Hcell.
  apply se_bind_ok_inv in H. destruct H as ([] & w2 & Hif & H).
  apply se_bind_ok_inv in H. destruct H as (top' & w3 & Hget' & H).
  unfold WSxM.get_top in Hget'. injection Hget' as Hcell' <-.
  apply cell_ok_inv in Hcell'.
  apply se_lift_ok_inv in H. destruct H as [Hl <-].
  apply or_raise_ok_inv in Hl.
  split; [|exists top'; split; assumption].
  destruct (dict_mem lab top) eqn:Hm; cbn [negb] in Hif.
  - apply se_ret_ok_inv in Hif. destruct Hif as [_ ->]. apply store_grows_refl.
  - apply se_bind_ok_inv in Hif. destruct Hif as (c & wa & Ha & Hs).
    unfold WSxM.alloc_curves in Ha. injection Ha as <- <-.
    unfold WSxM.set_top in Hs. injection Hs as <-.
    eapply store_grows_trans; [apply grows_alloc_curves|].
    apply (grows_set_top (WSxM.with_curves (WSxM.curves_h w ++ [[]])%list w));
      [exact Hcell|exact Hm].
Qed.

Lemma grows_with_headers (w : WSxM.world) (h : list WSxM.header) :
  store_grows w (WSxM.with_headers h w).
Proof. apply store_grows_same; reflexivity. Qed.

Lemma grows_with_paths (w : WSxM.world) (p : list (list string)) :
  store_grows w (WSxM.with_paths p w).
Proof. apply store_grows_same; reflexivity. Qed.

Lemma grows_with_files (w : WSxM.world) (f : list (nat * WSxM.file_obj)) (n : nat) :
  store_grows w (WSxM.with_files f n w).
Proof. apply store_grows_same; reflexivity. Qed.

(** makes the successful steps on the store explicit *)
Ltac store_facts :=
  repeat match goal with
         | H : WSxM.get_top _ _ = (Ok _, _) |- _ =>
             unfold WSxM.get_top in H; injection H as H <-; apply cell_ok_inv in H
         | H : WSxM.get_curves _ _ = (Ok _, _) |- _ =>
             unfold WSxM.get_curves in H; injection H as H <-; apply cell_ok_inv in H
         | H : WSxM.get_data _ _ = (Ok _, _) |- _ =>
             unfold WSxM.get_data in H; injection H as H <-; apply cell_ok_inv in H
         | H : WSxM.get_header _ _ = (Ok _, _) |- _ =>
             unfold WSxM.get_header in H; injection H as H <-; apply cell_ok_inv in H
         | H : WSxM.get_paths _ _ = (Ok _, _) |- _ =>
             unfold WSxM.get_paths in H; injection H as H <-; apply cell_ok_inv in H
         | H : WSxM.alloc_top _ _ = (Ok _, _) |- _ =>
             unfold WSxM.alloc_top in H; injection H as <- <-
         | H : WSxM.alloc_curves _ _ = (Ok _, _) |- _ =>
             unfold WSxM.alloc_curves in H; injection H as <- <-
         | H : WSxM.alloc_data _ _ = (Ok _, _) |- _ =>
             unfold WSxM.alloc_data in H; injection H as <- <-
         | H : WSxM.alloc_header _ _ = (Ok _, _) |- _ =>
             unfold WSxM.alloc_header in H; injection H as <- <-
         | H : WSxM.alloc_paths _ _ = (Ok _, _) |- _ =>
             unfold WSxM.alloc_paths in H; injection H as <- <-
         | H : WSxM.set_top _ _ _ = (Ok _, _) |- _ =>
             unfold WSxM.set_top in H; first [injection H as _ <-|injection H as <-]
         | H : WSxM.set_curves _ _ _ = (Ok _, _) |- _ =>
             unfold WSxM.set_curves in H; first [injection H as _ <-|injection H as <-]
         | H : WSxM.set_data _ _ _ = (Ok _, _) |- _ =>
             unfold WSxM.set_data in H; first [injection H as _ <-|injection H as <-]
         | H : WSxM.set_header _ _ _ = (Ok _, _) |- _ =>
             unfold WSxM.set_header in H; first [injection H as _ <-|injection H as <-]
         | H : WSxM.set_paths _ _ _ = (Ok _, _) |- _ =>
             unfold WSxM.set_paths in H; first [injection H as _ <-|injection H as <-]
         | H : se_ret _ _ = (Ok _, _) |- _ =>
             apply se_ret_ok_inv in H; destruct H as [? <-]
         end.

(** splits [(x <~ m ;; k) w = (Ok b, w')] into its steps and leaves the steps
    as they are *)
Ltac binds H :=
  repeat first
    [ let a := fresh "v" in
      let s := fresh "w" in
      let E := fresh "E" in
      apply se_bind_ok_inv in H; destruct H as (a & s & E & H); cbv beta in H;
      try (match type of E with
           | se_lift _ _ = _ => apply se_lift_ok_inv in E; destruct E as [E ->]
           end)
    | match type of H with
      | (let '(_, _) := ?v in _) _ = _ => destruct v
      | se_lift _ _ = _ => apply se_lift_ok_inv in H; destruct H as [H <-]
      end ].

Lemma grows_alloc_top (w : WSxM.world) (t : WSxM.top_dict) :
  store_grows w (WSxM.with_tops (WSxM.tops w ++ [t])%list w).
Proof.
  split; [|split]; auto.
  intros l lab o (t0 & Ht & Hg). exists t0. split; [|exact Hg].
  cbn. apply lookup_app_l_Some. exact Ht.
Qed.

(** peels the updates off the world reached *)
Ltac grows_step :=
  lazymatch goal with
  | |- store_grows ?w ?w => apply store_grows_refl
  | |- store_grows _ (WSxM.with_headers ?h ?X) =>
      eapply store_grows_trans; [|apply (grows_with_headers X h)]
  | |- store_grows _ (WSxM.with_paths ?p ?X) =>
      eapply store_grows_trans; [|apply (grows_with_paths X p)]
  | |- store_grows _ (WSxM.with_files ?f ?n ?X) =>
      eapply store_grows_trans; [|apply (grows_with_files X f n)]
  | |- store_grows _ (WSxM.with_curves (<[?c := dict_set ?k ?e ?cs]> _) ?X) =>
      eapply store_grows_trans;
      [|apply (grows_set_curves X c cs k e); [cbn; eassumption|eassumption]]
  | |- store_grows _ (WSxM.with_tops (<[?dd := dict_set ?k ?o ?top]> _) ?X) =>
      eapply store_grows_trans;
      [|apply (grows_set_top X dd top k o); [cbn; eassumption|eassumption]]
  | |- store_grows _ (WSxM.with_curves (_ ++ [?c]) ?X) =>
      eapply store_grows_trans; [|apply (grows_alloc_curves X c)]
  | |- store_grows _ (WSxM.with_data (_ ++ [?d]) ?X) =>
      eapply store_grows_trans; [|apply (grows_alloc_data X d)]
  | |- store_grows _ (WSxM.with_tops (_ ++ [?t]) ?X) =>
      eapply store_grows_trans; [|apply (grows_alloc_top X t)]
  end.
Ltac grows_tac := repeat grows_step.

(** [stp_entry]: the dictionaries grow and the curve index is there *)
Lemma stp_entry_spec (f : WSxM.stp_file) (o : WSxM.outer) (i : nat)
      (w w' : WSxM.world) (e : WSxM.entry) :
  WSxM.stp_entry f o i w = (Ok e, w') ->
  store_grows w w' /\ curve_has w' (WSxM.o_curves o) (WSxM.KInt (Z.of_nat i + 1)) e.
Proof.
  unfold WSxM.stp_entry. intros H.
  apply se_bind_ok_inv in H. destruct H as (curves & w1 & Hget & H).
  apply se_bind_ok_inv in H. destruct H as ([] & w2 & Hif & H).
  apply se_bind_ok_inv in H. destruct H as (curves' & w3 & Hget' & H).
  apply se_lift_ok_inv in H. destruct H as [Hl <-].
  apply or_raise_ok_inv in Hl. store_facts.
  split; [|exists curves'; split; assumption].
  destruct (dict_mem (WSxM.KInt (Z.of_nat i + 1)) curves) eqn:Hm; cbn [negb] in Hif.
  - store_facts. apply store_grows_refl.
  - binds Hif. store_facts. grows_tac.
Qed.

(** [stp_direction]: the dictionaries grow and the direction is there *)
Lemma stp_direction_spec (e : WSxM.entry) (z : string) (w w' : WSxM.world) :
  WSxM.stp_direction e z w = (Ok tt, w') ->
  store_grows w w'.
Proof.
  unfold WSxM.stp_direction, WSxM.when. intros H. binds H. store_facts.
  destruct (dict_mem z v) eqn:Hm; cbn [negb] in H; store_facts.
  - apply store_grows_refl.
  - apply grows_set_data with (dt := v); [exact E|].
    intros z0 x y Hz. exists x, y. apply dict_get_set_fresh; assumption.
Qed.

(** [stp_file_path] leaves the three kinds of dictionaries as they are *)
Lemma stp_file_path_spec (e : WSxM.entry) (p : string) (w w' : WSxM.world) :
  WSxM.stp_file_path e p w = (Ok tt, w') -> store_grows w w'.
Proof.
  unfold WSxM.stp_file_path, WSxM.when. intros H. binds H. store_facts.
  destruct v0 as [s|s|l]; try discriminate.
  binds H. store_facts.
  destruct (negb _); store_facts; grows_tac.
Qed.

(** one assignment into the dictionary of a direction *)
Lemma assign_xy_spec (e : WSxM.entry) (z : string) (g : WSxM.xy -> WSxM.xy)
      (w w' : WSxM.world) :
  WSxM.assign_xy e z g w = (Ok tt, w') ->
  (forall x y, exists x' y',
        g (WSxM.mk_xy (Some x) (Some y)) = WSxM.mk_xy (Some x') (Some y')) ->
  store_grows w w'
  /\ exists dt c, WSxM.data_h w !! WSxM.e_data e = Some dt
                  /\ dict_get z dt = Some c
                  /\ WSxM.data_h w' !! WSxM.e_data e = Some (dict_set z (g c) dt).
Proof.
  unfold WSxM.assign_xy. intros H Hg. binds H. store_facts.
  apply or_raise_ok_inv in E0. split.
  - apply grows_set_data with (dt := v); [exact E|].
    intros z0 x y Hz. destruct (decide (z = z0)) as [->|Hne].
    + rewrite dict_get_set_eq.
      pose proof (eq_trans (eq_sym E0) Hz) as Hc. injection Hc as ->.
      destruct (Hg x y) as (x' & y' & ->). eauto.
    + exists x, y. rewrite dict_get_set_ne by exact Hne. exact Hz.
  - exists v, v0. split; [exact E|]. split; [exact E0|].
    cbn. apply list_lookup_insert_eq. apply lookup_lt_is_Some. eauto.
Qed.

Lemma populated_grows (w w' : WSxM.world) dd lab k z :
  store_grows w w' -> populated w dd lab k z -> populated w' dd lab k z.
Proof.
  intros (A & B & C) (e & (o & Ho & He) & Hd).
  exists e. split; [exists o; split; auto|auto].
Qed.


(** [stp_xy]: the dictionaries grow and the direction has its ['x'] and
    ['y'] *)
Lemma stp_xy_spec (f : WSxM.stp_file) (e : WSxM.entry) (i : nat) (w w' : WSxM.world) :
  WSxM.stp_xy f e i w = (Ok tt, w') ->
  store_grows w w' /\ dir_populated w' (WSxM.e_data e) (WSxM.stp_z_dir f).
Proof.
  unfold WSxM.stp_xy. intros H.
  apply se_bind_ok_inv in H. destruct H as ([] & w1 & H1 & H).
  apply se_bind_ok_inv in H. destruct H as ([] & w2 & H2 & H).
  apply assign_xy_spec in H1; [|intros x y; cbn; eauto].
  apply assign_xy_spec in H2; [|intros x y; cbn; eauto].
  destruct H1 as (G1 & dt0 & c0 & Hd0 & Hc0 & Hd1).
  destruct H2 as (G2 & dt1 & c1 & Hd1' & Hc1 & Hd2).
  pose proof (eq_trans (eq_sym Hd1) Hd1') as Heq. injection Heq as <-.
  rewrite dict_get_set_eq in Hc1. injection Hc1 as <-. cbn [WSxM.xy_x] in Hd2.
  assert (P2 : dir_populated w2 (WSxM.e_data e) (WSxM.stp_z_dir f)).
  { eexists _, _, _. split; [exact Hd2|]. apply dict_get_set_eq. }
  destruct (String.eqb (WSxM.stp_x_dir f) "Forward").
  - apply assign_xy_spec in H; [|intros x y; cbn; eauto].
    destruct H as (G3 & _). split.
    + eapply store_grows_trans; [exact G1|].
      eapply store_grows_trans; [exact G2|exact G3].
    + destruct G3 as (_ & _ & G3). apply G3. exact P2.
  - apply se_ret_ok_inv in H. destruct H as [_ ->]. split; [|exact P2].
    eapply store_grows_trans; [exact G1|exact G2].
Qed.

(** One turn of the loop of [_wsxm_readstp]: the dictionaries grow, and the
    curve [i + 1] of the channel has the direction of the file. *)
Lemma stp_curve_spec (f : WSxM.stp_file) (dd i : nat) (w w' : WSxM.world) :
  WSxM.stp_curve f dd i w = (Ok tt, w') ->
  store_grows w w'
  /\ populated w' dd (WSxM.stp_chan_label f) (WSxM.KInt (Z.of_nat i + 1))
               (WSxM.stp_z_dir f).
Proof.
  unfold WSxM.stp_curve. intros H.
  apply se_bind_ok_inv in H. destruct H as (o & w1 & H1 & H).
  apply se_bind_ok_inv in H. destruct H as (e & w2 & H2 & H).
  apply se_bind_ok_inv in H. destruct H as ([] & w3 & H3 & H).
  apply se_bind_ok_inv in H. destruct H as ([] & w4 & H4 & H).
  apply stp_channel_spec in H1. destruct H1 as (G1 & T1).
  apply stp_entry_spec in H2. destruct H2 as (G2 & C2).
  apply stp_direction_spec in H3. apply stp_file_path_spec in H4.
  apply stp_xy_spec in H. destruct H as (G5 & P5).
  assert (G25 : store_grows w2 w').
  { eapply store_grows_trans; [exact H3|].
    eapply store_grows_trans; [exact H4|exact G5]. }
  split.
  - eapply store_grows_trans; [exact G1|].
    eapply store_grows_trans; [exact G2|exact G25].
  - exists e. split; [|exact P5]. exists o. split.
    + destruct (store_grows_trans _ _ _ G2 G25) as (A & _). apply A. exact T1.
    + destruct G25 as (_ & B & _). apply B. exact C2.
Qed.


(** The loop of [_wsxm_readstp]: every curve of the file has its direction
    in the dictionary. *)
Lemma stp_store_spec (f : WSxM.stp_file) (dd : nat) (w w' : WSxM.world) :
  WSxM.stp_store f dd w = (Ok tt, w') ->
  store_grows w w'
  /\ forall i, i < Z.to_nat (WSxM.stp_x_num f) ->
               populated w' dd (WSxM.stp_chan_label f) (WSxM.KInt (Z.of_nat i + 1))
                         (WSxM.stp_z_dir f).
Proof.
  unfold WSxM.stp_store, WSxM.range.
  generalize (Z.to_nat (WSxM.stp_x_num f)). intros n.
  assert (Hgen : forall n a w w',
             se_fold (fun (_ : unit) i => WSxM.stp_curve f dd i) (seq a n) tt w
             = (Ok tt, w') ->
             store_grows w w'
             /\ forall i, a <= i < a + n ->
                          populated w' dd (WSxM.stp_chan_label f)
                                    (WSxM.KInt (Z.of_nat i + 1)) (WSxM.stp_z_dir f)).
  { clear. induction n as [|n IH]; intros a w w' H; simpl in H.
    - apply se_ret_ok_inv in H. destruct H as [_ ->].
      split; [apply store_grows_refl|]. intros i Hi. lia.
    - apply se_bind_ok_inv in H. destruct H as ([] & w1 & H1 & H2).
      apply stp_curve_spec in H1. destruct H1 as (G1 & P1).
      apply IH in H2. destruct H2 as (G2 & P2). split.
      + eapply store_grows_trans; eassumption.
      + intros i Hi. destruct (decide (i = a)) as [->|Hne].
        * eapply populated_grows; eassumption.
        * apply P2. lia. }
  intros H. apply Hgen in H. destruct H as (G & P). split; [exact G|].
  intros i Hi. apply P. lia.
Qed.

(** ** What reading a file leaves of the dictionaries *)

Section Preserves.
Context {X : Type} (proj : WSxM.world -> X).

Lemma preserves_ret {A} (a : A) : preserves proj (se_ret a).
Proof. intros w r w' H. injection H as _ <-. reflexivity. Qed.

Lemma preserves_raise {A} (e : exn) : preserves proj (@se_raise WSxM.world A e).
Proof. intros w r w' H. injection H as _ <-. reflexivity. Qed.

Lemma preserves_lift {A} (x : res A) : preserves proj (se_lift x).
Proof. intros w r w' H. injection H as _ <-. reflexivity. Qed.

Lemma preserves_bind {A B} (m : WSxM.M A) (k : A -> WSxM.M B) :
  preserves proj m -> (forall a, preserves proj (k a)) -> preserves proj (se_bind m k).
Proof.
  intros Hm Hk w r w' H. unfold se_bind in H.
  destruct (m w) as [[a|e] w1] eqn:E.
  - rewrite (Hk a _ _ _ H). exact (Hm _ _ _ E).
  - injection H as _ <-. exact (Hm _ _ _ E).
Qed.

Lemma preserves_fold {A B} (f : A -> B -> WSxM.M A) (l : list B) :
  (forall a b, preserves proj (f a b)) -> forall a, preserves proj (se_fold f l a).
Proof.
  intros Hf. induction l as [|b l IH]; intros a; simpl.
  - apply preserves_ret.
  - apply preserves_bind; [apply Hf|exact IH].
Qed.

(** a step that only changes fields that [proj] does not look at *)
Lemma preserves_field {A} (m : WSxM.M A) :
  (forall w, proj (snd (m w)) = proj w) -> preserves proj m.
Proof. intros Hm w r w' H. specialize (Hm w). rewrite H in Hm. exact Hm. Qed.

End Preserves.

Lemma dicts_seek fd pos : preserves dicts (WSxM.seek fd pos).
Proof.
  apply preserves_field. intros w. unfold WSxM.seek.
  destruct (dict_get fd (WSxM.open_files w)); [destruct (pos <? 0)%Z|]; reflexivity.
Qed.

Lemma dicts_read_bytes fd n : preserves dicts (WSxM.read_bytes fd n).
Proof.
  apply preserves_field. intros w. unfold WSxM.read_bytes.
  destruct (dict_get fd (WSxM.open_files w)); [destruct (n <? -1)%Z|]; reflexivity.
Qed.

Lemma dicts_open dir p : preserves dicts (WSxM.open_ dir p).
Proof.
  apply preserves_field. intros w. unfold WSxM.open_.
  destruct (List.find _ dir) as [e|]; [destruct (WSxM.is_file e)|]; reflexivity.
Qed.

Lemma dicts_close fd : preserves dicts (WSxM.close fd).
Proof. apply preserves_field. intros w. reflexivity. Qed.

Lemma dicts_alloc_paths p : preserves dicts (WSxM.alloc_paths p).
Proof. apply preserves_field. intros w. reflexivity. Qed.

Create HintDb dicts.
#[local] Hint Resolve preserves_ret preserves_raise preserves_lift dicts_seek
  dicts_read_bytes dicts_open dicts_close dicts_alloc_paths : dicts.

Ltac dicts_step :=
  lazymatch goal with
  | |- preserves _ (se_bind _ _) => apply preserves_bind; [|intros ?]
  | |- preserves _ (se_fold _ _ _) => apply preserves_fold; intros ? ?
  | |- preserves _ (if ?b then _ else _) => destruct b
  | |- preserves _ (match ?x with _ => _ end) => destruct x
  | |- preserves _ _ => solve [auto with dicts]
  end.
Ltac dicts_tac := repeat dicts_step.

Lemma dicts_readheader file pos : preserves dicts (WSxM._wsxm_readheader file pos).
Proof. unfold WSxM._wsxm_readheader. dicts_tac. Qed.
#[local] Hint Resolve dicts_readheader : dicts.

Lemma dicts_stp_parse p file : preserves dicts (WSxM.stp_parse p file).
Proof. unfold WSxM.stp_parse. dicts_tac. Qed.

Lemma grows_of_dicts (w w' : WSxM.world) : dicts w' = dicts w -> store_grows w w'.
Proof.
  unfold dicts. intros H. injection H as Ht Hc Hd. apply store_grows_same; assumption.
Qed.

(** A successful call of [_wsxm_readstp]: the dictionary returned is the one
    passed, the dictionaries have grown, and every curve of the file has its
    direction. *)
Lemma readstp_spec dir p dd (w w' : WSxM.world) (d : nat) (lab : string) :
  WSxM._wsxm_readstp dir p dd w = (Ok (d, lab), w') ->
  d = dd
  /\ store_grows w w'
  /\ exists f, parsed_in dir p w f
               /\ lab = WSxM.stp_chan_label f
               /\ forall i, i < Z.to_nat (WSxM.stp_x_num f) ->
                            populated w' dd lab (WSxM.KInt (Z.of_nat i + 1))
                                      (WSxM.stp_z_dir f).
Proof.
  unfold WSxM._wsxm_readstp. intros H.
  apply se_bind_ok_inv in H. destruct H as (fd & wa & Ho & H).
  apply se_bind_ok_inv in H. destruct H as (f & wb & Hp & H).
  apply se_bind_ok_inv in H. destruct H as ([] & wc & Hs & H).
  apply se_bind_ok_inv in H. destruct H as ([] & wd & Hc & H).
  apply se_ret_ok_inv in H. destruct H as [Hr ->]. injection Hr as <- <-.
  pose proof (grows_of_dicts _ _ (dicts_open _ _ _ _ _ Ho)) as G1.
  pose proof (grows_of_dicts _ _ (dicts_stp_parse _ _ _ _ _ Hp)) as G2.
  pose proof (grows_of_dicts _ _ (dicts_close _ _ _ _ Hc)) as G4.
  apply stp_store_spec in Hs. destruct Hs as (G3 & P).
  split; [reflexivity|]. split.
  - eapply store_grows_trans; [exact G1|].
    eapply store_grows_trans; [exact G2|].
    eapply store_grows_trans; [exact G3|exact G4].
  - exists f. split; [exists fd, wa, wb; auto|]. split; [reflexivity|].
    intros i Hi. eapply populated_grows; [exact G4|]. apply P. exact Hi.
Qed.

(** ** The merge of [WSxM1DReader.read] *)




Lemma dict_get_keys {K V} `{EqDecision K} (k : K) (v : V) (d : list (K * V)) :
  dict_get k d = Some v -> In k (dict_keys d).
Proof.
  induction d as [|[k0 v0] d IH]; simpl; [discriminate|].
  destruct (decide (k = k0)) as [->|Hne]; [auto|]. intros H. right. apply IH. exact H.
Qed.






Lemma preserves_factor {X Y A} (p1 : WSxM.world -> X) (p2 : WSxM.world -> Y)
      (m : WSxM.M A) :
  (forall w w', p1 w' = p1 w -> p2 w' = p2 w) -> preserves p1 m -> preserves p2 m.
Proof. intros Hf Hm w r w' H. apply Hf. exact (Hm _ _ _ H). Qed.













(** a curve of a sample world *)
Ltac run_curve_at :=
  lazymatch goal with
  | |- curve_at ?w ?dd ?lab ?k ?e =>
      lazymatch eval vm_compute in (WSxM.tops w !! dd) with
      | Some ?t =>
          lazymatch eval vm_compute in (dict_get lab t) with
          | Some ?o =>
              lazymatch eval vm_compute in (WSxM.curves_h w !! WSxM.o_curves o) with
              | Some ?cs =>
                  exists o; split;
                  [exists t; split; vm_compute; reflexivity
                  |exists cs; split; vm_compute; reflexivity]
              end
          end
      end
  end.


(** On the samples: the ramp made the entry of curve 1, the [.curves] file
    replaced it. *)
Example curves_file_overwrites :
  curve_at Samples.after_ramp 1 "Normal force" (WSxM.KInt 1) Samples.ramp_entry
  /\ curve_at Samples.after_curves 1 "Normal force" (WSxM.KInt 1) Samples.curves_entry
  /\ Samples.ramp_entry <> Samples.curves_entry.
Proof. split; [run_curve_at|split; [run_curve_at|discriminate]]. Qed.

(** ** The default dictionary of [_wsxm_readstp] *)

Lemma channels_top_has (w : WSxM.world) (dd : nat) (c : string) :
  In c (channels w dd) <-> exists o, top_has w dd c o.
Proof.
  unfold channels, top_has. split.
  - destruct (WSxM.tops w !! dd) as [t|]; [|intros []].
    intros Hin. apply dict_get_fst in Hin. destruct Hin as (o & Ho). eauto.
  - intros (o & t & Ht & Hg). rewrite Ht. eapply dict_get_keys. exact Hg.
Qed.

(** C8 (what the code does).  A call of [_wsxm_readstp] that passes no
    [data_dict] works on the dictionary that was created with the function:
    the dictionary it returns is that one, and every channel that an earlier
    call left in it is a channel of the dictionary returned. *)
Theorem readstp_default_accumulates :
  forall dir p w d lab w',
    WSxM._wsxm_readstp dir p WSxM.readstp_default w = (Ok (d, lab), w') ->
    d = WSxM.readstp_default
    /\ forall c, In c (channels w WSxM.readstp_default) -> In c (channels w' d).
Proof.
  intros dir p w d lab w' H. apply readstp_spec in H.
  destruct H as (-> & (A & _) & _). split; [reflexivity|].
  intros c Hc. apply channels_top_has in Hc. destruct Hc as (o & Ho).
  apply channels_top_has. exists o. apply A. exact Ho.
Qed.

Lemma readstp_default_accumulates_witness :
  exists d lab w',
    Samples.second_default_call = (Ok (d, lab), w')
    /\ d = WSxM.readstp_default
    /\ (In "Normal force" (channels (snd Samples.first_default_call)
                                    WSxM.readstp_default) ->
        In "Normal force" (channels w' d)).
Proof.
  lazymatch eval vm_compute in Samples.second_default_call with
  | (Ok (?d, ?lab), ?s) =>
      exists d, lab, s;
      assert (Hrun : Samples.second_default_call = (Ok (d, lab), s))
        by (vm_compute; reflexivity);
      split; [exact Hrun|];
      destruct (readstp_default_accumulates
                  Samples.curve_dir "tune_0002_Phase.f.stp"
                  (snd Samples.first_default_call) d lab s Hrun) as [Hd Hin];
      split; [exact Hd|apply Hin]
  end.
Defined.

(** The failing input of C8: the second call without [data_dict] returns
    the channel of the first call's file with its own, where the same call
    on its own returns its own channel only. *)
Example readstp_default_carry_over :
  fst Samples.first_default_call = Ok (WSxM.readstp_default, "Normal force")
  /\ fst Samples.second_default_call = Ok (WSxM.readstp_default, "Phase")
  /\ fst Samples.lone_default_call = Ok (WSxM.readstp_default, "Phase")
  /\ channels (snd Samples.second_default_call) WSxM.readstp_default
     = ["Normal force"; "Phase"]
  /\ channels (snd Samples.lone_default_call) WSxM.readstp_default = ["Phase"].
Proof. repeat split; vm_compute; reflexivity. Qed.

(** * Further properties of the readers *)

(** ** The group of a reference file *)

Lemma remove_path_split (x : string) (l r : list string) :
  WSxM.remove_path x l = Ok r ->
  exists l1 l2, l = (l1 ++ x :: l2)%list /\ r = (l1 ++ l2)%list /\ ~ In x l1.
Proof.
  revert r. induction l as [|y l IH]; intros r H; simpl in H; [discriminate|].
  destruct (String.eqb y x) eqn:E.
  - apply String.eqb_eq in E. subst y. injection H as <-.
    exists [], l. repeat split. intros [].
  - apply rbind_ok_inv in H. destruct H as (r' & Hr & H). injection H as <-.
    destruct (IH _ Hr) as (l1 & l2 & -> & -> & Hn).
    exists (y :: l1), l2. repeat split. intros [->|Hin]; [|auto].
    rewrite String.eqb_refl in E. discriminate.
Qed.

Lemma remove_path_missing (x : string) (l : list string) :
  WSxM.remove_path x l = Raise ValueError <-> ~ In x l.
Proof.
  induction l as [|y l IH]; simpl.
  - split; auto.
  - destruct (String.eqb y x) eqn:E.
    + apply String.eqb_eq in E. subst y. split; [discriminate|]. intros H. destruct H. auto.
    + destruct (WSxM.remove_path x l) as [r|e] eqn:Hr; simpl.
      * split; [discriminate|]. intros Hn.
        apply remove_path_split in Hr. destruct Hr as (l1 & l2 & -> & _ & _).
        destruct Hn. right. apply in_or_app. right. left. reflexivity.
      * assert (e = ValueError) as ->.
        { clear IH. induction l as [|z l IHl]; simpl in Hr; [congruence|].
          destruct (String.eqb z x); [discriminate|].
          destruct (WSxM.remove_path x l); simpl in Hr; [discriminate|].
          apply IHl. congruence. }
        split; [|reflexivity]. intros _ [->|Hin].
        -- rewrite String.eqb_refl in E. discriminate.
        -- apply IH in Hin; auto.
Qed.

Lemma startswith_take (n : nat) (s : string) :
  PyStr.startswith (PyStr.take n s) s = true.
Proof.
  revert s. induction n as [|n IH]; intros [|c s]; simpl; auto.
  unfold PyStr.eqc. rewrite Ascii.eqb_refl. apply IH.
Qed.

Lemma group_member_filter (dir : WSxM.directory) (com : string) (ext : option string)
      (p : string) :
  In p (map WSxM.entry_name
          (List.filter
             (fun e =>
                match ext with
                | Some x => String.eqb (WSxM.suffix (WSxM.entry_name e)) x
                | None => true
                end && WSxM.is_file e && PyStr.startswith com (WSxM.entry_name e))
             dir))
  <-> group_member dir com ext p.
Proof.
  rewrite in_map_iff. split.
  - intros (e & <- & He). apply filter_In in He. destruct He as (Hin & Hf).
    apply andb_true_iff in Hf. destruct Hf as (Hf & Hs).
    apply andb_true_iff in Hf. destruct Hf as (Hx & Hf).
    exists e. repeat split; auto. intros x ->. apply String.eqb_eq. exact Hx.
  - intros (e & Hin & <- & Hf & Hs & Hx). exists e. split; [reflexivity|].
    apply filter_In. split; [exact Hin|]. rewrite Hf, Hs.
    destruct ext as [x|]; [|reflexivity].
    rewrite (Hx x eq_refl), String.eqb_refl. reflexivity.
Qed.

(** X1.  [_wsxm_get_common_files] returns the reference file first.  When
    the name of the reference file holds no run index ([_] and four digits)
    the list is the reference file alone, whatever the directory holds;
    otherwise the other items are files of the directory whose name starts
    with the name of the reference up to its run index (and have the
    extension asked for), and every such file with another name is in the
    list. *)
Theorem common_files_reference_first :
  forall (dir : WSxM.directory) (filepath : string) (ext : option string)
         (files : list string),
    WSxM._wsxm_get_common_files dir filepath ext = Ok files ->
    exists rest,
      files = filepath :: rest
      /\ match WSxM.search_run_index filepath with
         | None => rest = []
         | Some start =>
             let com := PyStr.take (start + 5) filepath in
             Forall (group_member dir com ext) rest
             /\ forall p, group_member dir com ext p -> p <> filepath -> In p rest
         end.
Proof.
  intros dir filepath ext files H. unfold WSxM._wsxm_get_common_files in H.
  destruct (WSxM.search_run_index filepath) as [start|].
  - apply rbind_ok_inv in H. destruct H as (rest & Hr & H). injection H as <-.
    exists rest. split; [reflexivity|]. cbv zeta.
    apply remove_path_split in Hr. destruct Hr as (l1 & l2 & Hl & -> & _). split.
    + apply List.Forall_forall. intros p Hp. apply group_member_filter. rewrite Hl.
      apply in_app_or in Hp. apply in_or_app. destruct Hp; [left|right; right]; assumption.
    + intros p Hp Hne. apply group_member_filter in Hp. rewrite Hl in Hp.
      apply in_app_or in Hp. apply in_or_app. destruct Hp as [Hp|[Hp|Hp]]; auto.
      congruence.
  - injection H as <-. exists []. split; reflexivity.
Qed.

Lemma common_files_reference_first_witness :
  exists rest,
    WSxM._wsxm_get_common_files (Samples.group_dir "" "" "") "sample_0001.top" None
    = Ok ("sample_0001.top" :: rest)
    /\ Forall (group_member (Samples.group_dir "" "" "") "sample_0001" None) rest.
Proof.
  destruct (common_files_reference_first (Samples.group_dir "" "" "") "sample_0001.top"
              None ["sample_0001.top"; "sample_0001.ch1"] eq_refl)
    as (rest & Heq & Hall & _).
  exists rest. split; [rewrite <- Heq; reflexivity|exact Hall].
Defined.

(** X2.  For a reference file with a run index, [_wsxm_get_common_files]
    raises [ValueError] exactly when the reference itself is not one of the
    files it collects: it is no file of the directory, or its extension is
    not the one asked for. *)
Theorem common_files_missing_reference :
  forall (dir : WSxM.directory) (filepath : string) (ext : option string) (start : nat),
    WSxM.search_run_index filepath = Some start ->
    (WSxM._wsxm_get_common_files dir filepath ext = Raise ValueError
     <-> ~ exists e, In e dir /\ WSxM.entry_name e = filepath /\ WSxM.is_file e = true
                     /\ (forall x, ext = Some x -> WSxM.suffix filepath = x)).
Proof.
  intros dir filepath ext start Hs. unfold WSxM._wsxm_get_common_files. rewrite Hs.
  match goal with
  | |- rbind (WSxM.remove_path _ ?l) _ = _ <-> _ => set (files := l)
  end.
  assert (Hin : In filepath files
                <-> exists e, In e dir /\ WSxM.entry_name e = filepath
                              /\ WSxM.is_file e = true
                              /\ (forall x, ext = Some x -> WSxM.suffix filepath = x)).
  { unfold files. rewrite group_member_filter. split.
    - intros (e & H1 & H2 & H3 & _ & H5). eauto 6.
    - intros (e & H1 & H2 & H3 & H5). exists e. repeat split; auto.
      apply startswith_take. }
  rewrite <- Hin, <- remove_path_missing.
  destruct (WSxM.remove_path filepath files) as [r|e]; simpl; split; congruence.
Qed.

Lemma common_files_missing_reference_witness :
  WSxM._wsxm_get_common_files (Samples.group_dir "" "" "") "sample_0001.top"
                              (Some ".ch1")
  = Raise ValueError.
Proof.
  apply (proj2 (common_files_missing_reference (Samples.group_dir "" "" "")
                  "sample_0001.top" (Some ".ch1") 6 eq_refl)).
  intros (e & _ & _ & _ & Hx). specialize (Hx ".ch1" eq_refl). vm_compute in Hx.
  discriminate.
Defined.

(** ** The header dictionary *)

Lemma split_no_sep (sep : ascii) (s : string) :
  Forall (fun part => has_char sep part = false) (PyStr.split sep s).
Proof.
  induction s as [|c s IH]; simpl.
  - repeat constructor.
  - destruct (PyStr.eqc c sep) eqn:E.
    + constructor; [reflexivity|exact IH].
    + destruct (PyStr.split sep s) as [|h t].
      * repeat constructor. simpl. rewrite E. reflexivity.
      * inversion IH as [|? ? Hh Ht]. subst. constructor; [|exact Ht].
        simpl. rewrite E. exact Hh.
Qed.

Lemma has_char_app (c : ascii) (a b : string) :
  has_char c (a ++ b) = has_char c a || has_char c b.
Proof.
  induction a as [|x a IH]; [reflexivity|].
  change (String x a ++ b)%string with (String x (a ++ b)).
  simpl. rewrite IH. apply orb_assoc.
Qed.

Lemma has_char_lstrip (c : ascii) (p : ascii -> bool) (s : string) :
  has_char c s = false -> has_char c (PyStr.lstrip_by p s) = false.
Proof.
  induction s as [|a s IH]; simpl; [auto|]. intros H.
  destruct (p a); [|exact H]. apply orb_false_iff in H. apply IH, H.
Qed.

Lemma rstrip_by_cons (p : ascii -> bool) (a : ascii) (s : string) :
  PyStr.rstrip_by p (String a s)
  = match PyStr.rstrip_by p s with
    | EmptyString => if p a then EmptyString else String a EmptyString
    | r => String a r
    end.
Proof. reflexivity. Qed.

Lemma has_char_rstrip (c : ascii) (p : ascii -> bool) (s : string) :
  has_char c s = false -> has_char c (PyStr.rstrip_by p s) = false.
Proof.
  induction s as [|a s IH]; [auto|]. intros H. simpl in H.
  apply orb_false_iff in H. destruct H as (Ha & Hs). specialize (IH Hs).
  rewrite rstrip_by_cons. destruct (PyStr.rstrip_by p s) as [|b r].
  - destruct (p a); simpl; [reflexivity|]. rewrite Ha. reflexivity.
  - simpl. rewrite Ha. exact IH.
Qed.

Lemma has_char_strip (c : ascii) (s : string) :
  has_char c s = false -> has_char c (PyStr.strip s) = false.
Proof. intros H. unfold PyStr.strip. apply has_char_rstrip, has_char_lstrip, H. Qed.

Lemma rstrip_by_idem (p : ascii -> bool) (s : string) :
  PyStr.rstrip_by p (PyStr.rstrip_by p s) = PyStr.rstrip_by p s.
Proof.
  induction s as [|a s IH]; [reflexivity|]. rewrite rstrip_by_cons.
  destruct (PyStr.rstrip_by p s) as [|b r] eqn:E.
  - destruct (p a) eqn:Ea; [reflexivity|]. simpl. rewrite Ea. reflexivity.
  - rewrite rstrip_by_cons, IH. reflexivity.
Qed.

Lemma lstrip_by_head (p : ascii -> bool) (s : string) :
  match PyStr.lstrip_by p s with
  | EmptyString => True
  | String a _ => p a = false
  end.
Proof.
  induction s as [|a s IH]; simpl; [exact I|].
  destruct (p a) eqn:E; [exact IH|exact E].
Qed.

Lemma strip_idem (s : string) : PyStr.strip (PyStr.strip s) = PyStr.strip s.
Proof.
  unfold PyStr.strip. pose proof (lstrip_by_head PyStr.is_space s) as Hh.
  destruct (PyStr.lstrip_by PyStr.is_space s) as [|a t]; [reflexivity|].
  assert (Hl : PyStr.lstrip_by PyStr.is_space (PyStr.rstrip_by PyStr.is_space (String a t))
               = PyStr.rstrip_by PyStr.is_space (String a t)).
  { rewrite rstrip_by_cons.
    destruct (PyStr.rstrip_by PyStr.is_space t); rewrite ?Hh; simpl; rewrite Hh;
      reflexivity. }
  rewrite Hl. apply rstrip_by_idem.
Qed.

Lemma rfold_inv {A B} (P : A -> Prop) (f : A -> B -> res A) (l : list B) :
  (forall a b a', P a -> f a b = Ok a' -> P a') ->
  forall a a', P a -> rfold f l a = Ok a' -> P a'.
Proof.
  intros Hf. induction l as [|b l IH]; simpl; intros a a' Ha H.
  - injection H as <-. exact Ha.
  - apply rbind_ok_inv in H. destruct H as (a1 & H1 & H). eauto.
Qed.

Lemma Forall_dict_set_key {K V} `{EqDecision K} (P : K * V -> Prop) (k : K) (v : V)
      (d : list (K * V)) :
  P (k, v) -> Forall P d -> Forall P (dict_set k v d).
Proof.
  intros Hk. induction 1 as [|[k' v'] d Hx Hd IH]; simpl.
  - repeat constructor. exact Hk.
  - destruct (decide (k = k')) as [<-|Hne]; constructor; auto.
Qed.

Lemma header_line_plain (st st' : WSxM.header * list string) (ln : string) :
  Forall plain_entry (fst st) ->
  Forall (fun t => has_char ":" t = false) (snd st) ->
  WSxM.header_line st ln = Ok st' ->
  Forall plain_entry (fst st') /\ Forall (fun t => has_char ":" t = false) (snd st').
Proof.
  destruct st as [h titles]. simpl. intros Hh Ht H. unfold WSxM.header_line in H.
  pose proof (split_no_sep ":" ln) as Hs.
  destruct (PyStr.split ":" ln) as [|k [|v [|x rest]]].
  - injection H as <-. auto.
  - destruct (negb (String.eqb k "")); injection H as <-; simpl; [|auto].
    split; [exact Hh|]. inversion Hs; subst. apply Forall_app. split; [exact Ht|].
    repeat constructor. assumption.
  - apply rbind_ok_inv in H. destruct H as (title & Hl & H). injection H as <-.
    apply or_raise_ok_inv in Hl. simpl. split; [|exact Ht].
    inversion Hs as [|? ? Hk Hs']; subst. inversion Hs' as [|? ? Hv _]; subst.
    assert (Htitle : has_char ":" title = false).
    { apply last_Some in Hl. destruct Hl as (pre & ->).
      apply Forall_app in Ht. destruct Ht as (_ & Ht). inversion Ht; assumption. }
    apply Forall_dict_set_key; [|exact Hh]. unfold plain_entry. simpl.
    split; [|split].
    + apply has_char_strip. rewrite !has_char_app, Htitle, orb_false_r.
      rewrite has_char_strip by exact Hk. reflexivity.
    + apply strip_idem.
    + exists (PyStr.strip v). split; [reflexivity|]. split; [|apply strip_idem].
      apply has_char_strip, Hv.
  - injection H as <-. auto.
Qed.

(** X3.  The dictionary that [_wsxm_readheader] returns holds only names and
    values without a colon and without white space around them: a line of the
    header with two or more colons leaves no entry. *)
Theorem header_entries_plain :
  forall (file : nat) (pos : Z) (w : WSxM.world) (h : WSxM.header) (pos' : Z)
         (w' : WSxM.world),
    WSxM._wsxm_readheader file pos w = (Ok (h, pos'), w') ->
    Forall plain_entry h.
Proof.
  intros file pos w h pos' w' H. unfold WSxM._wsxm_readheader in H. sinv H.
  apply se_ret_ok_inv in H. destruct H as [H _]. injection H as <- _.
  match goal with
  | E : rfold WSxM.header_line _ _ = Ok _ |- _ =>
      apply (rfold_inv (fun st => Forall plain_entry (fst st)
                                  /\ Forall (fun t => has_char ":" t = false) (snd st)))
        in E
  end.
  - tauto.
  - intros a b a' (Ha & Hb) Hl. eapply header_line_plain; eassumption.
  - split; constructor.
Qed.

Lemma header_entries_plain_witness :
  exists h pos w,
    WSxM._wsxm_readheader
      0 0 (snd (WSxM.open_ Samples.image_dir "img_0001.top" WSxM.initial_world))
    = (Ok (h, pos), w)
    /\ Forall plain_entry h.
Proof.
  set (w0 := snd (WSxM.open_ Samples.image_dir "img_0001.top" WSxM.initial_world)).
  lazymatch eval vm_compute in (WSxM._wsxm_readheader 0 0 w0) with
  | (Ok (?h, ?pos), ?w1) =>
      exists h, pos, w1;
      assert (Hread : WSxM._wsxm_readheader 0 0 w0 = (Ok (h, pos), w1))
        by (vm_compute; reflexivity);
      split; [exact Hread|exact (header_entries_plain 0 0 w0 h pos w1 Hread)]
  end.
Defined.

(** ** The geometry of an image *)

Lemma linspace_length (start stop : Q) (num : Z) (l : list Q) :
  PyNum.linspace start stop num = Ok l -> (0 <= num)%Z /\ length l = Z.to_nat num.
Proof.
  unfold PyNum.linspace. destruct (num <? 0)%Z eqn:E; [discriminate|].
  apply Z.ltb_ge in E. intros H. split; [exact E|].
  destruct (Z.to_nat num) as [|[|n]] eqn:En; injection H as <-; [reflexivity..|].
  simpl. rewrite List.length_map, List.length_seq. reflexivity.
Qed.

Lemma reshape2_shape (a : list Q) (x_num y_num : Z) (m : ndarray) :
  WSxM.reshape2 a x_num y_num = Ok m ->
  shape m = [Z.to_nat x_num; Z.to_nat y_num]
  /\ length a = Z.to_nat x_num * Z.to_nat y_num.
Proof.
  unfold WSxM.reshape2, np_reshape. cbn [flat PyNum.prod fold_right].
  destruct (_ =? _) eqn:E; [|discriminate].
  apply Nat.eqb_eq in E. intros H. injection H as <-. split; [reflexivity|lia].
Qed.

Lemma readimg_dims (file : nat) (h : WSxM.header) (pos : Z) (w : WSxM.world)
      (img : WSxM.image) (pos' : Z) (w' : WSxM.world) :
  WSxM._wsxm_readimg file h pos w = (Ok (img, pos'), w') ->
  exists rows cols : Z,
    WSxM.hint "Number of rows [General Info]" h = Ok rows
    /\ WSxM.hint "Number of columns [General Info]" h = Ok cols
    /\ shape (WSxM.img_Z img) = [Z.to_nat rows; Z.to_nat cols]
    /\ length (WSxM.img_X img) = Z.to_nat rows
    /\ length (WSxM.img_Y img) = Z.to_nat cols.
Proof.
  intros H. unfold WSxM._wsxm_readimg in H. sinv H.
  apply se_ret_ok_inv in H. destruct H as [H _]. injection H as <- <-.
  repeat match goal with
         | E : PyNum.linspace _ _ _ = Ok _ |- _ => apply linspace_length in E; destruct E
         | E : WSxM.reshape2 _ _ _ = Ok _ |- _ => apply reshape2_shape in E; destruct E
         end.
  do 2 eexists. repeat (split; [eassumption|]). cbn. auto.
Qed.

(** X4.  An image that [_wsxm_readimg] returns has the shape the header
    declares: [Z] has [rows] times [cols] values, [X] has one value for each
    row and [Y] one for each column, and the position returned is behind
    the [rows * cols] values of the size the data type gives. *)
Theorem readimg_geometry :
  forall (file : nat) (h : WSxM.header) (pos : Z) (w : WSxM.world)
         (img : WSxM.image) (pos' : Z) (w' : WSxM.world),
    WSxM._wsxm_readimg file h pos w = (Ok (img, pos'), w') ->
    exists (rows cols : Z) (fmt : string) (size : nat) (code : ascii),
      WSxM.hint "Number of rows [General Info]" h = Ok rows
      /\ WSxM.hint "Number of columns [General Info]" h = Ok cols
      /\ WSxM.hget "Image Data Type [General Info]" h = Ok fmt
      /\ WSxM.lookup_type fmt = Ok (size, code)
      /\ (0 <= rows)%Z /\ (0 <= cols)%Z
      /\ shape (WSxM.img_Z img) = [Z.to_nat rows; Z.to_nat cols]
      /\ length (flat (WSxM.img_Z img)) = Z.to_nat rows * Z.to_nat cols
      /\ length (WSxM.img_X img) = Z.to_nat rows
      /\ length (WSxM.img_Y img) = Z.to_nat cols
      /\ pos' = (pos + rows * cols * Z.of_nat size)%Z.
Proof.
  intros file h pos w img pos' w' H. unfold WSxM._wsxm_readimg in H. sinv H.
  apply se_ret_ok_inv in H. destruct H as [H _]. injection H as <- <-.
  repeat match goal with
         | E : PyNum.linspace _ _ _ = Ok _ |- _ => apply linspace_length in E; destruct E
         end.
  match goal with
  | E : WSxM.reshape2 _ _ _ = Ok _ |- _ =>
      pose proof (reshape2_flat _ _ _ _ E) as Hflat;
      apply reshape2_shape in E; destruct E as (Hshape & Hlen)
  end.
  do 5 eexists. repeat (split; [eassumption|]).
  cbn [WSxM.img_Z WSxM.img_X WSxM.img_Y].
  repeat split; try assumption. rewrite Hflat. exact Hlen.
Qed.

Lemma readimg_geometry_witness :
  exists file header pos w img pos' w',
    Samples.after_header "img_0001.top" = (Ok (file, header, pos), w)
    /\ WSxM._wsxm_readimg file header pos w = (Ok (img, pos'), w')
    /\ exists rows cols : Z,
        shape (WSxM.img_Z img) = [Z.to_nat rows; Z.to_nat cols]
        /\ length (WSxM.img_X img) = Z.to_nat rows
        /\ length (WSxM.img_Y img) = Z.to_nat cols.
Proof.
  lazymatch eval vm_compute in (Samples.after_header "img_0001.top") with
  | (Ok (?f, ?h, ?p), ?w) =>
      lazymatch eval vm_compute in (WSxM._wsxm_readimg f h p w) with
      | (Ok (?img, ?p'), ?w') =>
          exists f, h, p, w, img, p', w';
          split; [vm_compute; reflexivity|];
          assert (Hrun : WSxM._wsxm_readimg f h p w = (Ok (img, p'), w'))
            by (vm_compute; reflexivity);
          split; [exact Hrun|];
          destruct (readimg_geometry f h p w img p' w' Hrun)
            as (rows & cols & fmt & size & code & _ & _ & _ & _ & _ & _ & H1 & _ & H2
                & H3 & _);
          exists rows, cols; repeat split; assumption
      end
  end.
Defined.

(** ** The records of [WSxM2DReader.read] *)

Lemma flip_transpose_shape (a : ndarray) (r c : nat) :
  shape a = [r; c] -> shape (WSxM.flip_transpose a) = [c; r].
Proof. unfold WSxM.flip_transpose. intros ->. reflexivity. Qed.

Lemma read2d_file_transposed strict dir d n p w d' n' w' :
  Forall (fun kv => transposed_image strict (snd kv)) d ->
  WSxM.read2d_file strict dir (d, n) p w = (Ok (d', n'), w') ->
  Forall (fun kv => transposed_image strict (snd kv)) d'.
Proof.
  intros Hd H. unfold WSxM.read2d_file in H.
  destruct (negb (String.eqb (WSxM.suffix p) ".gsi")).
  - sinv H. apply se_ret_ok_inv in H. destruct H as [Hp _]. injection Hp as <- _.
    apply Forall_dict_set; [|exact Hd]. intros k'. cbn [snd].
    match goal with
    | Hi : WSxM._wsxm_readimg _ _ _ _ = _ |- _ =>
        pose proof (readimg_header _ _ _ _ _ _ _ Hi) as Hhdr;
        apply readimg_dims in Hi;
        destruct Hi as (rows & cols & Hrows & Hcols & Hshape & HX & HY)
    end.
    apply flip_transpose_shape in Hshape.
    repeat match goal with
           | Hs : Sidpy.set_dimension _ _ _ _ = Ok _ |- _ =>
               apply set_dimension_ok in Hs;
               destruct Hs as (? & _ & ? & ? & ? & ? & ?)
           | Hf : Sidpy.from_array _ _ _ = Ok ?ds |- _ =>
               apply from_array_ok in Hf; destruct Hf as (Harr & _ & Haxes)
           end.
    cbn [ds_array ds_axes ds_metadata dim_values Sidpy.set_data_type
         Sidpy.set_direction Sidpy.set_quantity Sidpy.set_units Sidpy.set_metadata] in *.
    injection Harr as Harr. unfold axes_match in Haxes. rewrite <- Harr, Hshape in Haxes.
    exists (dict_set "File path" (WSxM.HPath p) h), rows, cols.
    rewrite Hhdr. unfold axis_lengths.
    cbn [ds_array ds_axes ds_metadata Sidpy.set_metadata].
    repeat match goal with
           | Ha : ds_array _ = _ |- _ => rewrite Ha in *; clear Ha
           | Ha : ds_axes _ = _ |- _ => rewrite Ha in *; clear Ha
           end.
    rewrite <- Harr in *. rewrite Hshape in *.
    destruct (ds_axes _) as [|a0 [|a1 [|a2 rest]]] eqn:Eax; try discriminate.
    cbn in *. rewrite HX, HY.
    split; [reflexivity|]. split; [exact Hrows|]. split; [exact Hcols|].
    split; [reflexivity|]. split; [reflexivity|]. intros Hstrict.
    repeat match goal with
           | Hl : strict = true -> _ |- _ => specialize (Hl Hstrict)
           end.
    congruence.
  - apply se_ret_ok_inv in H. destruct H as [Hp _]. injection Hp as <- _. exact Hd.
Qed.

(** X5.  Every record of [WSxM2DReader.read] holds its image transposed:
    for a file that declares [rows] rows and [cols] columns the array has
    [cols] times [rows] entries, the values of the first axis are the [rows]
    values of [X] and those of the second the [cols] values of [Y].  A
    container that refuses axes of another length accepts square images
    only. *)
Theorem read2d_axes_transposed :
  forall (strict : bool) (dir : WSxM.directory) (path : string) (w : WSxM.world)
         (d : list (string * Dataset WSxM.header)) (w' : WSxM.world),
    WSxM.WSxM2DReader_read strict dir path w = (Ok d, w') ->
    Forall (fun kv => transposed_image strict (snd kv)) d.
Proof.
  intros strict dir path w d w' H. unfold WSxM.WSxM2DReader_read in H. sinv H.
  apply se_ret_ok_inv in H. destruct H as [<- _].
  match goal with
  | E : se_fold _ _ _ _ = (Ok ?st, _) |- _ =>
      apply (se_fold_inv (fun st => Forall (fun kv => transposed_image strict (snd kv))
                                           (fst st))) in E
  end.
  - assumption.
  - intros [d0 n0] p s [d1 n1] s'. cbn [fst]. apply read2d_file_transposed.
  - constructor.
Qed.

Lemma read2d_axes_transposed_witness :
  exists d w',
    WSxM.WSxM2DReader_read false Samples.image_dir "img_0001.top" WSxM.initial_world
    = (Ok d, w')
    /\ Forall (fun kv => transposed_image false (snd kv)) d.
Proof.
  lazymatch eval vm_compute in
        (WSxM.WSxM2DReader_read false Samples.image_dir "img_0001.top"
                                WSxM.initial_world) with
  | (Ok ?d, ?w') =>
      exists d, w';
      assert (Hrun : WSxM.WSxM2DReader_read false Samples.image_dir "img_0001.top"
                                            WSxM.initial_world = (Ok d, w'))
        by (vm_compute; reflexivity);
      split; [exact Hrun|exact (read2d_axes_transposed _ _ _ _ _ _ Hrun)]
  end.
Defined.

(** ** The axes of [WSxM2DReader.read] against the array *)

Lemma set_dimension_checked {M} (ds ds' : Dataset M) (ind : nat) (dim : Dimension) :
  Sidpy.set_dimension false ds ind dim = Ok ds' ->
  (shape (ds_array ds) !! ind = Some (length (dim_values dim))
   /\ Sidpy.set_dimension true ds ind dim = Ok ds')
  \/ (shape (ds_array ds) !! ind <> Some (length (dim_values dim))
      /\ Sidpy.set_dimension true ds ind dim = Raise ValueError).
Proof.
  unfold Sidpy.set_dimension. destruct (shape (ds_array ds) !! ind) as [n|]; [|discriminate].
  cbn [andb]. intros H. destruct (Nat.eqb_spec (length (dim_values dim)) n) as [->|Hne].
  - left. split; [reflexivity|exact H].
  - right. split; [congruence|reflexivity].
Qed.

Lemma read2d_file_checked dir d n p w d' n' w' :
  Forall (fun kv => axes_match (snd kv)) d ->
  WSxM.read2d_file false dir (d, n) p w = (Ok (d', n'), w') ->
  (Forall (fun kv => axes_match (snd kv)) d'
   /\ WSxM.read2d_file true dir (d, n) p w = (Ok (d', n'), w'))
  \/ fst (WSxM.read2d_file true dir (d, n) p w) = Raise ValueError.
Proof.
  intros Hd H. unfold WSxM.read2d_file in *.
  destruct (negb (String.eqb (WSxM.suffix p) ".gsi")).
  - sinv H. apply se_ret_ok_inv in H. destruct H as [Hp ->]. injection Hp as <- <-.
    injection E3 as <-.
    unfold se_bind. rewrite E. rewrite E0. unfold se_lift. rewrite E1, E2.
    cbn [WSxM.close]. rewrite E4, E5.
    pose proof (from_array_ok _ _ _ _ E5) as (_ & _ & Hm).
    destruct (set_dimension_checked _ _ _ _ E6) as [[Hs0 ->]|[_ ->]]; [|right; reflexivity].
    destruct (set_dimension_checked _ _ _ _ E7) as [[Hs1 ->]|[_ ->]]; [|right; reflexivity].
    left. split; [|reflexivity].
    apply Forall_dict_set; [|exact Hd]. intros k'. cbn [snd].
    eapply axes_match_set_dimension in E6;
      [|eapply axes_match_ext; [| |exact Hm]; reflexivity|exact Hs0].
    eapply axes_match_set_dimension in E7; [|exact E6|exact Hs1].
    eapply axes_match_ext; [| |exact E7]; reflexivity.
  - apply se_ret_ok_inv in H. destruct H as [Hp ->]. injection Hp as <- <-.
    left. split; [exact Hd|reflexivity].
Qed.

Lemma read2d_files_checked dir (files : list string) :
  forall d n w d' n' w',
    Forall (fun kv => axes_match (snd kv)) d ->
    se_fold (WSxM.read2d_file false dir) files (d, n) w = (Ok (d', n'), w') ->
    (Forall (fun kv => axes_match (snd kv)) d'
     /\ se_fold (WSxM.read2d_file true dir) files (d, n) w = (Ok (d', n'), w'))
    \/ fst (se_fold (WSxM.read2d_file true dir) files (d, n) w) = Raise ValueError.
Proof.
  induction files as [|p files IH]; intros d n w d' n' w' Hd H; cbn [se_fold] in *.
  - apply se_ret_ok_inv in H. destruct H as [Hp ->]. injection Hp as <- <-.
    left. split; [exact Hd|reflexivity].
  - apply se_bind_ok_inv in H. destruct H as ([d1 n1] & w1 & H1 & H2).
    destruct (read2d_file_checked _ _ _ _ _ _ _ _ Hd H1) as [[Hd1 Ht]|Hr].
    + unfold se_bind. rewrite Ht. eapply IH; eassumption.
    + right. unfold se_bind.
      destruct (WSxM.read2d_file true dir (d, n) p w) as [[a|e] s]; cbn in Hr;
        [discriminate|]. cbn. exact Hr.
Qed.

Lemma read2d_swapped strict dir path w d w' :
  WSxM.WSxM2DReader_read strict dir path w = (Ok d, w') ->
  Forall (fun kv => swapped_axes (snd kv)) d.
Proof.
  intros H. unfold WSxM.WSxM2DReader_read in H. sinv H.
  apply se_ret_ok_inv in H. destruct H as [<- _].
  match goal with
  | E : se_fold _ _ _ _ = (Ok ?st, _) |- _ =>
      apply (se_fold_inv (fun st => Forall (fun kv => transposed_image strict (snd kv))
                                           (fst st))) in E;
      [|intros [d0 n0] p s [d1 n1] s'; cbn [fst]; apply read2d_file_transposed
       |constructor]
  end.
  eapply Forall_impl; [eassumption|]. intros [k ds]. cbn [snd].
  intros (h & rows & cols & Hm & Hr & Hc & Hs & Ha & _). exists (Z.to_nat rows), (Z.to_nat cols).
  split; [exists h, rows, cols; auto|]. split; [exact Hs|]. split; [exact Ha|].
  unfold axes_match. unfold axis_lengths in Ha. rewrite Ha, Hs.
  split; [intros Heq; injection Heq; auto|intros ->; reflexivity].
Qed.

(** C1.  The records of [WSxM2DReader.read] have their axes the wrong way
    round.  For a file that declares [rows] rows and [cols] columns the array
    of the record is [np.flip(Z.T)], of shape [(cols, rows)], while
    [set_dimension(0, ...)] is given the [rows] values of [X] and
    [set_dimension(1, ...)] the [cols] values of [Y]: the axes are as long
    as the dimensions of the array for a square image only.  With a
    container that stores the axes it is given the reader returns such
    records; whenever one of them has an axis of another length than its
    dimension, the same call with a container that checks the length of an
    axis raises [ValueError] and returns nothing.  The two readers that the
    claim names do keep the invariant, whatever the container does: the four
    axes of the MRC dataset of a file with one camera pixel size, and the one
    axis of every channel of an Igor force curve that has a [ZSnsr] or a
    [Raw] channel. *)
Theorem image_axes_swapped :
  (forall strict dir path w d w',
      WSxM.WSxM2DReader_read strict dir path w = (Ok d, w') ->
      Forall (fun kv => swapped_axes (snd kv)) d)
  /\ (forall dir path w d w',
         WSxM.WSxM2DReader_read false dir path w = (Ok d, w') ->
         ~ Forall (fun kv => axes_match (snd kv)) d ->
         fst (WSxM.WSxM2DReader_read true dir path w) = Raise ValueError)
  /\ (forall strict mrc handedness pixel_size self d self',
         constant_pixel_size mrc ->
         MRC.read strict mrc handedness pixel_size self = (Ok d, self') ->
         Forall (fun kv => axes_match (snd kv)) d)
  /\ (forall strict wave z c l,
         shape (Igor.wData wave) = [z; c] ->
         Igor.index_of "ZSnsr" (igor_labels wave) <> None
         \/ Igor.index_of "Raw" (igor_labels wave) <> None ->
         Igor.read strict wave = Ok l ->
         Forall axes_match l).
Proof.
  split; [|split; [|split]].
  - intros strict dir path w d w'. apply read2d_swapped.
  - intros dir path w d w' H Hbad. unfold WSxM.WSxM2DReader_read in *. sinv H.
    apply se_ret_ok_inv in H. destruct H as [<- _].
    unfold se_bind, se_lift. rewrite E. destruct v0 as [d0 n0].
    match goal with
    | Hf : se_fold _ _ _ _ = _ |- _ =>
        destruct (read2d_files_checked _ _ _ _ _ _ _ _ (Forall_nil_2 _) Hf) as [[Hd _]|Hr]
    end.
    + contradiction.
    + destruct (se_fold (WSxM.read2d_file true dir) _ _ _) as [[a|e] s]; cbn in Hr;
        [discriminate|]. injection Hr as ->. reflexivity.
  - intros strict mrc handedness pixel_size self d self' Hc H.
    eapply mrc_read_axes; eassumption.
  - intros strict wave z c l Hs Hl H. eapply igor_curve_axes; eassumption.
Qed.

Lemma image_axes_swapped_witness :
  (exists d w',
      WSxM.WSxM2DReader_read false Samples.image_dir "img_0001.top" WSxM.initial_world
      = (Ok d, w')
      /\ Forall (fun kv => swapped_axes (snd kv)) d
      /\ ~ Forall (fun kv => axes_match (snd kv)) d
      /\ fst (WSxM.WSxM2DReader_read true Samples.image_dir "img_0001.top"
                                     WSxM.initial_world) = Raise ValueError)
  /\ (exists d self',
         MRC.read true Samples.mrc_full "right" None MRC.init = (Ok d, self')
         /\ Forall (fun kv => axes_match (snd kv)) d)
  /\ (exists l,
         Igor.read true Samples.ibw_sensor = Ok l /\ Forall axes_match l).
Proof.
  pose proof image_axes_swapped as (Hswap & Hraise & Hmrc & Higor).
  split; [|split].
  - lazymatch eval vm_compute in
          (WSxM.WSxM2DReader_read false Samples.image_dir "img_0001.top"
                                  WSxM.initial_world) with
    | (Ok ?d, ?s) =>
        exists d, s;
        assert (Hrun : WSxM.WSxM2DReader_read false Samples.image_dir "img_0001.top"
                                              WSxM.initial_world = (Ok d, s))
          by (vm_compute; reflexivity);
        assert (Hbad : ~ Forall (fun kv => axes_match (snd kv)) d)
          by (intros HF; apply Forall_cons_1 in HF; destruct HF as [HF _];
              vm_compute in HF; discriminate);
        split; [exact Hrun|split; [|split]];
        [ exact (Hswap false Samples.image_dir "img_0001.top" WSxM.initial_world d s Hrun)
        | exact Hbad
        | exact (Hraise Samples.image_dir "img_0001.top" WSxM.initial_world d s
                        Hrun Hbad) ]
    end.
  - lazymatch eval vm_compute in
          (MRC.read true Samples.mrc_full "right" None MRC.init) with
    | (Ok ?d, ?s) =>
        exists d, s;
        assert (Hrun : MRC.read true Samples.mrc_full "right" None MRC.init = (Ok d, s))
          by (vm_compute; reflexivity);
        split;
        [ exact Hrun
        | exact (Hmrc true Samples.mrc_full "right" None MRC.init d s
                      mrc_full_pixel_size Hrun) ]
    end.
  - lazymatch eval vm_compute in (Igor.read true Samples.ibw_sensor) with
    | Ok ?l =>
        exists l;
        assert (Hrun : Igor.read true Samples.ibw_sensor = Ok l)
          by (vm_compute; reflexivity);
        split;
        [ exact Hrun
        | refine (Higor true Samples.ibw_sensor 3 2 l eq_refl _ Hrun);
          left; vm_compute; discriminate ]
    end.
Defined.

(** ** The records of [WSxM3DReader.read] *)

Lemma reshape3_shape (a : list Q) (c y x : Z) (m : ndarray) :
  WSxM.reshape3 a c y x = Ok m ->
  exists n, shape m = [n; Z.to_nat y; Z.to_nat x]
            /\ ((0 <= c)%Z -> n = Z.to_nat c)
            /\ ((c < 0)%Z -> n = length a / (Z.to_nat y * Z.to_nat x)).
Proof.
  unfold WSxM.reshape3, np_reshape. destruct (0 <=? c)%Z eqn:Ec.
  - apply Z.leb_le in Ec. destruct (_ =? _); [|discriminate]. intros H. injection H as <-.
    exists (Z.to_nat c). split; [reflexivity|]. split; [reflexivity|lia].
  - apply Z.leb_gt in Ec. destruct (c =? -1)%Z; [|discriminate].
    destruct (_ && _); [|discriminate]. intros H. injection H as <-.
    eexists. split; [reflexivity|]. split; [lia|reflexivity].
Qed.

Lemma read_frames_none (file n : nat) (code : ascii) (len : Z) (scale : Q -> Q)
      (count pos : Z) (w w' : WSxM.world) (l : list Q) :
  (count <= 0)%Z ->
  WSxM.read_frames file n code len scale count pos w = (Ok l, w') -> l = [].
Proof.
  intros Hc. unfold WSxM.read_frames, WSxM.range.
  replace (Z.to_nat count) with 0 by lia. cbn [seq se_fold].
  intros H. injection H as <- _. reflexivity.
Qed.

Lemma length_range (n : Z) : length (WSxM.range n) = Z.to_nat n.
Proof. unfold WSxM.range. apply List.length_seq. Qed.

Lemma readmovie_volume dir p w v lab w' :
  WSxM._wsxm_readmovie dir p w = (Ok (v, lab), w') -> volume_ok v.
Proof.
  intros H. unfold WSxM._wsxm_readmovie in H. sinv H.
  apply se_ret_ok_inv in H. destruct H as [H _]. injection H as <- _.
  repeat match goal with
         | E : PyNum.linspace _ _ _ = Ok _ |- _ => apply linspace_length in E; destruct E
         end.
  match goal with
  | E : WSxM.reshape3 _ _ _ _ = Ok _ |- _ =>
      apply reshape3_shape in E; destruct E as (nz & Hs & Hn & _)
  end.
  unfold volume_ok. cbn [WSxM.vol_ZZ WSxM.vol_Z WSxM.vol_Y WSxM.vol_X].
  rewrite Hs, Hn by assumption. congruence.
Qed.

Lemma readforcevol_volume dir p w v lab topo w' :
  WSxM._wsxm_readforcevol dir p w = (Ok (v, lab, topo), w') -> volume_ok v.
Proof.
  intros H. unfold WSxM._wsxm_readforcevol in H. sinv H.
  apply se_ret_ok_inv in H. destruct H as [H _]. injection H as <- _ _.
  repeat match goal with
         | E : PyNum.linspace _ _ _ = Ok _ |- _ => apply linspace_length in E; destruct E
         | E : rmap _ (WSxM.range _) = Ok _ |- _ =>
             apply rmap_ok_length in E; rewrite length_range in E
         end.
  match goal with
  | E : WSxM.reshape3 _ ?c _ _ = Ok _ |- _ =>
      apply reshape3_shape in E; destruct E as (nz & Hs & Hn & Hneg);
      destruct (Z.le_gt_cases 0 c) as [Hc|Hc]
  end.
  - unfold volume_ok. cbn [WSxM.vol_ZZ WSxM.vol_Z WSxM.vol_Y WSxM.vol_X].
    rewrite Hs, Hn, length_rev by assumption. congruence.
  - match goal with
    | E : WSxM.read_frames _ _ _ _ _ _ _ _ = _ |- _ =>
        apply read_frames_none in E; [|lia]; subst
    end.
    unfold volume_ok. cbn [WSxM.vol_ZZ WSxM.vol_Z WSxM.vol_Y WSxM.vol_X].
    rewrite Hs, Hneg, length_rev by assumption. cbn [length].
    rewrite Nat.Div0.div_0_l. f_equal; [lia|congruence].
Qed.

Lemma rotated_shape (a : ndarray) (n0 n1 n2 : nat) :
  shape a = [n0; n1; n2] ->
  shape (WSxM.flip_axis1 (WSxM.rot90_axes21 a)) = [n0; n2; n1].
Proof.
  intros H. unfold WSxM.rot90_axes21.
  assert (H1 : shape (WSxM.flip_axis1 a) = [n0; n1; n2]).
  { unfold WSxM.flip_axis1. rewrite H. reflexivity. }
  assert (H2 : shape (WSxM.swap_axes12 (WSxM.flip_axis1 a)) = [n0; n2; n1]).
  { unfold WSxM.swap_axes12. rewrite H1. reflexivity. }
  unfold WSxM.flip_axis1 at 1. rewrite H2. reflexivity.
Qed.

Lemma read3d_file_axes strict dir d n locals p w d' n' locals' w' :
  Forall (fun kv => axes_match (snd kv)) d ->
  (forall l, locals = Some l -> volume_ok (WSxM.l_data l)) ->
  WSxM.read3d_file strict dir (d, n, locals) p w = (Ok (d', n', locals'), w') ->
  Forall (fun kv => axes_match (snd kv)) d'
  /\ (forall l, locals' = Some l -> volume_ok (WSxM.l_data l)).
Proof.
  intros Hd Hl H. unfold WSxM.read3d_file in H.
  apply se_bind_ok_inv in H. destruct H as (loc1 & w1 & Hloc & H).
  assert (Hl1 : forall l, loc1 = Some l -> volume_ok (WSxM.l_data l)).
  { destruct (String.eqb (WSxM.suffix p) ".gsi").
    - sinv Hloc. apply se_ret_ok_inv in Hloc. destruct Hloc as [<- _].
      intros l Heq. injection Heq as <-. cbn [WSxM.l_data].
      eapply readforcevol_volume. eassumption.
    - destruct (String.eqb (WSxM.suffix p) ".MOV" || String.eqb (WSxM.suffix p) ".mpp").
      + sinv Hloc. apply se_ret_ok_inv in Hloc. destruct Hloc as [<- _].
        intros l Heq. injection Heq as <-. cbn [WSxM.l_data].
        eapply readmovie_volume. eassumption.
      + apply se_ret_ok_inv in Hloc. destruct Hloc as [<- _]. exact Hl. }
  clear Hloc. sinv H.
  match goal with
  | E : or_raise _ loc1 = Ok ?l |- _ =>
      apply or_raise_ok_inv in E; specialize (Hl1 l E); subst loc1
  end.
  apply se_ret_ok_inv in H. destruct H as [Hp _]. injection Hp as <- _ <-.
  split; [|intros l Heq; injection Heq as <-; exact Hl1].
  apply Forall_dict_set; [|exact Hd]. intros k'. cbn [snd].
  apply (rotated_shape _ _ _ _) in Hl1.
  assert (Hv3 : axes_match v3).
  { match goal with
    | E : Sidpy.from_array _ _ _ = Ok _ |- _ =>
        apply from_array_ok in E; destruct E as (Harr & _ & Haxes)
    end.
    injection Harr as Harr.
    match goal with
    | S1 : Sidpy.set_dimension _ _ 0 _ = Ok ?a,
      S2 : Sidpy.set_dimension _ ?a 1 _ = Ok ?b,
      S3 : Sidpy.set_dimension _ ?b 2 _ = Ok _ |- _ =>
        pose proof (set_dimension_ok _ _ _ _ _ S1) as (A1 & _);
        pose proof (set_dimension_ok _ _ _ _ _ S2) as (A2 & _);
        cbn [ds_array Sidpy.set_data_type Sidpy.set_quantity Sidpy.set_units] in A1;
        eapply axes_match_set_dimension; [|exact S3|];
        [eapply axes_match_set_dimension; [|exact S2|];
         [eapply axes_match_set_dimension; [|exact S1|];
          [eapply axes_match_ext; [| |exact Haxes]; reflexivity|]|]|]
    end.
    - cbn [ds_array Sidpy.set_data_type Sidpy.set_quantity Sidpy.set_units dim_values].
      rewrite <- Harr, Hl1. reflexivity.
    - cbn [dim_values]. rewrite A1, <- Harr, Hl1. reflexivity.
    - cbn [dim_values]. rewrite A2, A1, <- Harr, Hl1. reflexivity. }
  match goal with
  | E : (if WSxM.l_spectral ?l then _ else _) _ = _ |- _ =>
      destruct (WSxM.l_spectral l);
      [sinv E|]; apply se_ret_ok_inv in E; destruct E as [<- _];
      (eapply axes_match_ext; [| |exact Hv3]; reflexivity)
  end.
Qed.

(** X6.  The records of [WSxM3DReader.read] have axes as long as their
    arrays are wide, whether or not the container checks it: the array of
    [frames * columns * rows] values is turned so that its dimensions are
    those of the axes [z], [x] and [y]. *)
Theorem read3d_axes_match :
  forall (strict : bool) (dir : WSxM.directory) (path : string) (w : WSxM.world)
         (d : list (string * Dataset WSxM.metadata3d)) (w' : WSxM.world),
    WSxM.WSxM3DReader_read strict dir path w = (Ok d, w') ->
    Forall (fun kv => axes_match (snd kv)) d.
Proof.
  intros strict dir path w d w' H. unfold WSxM.WSxM3DReader_read in H. sinv H.
  apply se_ret_ok_inv in H. destruct H as [<- _].
  match goal with
  | E : se_fold _ _ _ _ = (Ok ?st, _) |- _ =>
      apply (se_fold_inv
               (fun st => Forall (fun kv => axes_match (snd kv)) (fst (fst st))
                          /\ forall l, snd st = Some l -> volume_ok (WSxM.l_data l)))
        in E
  end.
  - tauto.
  - intros [[d0 n0] l0] p s [[d1 n1] l1] s' (Hd & Hl). cbn [fst snd] in *.
    apply read3d_file_axes; assumption.
  - split; [constructor|discriminate].
Qed.

Lemma read3d_axes_match_witness :
  exists d w',
    WSxM.WSxM3DReader_read true Samples.image_dir "amp_0004.mpp" WSxM.initial_world
    = (Ok d, w')
    /\ Forall (fun kv => axes_match (snd kv)) d.
Proof.
  lazymatch eval vm_compute in
        (WSxM.WSxM3DReader_read true Samples.image_dir "amp_0004.mpp"
                                WSxM.initial_world) with
  | (Ok ?d, ?w') =>
      exists d, w';
      assert (Hrun : WSxM.WSxM3DReader_read true Samples.image_dir "amp_0004.mpp"
                                            WSxM.initial_world = (Ok d, w'))
        by (vm_compute; reflexivity);
      split; [exact Hrun|exact (read3d_axes_match _ _ _ _ _ _ Hrun)]
  end.
Defined.

Lemma common_files_head dir p ext files :
  WSxM._wsxm_get_common_files dir p ext = Ok files -> exists rest, files = p :: rest.
Proof.
  unfold WSxM._wsxm_get_common_files. destruct (WSxM.search_run_index p).
  - intros H. apply rbind_ok_inv in H. destruct H as (r & _ & H). injection H as <-. eauto.
  - intros H. injection H as <-. eauto.
Qed.

Lemma volume_suffix_false (p : string) :
  volume_suffix p = false ->
  String.eqb (WSxM.suffix p) ".gsi" = false
  /\ (String.eqb (WSxM.suffix p) ".MOV" || String.eqb (WSxM.suffix p) ".mpp") = false.
Proof.
  unfold volume_suffix. intros H. apply orb_false_iff in H. destruct H as (H & H3).
  apply orb_false_iff in H. destruct H as (H1 & H2). rewrite H1, H2, H3. auto.
Qed.

(** X7.  [WSxM3DReader.read] on a reference file that is neither a [.gsi]
    nor a [.MOV] nor a [.mpp] file raises [UnboundLocalError] for the name
    [data_dict_chan]: the [assert] on the file type holds for every file,
    and the names that the two branches assign are read next.  No file is
    opened. *)
Theorem read3d_other_suffix :
  forall (strict : bool) (dir : WSxM.directory) (path : string) (w : WSxM.world),
    volume_suffix path = false ->
    is_ok (WSxM._wsxm_get_common_files dir path None) = true ->
    WSxM.WSxM3DReader_read strict dir path w
    = (Raise (UnboundLocalError "data_dict_chan"), w).
Proof.
  intros strict dir path w Hs Hf. unfold WSxM.WSxM3DReader_read.
  destruct (WSxM._wsxm_get_common_files dir path None) as [files|e] eqn:Hfiles;
    [|discriminate].
  destruct (common_files_head _ _ _ _ Hfiles) as (rest & ->).
  apply volume_suffix_false in Hs. destruct Hs as (H1 & H2).
  unfold se_bind at 1. unfold se_lift at 1. cbn [se_fold].
  unfold se_bind at 1. unfold se_bind at 1.
  unfold WSxM.read3d_file. rewrite H1, H2.
  reflexivity.
Qed.

Lemma read3d_other_suffix_witness :
  WSxM.WSxM3DReader_read true Samples.image_dir "img_0001.top" WSxM.initial_world
  = (Raise (UnboundLocalError "data_dict_chan"), WSxM.initial_world).
Proof.
  apply (read3d_other_suffix true Samples.image_dir "img_0001.top" WSxM.initial_world);
    vm_compute; reflexivity.
Defined.

(** X8.  A file of the group that is neither a [.gsi] nor a [.MOV] nor a
    [.mpp] file, met after another file of the group, adds a record all the
    same: the names of the loop keep the values of the turn before, so the
    record of that turn is filed once more under the next key, and no file is
    read. *)
Theorem read3d_repeats_record :
  forall (strict : bool) (dir : WSxM.directory)
         (d : list (string * Dataset WSxM.metadata3d)) (n : nat)
         (locals : option WSxM.locals3d) (p1 p2 : string) (w : WSxM.world)
         (d1 : list (string * Dataset WSxM.metadata3d)) (n1 : nat)
         (locals1 : option WSxM.locals3d) (w1 : WSxM.world),
    WSxM.read3d_file strict dir (d, n, locals) p1 w = (Ok (d1, n1, locals1), w1) ->
    volume_suffix p2 = false ->
    exists ds,
      dict_get (channel_key n) d1 = Some ds
      /\ WSxM.read3d_file strict dir (d1, n1, locals1) p2 w1
         = (Ok (dict_set (channel_key n1) ds d1, S n1, locals1), w1).
Proof.
  intros strict dir d n locals p1 p2 w d1 n1 locals1 w1 H Hs.
  apply volume_suffix_false in Hs. destruct Hs as (H1 & H2).
  unfold WSxM.read3d_file in H.
  apply se_bind_ok_inv in H. destruct H as (loc1 & wa & _ & H).
  sinv H.
  match goal with
  | E : or_raise _ loc1 = Ok ?l |- _ => apply or_raise_ok_inv in E; subst loc1
  end.
  apply se_ret_ok_inv in H. destruct H as [Hp ->]. injection Hp as <- <- <-.
  match goal with
  | E : _ ?wa = (Ok ?ds, ?wb) |- _ => exists ds
  end.
  split; [apply dict_get_set_eq|].
  unfold WSxM.read3d_file. rewrite H1, H2.
  unfold se_bind at 1. unfold se_ret at 1.
  unfold se_bind at 1. unfold se_lift at 1. cbn [or_raise].
  repeat match goal with
         | E : ?x = Ok _ |- context [se_bind (se_lift ?x)] =>
             unfold se_bind at 1; unfold se_lift at 1; rewrite E
         end.
  match goal with
  | E : (if WSxM.l_spectral ?l then _ else _) _ = _ |- _ =>
      destruct (WSxM.l_spectral l);
      [sinv E; apply se_ret_ok_inv in E; destruct E as [<- <-];
       unfold se_bind, se_lift, se_ret;
       repeat match goal with
              | E' : ?x = Ok _ |- context [?x] => rewrite E'
              end
      |apply se_ret_ok_inv in E; destruct E as [<- <-]];
      reflexivity
  end.
Qed.

Lemma read3d_repeats_record_witness :
  exists d1 n1 locals1 w1 ds,
    WSxM.read3d_file true Samples.image_dir ([], 0, None) "amp_0004.mpp"
                     WSxM.initial_world
    = (Ok (d1, n1, locals1), w1)
    /\ dict_get (channel_key 0) d1 = Some ds
    /\ WSxM.read3d_file true Samples.image_dir (d1, n1, locals1) "img_0001.top" w1
       = (Ok (dict_set (channel_key n1) ds d1, S n1, locals1), w1).
Proof.
  lazymatch eval vm_compute in
        (WSxM.read3d_file true Samples.image_dir ([], 0, None) "amp_0004.mpp"
                          WSxM.initial_world) with
  | (Ok (?d1, ?n1, ?l1), ?w1) =>
      exists d1, n1, l1, w1;
      assert (Hrun : WSxM.read3d_file true Samples.image_dir ([], 0, None)
                                      "amp_0004.mpp" WSxM.initial_world
                     = (Ok (d1, n1, l1), w1))
        by (vm_compute; reflexivity);
      destruct (read3d_repeats_record true Samples.image_dir [] 0 None "amp_0004.mpp"
                  "img_0001.top" WSxM.initial_world d1 n1 l1 w1 Hrun eq_refl)
        as (ds & Hget & Hnext);
      exists ds; split; [exact Hrun|split; [exact Hget|exact Hnext]]
  end.
Defined.

(** ** The dictionaries that [_wsxm_readcurves] and [_wsxm_readcur] return *)

Lemma tops_of_dicts (w w' : WSxM.world) : dicts w' = dicts w -> WSxM.tops w' = WSxM.tops w.
Proof. unfold dicts. intros H. injection H as -> _ _. reflexivity. Qed.

Lemma tops_file_size fd : preserves WSxM.tops (WSxM.file_size fd).
Proof.
  intros w r w'. unfold WSxM.file_size.
  destruct (dict_get fd (WSxM.open_files w)); intros H; injection H as _ <-; reflexivity.
Qed.
#[local] Hint Resolve tops_file_size : dicts.

(** derives that a computation of the readers leaves the list of the
    channel dictionaries as it is *)
Ltac tops_step :=
  lazymatch goal with
  | |- preserves _ (se_bind _ _) => apply preserves_bind; [|intros ?]
  | |- preserves _ (se_fold _ _ _) => apply preserves_fold; intros ? ?
  | |- preserves _ (WSxM.when ?b _) => unfold WSxM.when; destruct b
  | |- preserves _ (if ?b then _ else _) => destruct b
  | |- preserves _ (match ?x with _ => _ end) => destruct x
  | |- preserves _ _ =>
      first [ solve [auto with dicts]
            | solve [eapply preserves_factor; [apply tops_of_dicts|auto with dicts]]
            | apply preserves_field; intros ?; reflexivity ]
  end.
Ltac tops_tac := repeat tops_step.

Lemma tops_readheader file pos : preserves WSxM.tops (WSxM._wsxm_readheader file pos).
Proof. unfold WSxM._wsxm_readheader. tops_tac. Qed.

Lemma tops_readimg file h pos : preserves WSxM.tops (WSxM._wsxm_readimg file h pos).
Proof. unfold WSxM._wsxm_readimg. tops_tac. Qed.
#[local] Hint Resolve tops_readheader tops_readimg : dicts.

Lemma tops_curves_turn p file top n c dd pos :
  preserves WSxM.tops (WSxM.curves_turn p file top n c dd pos).
Proof. unfold WSxM.curves_turn. tops_tac. Qed.
#[local] Hint Resolve tops_curves_turn : dicts.

Lemma tops_curves_loop fuel p file top n c dd :
  forall pos, preserves WSxM.tops (WSxM.curves_loop fuel p file top n c dd pos).
Proof.
  induction fuel as [|fuel IH]; intros pos; simpl.
  - tops_tac.
  - apply preserves_bind; [tops_tac|]. intros [pos'|lab]; [apply IH|tops_tac].
Qed.
#[local] Hint Resolve tops_curves_loop : dicts.

(** the steps of a run that leave the channel dictionaries alone *)
Ltac tops_facts :=
  repeat match goal with
         | E : ?m ?wa = (Ok _, ?wb) |- _ =>
             let Ht := fresh "Htops" in
             assert (Ht : WSxM.tops wb = WSxM.tops wa)
               by (refine ((_ : preserves WSxM.tops m) _ _ _ E); tops_tac);
             clear E
         end.

Lemma readcurves_fresh dir p w dd lab w' :
  WSxM._wsxm_readcurves dir p w = (Ok (dd, lab), w') ->
  dd = length (WSxM.tops w)
  /\ exists c img, WSxM.tops w' = (WSxM.tops w ++ [[(lab, WSxM.mk_outer c (Some img))]])%list.
Proof.
  intros H. unfold WSxM._wsxm_readcurves in H. binds H. store_facts.
  injection H as <- <-. split; [reflexivity|]. tops_facts.
  cbn [WSxM.tops WSxM.with_tops WSxM.with_curves WSxM.with_files] in *.
  repeat match goal with
         | Ht : WSxM.tops _ = _ |- _ => rewrite Ht in *; clear Ht
         end.
  match goal with
  | E : (_ ++ [[]])%list !! _ = Some ?t |- _ =>
      rewrite lookup_app_r, Nat.sub_diag in E by lia; injection E as <-
  end.
  do 2 eexists. rewrite insert_app_r_alt, Nat.sub_diag by lia. reflexivity.
Qed.

Lemma readcur_fresh dir p w dd lab w' :
  WSxM._wsxm_readcur dir p w = (Ok (dd, lab), w') ->
  dd = length (WSxM.tops w)
  /\ exists c, WSxM.tops w' = (WSxM.tops w ++ [[(lab, WSxM.mk_outer c None)]])%list.
Proof.
  intros H. unfold WSxM._wsxm_readcur in H. binds H. store_facts.
  injection H as <- <-. split; [reflexivity|]. tops_facts.
  cbn [WSxM.tops WSxM.with_tops WSxM.with_curves WSxM.with_files] in *.
  match goal with
  | E : WSxM.tops ?wx !! _ = Some ?t, Ht : WSxM.tops ?wx = _ |- _ =>
      rewrite Ht in E;
      repeat match goal with
             | Ht' : WSxM.tops _ = _ |- _ => rewrite Ht' in E
             end;
      rewrite lookup_app_r, Nat.sub_diag in E by lia; injection E as <-
  end.
  match goal with
  | E : (if negb (dict_mem _ []) then _ else _) _ = _ |- _ =>
      cbn [dict_mem dict_get negb] in E; binds E; store_facts
  end.
  cbn [WSxM.tops WSxM.with_tops WSxM.with_curves WSxM.with_files] in *.
  repeat match goal with
         | Ht : WSxM.tops _ = _ |- _ => rewrite Ht in *; clear Ht
         end.
  eexists. rewrite insert_app_r_alt, Nat.sub_diag by lia. reflexivity.
Qed.

(** X9.  [_wsxm_readcurves] and [_wsxm_readcur] return a dictionary of
    their own: it did not exist before the call, the dictionaries that did
    are as they were, and it holds one channel, the one whose label is
    returned with it.  The channel of a [.curves] file has an image, that of
    a [.cur] file has none. *)
Theorem curve_files_fresh_dictionary :
  (forall (dir : WSxM.directory) (p : string) (w : WSxM.world) (dd : nat)
          (lab : string) (w' : WSxM.world),
      WSxM._wsxm_readcurves dir p w = (Ok (dd, lab), w') ->
      dd = length (WSxM.tops w)
      /\ exists c img,
          WSxM.tops w'
          = (WSxM.tops w ++ [[(lab, WSxM.mk_outer c (Some img))]])%list)
  /\ (forall (dir : WSxM.directory) (p : string) (w : WSxM.world) (dd : nat)
             (lab : string) (w' : WSxM.world),
         WSxM._wsxm_readcur dir p w = (Ok (dd, lab), w') ->
         dd = length (WSxM.tops w)
         /\ exists c,
             WSxM.tops w' = (WSxM.tops w ++ [[(lab, WSxM.mk_outer c None)]])%list).
Proof.
  split; intros dir p w dd lab w' H.
  - apply readcurves_fresh in H. exact H.
  - apply readcur_fresh in H. exact H.
Qed.

Lemma curve_files_fresh_dictionary_witness :
  (exists dd lab w',
      WSxM._wsxm_readcurves Samples.tune_dir "fc_0003.curves" WSxM.initial_world
      = (Ok (dd, lab), w')
      /\ dd = 1
      /\ exists c img,
          WSxM.tops w' = [[]; [(lab, WSxM.mk_outer c (Some img))]])
  /\ (exists dd lab w',
         WSxM._wsxm_readcur Samples.tune_dir "tune_0007.cur" WSxM.initial_world
         = (Ok (dd, lab), w')
         /\ dd = 1
         /\ exists c, WSxM.tops w' = [[]; [(lab, WSxM.mk_outer c None)]]).
Proof.
  split.
  - lazymatch eval vm_compute in
          (WSxM._wsxm_readcurves Samples.tune_dir "fc_0003.curves"
                                 WSxM.initial_world) with
    | (Ok (?dd, ?lab), ?w') =>
        exists dd, lab, w';
        assert (Hrun : WSxM._wsxm_readcurves Samples.tune_dir "fc_0003.curves"
                                             WSxM.initial_world = (Ok (dd, lab), w'))
          by (vm_compute; reflexivity);
        split; [exact Hrun|];
        exact (proj1 curve_files_fresh_dictionary _ _ _ _ _ _ Hrun)
    end.
  - lazymatch eval vm_compute in
          (WSxM._wsxm_readcur Samples.tune_dir "tune_0007.cur" WSxM.initial_world) with
    | (Ok (?dd, ?lab), ?w') =>
        exists dd, lab, w';
        assert (Hrun : WSxM._wsxm_readcur Samples.tune_dir "tune_0007.cur"
                                          WSxM.initial_world = (Ok (dd, lab), w'))
          by (vm_compute; reflexivity);
        split; [exact Hrun|];
        exact (proj2 curve_files_fresh_dictionary _ _ _ _ _ _ Hrun)
    end.
Defined.

(** ** Channel and direction of a [.stp] file *)

Lemma app_String (c : ascii) (a b : string) :
  (String c a ++ b)%string = String c (a ++ b).
Proof. reflexivity. Qed.

Lemma app_string_assoc (a b c : string) :
  ((a ++ b) ++ c)%string = (a ++ (b ++ c))%string.
Proof.
  induction a as [|x a IH]; [reflexivity|]. rewrite !app_String, IH. reflexivity.
Qed.

Lemma split_plain (sep : ascii) (a : string) :
  has_char sep a = false -> PyStr.split sep a = [a].
Proof.
  induction a as [|c a IH]; simpl; [reflexivity|]. intros H.
  apply orb_false_iff in H. destruct H as (Hc & Ha).
  rewrite Hc, (IH Ha). reflexivity.
Qed.

Lemma split_app_plain (sep : ascii) (a b : string) :
  has_char sep a = false ->
  PyStr.split sep (a ++ String sep b) = a :: PyStr.split sep b.
Proof.
  induction a as [|c a IH]; intros H.
  - change (PyStr.split sep (String sep b) = "" :: PyStr.split sep b).
    simpl. unfold PyStr.eqc. rewrite Ascii.eqb_refl. reflexivity.
  - simpl in H. apply orb_false_iff in H. destruct H as (Hc & Ha).
    rewrite app_String. simpl. rewrite Hc, (IH Ha). reflexivity.
Qed.

Lemma split_app_tail (sep : ascii) (a b : string) :
  exists x pre, PyStr.split sep (a ++ String sep b) = (x :: pre ++ PyStr.split sep b)%list.
Proof.
  induction a as [|c a (x & pre & IH)].
  - exists "", []. change (PyStr.split sep (String sep b) = "" :: PyStr.split sep b).
    simpl. unfold PyStr.eqc. rewrite Ascii.eqb_refl. reflexivity.
  - rewrite app_String. simpl. rewrite IH. destruct (PyStr.eqc c sep).
    + exists "", (x :: pre). reflexivity.
    + exists (String c x), pre. reflexivity.
Qed.

Lemma split_nonempty (sep : ascii) (s : string) : PyStr.split sep s <> [].
Proof.
  destruct s as [|c s]; simpl; [discriminate|].
  destruct (PyStr.eqc c sep); [discriminate|].
  destruct (PyStr.split sep s); discriminate.
Qed.

Lemma last_or_app {A} (d : A) (l1 l2 : list A) :
  l2 <> [] -> PyStr.last_or d (l1 ++ l2) = PyStr.last_or d l2.
Proof.
  intros H. induction l1 as [|x l1 IH]; [reflexivity|].
  simpl. destruct (l1 ++ l2)%list eqn:E.
  - apply app_eq_nil in E. tauto.
  - exact IH.
Qed.

Lemma last_split_app (sep : ascii) (a b : string) :
  has_char sep b = false ->
  PyStr.last_or "" (PyStr.split sep (a ++ String sep b)) = b.
Proof.
  intros Hb. destruct (split_app_tail sep a b) as (x & pre & ->).
  change (x :: pre ++ PyStr.split sep b)%list with ((x :: pre) ++ PyStr.split sep b)%list.
  rewrite last_or_app by apply split_nonempty.
  rewrite split_plain by exact Hb. reflexivity.
Qed.

Lemma second_last_split (a : string) (d e : string) :
  has_char "." d = false -> has_char "." e = false ->
  WSxM.second_last (PyStr.split "." (a ++ String "." (d ++ String "." e))) = Ok d.
Proof.
  intros Hd He. destruct (split_app_tail "." a (d ++ String "." e)) as (x & pre & ->).
  rewrite split_app_plain, split_plain by assumption.
  unfold WSxM.second_last.
  change (x :: pre ++ [d; e])%list with ((x :: pre) ++ [d; e])%list.
  rewrite rev_app_distr. reflexivity.
Qed.

Lemma stp_label_dir_name :
  forall (base label ext x_dir : string) (c : ascii),
    has_char "." label = false -> has_char "_" label = false ->
    has_char "." ext = false -> has_char "_" ext = false ->
    c <> "."%char -> c <> "_"%char ->
    WSxM.stp_label_dir (base ++ String "_" (label ++ String "." (String c (String "." ext))))
                       x_dir
    = if Ascii.eqb c "f" then Ok (label, "approach")
      else if Ascii.eqb c "b" then Ok (label, "retract")
      else Raise (KeyError (String c "")).
Proof.
  intros base label ext x_dir c Hl1 Hl2 He1 He2 Hc1 Hc2. unfold WSxM.stp_label_dir.
  assert (Hd : has_char "." (String c "") = false).
  { simpl. unfold PyStr.eqc. destruct (Ascii.eqb_spec c "."); [contradiction|reflexivity]. }
  assert (Hkey : WSxM.second_last
                   (PyStr.split "."
                      (base ++ String "_" (label ++ String "." (String c (String "." ext)))))
                 = Ok (String c "")).
  { replace (base ++ String "_" (label ++ String "." (String c (String "." ext))))%string
      with ((base ++ String "_" label) ++ String "." (String c "" ++ String "." ext))%string.
    - apply second_last_split; assumption.
    - rewrite app_string_assoc. reflexivity. }
  rewrite Hkey. cbn [rbind String.length Nat.eqb].
  rewrite last_split_app.
  - rewrite split_app_plain by exact Hl1. cbn [hd].
    unfold lookup_key, WSxM.SPECT_DICT. cbn [dict_get].
    destruct (Ascii.eqb_spec c "f") as [->|Hf]; [reflexivity|].
    destruct (Ascii.eqb_spec c "b") as [->|Hb]; [reflexivity|].
    repeat match goal with
           | |- context [decide (?a = ?b)] =>
               destruct (decide (a = b)) as [?|?]; [congruence|]
           end.
    reflexivity.
  - rewrite has_char_app, Hl2. simpl. unfold PyStr.eqc.
    destruct (Ascii.eqb_spec c "_"); [contradiction|]. exact He2.
Qed.


Lemma stp_parse_label (p : string) (file : nat) (w w' : WSxM.world) (f : WSxM.stp_file) :
  WSxM.stp_parse p file w = (Ok f, w') ->
  exists x_dir, WSxM.stp_label_dir p x_dir = Ok (WSxM.stp_chan_label f, WSxM.stp_z_dir f).
Proof.
  intros H. unfold WSxM.stp_parse in H. sinv H.
  apply se_ret_ok_inv in H. destruct H as [<- _]. eexists. eassumption.
Qed.

(** X10.  For a file named [<base>_<label>.<c>.<ext>] with a one-letter
    direction key [c], [_wsxm_readstp] takes the channel label and the
    direction of the ramp from the name alone: the label is the part
    between the last [_] and the first dot after it, [f] is an approach and
    [b] a retract, and any other key raises [KeyError]; the scanning
    direction of the header plays no part.  The label that the call returns
    is that label. *)
Theorem stp_name_convention :
  forall (base label ext : string) (c : ascii),
    has_char "." label = false -> has_char "_" label = false ->
    has_char "." ext = false -> has_char "_" ext = false ->
    c <> "."%char -> c <> "_"%char ->
    let name := (base ++ String "_" (label ++ String "." (String c (String "." ext))))%string in
    (forall x_dir,
        WSxM.stp_label_dir name x_dir
        = if Ascii.eqb c "f" then Ok (label, "approach")
          else if Ascii.eqb c "b" then Ok (label, "retract")
          else Raise (KeyError (String c "")))
    /\ (forall dir dd w d lab w',
           WSxM._wsxm_readstp dir name dd w = (Ok (d, lab), w') ->
           lab = label /\ (c = "f"%char \/ c = "b"%char)).
Proof.
  intros base label ext c Hl1 Hl2 He1 He2 Hc1 Hc2 name. split.
  - intros x_dir. apply stp_label_dir_name; assumption.
  - intros dir dd w d lab w' H. unfold WSxM._wsxm_readstp in H. sinv H.
    apply se_ret_ok_inv in H. destruct H as [H _]. injection H as _ <-.
    match goal with
    | E : WSxM.stp_parse _ _ _ = _ |- _ =>
        apply stp_parse_label in E; destruct E as (x_dir & Hlab);
        unfold name in Hlab;
        rewrite (stp_label_dir_name base label ext x_dir c) in Hlab by assumption
    end.
    destruct (Ascii.eqb_spec c "f") as [->|_].
    + injection Hlab as <- _. auto.
    + destruct (Ascii.eqb_spec c "b") as [->|_]; [|discriminate].
      injection Hlab as <- _. auto.
Qed.

Lemma stp_name_convention_witness :
  WSxM.stp_label_dir "fd_0001_Normal force.b.stp" "Forward"
  = Ok ("Normal force", "retract")
  /\ forall dir dd w d lab w',
      WSxM._wsxm_readstp dir "fd_0001_Normal force.b.stp" dd w = (Ok (d, lab), w') ->
      lab = "Normal force" /\ ("b"%char = "f"%char \/ "b"%char = "b"%char).
Proof.
  destruct (stp_name_convention "fd_0001" "Normal force" "stp" "b") as (H1 & H2);
    try reflexivity; try discriminate.
  split; [exact (H1 "Forward")|exact H2].
Defined.

(** ** [IgorIBWReader]: labels and parameters *)

Lemma remove_empty_none (fuel i : nat) (l : list Igor.label) :
  Forall (fun x => x <> Igor.LStr "") l -> Igor.remove_empty fuel i l = l.
Proof.
  intros Hl. revert i. induction fuel as [|fuel IH]; intros i; simpl; [reflexivity|].
  destruct (l !! i) as [item|] eqn:E; [|reflexivity].
  destruct (decide (item = Igor.LStr "")) as [->|_]; [|apply IH].
  exfalso. exact (Forall_lookup_1 _ _ _ _ Hl E eq_refl).
Qed.

Lemma concat_nonempty_rows {A} (rows : list (list A)) :
  concat (filter (fun item => 0 <? length item) rows) = concat rows.
Proof.
  induction rows as [|r rows IH]; [reflexivity|].
  rewrite filter_cons. destruct r as [|x r].
  - rewrite decide_False by (simpl; intros []). exact IH.
  - rewrite decide_True by exact I. simpl. rewrite IH. reflexivity.
Qed.

(** X11.  When no item of the label table is the [str] [''] -- as in a
    table of [bytes] items, where [item == ''] never holds -- the loop of
    [_get_chan_labels] that is to drop empty labels drops none: the labels
    returned are all items of all rows in their order, each cut after its
    last [trace], and each has its unit. *)
Theorem chan_labels_keep_all :
  forall (w : Igor.ibw_wave),
    Forall (Forall (fun x => x <> Igor.LStr "")) (Igor.labels w) ->
    let items := map Igor.label_text (concat (Igor.labels w)) in
    Igor._get_chan_labels w
    = (map Igor.clean_label items, map Igor.default_unit items).
Proof.
  intros w Hl items. unfold Igor._get_chan_labels.
  rewrite concat_nonempty_rows, remove_empty_none; [reflexivity|].
  induction Hl as [|r rows Hr _ IH]; simpl; [constructor|].
  apply Forall_app. split; assumption.
Qed.

Lemma chan_labels_keep_all_witness :
  Igor._get_chan_labels
    (Igor.mk_ibw_wave "" [[Igor.LBytes ""];
                          [Igor.LBytes "HeightTrace1"; Igor.LBytes "Phase"]]
                      (mk_ndarray [1; 1; 2] [0; 0]%Q) [])
  = ([""; "HeightTrace"; "Phase"], ["m"; "m"; "deg"]).
Proof.
  apply (chan_labels_keep_all
           (Igor.mk_ibw_wave "" [[Igor.LBytes ""];
                                 [Igor.LBytes "HeightTrace1"; Igor.LBytes "Phase"]]
                             (mk_ndarray [1; 1; 2] [0; 0]%Q) [])).
  repeat constructor; discriminate.
Defined.

Lemma parm_value_note (k text : string) :
  note_parameter (PyStr.strip k, Igor.parm_value (PyStr.strip text)).
Proof.
  split; [apply strip_idem|]. cbn [snd]. unfold Igor.parm_value.
  destruct (PyNum.parse_float (PyStr.strip text)) as [[q|neg|]|] eqn:E.
  - destruct (PyNum.is_integral q) eqn:Ei; [exact I|exact Ei].
  - exact I.
  - split; [apply strip_idem|]. right. exact E.
  - split; [apply strip_idem|]. left. exact E.
Qed.

Lemma read_pair_note (sep : ascii) (s : string) (d : Igor.parm_dict) :
  Forall note_parameter d -> Forall note_parameter (Igor.read_pair sep s d).
Proof.
  intros Hd. unfold Igor.read_pair.
  destruct (PyStr.split sep s) as [|k [|v [|x rest]]]; try exact Hd.
  apply Forall_dict_set_key; [apply parm_value_note|exact Hd].
Qed.

Lemma fold_left_inv {A B} (P : A -> Prop) (f : A -> B -> A) (l : list B) :
  (forall a b, P a -> P (f a b)) -> forall a, P a -> P (fold_left f l a).
Proof. intros Hf. induction l as [|b l IH]; simpl; auto. Qed.

(** X12.  In the dictionary of [_read_parms] every entry but
    [creationDate], [modDate] and [bname] is a parameter of the note: its
    name is stripped, and its value is a number whenever [float] accepts
    the text -- an [int] when the value is integral, so never a float with
    an integral value -- and the stripped text otherwise.  The three names
    have the values of the wave header when the header has them, whatever
    the note says. *)
Theorem read_parms_entries :
  forall (w : Igor.ibw_wave),
    Forall (fun kv => In (fst kv) header_keys \/ note_parameter kv) (Igor._read_parms w)
    /\ forall key v,
        In key header_keys ->
        dict_get key (Igor.wave_header w) = Some v ->
        dict_get key (Igor._read_parms w) = Some v.
Proof.
  intros w. unfold Igor._read_parms.
  match goal with
  | |- context [fold_left ?f (PyStr.split PyStr.CR ?x) []] =>
      set (noted := fold_left f (PyStr.split PyStr.CR x) [])
  end.
  assert (Hn : Forall (fun kv => In (fst kv) header_keys \/ note_parameter kv) noted).
  { unfold noted. apply (Forall_impl note_parameter); [|intros kv H; right; exact H].
    apply fold_left_inv; [|constructor].
    intros d s Hd. apply read_pair_note, read_pair_note, Hd. }
  clearbody noted. cbn [fold_left].
  assert (Hstep : forall d key,
             In key header_keys ->
             Forall (fun kv => In (fst kv) header_keys \/ note_parameter kv) d ->
             Forall (fun kv => In (fst kv) header_keys \/ note_parameter kv)
                    (match dict_get key (Igor.wave_header w) with
                     | Some v => dict_set key v d
                     | None => d
                     end)).
  { intros d key Hk Hd. destruct (dict_get key (Igor.wave_header w)); [|exact Hd].
    apply Forall_dict_set_key; [left; exact Hk|exact Hd]. }
  split.
  - apply Hstep; [unfold header_keys; simpl; tauto|].
    apply Hstep; [unfold header_keys; simpl; tauto|].
    apply Hstep; [unfold header_keys; simpl; tauto|]. exact Hn.
  - intros key v Hk Hv. unfold header_keys in Hk. simpl in Hk.
    destruct Hk as [<-|[<-|[<-|[]]]]; rewrite ?Hv.
    + destruct (dict_get "modDate" (Igor.wave_header w));
        destruct (dict_get "bname" (Igor.wave_header w));
        rewrite ?dict_get_set_ne by discriminate; apply dict_get_set_eq.
    + destruct (dict_get "bname" (Igor.wave_header w));
        rewrite ?dict_get_set_ne by discriminate; apply dict_get_set_eq.
    + apply dict_get_set_eq.
Qed.

Lemma read_parms_entries_witness :
  Forall (fun kv => In (fst kv) header_keys \/ note_parameter kv)
         (Igor._read_parms Samples.ibw_sensor)
  /\ dict_get "bname" (Igor._read_parms Samples.ibw_sensor)
     = Some (Igor.PBytes "curve0").
Proof.
  destruct (read_parms_entries Samples.ibw_sensor) as (H1 & H2).
  split; [exact H1|]. apply H2; [right; right; left; reflexivity|reflexivity].
Defined.

(** ** The image stack of [IgorIBWReader.read] *)

Lemma linspace_parm_length (stop num : Igor.pval) (l : list Q) :
  Igor.linspace_parm stop num = Ok l ->
  exists n, num = Igor.PInt n /\ length l = Z.to_nat n.
Proof.
  unfold Igor.linspace_parm. destruct num as [n| | | |]; try discriminate.
  destruct (n <? 0)%Z; [discriminate|].
  destruct stop; try discriminate; intros H; apply linspace_length in H;
    exists n; split; [reflexivity|apply H|reflexivity|apply H].
Qed.

Lemma index_2_shape (a plane : ndarray) (c s0 s1 s2 : nat) :
  shape a = [s0; s1; s2] -> NdSlice.index_2 a c = Ok plane -> shape plane = [s0; s1].
Proof.
  unfold NdSlice.index_2. intros ->. destruct (c <? s2); [|discriminate].
  intros H. injection H as <-. reflexivity.
Qed.

Lemma image_channel_axes strict pd num_rows num_cols labels units images ch ds s0 s1 s2 :
  shape images = [s0; s1; s2] ->
  Igor.image_channel strict pd num_rows num_cols labels units images ch = Ok ds ->
  exists points lines : Z,
    num_cols = Igor.PInt points /\ num_rows = Igor.PInt lines
    /\ shape (ds_array ds) = [s0; s1]
    /\ axis_lengths ds = [Z.to_nat points; Z.to_nat lines]
    /\ (strict = true -> s0 = Z.to_nat points /\ s1 = Z.to_nat lines).
Proof.
  intros Hs H. unfold Igor.image_channel in H. rinv H. injection H as <-.
  repeat match goal with
         | E : Igor.linspace_parm _ _ = Ok _ |- _ =>
             apply linspace_parm_length in E; destruct E as (? & -> & ?)
         | E : NdSlice.index_2 _ _ = Ok _ |- _ => apply (index_2_shape _ _ _ _ _ _ Hs) in E
         | E : Sidpy.set_dimension _ _ _ _ = Ok _ |- _ =>
             apply set_dimension_ok in E; destruct E as (? & _ & _ & ? & ? & ? & ?)
         | E : Sidpy.from_array _ _ _ = Ok _ |- _ =>
             apply from_array_ok in E; destruct E as (Harr & _ & Haxes)
         end.
  cbn [ds_array ds_axes ds_metadata dim_values Sidpy.set_data_type
       Sidpy.set_quantity Sidpy.set_units Sidpy.set_original_metadata] in *.
  injection Harr as Harr. unfold axes_match in Haxes.
  unfold axis_lengths.
  cbn [ds_array ds_axes Sidpy.set_data_type Sidpy.set_original_metadata].
  repeat match goal with
         | Ha : ds_array _ = _ |- _ => rewrite Ha in *; clear Ha
         | Ha : ds_axes _ = _ |- _ => rewrite Ha in *; clear Ha
         end.
  rewrite <- Harr in *. rewrite E in *.
  destruct (ds_axes _) as [|a0 [|a1 [|a2 rest]]] eqn:Eax; try discriminate.
  cbn in *.
  eexists _, _. split; [reflexivity|]. split; [reflexivity|].
  split; [reflexivity|]. split; [congruence|]. intros Hstrict.
  repeat match goal with
         | Hl : strict = true -> _ |- _ => specialize (Hl Hstrict)
         end.
  split; congruence.
Qed.

Lemma rmap_Forall {A B} (P : B -> Prop) (f : A -> res B) (l : list A) (out : list B) :
  (forall a b, f a = Ok b -> P b) ->
  rmap f l = Ok out -> Forall P out /\ length out = length l.
Proof.
  intros Hf. revert out. induction l as [|a l IH]; intros out H; cbn in H.
  - injection H as <-. split; [constructor|reflexivity].
  - rinv H. injection H as <-.
    match goal with
    | E : rmap f l = Ok _ |- _ => destruct (IH _ E) as [IH1 IH2]
    end.
    split; [constructor; eauto|cbn; congruence].
Qed.

Lemma image_channel_plane strict pd num_rows num_cols labels units images ch ds :
  Igor.image_channel strict pd num_rows num_cols labels units images ch = Ok ds ->
  NdSlice.index_2 images ch = Ok (ds_array ds).
Proof.
  intros H. unfold Igor.image_channel in H. rinv H. injection H as <-.
  repeat match goal with
         | E : Sidpy.set_dimension _ _ _ _ = Ok _ |- _ =>
             apply set_dimension_ok in E; destruct E as (? & _ & _ & ? & ? & ? & ?)
         | E : Sidpy.from_array _ _ _ = Ok _ |- _ =>
             apply from_array_ok in E; destruct E as (Harr & _ & _)
         end.
  cbn [ds_array Sidpy.set_data_type Sidpy.set_quantity Sidpy.set_units
       Sidpy.set_original_metadata] in *.
  injection Harr as Harr.
  repeat match goal with
         | Ha : ds_array _ = _ |- _ => rewrite Ha in *; clear Ha
         end.
  subst. assumption.
Qed.

Lemma rmap_lookup {A B} (f : A -> res B) (l : list A) (out : list B) :
  rmap f l = Ok out ->
  forall i b, out !! i = Some b -> exists a, l !! i = Some a /\ f a = Ok b.
Proof.
  revert out. induction l as [|a l IH]; intros out H i b Hi; cbn in H.
  - injection H as <-. discriminate.
  - rinv H. injection H as <-. destruct i as [|i]; cbn in Hi.
    + injection Hi as <-. exists a. split; [reflexivity|assumption].
    + eapply IH; eassumption.
Qed.

(** X13.  An image stack read by [IgorIBWReader.read] from a wave of shape
    [[s0; s1; n]] gives [n] records.  The record at position [c] holds the
    plane [c] of the wave, of shape [[s0; s1]], and its two axes are sized
    by the note of the wave, not by the plane: the first has [ScanPoints]
    values and the second [ScanLines] values.  Where sidpy checks the length
    of an axis, [s0] is [ScanPoints] and [s1] is [ScanLines]. *)
Theorem igor_image_axes : forall strict w s0 s1 n out,
  shape (Igor.wData w) = [s0; s1; n] ->
  Igor.read strict w = Ok out ->
  length out = n
  /\ Forall (note_sized_image strict (Igor._read_parms w) s0 s1) out
  /\ forall c ds, out !! c = Some ds ->
                  NdSlice.index_2 (Igor.wData w) c = Ok (ds_array ds).
Proof.
  intros strict w s0 s1 n out Hs H. unfold Igor.read in H.
  destruct (Igor._get_chan_labels w) as [labels units].
  unfold shape_from_end, ndim in H. rewrite Hs in H. cbn in H.
  assert (Hch : forall rows cols labels' units' c ds,
             lookup_key "ScanLines" (Igor._read_parms w) = Ok rows ->
             lookup_key "ScanPoints" (Igor._read_parms w) = Ok cols ->
             Igor.image_channel strict (Igor._read_parms w) rows cols labels' units'
               (Igor.wData w) c = Ok ds ->
             note_sized_image strict (Igor._read_parms w) s0 s1 ds).
  { intros rows cols labels' units' c ds Hrows Hcols Hc.
    destruct (image_channel_axes _ _ _ _ _ _ _ _ _ _ _ _ Hs Hc)
      as (points & lines & -> & -> & ? & ? & ?).
    exists points, lines. auto. }
  destruct (negb _); rinv H;
    match goal with
    | E : rmap _ _ = Ok _ |- _ =>
        pose proof (rmap_lookup _ _ _ E) as Hlook;
        eapply rmap_Forall in E; [|intros c ds Hc; eapply Hch; [| |exact Hc]; eassumption];
        destruct E as [HF HL]; rewrite List.length_seq in HL;
        split; [assumption|]; split; [assumption|];
        intros c ds Hc; destruct (Hlook c ds Hc) as (a & Ha & Hf);
        apply lookup_seq in Ha; destruct Ha as [-> _];
        exact (image_channel_plane _ _ _ _ _ _ _ _ _ Hf)
    end.
Qed.

Lemma igor_image_axes_witness :
  exists out, Igor.read true Samples.ibw_image = Ok out
    /\ length out = 2
    /\ Forall (note_sized_image true (Igor._read_parms Samples.ibw_image) 3 2) out
    /\ forall c ds, out !! c = Some ds ->
                    NdSlice.index_2 (Igor.wData Samples.ibw_image) c = Ok (ds_array ds).
Proof.
  lazymatch eval vm_compute in (Igor.read true Samples.ibw_image) with
  | Ok ?o =>
      exists o;
      assert (Hrun : Igor.read true Samples.ibw_image = Ok o) by (vm_compute; reflexivity);
      split; [exact Hrun|];
      exact (igor_image_axes true Samples.ibw_image 3 2 2 o eq_refl Hrun)
  end.
Defined.

(** ** The scan axes of [MRCReader.read] *)

Lemma scan_scale_set (pixel_size : option Q) (w0 w1 : MRC.MRCReader) (u : unit) :
  match pixel_size with
  | Some sz =>
      if PyNum.is_zero sz then se_modify (MRC.set_scan 1 "pixels")
      else se_modify (MRC.set_scan (sz * MRC.angstrom_per_metre) "Å")
  | None => se_modify (MRC.set_scan 1 "pixels")
  end w0 = (Ok u, w1) ->
  w1 = MRC.set_scan (fst (scan_scale pixel_size)) (snd (scan_scale pixel_size)) w0.
Proof.
  unfold scan_scale. destruct pixel_size as [sz|]; [destruct (PyNum.is_zero sz)|];
    intros H; injection H as _ <-; reflexivity.
Qed.

(** X14.  The record of [MRCReader.read] has four dimensions.  Its first two
    axes are [x] and [y], with the values [k * step] for [k] below the
    length of the dimension: the step is the pixel size times [1e10] and the
    unit [Å] when a pixel size other than zero is given, and the step is 1
    and the unit [pixels] when none is given or when it is zero.  The last
    two axes are [u] and [v] in [1/Å].  The reader keeps the step and the
    unit in its attributes. *)
Theorem mrc_scan_axes : forall strict mrc handedness pixel_size self d self',
  MRC.read strict mrc handedness pixel_size self = (Ok d, self') ->
  exists ds n0 n1 n2 n3 ax_u ax_v,
    d = [("Channel_000", ds)]
    /\ shape (ds_array ds) = [n0; n1; n2; n3]
    /\ ds_axes ds = [scan_axis "x" pixel_size n0; scan_axis "y" pixel_size n1; ax_u; ax_v]
    /\ (dim_name ax_u, dim_units ax_u) = ("u", "1/Å")
    /\ (dim_name ax_v, dim_units ax_v) = ("v", "1/Å")
    /\ MRC.scan_pixel_size self' = Some (fst (scan_scale pixel_size))
    /\ MRC.scan_size_units self' = Some (snd (scan_scale pixel_size)).
Proof.
  intros strict mrc handedness pixel_size self d self' H.
  unfold MRC.read in H. sinv H.
  apply se_ret_ok_inv in H. destruct H as [<- Hself]. subst self'.
  match goal with
  | E : match pixel_size with Some _ => _ | None => _ end _ = _ |- _ =>
      apply scan_scale_set in E; subst
  end.
  repeat match goal with
         | E : Ok _ = Ok _ |- _ => injection E as E; subst
         end.
  cbn [MRC.set_metadata MRC.set_scan MRC.scan_pixel_size MRC.scan_size_units
       MRC.data] in * |-.
  match goal with
  | E : Sidpy.from_array ?x _ (Some ?c) = Ok _ |- _ =>
      assert (Hnd : exists a, x = Some a /\ ndim a = 4)
  end.
  { match goal with
    | E : Sidpy.from_array ?x _ _ = Ok _ |- _ =>
        unfold Sidpy.from_array in E; destruct x as [a|]; cbn in E
    end.
    - exists a. split; [reflexivity|].
      destruct (ndim a) as [|[|[|[|[|k]]]]]; cbn in *; try discriminate. reflexivity.
    - discriminate. }
  destruct Hnd as (a & Ha & Hn). rewrite Ha in *.
  unfold shape_at in *.
  repeat match goal with
         | E : or_raise _ _ = Ok _ |- _ => apply or_raise_ok_inv in E
         end.
  repeat match goal with
         | E : Sidpy.set_dimension _ _ _ _ = Ok _ |- _ =>
             apply set_dimension_ok in E; destruct E as (? & _ & _ & ? & _)
         | E : Sidpy.from_array _ _ _ = Ok _ |- _ =>
             apply from_array_ok in E; destruct E as (Hsrc & _ & Haxes)
         end.
  cbn [ds_array ds_axes Sidpy.set_data_type Sidpy.set_original_metadata] in * |-.
  injection Hsrc as Hsrc.
  match goal with
  | |- context [("Channel_000", ?v)] =>
      assert (Harr : ds_array v = a)
        by (repeat match goal with
                   | Hx : ds_array _ = ds_array _ |- _ => rewrite Hx; clear Hx
                   end; symmetry; exact Hsrc)
  end.
  revert Harr.
  repeat match goal with
         | Hx : ds_array _ = ds_array _ |- _ => rewrite Hx in * |-; clear Hx
         end.
  intros Harr.
  unfold ndim in Hn. unfold axes_match in Haxes. rewrite <- Hsrc in *.
  destruct (shape a) as [|m0 [|m1 [|m2 [|m3 [|m4 rest]]]]] eqn:Hshape;
    try discriminate.
  match type of Haxes with
  | context [ds_axes ?v] =>
      destruct (ds_axes v) as [|a0 [|a1 [|a2 [|a3 [|a4 axs]]]]] eqn:Hax;
      try discriminate
  end.
  cbn in * |-.
  repeat match goal with
         | E : Some _ = Some _ |- _ => injection E as E; subst
         end.
  eexists _, _, _, _, _, _, _.
  split; [reflexivity|].
  split; [exact (eq_trans (f_equal shape Harr) Hshape)|].
  repeat match goal with
         | Hx : ds_axes ?v = _, Hy : ds_axes _ = ?r |- _ =>
             match r with
             | context [ds_axes v] => rewrite Hx in Hy; clear Hx
             end
         end.
  split; [etransitivity; [eassumption|reflexivity]|].
  cbn. auto.
Qed.

Lemma mrc_scan_axes_witness :
  exists d self',
    MRC.read true Samples.mrc_full "right" (Some (1 # 2)%Q) MRC.init = (Ok d, self')
    /\ MRC.scan_size_units self' = Some "Å"
    /\ exists ds n0 n1 n2 n3 ax_u ax_v,
         d = [("Channel_000", ds)]
         /\ shape (ds_array ds) = [n0; n1; n2; n3]
         /\ ds_axes ds = [scan_axis "x" (Some (1 # 2)%Q) n0;
                          scan_axis "y" (Some (1 # 2)%Q) n1; ax_u; ax_v]
         /\ (dim_name ax_u, dim_units ax_u) = ("u", "1/Å")
         /\ (dim_name ax_v, dim_units ax_v) = ("v", "1/Å")
         /\ MRC.scan_pixel_size self' = Some (fst (scan_scale (Some (1 # 2)%Q)))
         /\ MRC.scan_size_units self' = Some (snd (scan_scale (Some (1 # 2)%Q))).
Proof.
  lazymatch eval vm_compute in
    (MRC.read true Samples.mrc_full "right" (Some (1 # 2)%Q) MRC.init) with
  | (Ok ?d, ?s) =>
      exists d, s;
      assert (Hrun : MRC.read true Samples.mrc_full "right" (Some (1 # 2)%Q) MRC.init
                     = (Ok d, s)) by (vm_compute; reflexivity);
      split; [exact Hrun|]; split; [reflexivity|];
      exact (mrc_scan_axes true Samples.mrc_full "right" (Some (1 # 2)%Q) MRC.init
                           d s Hrun)
  end.
Defined.

(** ** The array that [MRCReader.read] puts in its record *)

(** X15.  When the buffer of the file does not hold the declared
    [scan_x*scan_y*det_u*det_v] elements, [read] leaves the attribute [data]
    of the reader as it was.  On a reader that holds a four-dimensional
    array from an earlier call, the call then succeeds, and its record
    carries that earlier array and not the data of the file. *)
Theorem mrc_failed_reshape_keeps_data :
  forall strict mrc first second u v handedness sz self a n0 n1 n2 n3,
    declares_scan mrc first second -> constant_pixel_size mrc ->
    detector_shape mrc u v ->
    length (flat (MRC.mrc_data mrc)) <> second * first * u * v ->
    handedness = "right" \/ handedness = "left" ->
    MRC.data self = Some a -> shape a = [n0; n1; n2; n3] ->
    exists ds self',
      MRC.read strict mrc handedness sz self = (Ok [("Channel_000", ds)], self')
      /\ ds_array ds = a
      /\ MRC.data self' = Some a.
Proof.
  intros strict mrc first second u v handedness sz self a n0 n1 n2 n3
         (r & l & t & b & [cr [Hr Ur]] & [cl [Hl Ul]] & [ct [Ht Ut]] & [cb [Hb Ub]]
          & Hrl & Htb)
         (px & py & [cx [Hx Ux]] & [cy [Hy Uy]]) [pre Hshape] Hlen Hhand Hdata Ha.
  pose proof (shape_from_end_2 _ _ _ _ Hshape) as E2.
  pose proof (shape_from_end_1 _ _ _ _ Hshape) as E1.
  assert (ER : forall tg, PyNum.prod tg = second * first * u * v ->
                          np_reshape (MRC.mrc_data mrc) tg = Raise ValueError).
  { intros tg Htg. unfold np_reshape. rewrite Htg.
    destruct (Nat.eqb_spec (second * first * u * v) (length (flat (MRC.mrc_data mrc))));
      [congruence|reflexivity]. }
  destruct a as [shp fl]. cbn in Ha. subst shp.
  destruct self as [sd sm ss su]. cbn in Hdata. subst sd.
  destruct Hhand as [-> | ->]; mrc_prepare mrc.
  - change ("right" =? "right")%string with true. cbv iota.
    rewrite E2, E1, Hrl, Htb. cbv beta iota zeta. cbn [or_raise].
    rewrite ER by (simpl; lia).
    destruct sz as [sz0|]; [destruct (PyNum.is_zero sz0)|];
      cbv beta iota zeta;
      repeat (cbn; rewrite ?length_map, ?length_arange, ?Nat.eqb_refl, ?andb_false_r);
      eexists _, _; (split; [reflexivity|split; reflexivity]).
  - change ("left" =? "right")%string with false.
    change ("left" =? "left")%string with true. cbv iota.
    rewrite E2, E1, Hrl, Htb. cbv beta iota zeta. cbn [or_raise].
    rewrite ER by (simpl; lia).
    destruct sz as [sz0|]; [destruct (PyNum.is_zero sz0)|];
      cbv beta iota zeta;
      repeat (cbn; rewrite ?length_map, ?length_arange, ?Nat.eqb_refl, ?andb_false_r);
      eexists _, _; (split; [reflexivity|split; reflexivity]).
Qed.

Lemma mrc_failed_reshape_keeps_data_witness :
  let self := snd (MRC.read true Samples.mrc_full "right" None MRC.init) in
  let a := mk_ndarray [3; 4; 2; 2] (repeat 1%Q 48) in
  MRC.data self = Some a
  /\ exists ds self',
       MRC.read true Samples.mrc_truncated "right" None self
       = (Ok [("Channel_000", ds)], self')
       /\ ds_array ds = a
       /\ MRC.data self' = Some a.
Proof.
  split; [vm_compute; reflexivity|].
  apply (mrc_failed_reshape_keeps_data true Samples.mrc_truncated 4 3 2 2 "right" None
           _ _ 3 4 2 2).
  - exact mrc_truncated_declares.
  - exists (inject_Z (10 ^ 8)), (inject_Z (10 ^ 8)).
    split; eexists; split; reflexivity.
  - exists [11]. reflexivity.
  - simpl. lia.
  - left. reflexivity.
  - vm_compute. reflexivity.
  - reflexivity.
Defined.

(** ** The records of [WSxM1DReader.read] *)

Lemma curve_lists_fold (data : WSxM.data_dict) :
  forall cl dl (xo : option (list Q)) cl' dl' xo',
    rfold (fun (acc : list (list Q) * list string * option (list Q)) dxy =>
              let '(curve_list, curve_dir_list, _) := acc in
              rbind (or_raise (KeyError "y") (WSxM.xy_y (snd dxy))) (fun y =>
              rbind (or_raise (KeyError "x") (WSxM.xy_x (snd dxy))) (fun x =>
              Ok (curve_list ++ [y], curve_dir_list ++ [fst dxy], Some x))))
          data (cl, dl, xo) = Ok (cl', dl', xo') ->
    exists ys,
      cl' = cl ++ ys /\ dl' = dl ++ map fst data
      /\ Forall2 (fun dxy y => WSxM.xy_y (snd dxy) = Some y) data ys
      /\ match last data with
         | Some dxy => WSxM.xy_x (snd dxy) = xo' /\ xo' <> None
         | None => xo' = xo
         end.
Proof.
  induction data as [|dxy data IH]; intros cl dl xo cl' dl' xo' H; cbn in H.
  - injection H as <- <- <-. exists []. rewrite !app_nil_r. repeat split. constructor.
  - apply rbind_ok_inv in H. destruct H as ([[cl1 dl1] xo1] & H1 & H).
    rinv H1. injection H1 as <- <- <-.
    apply or_raise_ok_inv in E, E0.
    destruct (IH _ _ _ _ _ _ H) as (ys & -> & -> & HF & Hl).
    exists (v :: ys). rewrite <- !app_assoc. cbn.
    split; [reflexivity|]. split; [reflexivity|]. split; [constructor; assumption|].
    destruct data as [|dxy' data']; cbn in *.
    + subst xo'. split; [exact E0|discriminate].
    + destruct (last (dxy' :: data')) eqn:El; [exact Hl|].
      apply last_None in El. discriminate.
Qed.

Lemma vstack_T_shape (curve_list : list (list Q)) (m : ndarray) :
  WSxM.vstack_T curve_list = Ok m ->
  exists points, shape m = [points; length curve_list]
                 /\ Forall (fun c => length c = points) curve_list.
Proof.
  unfold WSxM.vstack_T. destruct curve_list as [|c cs]; [discriminate|].
  destruct (forallb _ _) eqn:Hall; [|discriminate].
  intros H. injection H as <-. exists (length c). split; [reflexivity|].
  pose proof (proj1 (List.forallb_forall _ _) Hall) as Hall'.
  apply List.Forall_forall. intros c' Hin.
  apply Nat.eqb_eq. apply Hall'. exact Hin.
Qed.

Lemma set_dimension_fields {M} (strict : bool) (ds ds' : Dataset M) (ind : nat)
      (dim : Dimension) :
  Sidpy.set_dimension strict ds ind dim = Ok ds' ->
  ds_units ds' = ds_units ds /\ ds_quantity ds' = ds_quantity ds
  /\ ds_data_type ds' = ds_data_type ds /\ ds_direction ds' = ds_direction ds
  /\ ds_original_metadata ds' = ds_original_metadata ds.
Proof.
  unfold Sidpy.set_dimension. intros H.
  destruct (shape (ds_array ds) !! ind) as [n|]; [|discriminate].
  destruct (strict && negb (length (dim_values dim) =? n)); [discriminate|].
  injection H as <-. cbn. auto.
Qed.

(** X16.  For one curve, [WSxM1DReader.read] adds one record under the next
    key and changes nothing else.  The record is titled with the channel and
    the curve index; its array has one column for each direction of the
    curve, in the order of the ['data'] dictionary, which is also the order
    of its direction list; and its first axis holds the [x] values of the
    last of these directions, whatever the [x] values of the others. *)
Theorem curve_record_directions : forall strict chan_i d n curv_i curvdata_i w d' n' w',
  WSxM.emit_curve strict chan_i (d, n) (curv_i, curvdata_i) w = (Ok (d', n'), w') ->
  exists ds data,
    WSxM.data_h w !! WSxM.e_data curvdata_i = Some data
    /\ d' = dict_set (channel_key n) ds d /\ n' = S n /\ w' = w
    /\ ds_title ds = (chan_i ++ " (" ++ WSxM.key_text curv_i ++ ")")%string
    /\ ds_quantity ds = chan_i
    /\ curve_record strict data (WSxM.e_units curvdata_i) ds.
Proof.
  intros strict chan_i d n curv_i curvdata_i w d' n' w' H.
  unfold WSxM.emit_curve in H. sinv H.
  apply se_ret_ok_inv in H. destruct H as [Hp Hw]. injection Hp as <- <-.
  unfold WSxM.cell in *.
  repeat match goal with
         | E : or_raise _ _ = Ok _ |- _ => apply or_raise_ok_inv in E
         end.
  match goal with
  | E : rfold _ _ _ = Ok _ |- _ =>
      apply curve_lists_fold in E; destruct E as (ys & -> & -> & Hys & Hlast)
  end.
  match goal with
  | E : WSxM.vstack_T _ = Ok _ |- _ =>
      apply vstack_T_shape in E; destruct E as (points & Hshape & Hcols)
  end.
  match goal with
  | E : Sidpy.set_dimension _ _ _ _ = Ok _ |- _ =>
      pose proof (set_dimension_fields _ _ _ _ _ E) as (_ & Hq & _ & Hd & _)
  end.
  sink_facts.
  cbn [ds_array ds_axes ds_title ds_quantity ds_direction Sidpy.set_data_type
       Sidpy.set_direction Sidpy.set_quantity Sidpy.set_units Sidpy.set_metadata
       dim_values app] in * |-.
  injection Harr as Harr. subst v0 w' o.
  eexists _, _. split; [eassumption|]. split; [reflexivity|].
  split; [reflexivity|]. split; [reflexivity|].
  split; [cbn; congruence|]. split; [cbn; exact Hq|].
  pose proof (Forall2_length _ _ _ Hys) as Hlen_ys.
  destruct (last v) as [[last_dir [xl yl]]|] eqn:El; [|discriminate Hlast].
  destruct Hlast as [Hx _]. cbn in Hx. subst xl.
  exists points, last_dir, v2, yl.
  split; [exact El|].
  split.
  { clear -Hys Hcols. induction Hys as [|dxy y data ys Hy Hys IH]; [constructor|].
    inversion Hcols; subst. constructor; [eauto|auto]. }
  split; [cbn; rewrite Harr0, Hshape, Hlen_ys; reflexivity|].
  split; [cbn; exact Hd|].
  split.
  { cbn. rewrite Hset. unfold axes_match in Haxes. rewrite Hshape in Haxes.
    destruct (ds_axes v1) as [|a0 axs]; [discriminate|]. reflexivity. }
  intros Hs. rewrite Hshape in Hdim. cbn in Hdim. injection Hdim as <-. auto.
Qed.

Lemma curve_record_directions_witness :
  let data := [("approach", WSxM.mk_xy (Some [0; 1; 2]%Q) (Some [5; 6; 7]%Q));
               ("retract", WSxM.mk_xy (Some [2; 1; 0]%Q) (Some [7; 6; 4]%Q))] in
  let w := WSxM.with_headers [[]] (WSxM.with_data [data] WSxM.initial_world) in
  let e := WSxM.mk_entry 0 0 (WSxM.mk_units_xy "nm" "V") in
  exists d' n' ds,
    WSxM.emit_curve true "Normal force" ([], 0) (WSxM.KInt 1, e) w = (Ok (d', n'), w)
    /\ d' = [("Channel_000", ds)]
    /\ ds_title ds = "Normal force (1)"
    /\ curve_record true data (WSxM.mk_units_xy "nm" "V") ds.
Proof.
  intros data w e.
  lazymatch eval vm_compute in
    (WSxM.emit_curve true "Normal force" ([], 0) (WSxM.KInt 1, e) w) with
  | (Ok (?d, ?n), ?w') =>
      assert (Hrun : WSxM.emit_curve true "Normal force" ([], 0) (WSxM.KInt 1, e) w
                     = (Ok (d, n), w)) by (vm_compute; reflexivity);
      destruct (curve_record_directions true "Normal force" [] 0 (WSxM.KInt 1) e w
                  d n w Hrun) as (ds & data' & Hdata & Hd & Hn & _ & Ht & _ & Hrec);
      exists d, n, ds;
      split; [exact Hrun|];
      split; [exact Hd|];
      split; [exact Ht|];
      injection Hdata as <-; exact Hrec
  end.
Defined.

(** ** [IgorMatrixReader]: the lines a note must have *)

Lemma filter_none {A} (f : A -> bool) (l : list A) :
  (forall x, In x l -> f x = false) -> List.filter f l = [].
Proof.
  induction l as [|a l IH]; intros H; cbn; [reflexivity|].
  rewrite (H a) by (left; reflexivity). apply IH. intros x Hx. apply H. right. exact Hx.
Qed.

Lemma first_index_none (needle : string) (parm_list : list string) :
  Forall (fun line => PyStr.contains needle line = false) parm_list ->
  IgorMatrix.first_index needle parm_list = Raise IndexError.
Proof.
  intros H. unfold IgorMatrix.first_index. rewrite filter_none; [reflexivity|].
  intros ind _. destruct (parm_list !! ind) as [line|] eqn:E; [|reflexivity].
  eapply Forall_lookup_1 in H; [|exact E]. exact H.
Qed.

Lemma first_index_cases (needle : string) (parm_list : list string) :
  (exists i, IgorMatrix.first_index needle parm_list = Ok i)
  \/ IgorMatrix.first_index needle parm_list = Raise IndexError.
Proof.
  unfold IgorMatrix.first_index. destruct (head _); [left; eauto|right; reflexivity].
Qed.

(** X17.  [IgorMatrixReader._read_parms] needs a note line with each of the
    texts [Width], [lines per image], [Channel name] and [Spectroscopy
    points]: when one of them is in no line of the note, it raises
    [IndexError], and so does [read], for an image as for a spectroscopy
    volume, without assigning the attribute [parm_dict]. *)
Theorem matrix_required_lines : forall (w : Igor.ibw_wave) (needle : string),
  In needle required_lines -> note_lacks needle w ->
  IgorMatrix._read_parms w = Raise IndexError
  /\ forall strict self, IgorMatrix.read strict w self = (Raise IndexError, self).
Proof.
  intros w needle Hin Hlack.
  assert (Hp : IgorMatrix._read_parms w = Raise IndexError).
  { unfold IgorMatrix._read_parms.
    pose proof (first_index_none _ _ Hlack) as Hnone.
    destruct (first_index_cases "Width" (IgorMatrix.note_lines w)) as [[i0 E0]|E0];
      rewrite E0; [cbn [rbind]|reflexivity].
    destruct (first_index_cases "lines per image" (IgorMatrix.note_lines w))
      as [[i1 E1]|E1]; rewrite E1; [cbn [rbind]|reflexivity].
    destruct (first_index_cases "Channel name" (IgorMatrix.note_lines w))
      as [[i2 E2]|E2]; rewrite E2; [cbn [rbind]|reflexivity].
    destruct (first_index_cases "Spectroscopy points" (IgorMatrix.note_lines w))
      as [[i3 E3]|E3]; rewrite E3; [cbn [rbind]|reflexivity].
    unfold required_lines in Hin. cbn in Hin.
    destruct Hin as [<-|[<-|[<-|[<-|[]]]]]; congruence. }
  split; [exact Hp|].
  intros strict self. unfold IgorMatrix.read, se_bind, se_lift. rewrite Hp. reflexivity.
Qed.

Lemma matrix_required_lines_witness :
  note_lacks "Spectroscopy points" Samples.matrix_image_short
  /\ IgorMatrix._read_parms Samples.matrix_image_short = Raise IndexError
  /\ forall strict self,
       IgorMatrix.read strict Samples.matrix_image_short self = (Raise IndexError, self).
Proof.
  assert (Hlack : note_lacks "Spectroscopy points" Samples.matrix_image_short)
    by (unfold note_lacks; vm_compute; repeat constructor).
  split; [exact Hlack|].
  apply (matrix_required_lines Samples.matrix_image_short "Spectroscopy points");
    [unfold required_lines; cbn; auto|exact Hlack].
Defined.

(** ** [IgorMatrixReader]: what decides the kind of the data *)

Ltac dict_simpl :=
  unfold dict_mem;
  repeat first [ rewrite dict_get_set_eq
               | rewrite dict_get_set_ne by discriminate ].

Ltac dict_simpl_in H :=
  unfold dict_mem in H;
  repeat first [ rewrite dict_get_set_eq in H
               | rewrite dict_get_set_ne in H by discriminate ].

Lemma cits_parms_datatype parm_list i j (d d' : IgorMatrix.parm_dict) :
  IgorMatrix.cits_parms parm_list i j d = Ok d' ->
  dict_get "datatype" d' = Some (IgorMatrix.str_val "Volume CITS").
Proof.
  intros H. unfold IgorMatrix.cits_parms in H. rinv H. injection H as <-.
  apply dict_get_set_eq.
Qed.

Lemma read_parms_datatype (w : Igor.ibw_wave) (pd : IgorMatrix.parm_dict) :
  IgorMatrix._read_parms w = Ok pd ->
  dict_get "datatype" pd
  = (if dict_mem "Volume CITS" (IgorMatrix.note_parms w)
     then Some (IgorMatrix.str_val "Volume CITS")
     else if dict_mem "Image data" (IgorMatrix.note_parms w)
          then Some (IgorMatrix.str_val "image")
          else dict_get "datatype" (IgorMatrix.note_parms w)).
Proof.
  intros H. set (note := IgorMatrix.note_parms w).
  unfold IgorMatrix._read_parms in H. fold note in H. rinv H.
  injection H as <-. dict_simpl.
  match goal with
  | E : (if dict_mem _ _ then _ else _) = Ok _ |- _ => rename E into Hb
  end.
  dict_simpl_in Hb. unfold dict_mem.
  destruct (dict_get "Volume CITS" note).
  - apply cits_parms_datatype in Hb. exact Hb.
  - destruct (dict_get "Image data" note).
    + rinv Hb. injection Hb as <-. apply dict_get_set_eq.
    + injection Hb as <-. dict_simpl. reflexivity.
Qed.

(** X18.  In the dictionary of [IgorMatrixReader._read_parms], the entry
    [datatype] is ['Volume CITS'] when the note has a pair named [Volume
    CITS], whether or not it has one named [Image data]; it is ['image']
    when the note has a pair named [Image data] only; otherwise it is what
    the note itself gives for [datatype], if anything.  When the note has
    none of the three, [read] assigns the attribute [parm_dict] and then
    raises [KeyError]. *)
Theorem matrix_datatype : forall (w : Igor.ibw_wave) (pd : IgorMatrix.parm_dict),
  IgorMatrix._read_parms w = Ok pd ->
  let note := IgorMatrix.note_parms w in
  dict_get "datatype" pd
  = (if dict_mem "Volume CITS" note then Some (IgorMatrix.str_val "Volume CITS")
     else if dict_mem "Image data" note then Some (IgorMatrix.str_val "image")
     else dict_get "datatype" note)
  /\ (dict_mem "Volume CITS" note = false -> dict_mem "Image data" note = false ->
      dict_get "datatype" note = None ->
      forall strict self,
        IgorMatrix.read strict w self = (Raise (KeyError "datatype"), Some pd)).
Proof.
  intros w pd H note. pose proof (read_parms_datatype w pd H) as Hd. fold note in Hd.
  split; [exact Hd|].
  intros Hc Hi Hn strict self. rewrite Hc, Hi, Hn in Hd.
  unfold IgorMatrix.read, se_bind, se_lift, se_modify. rewrite H.
  unfold lookup_key. rewrite Hd. reflexivity.
Qed.

Lemma matrix_datatype_witness :
  exists pd,
    IgorMatrix._read_parms Samples.matrix_untyped = Ok pd
    /\ dict_get "datatype" pd = None
    /\ IgorMatrix.read true Samples.matrix_untyped None
       = (Raise (KeyError "datatype"), Some pd).
Proof.
  lazymatch eval vm_compute in (IgorMatrix._read_parms Samples.matrix_untyped) with
  | Ok ?pd =>
      exists pd;
      assert (Hrun : IgorMatrix._read_parms Samples.matrix_untyped = Ok pd)
        by (vm_compute; reflexivity);
      destruct (matrix_datatype Samples.matrix_untyped pd Hrun) as [Hd Hk];
      split; [exact Hrun|];
      split; [vm_compute; reflexivity|];
      apply Hk; vm_compute; reflexivity
  end.
Defined.

(** ** [IgorMatrixReader.read]: the record of an image *)

Lemma read_parms_types (w : Igor.ibw_wave) (pd : IgorMatrix.parm_dict) :
  IgorMatrix._read_parms w = Ok pd ->
  exists width height units name unit,
    dict_get "image_width" pd = Some (IgorMatrix.MVal (Igor.PFloat width))
    /\ dict_get "image_height" pd = Some (IgorMatrix.MVal (Igor.PFloat height))
    /\ dict_get "image_units" pd = Some (IgorMatrix.str_val units)
    /\ dict_get "channel_name" pd = Some (IgorMatrix.str_val name)
    /\ dict_get "channel_unit" pd = Some (IgorMatrix.str_val unit)
    /\ dict_get "parm_list" pd = Some (IgorMatrix.MList (IgorMatrix.note_lines w)).
Proof.
  intros H. unfold IgorMatrix._read_parms in H. rinv H. injection H as <-.
  match goal with
  | E : (if dict_mem _ _ then _ else _) = Ok _ |- _ => rename E into Hb
  end.
  eexists _, _, _, _, _.
  destruct (dict_mem "Volume CITS" _).
  - unfold IgorMatrix.cits_parms in Hb. rinv Hb. injection Hb as <-.
    dict_simpl. repeat split; reflexivity.
  - destruct (dict_mem "Image data" _).
    + rinv Hb. injection Hb as <-. dict_simpl. repeat split; reflexivity.
    + injection Hb as <-. dict_simpl. repeat split; reflexivity.
Qed.

Lemma as_str_entry (key : string) (pd : IgorMatrix.parm_dict) (u : string) :
  rbind (lookup_key key pd) IgorMatrix.as_str = Ok u ->
  dict_get key pd = Some (IgorMatrix.str_val u).
Proof.
  intros H. apply rbind_ok_inv in H. destruct H as (x & Hx & H).
  apply or_raise_ok_inv in Hx. rewrite Hx.
  destruct x as [[]| |]; try discriminate. injection H as <-. reflexivity.
Qed.

Lemma rot90_3_shape (m m' : ndarray) (r c : nat) :
  shape m = [r; c] -> IgorMatrix.rot90_3 m = Ok m' -> shape m' = [c; r].
Proof.
  unfold IgorMatrix.rot90_3. intros ->. intros H. injection H as <-. reflexivity.
Qed.

Lemma linspace_to_float (q : Q) (n : nat) :
  IgorMatrix.linspace_to (IgorMatrix.MVal (Igor.PFloat q)) n
  = PyNum.linspace 0 q (Z.of_nat n).
Proof.
  unfold IgorMatrix.linspace_to, Igor.linspace_parm.
  destruct (Z.ltb_spec (Z.of_nat n) 0); [lia|reflexivity].
Qed.

Lemma image_record_turned strict (pd : IgorMatrix.parm_dict) (data : ndarray)
      (r c : nat) (ds : Dataset IgorMatrix.parm_dict) :
  shape data = [r; c] ->
  IgorMatrix.image_record strict pd data = Ok ds ->
  (exists q, dict_get "image_width" pd = Some (IgorMatrix.MVal (Igor.PFloat q))) ->
  (exists q, dict_get "image_height" pd = Some (IgorMatrix.MVal (Igor.PFloat q))) ->
  turned_image pd r c ds /\ ds_original_metadata ds = Some pd
  /\ IgorMatrix.rot90_3 data = Ok (ds_array ds).
Proof.
  intros Hs H [width Hw] [height Hh]. unfold IgorMatrix.image_record in H.
  unfold lookup_key in H. rewrite Hw, Hh in H. cbn [or_raise] in H.
  rinv H. injection H as <-.
  repeat match goal with
         | E : Ok _ = Ok _ |- _ => injection E as E; subst
         end.
  pose proof (rot90_3_shape _ _ _ _ Hs E) as Hshape.
  unfold shape_at in *. rewrite Hshape in *. cbn [lookup list_lookup or_raise] in *.
  repeat match goal with
         | E : Ok _ = Ok _ |- _ => injection E as E; subst
         end.
  rewrite linspace_to_float in *.
  repeat match goal with
         | E : rbind (or_raise (KeyError "image_units") _) _ = Ok _ |- _ =>
             apply (as_str_entry "image_units") in E
         end.
  assert (v13 = v11) by (unfold IgorMatrix.str_val in *; congruence). subst v13.
  repeat match goal with
         | E : Sidpy.set_dimension _ _ _ _ = Ok _ |- _ =>
             apply set_dimension_ok in E; destruct E as (? & _ & _ & ? & _)
         | E : Sidpy.from_array _ _ _ = Ok _ |- _ =>
             apply from_array_ok in E; destruct E as (Hsrc & _ & Haxes)
         end.
  cbn [ds_array ds_axes Sidpy.set_data_type Sidpy.set_quantity Sidpy.set_units] in * |-.
  injection Hsrc as Hsrc.
  unfold axes_match in Haxes. rewrite <- Hsrc, Hshape in Haxes.
  match type of Haxes with
  | context [ds_axes ?d] =>
      destruct (ds_axes d) as [|a0 [|a1 [|a2 axs]]] eqn:Hax; try discriminate
  end.
  repeat match goal with
         | Hx : ds_axes ?d = _, Hy : ds_axes _ = ?rhs |- _ =>
             match rhs with
             | context [ds_axes d] => rewrite Hx in Hy; clear Hx
             end
         end.
  cbn in * |-.
  split; [|split; [reflexivity|cbn [ds_array Sidpy.set_original_metadata]; congruence]].
  exists width, height, v11, v2, v5.
  assert (Harr : ds_array (Sidpy.set_original_metadata pd v14) = v).
  { cbn [ds_array Sidpy.set_original_metadata]. congruence. }
  assert (Hax14 : ds_axes (Sidpy.set_original_metadata pd v14)
                  = [mk_Dimension v5 "x" v11 "x" "spatial";
                     mk_Dimension v2 "y" v11 "y" "spatial"]).
  { cbn [ds_axes Sidpy.set_original_metadata]. assumption. }
  repeat (split; [assumption|]).
  split; [congruence|]. split; [exact Hax14|].
  unfold axes_match. rewrite Hax14, Harr, Hshape. cbn.
  repeat match goal with
         | E : PyNum.linspace _ _ _ = Ok _ |- _ =>
             apply linspace_length in E; destruct E as [_ E]; rewrite E
         end.
  rewrite !Nat2Z.id. reflexivity.
Qed.

Lemma concat_singletons {A} (g : nat -> A) (l : list nat) :
  concat (map (fun j => [g j]) l) = map g l.
Proof. induction l as [|x l IH]; cbn; [reflexivity|]. rewrite IH. reflexivity. Qed.

Lemma grid_lookup {A} (g : nat -> nat -> A) (r : nat) :
  forall c s i j, i < c -> j < r ->
    concat (map (fun i => map (g i) (seq 0 r)) (seq s c)) !! (i * r + j)
    = Some (g (s + i) j).
Proof.
  induction c as [|c IH]; intros s i j Hi Hj; [lia|].
  cbn [seq map concat]. destruct i as [|i].
  - rewrite lookup_app_l by (rewrite List.length_map, List.length_seq; cbn; lia).
    cbn. rewrite list_lookup_fmap, lookup_seq_lt by lia. cbn.
    rewrite Nat.add_0_r. reflexivity.
  - rewrite lookup_app_r by (rewrite List.length_map, List.length_seq; cbn; lia).
    rewrite List.length_map, List.length_seq.
    replace (S i * r + j - r) with (i * r + j) by (cbn; lia).
    rewrite IH by lia. f_equal. f_equal. lia.
Qed.

Lemma rot90_3_entries (m m' : ndarray) (r c : nat) :
  shape m = [r; c] -> IgorMatrix.rot90_3 m = Ok m' ->
  forall i j, i < c -> j < r ->
    NdSlice.at_flat m' (i * r + j) = NdSlice.at_flat m ((r - 1 - j) * c + i).
Proof.
  unfold IgorMatrix.rot90_3. intros ->. intros H. injection H as <-.
  intros i j Hi Hj. unfold NdSlice.at_flat at 1. cbn [flat PyNum.prod fold_right].
  unfold NdSlice.block. cbn [seq map].
  erewrite map_ext; [|intros a; rewrite (concat_singletons
                         (fun j => NdSlice.at_flat m (((r - 1 - j) * c + a) * 1)));
                       reflexivity].
  rewrite (grid_lookup (fun i j => NdSlice.at_flat m (((r - 1 - j) * c + i) * 1)))
    by assumption.
  cbn. rewrite Nat.mul_1_r. reflexivity.
Qed.

Lemma cits_record_dims strict (pd : IgorMatrix.parm_dict) (data : ndarray)
      (ds : Dataset IgorMatrix.parm_dict) :
  IgorMatrix.cits_record strict pd data = Ok ds ->
  exists n0 n1 n2 rest, shape data = n0 :: n1 :: n2 :: rest.
Proof.
  intros H. unfold IgorMatrix.cits_record in H. rinv H.
  repeat match goal with
         | E : Sidpy.set_dimension _ _ _ _ = Ok _ |- _ =>
             apply set_dimension_ok in E; destruct E as (? & _ & _ & _ & ? & ? & _)
         | E : Sidpy.from_array _ _ _ = Ok _ |- _ =>
             apply from_array_ok in E; destruct E as (Hsrc & _ & _)
         end.
  cbn [ds_array Sidpy.set_data_type Sidpy.set_quantity Sidpy.set_units] in * |-.
  injection Hsrc as Hsrc.
  repeat match goal with
         | Hx : ds_array _ = ds_array _ |- _ => rewrite Hx in * |-; clear Hx
         end.
  rewrite <- Hsrc in *.
  destruct (shape data) as [|n0 [|n1 [|n2 rest]]]; try discriminate; eauto.
Qed.

Lemma is_str_true (text : string) (value : IgorMatrix.mval) :
  IgorMatrix.is_str text value = true -> value = IgorMatrix.str_val text.
Proof.
  destruct value as [[]| |]; cbn; try discriminate.
  intros H. apply String.eqb_eq in H. subst. reflexivity.
Qed.

(** X19.  For a wave of [r] lines of [c] points, a successful
    [IgorMatrixReader.read] found the kind ['image'] and returns the image
    turned clockwise: the record has [c] lines of [r] points, and its entry
    [(i, j)] is the entry [(r-1-j, i)] of the wave.  Its first axis, called
    [x], spans the height of the image and its second, called [y], the
    width; both are as long as the dimensions of the record.  The record and
    the reader hold the dictionary of [_read_parms]. *)
Theorem matrix_image_turned : forall strict w self ds self' r c,
  shape (Igor.wData w) = [r; c] ->
  IgorMatrix.read strict w self = (Ok ds, self') ->
  exists pd,
    IgorMatrix._read_parms w = Ok pd
    /\ self' = Some pd
    /\ ds_original_metadata ds = Some pd
    /\ dict_get "datatype" pd = Some (IgorMatrix.str_val "image")
    /\ turned_image pd r c ds
    /\ forall i j, i < c -> j < r ->
         NdSlice.at_flat (ds_array ds) (i * r + j)
         = NdSlice.at_flat (Igor.wData w) ((r - 1 - j) * c + i).
Proof.
  intros strict w self ds self' r c Hs H.
  unfold IgorMatrix.read in H. sinv H.
  unfold lookup_key in *.
  match goal with
  | E : or_raise _ _ = Ok _ |- _ => apply or_raise_ok_inv in E; rename E into Hdt
  end.
  destruct (IgorMatrix.is_str "image" v1) eqn:Himg.
  - apply is_str_true in Himg. subst v1.
    apply se_lift_ok_inv in H. destruct H as [H Hself]. subst self'.
    destruct (read_parms_types _ _ E) as (width & height & _ & _ & _ & Hw & Hh & _).
    destruct (image_record_turned _ _ _ _ _ _ Hs H) as (Ht & Hm & Hrot); [eauto..|].
    exists v. repeat (split; [assumption || reflexivity|]).
    intros i j Hi Hj. eapply rot90_3_entries; eassumption.
  - sinv H. destruct (IgorMatrix.is_str "Volume CITS" _).
    + apply se_lift_ok_inv in H. destruct H as [H _].
      apply cits_record_dims in H. destruct H as (n0 & n1 & n2 & rest & Hc).
      rewrite Hs in Hc. discriminate.
    + discriminate.
Qed.

Lemma matrix_image_turned_witness :
  exists ds pd,
    IgorMatrix.read true Samples.matrix_image None = (Ok ds, Some pd)
    /\ flat (ds_array ds) = [4; 1; 5; 2; 6; 3]%Q
    /\ turned_image pd 2 3 ds.
Proof.
  lazymatch eval vm_compute in (IgorMatrix.read true Samples.matrix_image None) with
  | (Ok ?ds, Some ?pd) =>
      exists ds, pd;
      assert (Hrun : IgorMatrix.read true Samples.matrix_image None = (Ok ds, Some pd))
        by (vm_compute; reflexivity);
      destruct (matrix_image_turned true Samples.matrix_image None ds (Some pd) 2 3
                  eq_refl Hrun) as (pd' & _ & Hpd & _ & _ & Ht & _);
      injection Hpd as <-;
      split; [exact Hrun|]; split; [reflexivity|exact Ht]
  end.
Defined.

(** ** [IgorMatrixReader.read]: the record of a spectroscopy volume *)

Lemma cits_record_volume strict (pd : IgorMatrix.parm_dict) (data : ndarray)
      (a b c : nat) (ds : Dataset IgorMatrix.parm_dict) :
  shape data = [a; b; c] ->
  IgorMatrix.cits_record strict pd data = Ok ds ->
  (exists q, dict_get "image_width" pd = Some (IgorMatrix.MVal (Igor.PFloat q))) ->
  (exists q, dict_get "image_height" pd = Some (IgorMatrix.MVal (Igor.PFloat q))) ->
  cits_volume strict pd a b c ds
  /\ ds_array ds = data /\ ds_data_type ds = "SPECTRAL_IMAGE"
  /\ ds_original_metadata ds = Some pd.
Proof.
  intros Hs H [width Hw] [height Hh]. unfold IgorMatrix.cits_record in H.
  unfold lookup_key at 1 2 3 in H. rewrite Hw, Hh in H. cbn [or_raise] in H.
  rinv H. injection H as <-.
  repeat match goal with
         | E : Ok _ = Ok _ |- _ => injection E as E; subst
         end.
  unfold shape_at in *. rewrite Hs in *. cbn [lookup list_lookup or_raise] in *.
  repeat match goal with
         | E : Ok _ = Ok _ |- _ => injection E as E; subst
         end.
  rewrite linspace_to_float in *.
  repeat match goal with
         | E : rbind (lookup_key "image_units" _) _ = Ok _ |- _ =>
             apply as_str_entry in E
         end.
  assert (v16 = v14) by (unfold IgorMatrix.str_val in *; congruence). subst v16.
  match goal with
  | E : or_raise (KeyError "spec_points_per_curve") _ = Ok _ |- _ =>
      apply or_raise_ok_inv in E; rename E into Hpts
  end.
  match goal with
  | E : IgorMatrix.linspace_num _ _ ?n = Ok _ |- _ =>
      unfold IgorMatrix.linspace_num in E;
      destruct n as [[points| | | |]| |]; try discriminate; rename E into Hbias
  end.
  assert (Htype : ds_data_type v18 = "SPECTRAL_IMAGE").
  { repeat match goal with
           | E : Sidpy.set_dimension _ _ _ _ = Ok _ |- _ =>
               apply set_dimension_fields in E; destruct E as (_ & _ & E & _)
           end.
    cbn in *. congruence. }
  match goal with
  | E : Sidpy.set_dimension _ _ 2 _ = Ok _ |- _ =>
      pose proof (set_dimension_ok _ _ _ _ _ E) as (_ & _ & _ & _ & n2 & Hn2 & Hlen2)
  end.
  repeat match goal with
         | E : Sidpy.set_dimension _ _ _ _ = Ok _ |- _ =>
             apply set_dimension_ok in E; destruct E as (? & _ & _ & ? & _)
         | E : Sidpy.from_array _ _ _ = Ok _ |- _ =>
             apply from_array_ok in E; destruct E as (Hsrc & _ & Haxes)
         end.
  cbn [ds_array ds_axes Sidpy.set_data_type Sidpy.set_quantity Sidpy.set_units
       dim_values] in * |-.
  injection Hsrc as Hsrc. unfold axes_match in Haxes.
  assert (Harr : ds_array v18 = data) by congruence.
  revert Harr.
  repeat match goal with
         | Hx : ds_array _ = ds_array _ |- _ => rewrite Hx in * |-; clear Hx
         end.
  intros Harr.
  rewrite <- Hsrc in Haxes, Hn2.
  rewrite Hs in Haxes, Hn2.
  match type of Haxes with
  | context [ds_axes ?d] =>
      destruct (ds_axes d) as [|a0 [|a1 [|a2 [|a3 axs]]]] eqn:Hax; try discriminate
  end.
  repeat match goal with
         | Hx : ds_axes ?d = _, Hy : ds_axes _ = ?rhs |- _ =>
             match rhs with
             | context [ds_axes d] => rewrite Hx in Hy; clear Hx
             end
         end.
  cbn in * |-. injection Hn2 as <-.
  split; [|split; [exact Harr|split; [exact Htype|reflexivity]]].
  exists width, height, v, v0, points, v14, v5, v8, v2.
  repeat (split; [assumption|]).
  intros Hstrict. specialize (Hlen2 Hstrict).
  apply linspace_length in Hbias. destruct Hbias as [_ Hbias]. congruence.
Qed.

(** X20.  When the note has a pair named [Volume CITS],
    [IgorMatrixReader.read] returns, if it returns, the array of the wave
    unturned as a [SPECTRAL_IMAGE] with the axes [x], [y] and [Bias]: [x]
    spans the width in as many values as the first dimension has, [y] the
    height in as many as the second has, and [Bias] runs from the [start] to
    the [end] of the axis line of the note, in as many values as that line
    gives for a curve; where sidpy checks the length of an axis, that number
    is the third dimension. *)
Theorem matrix_cits_volume : forall strict w self ds self' a b c,
  shape (Igor.wData w) = [a; b; c] ->
  dict_mem "Volume CITS" (IgorMatrix.note_parms w) = true ->
  IgorMatrix.read strict w self = (Ok ds, self') ->
  exists pd,
    IgorMatrix._read_parms w = Ok pd
    /\ self' = Some pd
    /\ ds_original_metadata ds = Some pd
    /\ ds_array ds = Igor.wData w
    /\ ds_data_type ds = "SPECTRAL_IMAGE"
    /\ cits_volume strict pd a b c ds.
Proof.
  intros strict w self ds self' a b c Hs Hc H.
  unfold IgorMatrix.read in H. sinv H.
  pose proof (read_parms_datatype _ _ E) as Hd. rewrite Hc in Hd.
  unfold lookup_key in *. rewrite Hd in *. cbn [or_raise] in *.
  repeat match goal with
         | E : Ok _ = Ok _ |- _ => injection E as E; subst
         end.
  change (IgorMatrix.is_str "image" (IgorMatrix.str_val "Volume CITS")) with false in H.
  cbv iota in H. sinv H.
  repeat match goal with
         | E : Ok _ = Ok _ |- _ => injection E as E; subst
         end.
  change (IgorMatrix.is_str "Volume CITS" (IgorMatrix.str_val "Volume CITS"))
    with true in H.
  cbv iota in H.
  apply se_lift_ok_inv in H. destruct H as [H Hself]. subst self'.
  destruct (read_parms_types _ _ E) as (width & height & _ & _ & _ & Hw & Hh & _).
  destruct (cits_record_volume _ _ _ _ _ _ _ Hs H) as (Hv & Harr & Ht & Hm); [eauto..|].
  exists v. repeat (split; [assumption || reflexivity|]). exact Hv.
Qed.

Lemma matrix_cits_volume_witness :
  exists ds pd,
    IgorMatrix.read true Samples.matrix_cits None = (Ok ds, Some pd)
    /\ map (fun ax => (dim_name ax, dim_values ax)) (ds_axes ds)
       = [("x", [0; 4]%Q); ("y", [0; 2]%Q); ("Bias", [-2 # 2; 0 # 2; 2 # 2]%Q)]
    /\ cits_volume true pd 2 2 3 ds.
Proof.
  lazymatch eval vm_compute in (IgorMatrix.read true Samples.matrix_cits None) with
  | (Ok ?ds, Some ?pd) =>
      exists ds, pd;
      assert (Hrun : IgorMatrix.read true Samples.matrix_cits None = (Ok ds, Some pd))
        by (vm_compute; reflexivity);
      destruct (matrix_cits_volume true Samples.matrix_cits None ds (Some pd) 2 2 3
                  eq_refl eq_refl Hrun) as (pd' & _ & Hpd & _ & _ & _ & Hv);
      injection Hpd as <-;
      split; [exact Hrun|]; split; [reflexivity|exact Hv]
  end.
Defined.

(** ** Header lines of one name *)

Lemma rfold_app {A B} (f : A -> B -> res A) (l1 l2 : list B) (a : A) :
  rfold f (l1 ++ l2) a = rbind (rfold f l1 a) (rfold f l2).
Proof.
  revert a. induction l1 as [|b l1 IH]; intros a; cbn; [reflexivity|].
  destruct (f a b); cbn; [apply IH|reflexivity].
Qed.

Lemma dict_get_set_cases {K V} `{EqDecision K} (k n : K) (v : V) (d : list (K * V)) :
  dict_get n (dict_set k v d) = if decide (n = k) then Some v else dict_get n d.
Proof.
  destruct (decide (n = k)) as [->|Hne].
  - apply dict_get_set_eq.
  - apply dict_get_set_ne. congruence.
Qed.

(** One line keeps two dictionaries alike on the names of [P]. *)
Lemma header_line_alike (P : string -> Prop) (h1 h2 h1' : WSxM.header)
      (t t' : list string) (ln : string) :
  (forall n, P n -> dict_get n h1 = dict_get n h2) ->
  WSxM.header_line (h1, t) ln = Ok (h1', t') ->
  exists h2', WSxM.header_line (h2, t) ln = Ok (h2', t')
              /\ forall n, P n -> dict_get n h1' = dict_get n h2'.
Proof.
  intros HP H. unfold WSxM.header_line in *.
  destruct (PyStr.split ":" ln) as [|a [|b [|c l]]].
  - injection H as <- <-. eauto.
  - destruct (negb _); injection H as <- <-; eauto.
  - destruct (last t) as [title|]; cbn in *; [|discriminate].
    injection H as <- <-. eexists. split; [reflexivity|].
    intros n Hn. rewrite !dict_get_set_cases. destruct (decide _); auto.
  - injection H as <- <-. eauto.
Qed.

Lemma header_lines_alike (P : string -> Prop) (lines : list string) :
  forall (h1 h2 h1' : WSxM.header) (t t' : list string),
    (forall n, P n -> dict_get n h1 = dict_get n h2) ->
    rfold WSxM.header_line lines (h1, t) = Ok (h1', t') ->
    exists h2', rfold WSxM.header_line lines (h2, t) = Ok (h2', t')
                /\ forall n, P n -> dict_get n h1' = dict_get n h2'.
Proof.
  induction lines as [|ln lines IH]; intros h1 h2 h1' t t' HP H; cbn [rfold] in *.
  - injection H as <- <-. eauto.
  - apply rbind_ok_inv in H. destruct H as ([hm tm] & Hs & H).
    destruct (header_line_alike P _ h2 _ _ _ _ HP Hs) as (hm2 & Hs2 & HP2).
    rewrite Hs2. cbn [rbind]. eapply IH; eassumption.
Qed.

(** Lines without a section title leave the list of titles as it is. *)
Lemma header_lines_titles (lines : list string) :
  Forall no_title lines ->
  forall (h h' : WSxM.header) (t t' : list string),
    rfold WSxM.header_line lines (h, t) = Ok (h', t') -> t' = t.
Proof.
  induction 1 as [|ln lines Hln _ IH]; intros h h' t t' H; cbn in H.
  - injection H as _ <-. reflexivity.
  - apply rbind_ok_inv in H. destruct H as ([hm tm] & Hs & H).
    apply IH in H. subst t'. unfold WSxM.header_line in Hs.
    destruct (PyStr.split ":" ln) as [|a [|b [|c l]]] eqn:E.
    + injection Hs as _ <-. reflexivity.
    + rewrite (Hln a E) in Hs. cbn in Hs. injection Hs as _ <-. reflexivity.
    + destruct (last t); cbn in Hs; [|discriminate]. injection Hs as _ <-. reflexivity.
    + injection Hs as _ <-. reflexivity.
Qed.

(** X21.  Of two header lines with the same name under the same section
    title, the later one decides the value: the header read with both lines
    gives for every name what the header read without the earlier line
    gives. *)
Theorem header_later_duplicate_wins :
  forall (pre mid post : list string) (ln1 ln2 k1 v1 k2 v2 : string)
         (h : WSxM.header) (titles : list string),
    PyStr.split ":" ln1 = [k1; v1] -> PyStr.split ":" ln2 = [k2; v2] ->
    PyStr.strip k1 = PyStr.strip k2 ->
    Forall no_title mid ->
    rfold WSxM.header_line (pre ++ ln1 :: mid ++ ln2 :: post) ([], []) = Ok (h, titles) ->
    exists h',
      rfold WSxM.header_line (pre ++ mid ++ ln2 :: post) ([], []) = Ok (h', titles)
      /\ same_lookups h h'.
Proof.
  intros pre mid post ln1 ln2 k1 v1 k2 v2 h titles E1 E2 Hk Hmid H.
  rewrite rfold_app in H. apply rbind_ok_inv in H. destruct H as ([h0 t0] & Hpre & H).
  cbn [rfold] in H. apply rbind_ok_inv in H. destruct H as ([h1 t1] & Hl1 & H).
  unfold WSxM.header_line in Hl1. rewrite E1 in Hl1.
  destruct (last t0) as [title|] eqn:Et; cbn in Hl1; [|discriminate].
  injection Hl1 as <- <-.
  set (name := PyStr.strip (PyStr.strip k1 ++ " " ++ title)) in *.
  rewrite rfold_app in H. apply rbind_ok_inv in H. destruct H as ([hm tm] & Hm & H).
  pose proof (header_lines_titles _ Hmid _ _ _ _ Hm) as ->.
  assert (Hfirst : forall n, n <> name ->
             dict_get n (dict_set name (WSxM.HStr (PyStr.strip v1)) h0) = dict_get n h0)
    by (intros n Hn; apply dict_get_set_ne; congruence).
  destruct (header_lines_alike (fun n => n <> name) mid _ h0 _ _ _ Hfirst Hm)
    as (hm' & Hm' & Halike).
  cbn [rfold] in H. apply rbind_ok_inv in H. destruct H as ([h2 t2] & Hl2 & H).
  unfold WSxM.header_line in Hl2. rewrite E2, Et in Hl2. cbn in Hl2.
  injection Hl2 as <- <-. rewrite <- Hk in H. fold name in H.
  assert (Hsecond : forall n, True ->
             dict_get n (dict_set name (WSxM.HStr (PyStr.strip v2)) hm)
             = dict_get n (dict_set name (WSxM.HStr (PyStr.strip v2)) hm'))
    by (intros n _; rewrite !dict_get_set_cases;
        destruct (decide (n = name)); auto).
  destruct (header_lines_alike (fun _ => True) post _ _ _ _ _ Hsecond H)
    as (h' & Hpost & Hsame).
  exists h'. split.
  - rewrite rfold_app, Hpre. cbn [rbind]. rewrite rfold_app, Hm'. cbn [rbind rfold].
    unfold WSxM.header_line at 1. rewrite E2, Et. cbn. rewrite <- Hk. exact Hpost.
  - intros n. apply Hsame. exact I.
Qed.

Lemma header_later_duplicate_wins_witness :
  exists h h',
    rfold WSxM.header_line (["[Control]"] ++ "P: 1" :: ["I: 3"] ++ "P : 2" :: [])
          ([], []) = Ok (h, ["[Control]"])
    /\ dict_get "P [Control]" h = Some (WSxM.HStr "2")
    /\ rfold WSxM.header_line (["[Control]"] ++ ["I: 3"] ++ "P : 2" :: [])
             ([], []) = Ok (h', ["[Control]"])
    /\ same_lookups h h'.
Proof.
  lazymatch eval vm_compute in
    (rfold WSxM.header_line (["[Control]"] ++ "P: 1" :: ["I: 3"] ++ "P : 2" :: [])
           ([], [])) with
  | Ok (?h, ?t) =>
      exists h;
      assert (Hrun : rfold WSxM.header_line
                       (["[Control]"] ++ "P: 1" :: ["I: 3"] ++ "P : 2" :: [])
                       ([], []) = Ok (h, ["[Control]"]))
        by (vm_compute; reflexivity);
      assert (Hmid : Forall no_title ["I: 3"])
        by (constructor; [intros t0 Ht; vm_compute in Ht; discriminate|constructor]);
      destruct (header_later_duplicate_wins ["[Control]"] ["I: 3"] [] "P: 1" "P : 2"
                  "P" " 1" "P " " 2" h ["[Control]"] eq_refl eq_refl eq_refl Hmid Hrun)
        as (h' & Hrun' & Hsame);
      exists h';
      split; [exact Hrun|]; split; [vm_compute; reflexivity|];
      split; [exact Hrun'|exact Hsame]
  end.
Defined.

(** ** [IgorMatrixReader]: the units of a Matrix export *)

Lemma char_at_one (i : nat) (s u : string) :
  IgorMatrix.char_at i s = Ok u ->
  exists c, u = String c EmptyString /\ PyStr.drop i s <> EmptyString.
Proof.
  unfold IgorMatrix.char_at. destruct (PyStr.drop i s) as [|c rest]; [discriminate|].
  intros H. injection H as <-. exists c. split; [reflexivity|discriminate].
Qed.

Lemma head_filter_some {A} (f : A -> bool) (l : list A) (x : A) :
  head (List.filter f l) = Some x -> In x l /\ f x = true.
Proof.
  induction l as [|a l IH]; cbn; [discriminate|].
  destruct (f a) eqn:Ea; cbn.
  - intros H. injection H as <-. auto.
  - intros H. destruct (IH H). auto.
Qed.

Lemma first_index_ok (needle : string) (parm_list : list string) (i : nat) :
  IgorMatrix.first_index needle parm_list = Ok i ->
  exists line, parm_list !! i = Some line /\ PyStr.contains needle line = true.
Proof.
  unfold IgorMatrix.first_index. intros H. apply or_raise_ok_inv in H.
  apply head_filter_some in H. destruct H as [_ H].
  destruct (parm_list !! i) as [line|]; [eauto|discriminate].
Qed.

(** X22.  The units that [IgorMatrixReader._read_parms] gives are single
    characters: [image_units] is the second of the last three characters
    after the last [=] of the first line with [Width], and [channel_unit]
    the second of the last three characters of what follows the first colon
    of the first line with [Channel name]; the three characters are cut from
    the channel name.  So a unit of more than one letter is cut to one of
    its letters. *)
Theorem matrix_units_one_char : forall (w : Igor.ibw_wave) (pd : IgorMatrix.parm_dict),
  IgorMatrix._read_parms w = Ok pd ->
  exists (wh_line ch_line ch_text : string) (iu cu : ascii),
    In wh_line (IgorMatrix.note_lines w) /\ PyStr.contains "Width" wh_line = true
    /\ In ch_line (IgorMatrix.note_lines w)
    /\ PyStr.contains "Channel name" ch_line = true
    /\ PyStr.split ":" ch_line !! 1 = Some ch_text
    /\ IgorMatrix.char_at 1
         (IgorMatrix.last3 (PyStr.last_or EmptyString (PyStr.split "=" wh_line)))
       = Ok (String iu EmptyString)
    /\ IgorMatrix.char_at 1 (IgorMatrix.last3 ch_text) = Ok (String cu EmptyString)
    /\ dict_get "image_units" pd = Some (IgorMatrix.str_val (String iu EmptyString))
    /\ dict_get "channel_unit" pd = Some (IgorMatrix.str_val (String cu EmptyString))
    /\ dict_get "channel_name" pd
       = Some (IgorMatrix.str_val (IgorMatrix.but_last3 ch_text)).
Proof.
  intros w pd H. unfold IgorMatrix._read_parms in H. rinv H. injection H as <-.
  match goal with
  | E : (if dict_mem _ _ then _ else _) = Ok _ |- _ => rename E into Hb
  end.
  unfold Igor.item in *.
  repeat match goal with
         | E : or_raise _ _ = Ok _ |- _ => apply or_raise_ok_inv in E
         end.
  repeat match goal with
         | E : IgorMatrix.first_index _ _ = Ok _ |- _ =>
             apply first_index_ok in E; destruct E as (? & ? & ?)
         end.
  repeat match goal with
         | E1 : ?l !! ?i = Some ?a, E2 : ?l !! ?i = Some ?b |- _ =>
             assert (a = b) by congruence; subst a; clear E1
         end.
  repeat match goal with
         | E : IgorMatrix.char_at _ _ = Ok ?u |- _ =>
             is_var u;
             let Hc := fresh "Hc" in
             pose proof (char_at_one _ _ _ E) as (? & Hc & _); subst u
         end.
  match goal with
  | Hw : PyStr.contains "Width" ?a = true,
    Hc : PyStr.contains "Channel name" ?b = true,
    Ht : PyStr.split ":" ?b !! 1 = Some ?t,
    Hi : IgorMatrix.char_at 1 (IgorMatrix.last3 (PyStr.last_or _ (PyStr.split "=" ?a)))
         = Ok (String ?iu _),
    Hu : IgorMatrix.char_at 1 (IgorMatrix.last3 ?t) = Ok (String ?cu _) |- _ =>
      exists a, b, t, iu, cu
  end.
  split; [eapply list_elem_of_In, list_elem_of_lookup_2; eassumption|].
  split; [eassumption|].
  split; [eapply list_elem_of_In, list_elem_of_lookup_2; eassumption|].
  split; [eassumption|].
  split; [eassumption|].
  split; [eassumption|].
  split; [eassumption|].
  destruct (dict_mem "Volume CITS" _).
  - unfold IgorMatrix.cits_parms in Hb. rinv Hb. injection Hb as <-.
    dict_simpl. repeat split; reflexivity.
  - destruct (dict_mem "Image data" _).
    + rinv Hb. injection Hb as <-. dict_simpl. repeat split; reflexivity.
    + injection Hb as <-. dict_simpl. repeat split; reflexivity.
Qed.

Lemma matrix_units_one_char_witness :
  exists pd,
    IgorMatrix._read_parms Samples.matrix_image = Ok pd
    /\ dict_get "channel_name" pd = Some (IgorMatrix.str_val " Z")
    /\ exists (wh_line ch_line ch_text : string) (iu cu : ascii),
         In wh_line (IgorMatrix.note_lines Samples.matrix_image)
         /\ PyStr.contains "Width" wh_line = true
         /\ In ch_line (IgorMatrix.note_lines Samples.matrix_image)
         /\ PyStr.contains "Channel name" ch_line = true
         /\ PyStr.split ":" ch_line !! 1 = Some ch_text
         /\ IgorMatrix.char_at 1
              (IgorMatrix.last3 (PyStr.last_or EmptyString (PyStr.split "=" wh_line)))
            = Ok (String iu EmptyString)
         /\ IgorMatrix.char_at 1 (IgorMatrix.last3 ch_text) = Ok (String cu EmptyString)
         /\ dict_get "image_units" pd = Some (IgorMatrix.str_val (String iu EmptyString))
         /\ dict_get "channel_unit" pd = Some (IgorMatrix.str_val (String cu EmptyString))
         /\ dict_get "channel_name" pd
            = Some (IgorMatrix.str_val (IgorMatrix.but_last3 ch_text)).
Proof.
  lazymatch eval vm_compute in (IgorMatrix._read_parms Samples.matrix_image) with
  | Ok ?pd =>
      exists pd;
      assert (Hrun : IgorMatrix._read_parms Samples.matrix_image = Ok pd)
        by (vm_compute; reflexivity);
      split; [exact Hrun|]; split; [vm_compute; reflexivity|];
      exact (matrix_units_one_char Samples.matrix_image pd Hrun)
  end.
Defined.


(** ** A header without its size, and a name before any section *)

Lemma find_header_size_none (lines : list string) :
  Forall (fun ln => ~ size_line ln) lines ->
  WSxM.find_header_size lines = Ok None.
Proof.
  induction 1 as [|ln lines Hln _ IH]; cbn; [reflexivity|].
  destruct (PyStr.split ":" ln) as [|k [|v [|x l]]] eqn:E; try exact IH.
  destruct (String.eqb_spec k "Image header size") as [->|_]; [|exact IH].
  exfalso. apply Hln. exists v. exact E.
Qed.

Lemma header_lines_untitled (pre post : list string) (ln k v : string) :
  Forall no_title pre -> PyStr.split ":" ln = [k; v] ->
  forall h, rfold WSxM.header_line (pre ++ ln :: post) (h, []) = Raise IndexError.
Proof.
  intros Hpre E. induction Hpre as [|l pre Hl _ IH]; intros h; cbn.
  - rewrite E. reflexivity.
  - destruct (PyStr.split ":" l) as [|a [|b [|c r]]] eqn:El; cbn.
    + apply IH.
    + rewrite (Hl a El). cbn. apply IH.
    + reflexivity.
    + apply IH.
Qed.

(** X23.  Two ways in which [_wsxm_readheader] ends with an error that is
    not about the file format.  When none of the lines within the first 100
    bytes from [pos] is [Image header size:<n>], the size is never assigned
    and the call raises [UnboundLocalError].  And in the loop over the
    header lines, a [name: value] line that comes before every section
    title raises [IndexError], whatever follows it. *)
Theorem header_errors :
  (forall (file : nat) (pos : Z) (w : WSxM.world) (f : WSxM.file_obj),
      dict_get file (WSxM.open_files w) = Some f -> (0 <= pos)%Z ->
      Forall (fun ln => ~ size_line ln) (size_window f pos) ->
      fst (WSxM._wsxm_readheader file pos w) = Raise (UnboundLocalError "header_size"))
  /\ (forall (pre post : list string) (ln k v : string),
         Forall no_title pre -> PyStr.split ":" ln = [k; v] ->
         rfold WSxM.header_line (pre ++ ln :: post) ([], []) = Raise IndexError).
Proof.
  split.
  - intros file pos w f Hf Hpos Hwin.
    unfold WSxM._wsxm_readheader, se_bind, WSxM.seek. rewrite Hf.
    destruct (Z.ltb_spec pos 0); [lia|].
    unfold WSxM.read_bytes. cbn [WSxM.open_files WSxM.with_files].
    rewrite dict_get_set_eq. cbn [WSxM.f_pos WSxM.f_bytes WSxM.f_name].
    change (100 <? -1)%Z with false. change (100 =? -1)%Z with false. cbv iota.
    change (Z.to_nat 100) with 100.
    unfold size_window in Hwin. rewrite (find_header_size_none _ Hwin).
    unfold se_lift. cbn [WSxM.open_files WSxM.with_files].
    rewrite dict_get_set_eq. reflexivity.
  - intros pre post ln k v Hpre E. apply header_lines_untitled with (k := k) (v := v);
      assumption.
Qed.

Lemma header_errors_witness :
  let w := WSxM.with_files
             [(0, WSxM.mk_file_obj "a.top" "WSxM file copyright UAM" 0%Z)] 1
             WSxM.initial_world in
  fst (WSxM._wsxm_readheader 0 0%Z w) = Raise (UnboundLocalError "header_size")
  /\ rfold WSxM.header_line ([""] ++ "Image header size: 40" :: ["[Control]"]) ([], [])
     = Raise IndexError.
Proof.
  intros w. split.
  - apply (proj1 header_errors 0 0%Z w
             (WSxM.mk_file_obj "a.top" "WSxM file copyright UAM" 0%Z));
      [reflexivity|lia|].
    unfold size_window. vm_compute PyStr.splitlines.
    constructor; [|constructor]. intros [v Hv]. vm_compute in Hv. discriminate.
  - apply (proj2 header_errors [""] ["[Control]"] "Image header size: 40"
             "Image header size" " 40"); [|reflexivity].
    constructor; [|constructor]. intros t Ht. vm_compute in Ht. injection Ht as <-.
    reflexivity.
Defined.
